(** * Vision Engine: scene graph, data pipeline and render preparation

    A shallow embedding of the control plane of the visualization engine
    ([vision_engine/engine/data_pipeline.py], [engine/scene_manager.py],
    [render/shader_manager.py], [render/renderer.py] and the backends'
    [render] entry points), with the properties its specification states
    about them.

    Python objects that are shared and mutated (node objects, the dictionaries
    hanging off them, data buffers, shader programs) live in explicit stores
    keyed by a location; a reference is a location, and two references alias
    exactly when the locations are equal. *)

From stdpp Require Import gmap strings list pretty sorting finite.
From Stdlib Require Import ZArith NArith QArith Qround Lia.

Close Scope Q_scope.
Open Scope string_scope.
Set Warnings "-register-all,-clear-no-such-hyp".

(** ** Python-level preliminaries *)

(** A location: the identity of a Python object. *)
Abbreviation loc := nat.

(** The exceptions the modelled code raises. *)
Inductive exn :=
| ValueError (msg : string)
| KeyError (key : string)
| AttributeError (msg : string)
| RuntimeError (msg : string)
| IndexError
| TypeError (msg : string).

(** The outcome of a call: a returned value or a raised exception. *)
Inductive result (A : Type) :=
| Ok (a : A)
| Raise (e : exn).
Arguments Ok {A} a.
Arguments Raise {A} e.

Definition is_ok {A} (r : result A) : bool :=
  match r with Ok _ => true | Raise _ => false end.

(** The returned value, if the call returned. *)
Definition returned {A} (r : result A) : option A :=
  match r with Ok a => Some a | Raise _ => None end.

(** The exceptions of one class. *)
Definition is_KeyError (e : exn) : Prop :=
  match e with KeyError _ => True | _ => False end.

Definition is_RuntimeError (e : exn) : Prop :=
  match e with RuntimeError _ => True | _ => False end.

(** A method over a state [S]: the outcome and the state it leaves behind
    (a raise keeps whatever was mutated before it). *)
Definition M (S A : Type) : Type := S → result A * S.

Definition raise {S A} (e : exn) : M S A := λ s, (Raise e, s).
Definition get {S} : M S S := λ s, (Ok s, s).
Definition put {S} (s : S) : M S unit := λ _, (Ok tt, s).
Definition modify {S} (f : S → S) : M S unit := λ s, (Ok tt, f s).

(** Sequencing, through stdpp's monad notations [x ← m; k] and [m;; k]. *)
Global Instance M_ret {S} : MRet (M S) := λ A a s, (Ok a, s).
Global Instance M_bind {S} : MBind (M S) := λ A B k m s,
  match m s with
  | (Ok a, s') => k a s'
  | (Raise e, s') => (Raise e, s')
  end.

(** ** numpy, as far as the pipeline uses it *)

(** Floating-point numbers and the numpy routines the pipeline calls are
    outside this repository: they are an interface. *)
Class Numpy := {
  num : Type;
  num_eq_dec :: EqDecision num;
  (** [astype(np.float32)] on one element *)
  f32 : num → num;
  (** a decimal literal, written as numerator and power of ten:
      [lit 8 1] is [0.8] *)
  lit : Z → nat → num;
  fadd : num → num → num;
  fsub : num → num → num;
  fdiv : num → num → num;
  (** an integer count read as a number *)
  of_count : N → num;
  (** [np.histogram(data, bins=bins)]: counts and bin edges, or [None] when
      numpy raises [ValueError] (for no bins at all, or data without a
      finite range) *)
  np_histogram : list num → N → option (list N * list num);
}.

(** [np.arange(start, stop, step)] over non-negative integers, [step >= 1]. *)
Definition arange (start stop step : N) : list N :=
  (λ k, start + N.of_nat k * step)%N <$>
    seq 0 (N.to_nat ((stop - start + step - 1) / step)).

(** [dtype=np.uint32]: values are kept modulo [2^32]. *)
Definition uint32 (i : N) : N := (i mod 2 ^ 32)%N.

(** [np.arange(n, dtype=np.uint32)] *)
Definition arange_u32 (n : N) : list N := uint32 <$> arange 0 n 1.

(** [a[idx]] for an integer index array: raises [IndexError] out of range. *)
Definition take_rows {A} (a : list A) (idx : list N) : result (list A) :=
  match mapM (λ i, a !! N.to_nat i) idx with
  | Some r => Ok r
  | None => Raise IndexError
  end.

(** [len(a)] *)
Definition len {A} (a : list A) : N := N.of_nat (length a).

(** ** Data pipeline ([engine/data_pipeline.py]) *)

Module AdaptiveLODSystem.

(** The index set [simplify_line] keeps for [n] vertices and a target count:
    lines 328-331, with the literal [10000] of line 328 as [target]. *)
Definition sampled_indices_for (target n : N) : list N :=
  let step := N.max 1 (n / target) in
  let sampled_indices := arange 0 n step in
  if decide (last sampled_indices = Some (n - 1)%N) then sampled_indices
  else (sampled_indices ++ [(n - 1)%N])%list.

Definition simplify_line_for {A} (target : N)
    (vertices : list A) (indices : list N) (method : string)
  : result (list A * list N) :=
  if decide (method = "radial_distance") then
    if decide (len vertices ≤ 2)%N then Ok (vertices, indices)
    else
      match take_rows vertices (sampled_indices_for target (len vertices)) with
      | Ok simplified_vertices =>
          Ok (simplified_vertices, arange_u32 (len simplified_vertices))
      | Raise e => Raise e
      end
  else Ok (vertices, indices).

(** [AdaptiveLODSystem.simplify_line]: the target is the literal 10000. *)
Definition simplify_line {A} (vertices : list A) (indices : list N)
    (method : string) : result (list A * list N) :=
  simplify_line_for 10000 vertices indices method.

End AdaptiveLODSystem.

(** *** Python values and dictionaries *)

(** The values that travel through payload and material dictionaries. A
    data buffer is a reference into the buffer store. *)
Inductive pyval :=
| VNone
| VBool (b : bool)
| VInt (z : Z)
| VStr (s : string)
| VList (l : list pyval)
| VBuffer (l : loc)
| VObject (l : loc).

(** A [dict] with string keys, in insertion order. *)
Abbreviation pydict := (list (string * pyval)).

Definition dict_keys (d : pydict) : list string := d.*1.

Fixpoint dict_get (k : string) (d : pydict) : option pyval :=
  match d with
  | [] => None
  | (k', v) :: d' => if decide (k = k') then Some v else dict_get k d'
  end.

(** [d[k] = v]: an existing key keeps its place, a new one goes last. *)
Fixpoint dict_set (k : string) (v : pyval) (d : pydict) : pydict :=
  match d with
  | [] => [(k, v)]
  | (k', v') :: d' =>
      if decide (k = k') then (k, v) :: d' else (k', v') :: dict_set k v d'
  end.

(** [d.update(new)] *)
Definition dict_update (d new : pydict) : pydict :=
  foldl (λ acc kv, dict_set kv.1 kv.2 acc) d new.

(** *** Buffers and the buffer registry *)

Section pipeline.
Context `{Numpy}.

Inductive dtype := Float32 | UInt32.

#[global] Instance dtype_eq_dec : EqDecision dtype.
Proof. solve_decision. Defined.

(** The arrays the pipeline stores: a float vector, a float matrix given by
    its rows, or a [uint32] index vector. *)
Inductive ndarray :=
| Arr1 (xs : list num)
| Arr2 (rows : list (list num))
| ArrI (idx : list N).

Definition arr_dtype (a : ndarray) : dtype :=
  match a with ArrI _ => UInt32 | _ => Float32 end.

(** [DataBuffer]: its [data], [buffer_type] and [gpu_address] attributes.
    The [dtype] attribute is the element type of [data]: [__init__] sets it
    so, and [update_data] accepts no data of another element type. The
    [size] and [shape] attributes are not kept here. *)
Record DataBuffer := {
  data : ndarray;
  buffer_type : string;
  gpu_address : option loc;
}.

(** [ZeroCopyDataPipeline]: the registry [buffers] maps a name to a buffer
    object; [store] holds the buffer objects themselves. *)
Record ZeroCopyDataPipeline := {
  store : gmap loc DataBuffer;
  buffers : gmap string loc;
  streaming_buffers : gmap string loc;
}.

Definition ZeroCopyDataPipeline_init : ZeroCopyDataPipeline :=
  {| store := ∅; buffers := ∅; streaming_buffers := ∅ |}.

(** [ZeroCopyDataPipeline.create_buffer] *)
Definition create_buffer (name : string) (a : ndarray) (btype : string)
  : M ZeroCopyDataPipeline loc := λ z,
  let l := fresh (dom (store z)) in
  let buffer := {| data := a; buffer_type := btype; gpu_address := None |} in
  (Ok l, {| store := <[l := buffer]> (store z);
            buffers := <[name := l]> (buffers z);
            streaming_buffers := streaming_buffers z |}).

(** [DataBuffer.update_data]: after the test of the element type both
    branches store [new_data]; they differ in the [shape] and [size]
    attributes only. *)
Definition update_data (b : DataBuffer) (new_data : ndarray) : result DataBuffer :=
  if decide (arr_dtype new_data = arr_dtype (data b)) then
    Ok {| data := new_data; buffer_type := buffer_type b;
          gpu_address := gpu_address b |}
  else Raise (ValueError "New data dtype does not match buffer dtype").

(** [ZeroCopyDataPipeline.update_buffer] *)
Definition update_buffer (name : string) (new_data : ndarray)
  : M ZeroCopyDataPipeline unit := λ z,
  match buffers z !! name with
  | Some l =>
      match store z !! l with
      | Some b =>
          match update_data b new_data with
          | Ok b' => (Ok tt, {| store := <[l := b']> (store z);
                                buffers := buffers z;
                                streaming_buffers := streaming_buffers z |})
          | Raise e => (Raise e, z)
          end
      | None => (Raise (KeyError name), z)
      end
  | None => (Raise (KeyError name), z)
  end.

(** [DataBuffer.transfer_to_gpu], on the object at [l] *)
Definition transfer_to_gpu (l : loc) (st : gmap loc DataBuffer)
  : gmap loc DataBuffer :=
  alter (λ b, {| data := data b; buffer_type := buffer_type b;
                 gpu_address := Some l |}) l st.

(** *** The four entry points *)

(** [np.column_stack((x, y, np.zeros(len(x))))] *)
Definition column_stack_xy0 (x y : list num) : list (list num) :=
  zip_with (λ a b, [a; b; lit 0 0]) x y.

Definition astype_f32 (rows : list (list num)) : list (list num) :=
  (λ r : list num, f32 <$> r) <$> rows.

(** [DataPipeline.process_line_data] *)
Definition process_line_data (x y : list num) : M ZeroCopyDataPipeline pydict :=
  if decide (len x ≠ len y) then
    raise (ValueError "x and y arrays must have the same length")
  else
    let vertices := column_stack_xy0 x y in
    let n_points := len vertices in
    if decide (n_points < 2)%N then
      raise (ValueError "Line plot requires at least 2 points")
    else
      let indices := arange_u32 n_points in
      match (if decide (10000 < n_points)%N
             then AdaptiveLODSystem.simplify_line vertices indices "radial_distance"
             else Ok (vertices, indices)) with
      | Raise e => raise e
      | Ok (vertices, indices) =>
          vertex_buffer ← create_buffer "line_vertices" (Arr2 (astype_f32 vertices)) "vertex";
          index_buffer ← create_buffer "line_indices" (ArrI indices) "index";
          mret [("vertices", VBuffer vertex_buffer);
                ("indices", VBuffer index_buffer);
                ("primitive_type", VStr "line_strip");
                ("count", VInt (Z.of_N (len indices)))]
      end.

(** The optional arguments of [process_scatter_data]: [c] is a vector or a
    matrix with [cols] columns, [s] a scalar or a vector. *)
Inductive color_arg :=
| CVec (c : list num)
| CMat (cols : N) (rows : list (list num)).

Inductive size_arg :=
| SScalar (s : num)
| SVec (s : list num).

Definition color_len (c : color_arg) : N :=
  match c with CVec c => len c | CMat _ rows => len rows end.

(** [c is not None and len(c) != n_points] *)
Definition c_mismatch (c : option color_arg) (n_points : N) : Prop :=
  match c with Some c => color_len c ≠ n_points | None => False end.

(** [s is not None and isinstance(s, np.ndarray) and len(s) != n_points] *)
Definition s_mismatch (s : option size_arg) (n_points : N) : Prop :=
  match s with Some (SVec s) => len s ≠ n_points | _ => False end.

#[global] Instance c_mismatch_dec c n : Decision (c_mismatch c n).
Proof. destruct c; simpl; apply _. Defined.

#[global] Instance s_mismatch_dec s n : Decision (s_mismatch s n).
Proof. destruct s as [[]|]; simpl; apply _. Defined.

(** The subsampling block of [process_scatter_data] (lines 181-185), with
    the literal [50000] of line 181 as [target]. *)
Definition subsample_for {A B C} (target n_points : N)
    (vertices : list A) (sizes : list B) (colors : list C)
  : result (list A * list B * list C) :=
  let step := N.max 1 (n_points / target) in
  let mask := arange 0 n_points step in
  match take_rows vertices mask with
  | Raise e => Raise e
  | Ok vertices' =>
    match (if decide (len mask < len sizes)%N then take_rows sizes mask else Ok sizes) with
    | Raise e => Raise e
    | Ok sizes' =>
      match (if decide (len mask < len colors)%N then take_rows colors mask else Ok colors) with
      | Raise e => Raise e
      | Ok colors' => Ok (vertices', sizes', colors')
      end
    end
  end.

(** The arrays [process_scatter_data] builds before any subsampling:
    vertex rows (line 152), sizes (lines 155-160) and RGBA rows (lines
    163-176). *)
Definition scatter_vertices (x y : list num) : list (list num) :=
  astype_f32 (column_stack_xy0 x y).

Definition scatter_sizes (n_points : N) (s : option size_arg) : list num :=
  match s with
  | None => replicate (N.to_nat n_points) (f32 (lit 10 0))
  | Some (SScalar s) => replicate (N.to_nat n_points) (f32 s)
  | Some (SVec s) => f32 <$> s
  end.

Definition scatter_colors (n_points : N) (c : option color_arg)
  : list (list num) :=
  match c with
  | None =>
      replicate (N.to_nat n_points)
        (f32 <$> [lit 2 1; lit 6 1; lit 1 0; lit 1 0])
  | Some (CVec c) => (λ v, f32 <$> [v; v; v; lit 1 0]) <$> c
  | Some (CMat cols rows) =>
      if decide (cols = 3%N)
      then (λ r : list num, f32 <$> (r ++ [f32 (lit 1 0)])%list) <$> rows
      else astype_f32 rows
  end.

(** The arrays [process_scatter_data] has in hand when it reaches the buffer
    creation (lines 139-185): validation, the arrays above, then the
    subsampling above 50000 points. *)
Definition scatter_arrays (x y : list num) (c : option color_arg)
    (s : option size_arg)
  : result (list (list num) * list num * list (list num)) :=
  let n_points := len x in
  if decide (len y ≠ n_points) then
    Raise (ValueError "x and y arrays must have the same length")
  else if bool_decide (c_mismatch c n_points) then
    Raise (ValueError "Color array must have same length as x/y arrays")
  else if bool_decide (s_mismatch s n_points) then
    Raise (ValueError "Size array must have same length as x/y arrays")
  else
    let vertices := scatter_vertices x y in
    let sizes := scatter_sizes n_points s in
    let colors := scatter_colors n_points c in
    if decide (50000 < n_points)%N
    then subsample_for 50000 n_points vertices sizes colors
    else Ok (vertices, sizes, colors).

(** [DataPipeline.process_scatter_data] *)
Definition process_scatter_data (x y : list num) (c : option color_arg)
    (s : option size_arg) : M ZeroCopyDataPipeline pydict :=
  match scatter_arrays x y c s with
  | Raise e => raise e
  | Ok (vertices, sizes, colors) =>
      vertex_buffer ← create_buffer "scatter_vertices" (Arr2 vertices) "vertex";
      size_buffer ← create_buffer "scatter_sizes" (Arr1 sizes) "attribute";
      color_buffer ← create_buffer "scatter_colors" (Arr2 colors) "attribute";
      mret [("vertices", VBuffer vertex_buffer);
            ("sizes", VBuffer size_buffer);
            ("colors", VBuffer color_buffer);
            ("primitive_type", VStr "points");
            ("count", VInt (Z.of_N (len vertices)))]
  end.

(** One turn of the loop of [process_bar_data]: the quad of the bar centred
    at [cx] with height [h], and its two triangles. *)
Definition bar_quad (cx h : num) : list (list num) :=
  let half := fdiv (lit 8 1) (lit 2 0) in
  [ [fsub cx half; lit 0 0; lit 0 0];
    [fadd cx half; lit 0 0; lit 0 0];
    [fadd cx half; h; lit 0 0];
    [fsub cx half; h; lit 0 0] ].

Definition bar_triangles (current_vertex_idx : N) : list N :=
  [ current_vertex_idx; current_vertex_idx + 1; current_vertex_idx + 2;
    current_vertex_idx; current_vertex_idx + 2; current_vertex_idx + 3 ]%N.

Fixpoint bar_loop (bars : list (num * num)) (current_vertex_idx : N)
  : list (list num) * list N :=
  match bars with
  | [] => ([], [])
  | (cx, h) :: bars' =>
      let '(vertices, indices) := bar_loop bars' (current_vertex_idx + 4)%N in
      ((bar_quad cx h ++ vertices)%list, (bar_triangles current_vertex_idx ++ indices)%list)
  end.

(** [DataPipeline.process_bar_data] *)
Definition process_bar_data (x height : list num) : M ZeroCopyDataPipeline pydict :=
  if decide (len x ≠ len height) then
    raise (ValueError "x and height arrays must have the same length")
  else
    let '(vertices, indices) := bar_loop (zip x height) 0 in
    let vertices := astype_f32 vertices in
    let indices := uint32 <$> indices in
    vertex_buffer ← create_buffer "bar_vertices" (Arr2 vertices) "vertex";
    index_buffer ← create_buffer "bar_indices" (ArrI indices) "index";
    mret [("vertices", VBuffer vertex_buffer);
          ("indices", VBuffer index_buffer);
          ("primitive_type", VStr "triangles");
          ("count", VInt (Z.of_N (len indices)))].

(** [DataPipeline.process_histogram_data] *)
Definition process_histogram_data (values : list num) (bins : N)
  : M ZeroCopyDataPipeline pydict :=
  match np_histogram values bins with
  | None => raise (ValueError "np.histogram")
  | Some (hist, bin_edges) =>
      let x_positions :=
        (λ e, fdiv e (lit 2 0)) <$>
          zip_with fadd (removelast bin_edges) (tail bin_edges) in
      let heights := of_count <$> hist in
      process_bar_data x_positions heights
  end.

End pipeline.


(** *** What an entry point does to the registry *)

Section registry_effect.
Context `{Numpy}.

(** [z'] is [z] with each of [names] rebound to a newly allocated buffer
    object, and nothing else changed: the objects of [z] are still in the
    store as they were, and the other names keep their binding. *)
Definition rebinds (names : list string) (z z' : ZeroCopyDataPipeline) : Prop :=
  (∀ l b, store z !! l = Some b → store z' !! l = Some b)
  ∧ (∀ name, name ∈ names →
       ∃ l, buffers z' !! name = Some l
            ∧ store z !! l = None ∧ is_Some (store z' !! l))
  ∧ (∀ name, name ∉ names → buffers z' !! name = buffers z !! name)
  ∧ streaming_buffers z' = streaming_buffers z.

(** The outcome of an entry point started in [z]: on success the names are
    rebound, every buffer of the returned payload is registered under one
    of them, and the buffer each of them is bound to is returned in the
    payload; on a raise nothing was touched. *)
Definition entry_point_outcome (names : list string)
    (z : ZeroCopyDataPipeline) (r : result pydict * ZeroCopyDataPipeline) : Prop :=
  match r with
  | (Ok payload, z') =>
      rebinds names z z'
      ∧ (∀ k l, dict_get k payload = Some (VBuffer l) →
           ∃ name, name ∈ names ∧ buffers z' !! name = Some l)
      ∧ (∀ name, name ∈ names →
           ∃ k l, dict_get k payload = Some (VBuffer l)
                  ∧ buffers z' !! name = Some l)
  | (Raise _, z') => z' = z
  end.

End registry_effect.

(** ** Scene graph ([engine/scene_manager.py]) *)

Module Scene.

(** [np.eye(4)] *)
Definition eye4 : list (list Z) :=
  [[1; 0; 0; 0]; [0; 1; 0; 0]; [0; 0; 1; 0]; [0; 0; 0; 1]]%Z.

(** A node object: [SceneNode], with the attributes [GeometryNode] adds
    ([geometry_type], [data], [material_properties]) and the one
    [create_dashboard] sets on a widget ([properties]); an attribute the
    object does not have is [None]. [children] and [parent] refer to node
    objects, [data], [material_properties] and [properties] to dictionaries. *)
Record SceneNode := {
  node_id : string;
  node_type : string;
  children : list loc;
  parent : option loc;
  visible : bool;
  transform : list (list Z);
  geometry_type : option string;
  data : option loc;
  material_properties : option loc;
  properties : option loc;
}.

(** [SceneNode.__init__] *)
Definition SceneNode_init (node_id node_type : string) : SceneNode :=
  {| node_id := node_id; node_type := node_type; children := [];
     parent := None; visible := true; transform := eye4;
     geometry_type := None; data := None; material_properties := None;
     properties := None |}.

(** [GeometryNode.__init__]; [mp] is the new, empty dictionary. *)
Definition GeometryNode_init (node_id geometry_type : string) (data mp : loc)
  : SceneNode :=
  {| node_id := node_id; node_type := "geometry"; children := [];
     parent := None; visible := true; transform := eye4;
     geometry_type := Some geometry_type; data := Some data;
     material_properties := Some mp; properties := None |}.

Definition set_parent (p : option loc) (n : SceneNode) : SceneNode :=
  {| node_id := node_id n; node_type := node_type n; children := children n;
     parent := p; visible := visible n; transform := transform n;
     geometry_type := geometry_type n; data := data n;
     material_properties := material_properties n;
     properties := properties n |}.

Definition set_children (cs : list loc) (n : SceneNode) : SceneNode :=
  {| node_id := node_id n; node_type := node_type n; children := cs;
     parent := parent n; visible := visible n; transform := transform n;
     geometry_type := geometry_type n; data := data n;
     material_properties := material_properties n;
     properties := properties n |}.

Definition set_properties (d : loc) (n : SceneNode) : SceneNode :=
  {| node_id := node_id n; node_type := node_type n; children := children n;
     parent := parent n; visible := visible n; transform := transform n;
     geometry_type := geometry_type n; data := data n;
     material_properties := material_properties n;
     properties := Some d |}.

(** [list.remove(x)]: drops the first occurrence. *)
Fixpoint list_remove (x : loc) (l : list loc) : list loc :=
  match l with
  | [] => []
  | y :: l' => if decide (x = y) then l' else y :: list_remove x l'
  end.

(** [SceneManager], together with the node objects and the dictionaries it
    reaches. *)
Record SceneManager := {
  objects : gmap loc SceneNode;
  dicts : gmap loc pydict;
  root_node : loc;
  nodes : gmap string loc;
  camera_settings : loc;
  lighting_settings : loc;
}.

(** [SceneManager.__init__] *)
Definition SceneManager_init : SceneManager :=
  {| objects := {[ 0 := SceneNode_init "root" "root" ]};
     dicts := {[ 0 := []; 1 := [] ]};
     root_node := 0;
     nodes := {[ "root" := 0 ]};
     camera_settings := 0;
     lighting_settings := 1 |}.

Definition with_objects (f : gmap loc SceneNode → gmap loc SceneNode)
    (s : SceneManager) : SceneManager :=
  {| objects := f (objects s); dicts := dicts s; root_node := root_node s;
     nodes := nodes s; camera_settings := camera_settings s;
     lighting_settings := lighting_settings s |}.

Definition with_dicts (f : gmap loc pydict → gmap loc pydict)
    (s : SceneManager) : SceneManager :=
  {| objects := objects s; dicts := f (dicts s); root_node := root_node s;
     nodes := nodes s; camera_settings := camera_settings s;
     lighting_settings := lighting_settings s |}.

Definition with_nodes (f : gmap string loc → gmap string loc)
    (s : SceneManager) : SceneManager :=
  {| objects := objects s; dicts := dicts s; root_node := root_node s;
     nodes := f (nodes s); camera_settings := camera_settings s;
     lighting_settings := lighting_settings s |}.

(** A dictionary the caller builds and passes in by reference. *)
Definition new_dict (d : pydict) : M SceneManager loc := λ s,
  let l := fresh (dom (dicts s)) in
  (Ok l, with_dicts <[l := d]> s).

(** [SceneNode.add_child], of the object [child] to the object [self] *)
Definition add_child (self child : loc) (os : gmap loc SceneNode)
  : gmap loc SceneNode :=
  alter (λ n, set_children (children n ++ [child]) n) self
    (alter (set_parent (Some self)) child os).

(** [SceneNode.remove_child] *)
Definition remove_child (self child : loc) (os : gmap loc SceneNode)
  : gmap loc SceneNode :=
  match os !! self with
  | Some n =>
      if decide (child ∈ children n) then
        alter (λ n, set_children (list_remove child (children n)) n) self
          (alter (set_parent None) child os)
      else os
  | None => os
  end.

(** The body shared by [add_line], [add_scatter], [add_bar] and
    [add_histogram]: they differ in the id prefix and the geometry type. *)
Definition add_geometry_node (prefix geometry_type : string) (data : loc)
    (kwargs : pydict) : M SceneManager string := λ s,
  let node_id := prefix +:+ "_" +:+ pretty (size (nodes s)) in
  let mp := fresh (dom (dicts s)) in
  let l := fresh (dom (objects s)) in
  let node := GeometryNode_init node_id geometry_type data mp in
  (Ok node_id,
   {| objects := add_child (root_node s) l (<[l := node]> (objects s));
      dicts := <[mp := dict_update [] kwargs]> (dicts s);
      root_node := root_node s;
      nodes := <[node_id := l]> (nodes s);
      camera_settings := camera_settings s;
      lighting_settings := lighting_settings s |}).

(** [SceneManager.add_line] *)
Definition add_line (data : loc) (kwargs : pydict) : M SceneManager string :=
  add_geometry_node "line" "line" data kwargs.

(** [SceneManager.add_scatter] *)
Definition add_scatter (data : loc) (kwargs : pydict) : M SceneManager string :=
  add_geometry_node "scatter" "scatter" data kwargs.

(** [SceneManager.add_bar] *)
Definition add_bar (data : loc) (kwargs : pydict) : M SceneManager string :=
  add_geometry_node "bar" "bar" data kwargs.

(** [SceneManager.add_histogram] *)
Definition add_histogram (data : loc) (kwargs : pydict) : M SceneManager string :=
  add_geometry_node "histogram" "histogram" data kwargs.

(** [SceneManager.update_node]: [node.data] raises [AttributeError] on an
    object without that attribute. *)
Definition update_node (node_id : string) (new_data : pydict)
  : M SceneManager bool := λ s,
  match nodes s !! node_id with
  | Some l =>
      match objects s !! l ≫= data with
      | Some d =>
          (Ok true, with_dicts (alter (λ old, dict_update old new_data) d) s)
      | None =>
          (Raise (AttributeError "'SceneNode' object has no attribute 'data'"), s)
      end
  | None => (Ok false, s)
  end.

(** [SceneManager.remove_node] *)
Definition remove_node (node_id : string) : M SceneManager bool := λ s,
  match nodes s !! node_id with
  | Some l =>
      if decide (node_id ≠ "root") then
        let os :=
          match objects s !! l ≫= parent with
          | Some p => remove_child p l (objects s)
          | None => objects s
          end in
        (Ok true, with_nodes (delete node_id) (with_objects (λ _, os) s))
      else (Ok false, s)
  | None => (Ok false, s)
  end.

(** A reference to a dictionary held by a snapshot: one it shares with the
    scene graph, or one of its own. *)
Inductive dictref :=
| Shared (l : loc)
| Own (d : pydict).

(** One entry of the ["nodes"] dictionary [get_scene] builds. *)
Record SnapNode := {
  snap_type : string;
  snap_geometry_type : option string;
  snap_data : dictref;
  snap_material_properties : dictref;
  snap_transform : list (list Z);
  snap_visible : bool;
}.

(** The dictionary [get_scene] returns. *)
Record Snapshot := {
  snap_nodes : gmap string SnapNode;
  snap_camera : loc;
  snap_lighting : loc;
}.

(** [getattr(node, attr, {})] for a dictionary-valued attribute *)
Definition getattr_dict (attr : option loc) : dictref :=
  match attr with Some l => Shared l | None => Own [] end.

Definition node_entry (node : SceneNode) : SnapNode :=
  {| snap_type := node_type node;
     snap_geometry_type := geometry_type node;
     snap_data := getattr_dict (data node);
     snap_material_properties := getattr_dict (material_properties node);
     snap_transform := transform node;
     snap_visible := visible node |}.

(** [SceneManager.get_scene]: one entry per id of [nodes] other than
    ["root"]. *)
Definition get_scene (s : SceneManager) : Snapshot :=
  {| snap_nodes :=
       omap (λ l, node_entry <$> objects s !! l) (delete "root" (nodes s));
     snap_camera := camera_settings s;
     snap_lighting := lighting_settings s |}.

(** [SceneManager.create_dashboard]; [widgets] are the configuration
    dictionaries, by reference. *)
Definition create_dashboard (widgets : list loc) (layout : string)
  : M SceneManager string := λ s,
  let dashboard_id := "dashboard_" +:+ pretty (size (nodes s)) in
  let d := fresh (dom (objects s)) in
  let ws := fresh_list (length widgets) ({[ d ]} ∪ dom (objects s)) in
  let widget_node (i : nat) (config : loc) : SceneNode :=
    set_parent (Some d)
      (set_properties config
         (SceneNode_init ("widget_" +:+ dashboard_id +:+ "_" +:+ pretty i) "widget")) in
  let dashboard_node := set_children ws (SceneNode_init dashboard_id "dashboard") in
  let os :=
    foldr (λ iwc os, <[iwc.2.1 := widget_node iwc.1 iwc.2.2]> os)
      (<[d := dashboard_node]> (objects s))
      (zip (seq 0 (length widgets)) (zip ws widgets)) in
  (Ok dashboard_id,
   {| objects := add_child (root_node s) d os;
      dicts := dicts s;
      root_node := root_node s;
      nodes := <[dashboard_id := d]> (nodes s);
      camera_settings := camera_settings s;
      lighting_settings := lighting_settings s |}).

(** [SceneManager.get_dashboard] *)
Definition get_dashboard (s : SceneManager) : Snapshot := get_scene s.

(** *** What a snapshot says *)

(** A snapshot is read through the dictionaries it refers to: its contents
    in a given state of the dictionary store. *)
Definition deref (ds : gmap loc pydict) (r : dictref) : option pydict :=
  match r with Shared l => ds !! l | Own d => Some d end.

Record NodeContents := {
  c_type : string;
  c_geometry_type : option string;
  c_data : option pydict;
  c_material_properties : option pydict;
  c_transform : list (list Z);
  c_visible : bool;
}.

Definition node_contents (ds : gmap loc pydict) (e : SnapNode) : NodeContents :=
  {| c_type := snap_type e;
     c_geometry_type := snap_geometry_type e;
     c_data := deref ds (snap_data e);
     c_material_properties := deref ds (snap_material_properties e);
     c_transform := snap_transform e;
     c_visible := snap_visible e |}.

Definition snapshot_contents (ds : gmap loc pydict) (snap : Snapshot)
  : gmap string NodeContents * option pydict * option pydict :=
  (node_contents ds <$> snap_nodes snap,
   ds !! snap_camera snap, ds !! snap_lighting snap).

(** *** Histories of calls *)

(** The calls that change a scene manager. *)
Inductive call :=
| NewDict (d : pydict)
| AddLine (data : loc) (kwargs : pydict)
| AddScatter (data : loc) (kwargs : pydict)
| AddBar (data : loc) (kwargs : pydict)
| AddHistogram (data : loc) (kwargs : pydict)
| UpdateNode (node_id : string) (new_data : pydict)
| RemoveNode (node_id : string)
| CreateDashboard (widgets : list loc) (layout : string).

(** The state a call leaves. *)
Definition exec (c : call) (s : SceneManager) : SceneManager :=
  match c with
  | NewDict d => (new_dict d s).2
  | AddLine data kwargs => (add_line data kwargs s).2
  | AddScatter data kwargs => (add_scatter data kwargs s).2
  | AddBar data kwargs => (add_bar data kwargs s).2
  | AddHistogram data kwargs => (add_histogram data kwargs s).2
  | UpdateNode node_id new_data => (update_node node_id new_data s).2
  | RemoveNode node_id => (remove_node node_id s).2
  | CreateDashboard widgets layout => (create_dashboard widgets layout s).2
  end.

(** The id an [add_*] call returns, if the call is one. *)
Definition returned_id (c : call) (s : SceneManager) : option string :=
  match c with
  | AddLine data kwargs =>
      match (add_line data kwargs s).1 with Ok i => Some i | Raise _ => None end
  | AddScatter data kwargs =>
      match (add_scatter data kwargs s).1 with Ok i => Some i | Raise _ => None end
  | AddBar data kwargs =>
      match (add_bar data kwargs s).1 with Ok i => Some i | Raise _ => None end
  | AddHistogram data kwargs =>
      match (add_histogram data kwargs s).1 with Ok i => Some i | Raise _ => None end
  | _ => None
  end.

Definition run (cs : list call) (s : SceneManager) : SceneManager :=
  foldl (λ s c, exec c s) s cs.

(** The ids returned along a history, oldest first. *)
Fixpoint returned_ids (cs : list call) (s : SceneManager) : list string :=
  match cs with
  | [] => []
  | c :: cs' =>
      match returned_id c s with
      | Some i => i :: returned_ids cs' (exec c s)
      | None => returned_ids cs' (exec c s)
      end
  end.

(** The states a scene manager can be in. *)
Definition reachable (s : SceneManager) : Prop :=
  ∃ cs, s = run cs SceneManager_init.

(** *** Invariants *)

(** Child lists have no repetition, and a child is an allocated object,
    other than its parent, whose [parent] points back. *)
Definition children_ok (os : gmap loc SceneNode) : Prop :=
  ∀ p n, os !! p = Some n →
    NoDup (children n)
    ∧ ∀ c, c ∈ children n →
        c ≠ p ∧ ∃ nc, os !! c = Some nc ∧ parent nc = Some p.

(** The state invariant: ["root"] names the root object, a plain
    [SceneNode] without [data]; every registered id names an allocated
    object; child lists are well formed. *)
Definition wf (s : SceneManager) : Prop :=
  nodes s !! "root" = Some (root_node s)
  ∧ (∃ r, objects s !! root_node s = Some r ∧ data r = None)
  ∧ (∀ i l, nodes s !! i = Some l → is_Some (objects s !! l))
  ∧ children_ok (objects s).

(** [add_child] and [remove_child] change [children] and [parent] only,
    and allocate nothing. *)
Definition same_but_links (n n' : SceneNode) : Prop :=
  node_id n' = node_id n ∧ node_type n' = node_type n
  ∧ visible n' = visible n ∧ transform n' = transform n
  ∧ geometry_type n' = geometry_type n ∧ data n' = data n
  ∧ material_properties n' = material_properties n
  ∧ properties n' = properties n.

(** [os'] has the objects of [os], changed in [children] and [parent] at
    most. *)
Definition links_only (os os' : gmap loc SceneNode) : Prop :=
  ∀ q, match os' !! q, os !! q with
       | Some n', Some n => same_but_links n n'
       | None, None => True
       | _, _ => False
       end.

End Scene.

(** ** Shaders ([render/shader_manager.py]) *)

(** Python's [hash], [repr] and [str] builtins are outside the repository:
    they are an interface. *)
Class Python := {
  py_hash : string → Z;
  py_repr : pyval → string;
  py_str : pyval → string;
}.

(** [old in s] for strings *)
Fixpoint str_contains (sub s : string) : bool :=
  String.prefix sub s ||
  match s with
  | EmptyString => false
  | String _ s' => str_contains sub s'
  end.

(** [s.replace(old, new)], for a non-empty [old]: occurrences are replaced
    left to right, without overlap. [skip] counts the characters of a
    matched occurrence still to be dropped. *)
Fixpoint str_replace_from (skip : nat) (old new s : string) : string :=
  match s with
  | EmptyString => EmptyString
  | String c s' =>
      match skip with
      | S k => str_replace_from k old new s'
      | O =>
          if String.prefix old s
          then new +:+ str_replace_from (String.length old - 1) old new s'
          else String c (str_replace_from 0 old new s')
      end
  end.

Definition str_replace (old new s : string) : string :=
  str_replace_from 0 old new s.

(** [", ".join(parts)] *)
Fixpoint str_join (sep : string) (parts : list string) : string :=
  match parts with
  | [] => ""
  | [p] => p
  | p :: parts' => p +:+ sep +:+ str_join sep parts'
  end.

Module Shader.

(** [ShaderProgram] *)
Record ShaderProgram := {
  vertex_shader : string;
  fragment_shader : string;
  geometry_shader : option string;
  compiled_handles : gmap string string;
}.

(** [ShaderManager]: [programs] holds the shader program objects the cache
    refers to. *)
Record ShaderManager := {
  programs : gmap loc ShaderProgram;
  shader_cache : gmap string loc;
  default_shaders : gmap string (string * string);
}.

(** [ShaderManager._get_default_line_vertex_shader] *)
Definition get_default_line_vertex_shader : string :=
  "
        #version 450
        layout(location = 0) in vec3 position;
        
        void main() {
            gl_Position = vec4(position, 1.0);
        }
        ".

(** [ShaderManager._get_default_line_fragment_shader] *)
Definition get_default_line_fragment_shader : string :=
  "
        #version 450
        layout(location = 0) out vec4 fragColor;
        
        void main() {
            fragColor = vec4(0.2, 0.6, 1.0, 1.0);  // Blue color
        }
        ".

(** [ShaderManager._get_default_scatter_vertex_shader] *)
Definition get_default_scatter_vertex_shader : string :=
  "
        #version 450
        layout(location = 0) in vec3 position;
        layout(location = 1) in float pointSize;
        layout(location = 2) in vec4 color;
        
        out vec4 fragColor;
        
        void main() {
            gl_Position = vec4(position, 1.0);
            gl_PointSize = pointSize;
            fragColor = color;
        }
        ".

(** [ShaderManager._get_default_scatter_fragment_shader] *)
Definition get_default_scatter_fragment_shader : string :=
  "
        #version 450
        in vec4 fragColor;
        layout(location = 0) out vec4 outColor;
        
        void main() {
            outColor = fragColor;
        }
        ".

(** [ShaderManager._get_default_bar_vertex_shader] *)
Definition get_default_bar_vertex_shader : string :=
  "
        #version 450
        layout(location = 0) in vec3 position;
        
        void main() {
            gl_Position = vec4(position, 1.0);
        }
        ".

(** [ShaderManager._get_default_bar_fragment_shader] *)
Definition get_default_bar_fragment_shader : string :=
  "
        #version 450
        layout(location = 0) out vec4 fragColor;
        
        void main() {
            fragColor = vec4(0.8, 0.4, 0.2, 1.0);  // Orange color
        }
        ".

(** [ShaderManager._get_default_point_vertex_shader] *)
Definition get_default_point_vertex_shader : string :=
  "
        #version 450
        layout(location = 0) in vec3 position;
        layout(location = 1) in float pointSize;
        layout(location = 2) in vec4 color;
        
        out vec4 fragColor;
        
        void main() {
            gl_Position = vec4(position, 1.0);
            gl_PointSize = pointSize;
            fragColor = color;
        }
        ".

(** [ShaderManager._get_default_point_fragment_shader] *)
Definition get_default_point_fragment_shader : string :=
  "
        #version 450
        in vec4 fragColor;
        layout(location = 0) out vec4 outColor;
        
        void main() {
            outColor = fragColor;
        }
        ".

(** [ShaderManager._get_default_ui_vertex_shader] *)
Definition get_default_ui_vertex_shader : string :=
  "
        #version 450
        layout(location = 0) in vec2 position;
        layout(location = 1) in vec2 texCoord;
        
        out vec2 vTexCoord;
        
        void main() {
            gl_Position = vec4(position, 0.0, 1.0);
            vTexCoord = texCoord;
        }
        ".

(** [ShaderManager._get_default_ui_fragment_shader] *)
Definition get_default_ui_fragment_shader : string :=
  "
        #version 450
        in vec2 vTexCoord;
        layout(location = 0) out vec4 fragColor;
        
        void main() {
            fragColor = vec4(1.0, 1.0, 1.0, 1.0);  // White color
        }
        ".

(** [ShaderManager._load_default_shaders]: vertex and fragment source per
    visualization type. *)
Definition load_default_shaders : gmap string (string * string) :=
  {[ "line" := (get_default_line_vertex_shader, get_default_line_fragment_shader);
     "scatter" := (get_default_scatter_vertex_shader, get_default_scatter_fragment_shader);
     "bar" := (get_default_bar_vertex_shader, get_default_bar_fragment_shader);
     "point" := (get_default_point_vertex_shader, get_default_point_fragment_shader);
     "ui_element" := (get_default_ui_vertex_shader, get_default_ui_fragment_shader) ]}.

(** [ShaderManager.__init__] *)
Definition ShaderManager_init : ShaderManager :=
  {| programs := ∅; shader_cache := ∅; default_shaders := load_default_shaders |}.

(** The shader manager invariant: the fallback template is there, and the
    cache refers to existing shader programs. *)
Definition sm_ok (sm : ShaderManager) : Prop :=
  is_Some (default_shaders sm !! "point")
  ∧ ∀ k l, shader_cache sm !! k = Some l → is_Some (programs sm !! l).

Section with_python.
Context `{Python}.

(** [sorted(material_properties.items())]: items are tuples, compared by
    key first; the keys of a dictionary are distinct, so the values never
    decide. *)
Definition sorted_items (material_properties : pydict) : pydict :=
  merge_sort (λ a b, String.le a.1 b.1) material_properties.

(** [str] of a list of [(key, value)] tuples *)
Definition str_items (items : pydict) : string :=
  "[" +:+ str_join ", "
            ((λ kv, "(" +:+ py_repr (VStr kv.1) +:+ ", " +:+ py_repr kv.2 +:+ ")")
               <$> items)
      +:+ "]".

(** A geometry type inside an f-string; [None] prints as ["None"]. *)
Definition fmt_geometry_type (geometry_type : option string) : string :=
  default "None" geometry_type.

(** Line 206: the cache key. *)
Definition cache_key (geometry_type : option string)
    (material_properties : pydict) : string :=
  fmt_geometry_type geometry_type +:+ "_"
    +:+ pretty (py_hash (str_items (sorted_items material_properties))).

(** [ShaderManager._customize_shader_with_material] *)
Definition customize_shader_with_material (vertex_shader fragment_shader : string)
    (material_properties : pydict) : string * string :=
  let modified_vs := vertex_shader in
  let modified_fs := fragment_shader in
  let modified_fs :=
    if bool_decide (is_Some (dict_get "color" material_properties)) then
      if negb (str_contains "uniform vec4 materialColor;" modified_fs) then
        "#version 450
uniform vec4 materialColor;
" +:+ str_replace "fragColor =" "fragColor = baseColor * "
        (str_replace "void main() {" "void main() {
    vec4 baseColor = materialColor;" modified_fs)
      else modified_fs
    else modified_fs in
  let modified_fs :=
    if bool_decide (is_Some (dict_get "opacity" material_properties)) then
      if negb (str_contains "uniform float opacity;" modified_fs) then
        "#version 450
uniform float opacity;
" +:+ str_replace "fragColor ="
        ("fragColor = vec4("
           +:+ from_option py_str "1.0, 1.0, 1.0" (dict_get "color" material_properties)
           +:+ ", opacity) * ")
        modified_fs
      else modified_fs
    else modified_fs in
  (modified_vs, modified_fs).

(** [ShaderManager.get_shader_for_geometry] *)
Definition get_shader_for_geometry (geometry_type : option string)
    (material_properties : pydict) : M ShaderManager loc := λ sm,
  let key := cache_key geometry_type material_properties in
  match shader_cache sm !! key with
  | Some shader_program => (Ok shader_program, sm)
  | None =>
      match
        match geometry_type ≫= (default_shaders sm !!.) with
        | Some shaders => Some shaders
        | None => default_shaders sm !! "point"
        end
      with
      | None => (Raise (KeyError "point"), sm)
      | Some (vertex_shader, fragment_shader) =>
          let '(vertex_shader, fragment_shader) :=
            customize_shader_with_material vertex_shader fragment_shader
              material_properties in
          let shader_program := fresh (dom (programs sm)) in
          (Ok shader_program,
           {| programs :=
                <[shader_program :=
                    {| vertex_shader := vertex_shader;
                       fragment_shader := fragment_shader;
                       geometry_shader := None;
                       compiled_handles := ∅ |}]> (programs sm);
              shader_cache := <[key := shader_program]> (shader_cache sm);
              default_shaders := default_shaders sm |})
      end
  end.

(** [ShaderManager.get_shader_for_widget] *)
Definition get_shader_for_widget (widget_type : string)
    (geometry_type : option string) (material_properties : pydict)
  : M ShaderManager loc :=
  get_shader_for_geometry geometry_type material_properties.

(** [ShaderManager.register_custom_shader] *)
Definition register_custom_shader (name vertex_shader fragment_shader : string)
    (geometry_types : list string) : M ShaderManager unit := λ sm,
  (Ok tt,
   {| programs := programs sm;
      shader_cache := shader_cache sm;
      default_shaders :=
        foldl (λ ds geom_type, <[geom_type := (vertex_shader, fragment_shader)]> ds)
          (default_shaders sm) geometry_types |}).

End with_python.

End Shader.

(** ** Rendering ([render/renderer.py] and the backends) *)

Module Render.
Import Scene Shader.

Section with_builtins.
Context `{Numpy} `{Python}.

(** *** Backends *)

(** [VulkanBackend] and [WebGPUBackend]: the two classes a [Renderer]
    instantiates. *)
Inductive backend_kind := Vulkan | WebGPU.

(** The backend object; a key of [pipeline_cache] is a geometry type
    (Vulkan; it may be [None]) or a formatted string (WebGPU). *)
Record Backend := {
  kind : backend_kind;
  is_initialized : bool;
  pipeline_cache : gmap (option string) string;
}.

(** [VulkanBackend.__init__], [WebGPUBackend.__init__] *)
Definition Backend_init (k : backend_kind) : Backend :=
  {| kind := k; is_initialized := false; pipeline_cache := ∅ |}.

(** [initialize] of either backend *)
Definition backend_initialize (b : Backend) : Backend :=
  {| kind := kind b; is_initialized := true; pipeline_cache := pipeline_cache b |}.

(** One entry of the ["nodes"] dictionary [_prepare_scene] builds: the keys
    [id], [type], [geometry_type], [data], [material_properties],
    [transform], [visible] and [shader]. [data] is the new dictionary
    [_process_node_data] returns; [material_properties] is the reference
    found in the scene; [shader] refers to a shader program. *)
Record FrameNode := {
  f_id : string;
  f_type : string;
  f_geometry_type : option string;
  f_data : pydict;
  f_material_properties : dictref;
  f_transform : list (list Z);
  f_visible : bool;
  f_shader : loc;
}.

(** The dictionary [_prepare_scene] returns. *)
Record PreparedScene := {
  p_nodes : gmap string FrameNode;
  p_camera : loc;
  p_lighting : loc;
  p_viewport_size : Z * Z;
}.

(** [_get_pipeline_for_geometry] of either backend: the cache after the
    call. *)
Definition get_pipeline_for_geometry (node : FrameNode) (b : Backend) : Backend :=
  let g := fmt_geometry_type (f_geometry_type node) in
  let '(cache_key, pipeline) :=
    match kind b with
    | Vulkan => (f_geometry_type node, "pipeline_for_" +:+ g)
    | WebGPU => (Some (g +:+ "_" +:+ pretty (f_shader node)),
                 "webgpu_pipeline_for_" +:+ g)
    end in
  match pipeline_cache b !! cache_key with
  | Some _ => b
  | None =>
      {| kind := kind b; is_initialized := is_initialized b;
         pipeline_cache := <[cache_key := pipeline]> (pipeline_cache b) |}
  end.

(** [_draw] of either backend reads [node_data["primitive_type"]]; a
    prepared node has no such key. *)
Definition draw (node : FrameNode) : result unit :=
  Raise (KeyError "primitive_type").

(** The loop of [render] over the nodes, in the order of the dictionary. *)
Fixpoint render_nodes (nodes : list (string * FrameNode)) : M Backend unit :=
  match nodes with
  | [] => mret tt
  | (_, node) :: nodes' =>
      if f_visible node then
        λ b,
          let b := get_pipeline_for_geometry node b in
          match draw node with
          | Ok _ => render_nodes nodes' b
          | Raise e => (Raise e, b)
          end
      else render_nodes nodes'
  end.

(** [VulkanBackend.render], [WebGPUBackend.render] *)
Definition backend_render (scene : PreparedScene) : M Backend unit := λ b,
  if is_initialized b then render_nodes (map_to_list (p_nodes scene)) b
  else
    (Raise (RuntimeError (match kind b with
                          | Vulkan => "Vulkan backend not initialized"
                          | WebGPU => "WebGPU backend not initialized"
                          end)), b).

(** [display] of either backend: it prints, and checks nothing. *)
Definition backend_display : M Backend unit := mret tt.

(** [DisplayBackend], as far as [display] goes. *)
Record DisplayBackend := {
  d_is_initialized : bool;
  d_is_displaying : bool;
}.

Definition DisplayBackend_init : DisplayBackend :=
  {| d_is_initialized := false; d_is_displaying := false |}.

(** [DisplayBackend.display] *)
Definition DisplayBackend_display : M DisplayBackend unit := λ d,
  if d_is_initialized d
  then (Ok tt, {| d_is_initialized := true; d_is_displaying := true |})
  else (Raise (RuntimeError "Display backend not initialized"), d).

(** *** The renderer *)

(** [Renderer], with the stores its calls read and write: the dictionaries
    a scene refers to and the buffer objects. *)
Record Renderer := {
  dicts : gmap loc pydict;
  buffer_store : gmap loc DataBuffer;
  backend_name : string;
  interactive : bool;
  shader_manager : ShaderManager;
  backend : Backend;
  initialized : bool;
  viewport_size : Z * Z;
}.

(** [Renderer.__init__]; [_supports_vulkan] and [_supports_webgpu] return
    [True]. *)
Definition Renderer_init (ds : gmap loc pydict) (bs : gmap loc DataBuffer)
    (backend_name : string) (interactive : bool) : Renderer :=
  let supports_vulkan := true in
  let supports_webgpu := true in
  let k :=
    if bool_decide (backend_name = "vulkan")
       || (bool_decide (backend_name = "auto") && supports_vulkan)
    then Vulkan
    else if bool_decide (backend_name = "webgpu")
            || (bool_decide (backend_name = "auto") && supports_webgpu)
    then WebGPU
    else Vulkan in
  {| dicts := ds; buffer_store := bs; backend_name := backend_name;
     interactive := interactive; shader_manager := ShaderManager_init;
     backend := Backend_init k; initialized := false;
     viewport_size := (800, 600)%Z |}.

Definition with_backend (f : Backend → Backend) (r : Renderer) : Renderer :=
  {| dicts := dicts r; buffer_store := buffer_store r;
     backend_name := backend_name r; interactive := interactive r;
     shader_manager := shader_manager r; backend := f (backend r);
     initialized := initialized r; viewport_size := viewport_size r |}.

Definition with_shader_manager (f : ShaderManager → ShaderManager)
    (r : Renderer) : Renderer :=
  {| dicts := dicts r; buffer_store := buffer_store r;
     backend_name := backend_name r; interactive := interactive r;
     shader_manager := f (shader_manager r); backend := backend r;
     initialized := initialized r; viewport_size := viewport_size r |}.

Definition with_buffer_store (f : gmap loc DataBuffer → gmap loc DataBuffer)
    (r : Renderer) : Renderer :=
  {| dicts := dicts r; buffer_store := f (buffer_store r);
     backend_name := backend_name r; interactive := interactive r;
     shader_manager := shader_manager r; backend := backend r;
     initialized := initialized r; viewport_size := viewport_size r |}.

Definition set_initialized (r : Renderer) : Renderer :=
  {| dicts := dicts r; buffer_store := buffer_store r;
     backend_name := backend_name r; interactive := interactive r;
     shader_manager := shader_manager r; backend := backend r;
     initialized := true; viewport_size := viewport_size r |}.

(** Running a method of a component inside the renderer. *)
Definition on_shader_manager {A} (m : M ShaderManager A) : M Renderer A := λ r,
  let '(a, sm) := m (shader_manager r) in (a, with_shader_manager (λ _, sm) r).

Definition on_backend {A} (m : M Backend A) : M Renderer A := λ r,
  let '(a, b) := m (backend r) in (a, with_backend (λ _, b) r).

(** [Renderer.initialize] *)
Definition initialize : M Renderer unit := λ r,
  if initialized r then (Ok tt, r)
  else (Ok tt, set_initialized (with_backend backend_initialize r)).

(** The dictionary behind a reference of the scene. *)
Definition items (r : Renderer) (d : dictref) : pydict :=
  default [] (deref (dicts r) d).

(** [Renderer._process_node_data]: every buffer among the values is
    transferred; the items go to a new dictionary. *)
Definition process_node_data (node_data : pydict) : M Renderer pydict := λ r,
  (Ok (foldl (λ processed_data kv, dict_set kv.1 kv.2 processed_data) [] node_data),
   with_buffer_store
     (λ bs, foldl (λ bs kv, match kv.2 with
                            | VBuffer l => transfer_to_gpu l bs
                            | _ => bs
                            end) bs node_data) r).

(** The body of the loop of [_prepare_scene], for one node. *)
Definition prepare_node (node_id : string) (node_data : SnapNode)
  : M Renderer FrameNode :=
  let geometry_type := snap_geometry_type node_data in
  let material_props := snap_material_properties node_data in
  r ← get;
  shader_program ←
    on_shader_manager (get_shader_for_geometry geometry_type (items r material_props));
  processed_data ← process_node_data (items r (snap_data node_data));
  mret {| f_id := node_id;
          f_type := snap_type node_data;
          f_geometry_type := geometry_type;
          f_data := processed_data;
          f_material_properties := material_props;
          f_transform := snap_transform node_data;
          f_visible := snap_visible node_data;
          f_shader := shader_program |}.

(** The loop of [_prepare_scene]. *)
Definition prepare_nodes (nodes : gmap string SnapNode)
  : M Renderer (gmap string FrameNode) :=
  map_fold (λ node_id node_data (rest : M Renderer (gmap string FrameNode)),
              processed_nodes ← rest;
              processed_node ← prepare_node node_id node_data;
              mret (<[node_id := processed_node]> processed_nodes))
    (mret ∅) nodes.

(** [Renderer._prepare_scene] *)
Definition prepare_scene (scene : Snapshot) : M Renderer PreparedScene :=
  processed_nodes ← prepare_nodes (snap_nodes scene);
  r ← get;
  mret {| p_nodes := processed_nodes;
          p_camera := snap_camera scene;
          p_lighting := snap_lighting scene;
          p_viewport_size := viewport_size r |}.

(** [Renderer.render] *)
Definition render (scene : Snapshot) : M Renderer unit :=
  r ← get;
  (if initialized r then mret tt else initialize);;
  prepared_scene ← prepare_scene scene;
  on_backend (backend_render prepared_scene).

(** [Renderer.display] *)
Definition display : M Renderer unit := on_backend backend_display.

(** *** Invariants *)

(** What [_prepare_scene] leaves alone. *)
Definition same_setup (r r' : Renderer) : Prop :=
  dicts r' = dicts r ∧ backend r' = backend r
  ∧ initialized r' = initialized r ∧ viewport_size r' = viewport_size r.

End with_builtins.

End Render.

(** ** An exact-arithmetic instance of the numpy interface

    Rationals with exact operations and no rounding: enough to run the
    pipeline on concrete inputs. *)

Module Exact.

#[global] Instance Q_eq_dec : EqDecision Q.
Proof. solve_decision. Defined.

Definition decimal (m : Z) (e : nat) : Q :=
  Qred (Qmake m (Z.to_pos (10 ^ Z.of_nat e))).

Definition qmin (a b : Q) : Q := if Qle_bool a b then a else b.
Definition qmax (a b : Q) : Q := if Qle_bool a b then b else a.

(** Equal-width bins over [[min, max]], the last bin closed on the right. *)
Definition histogram (values : list Q) (bins : N) : list N * list Q :=
  let '(lo, hi) :=
    match values with
    | [] => (0%Q, 1%Q)
    | v :: vs =>
        let lo := foldr qmin v vs in
        let hi := foldr qmax v vs in
        if Qeq_bool lo hi
        then (Qred (lo - Qmake 1 2), Qred (hi + Qmake 1 2))%Q
        else (lo, hi)
    end in
  let w := ((hi - lo) / inject_Z (Z.of_N bins))%Q in
  let bin_of (v : Q) : nat :=
    Z.to_nat (Z.min (Z.of_N bins - 1) (Qfloor ((v - lo) / w)%Q)) in
  ((λ b, N.of_nat (length (filter (λ v, bin_of v = b) values)))
     <$> seq 0 (N.to_nat bins),
   (λ i, Qred (lo + inject_Z (Z.of_nat i) * w)%Q) <$> seq 0 (S (N.to_nat bins))).

#[global] Instance exact : Numpy := {|
  num := Q;
  f32 := λ q, q;
  lit := decimal;
  fadd := λ a b, Qred (a + b)%Q;
  fsub := λ a b, Qred (a - b)%Q;
  fdiv := λ a b, Qred (a / b)%Q;
  of_count := λ n, inject_Z (Z.of_N n);
  np_histogram := λ values bins,
    if decide (bins = 0)%N then None else Some (histogram values bins);
|}.

End Exact.

(** ** A stand-in for the Python builtins

    A 64-bit polynomial string hash and a plain rendering of values: enough
    to run the shader manager on concrete inputs. *)

Module Builtins.

Fixpoint hash_from (h : Z) (s : string) : Z :=
  match s with
  | EmptyString => h
  | String c s' => hash_from ((31 * h + Z.of_N (Ascii.N_of_ascii c)) mod 2 ^ 64)%Z s'
  end.

(** The hash as a signed 64-bit integer. *)
Definition hash (s : string) : Z :=
  let h := hash_from 7 s in
  if decide (h < 2 ^ 63)%Z then h else (h - 2 ^ 64)%Z.

Fixpoint repr (v : pyval) : string :=
  match v with
  | VNone => "None"
  | VBool b => if b then "True" else "False"
  | VInt z => pretty z
  | VStr s => "'" +:+ s +:+ "'"
  | VList l => "[" +:+ str_join ", " (List.map repr l) +:+ "]"
  | VBuffer l => "<DataBuffer object at " +:+ pretty l +:+ ">"
  | VObject l => "<object at " +:+ pretty l +:+ ">"
  end.

Definition str (v : pyval) : string :=
  match v with
  | VStr s => s
  | _ => repr v
  end.

#[global] Instance builtins : Python := {|
  py_hash := hash;
  py_repr := repr;
  py_str := str;
|}.

End Builtins.

(** ** The buffer registry as a whole *)

Section registry_more.
Context `{Numpy}.

(** [ZeroCopyDataPipeline.transfer_all_to_gpu]: the loop over
    [self.buffers.items()]. *)
Definition transfer_all_to_gpu : M ZeroCopyDataPipeline unit := λ z,
  (Ok tt,
   {| store := foldl (λ st kv, transfer_to_gpu kv.2 st) (store z)
                 (map_to_list (buffers z));
      buffers := buffers z;
      streaming_buffers := streaming_buffers z |}).

(** Every registered name refers to a buffer object. *)
Definition registry_ok (z : ZeroCopyDataPipeline) : Prop :=
  ∀ name l, buffers z !! name = Some l → is_Some (store z !! l).

End registry_more.

Section displaced_buffers.
Context `{Numpy}.

(** What a [second] entry point does to the buffers of a [first] one that
    ran before it: the buffers the first payload refers to are registered
    under no name any more, and [transfer_all_to_gpu] leaves them as the
    first call made them. *)
Definition displaces (first second : M ZeroCopyDataPipeline pydict) : Prop :=
  ∀ z p1 z1 p2 z2,
    registry_ok z → first z = (Ok p1, z1) → second z1 = (Ok p2, z2) →
    ∀ k l, dict_get k p1 = Some (VBuffer l) →
      (∀ name, buffers z2 !! name ≠ Some l)
      ∧ is_Some (store z1 !! l)
      ∧ store (transfer_all_to_gpu z2).2 !! l = store z1 !! l.

End displaced_buffers.

(** ** What the scene manager registers *)

Section scene_registry.
Import Scene.

(** The geometry types the four [add_*] methods give their nodes. *)
Definition geometry_kinds : list string := ["line"; "scatter"; "bar"; "histogram"].

(** The object registered under the id [i]: it carries that id, is visible
    and untransformed; it is the root, or it hangs below the root and is a
    geometry node with its two dictionaries or a dashboard without any. *)
Definition registered_ok (s : SceneManager) (i : string) (n : SceneNode) : Prop :=
  node_id n = i ∧ visible n = true ∧ transform n = eye4
  ∧ ((i = "root" ∧ node_type n = "root" ∧ geometry_type n = None
      ∧ data n = None ∧ material_properties n = None)
     ∨ (i ≠ "root" ∧ parent n = Some (root_node s)
        ∧ ((node_type n = "geometry"
            ∧ (∃ g, geometry_type n = Some g ∧ g ∈ geometry_kinds)
            ∧ is_Some (data n) ∧ is_Some (material_properties n))
           ∨ (node_type n = "dashboard" ∧ geometry_type n = None
              ∧ data n = None ∧ material_properties n = None)))).

(** The registry invariant: every registered id names such an object, and
    the ones other than the root are among the root's children. *)
Definition registry_wf (s : SceneManager) : Prop :=
  ∀ i l, nodes s !! i = Some l →
    ∃ n, objects s !! l = Some n ∧ registered_ok s i n
         ∧ (i ≠ "root" →
            ∃ r, objects s !! root_node s = Some r ∧ l ∈ children r).

(** The widget object [create_dashboard] makes for the [k]-th configuration
    of the dashboard [dashboard_id], whose object is [d]. *)
Definition widget_node (dashboard_id : string) (d : loc) (k : nat) (config : loc)
  : SceneNode :=
  set_parent (Some d)
    (set_properties config
       (SceneNode_init ("widget_" +:+ dashboard_id +:+ "_" +:+ pretty k) "widget")).

End scene_registry.

Section add_methods.
Import Scene.

(** The four [add_*] methods, by the geometry type they register. *)
Definition add_methods : list (string * (loc → pydict → M SceneManager string)) :=
  [("line", add_line); ("scatter", add_scatter);
   ("bar", add_bar); ("histogram", add_histogram)].

End add_methods.

(** ** Histories of calls to the shader manager *)

Section shader_histories.
Import Shader.
Context `{Python}.

(** The calls that change a shader manager. *)
Inductive shader_call :=
| GetShaderForGeometry (geometry_type : option string) (material_properties : pydict)
| GetShaderForWidget (widget_type : string) (geometry_type : option string)
    (material_properties : pydict)
| RegisterCustomShader (name vertex_shader fragment_shader : string)
    (geometry_types : list string).

(** The state a call leaves. *)
Definition shader_exec (c : shader_call) (sm : ShaderManager) : ShaderManager :=
  match c with
  | GetShaderForGeometry g p => (get_shader_for_geometry g p sm).2
  | GetShaderForWidget w g p => (get_shader_for_widget w g p sm).2
  | RegisterCustomShader name vs fs gts =>
      (register_custom_shader name vs fs gts sm).2
  end.

Definition shader_run (cs : list shader_call) (sm : ShaderManager) : ShaderManager :=
  foldl (λ sm c, shader_exec c sm) sm cs.

(** The template [get_shader_for_geometry] starts from on a cache miss
    (lines 211-219): the one of the geometry type, or else the one of
    ["point"]. *)
Definition template_for (geometry_type : option string) (sm : ShaderManager)
  : option (string * string) :=
  match geometry_type ≫= (default_shaders sm !!.) with
  | Some shaders => Some shaders
  | None => default_shaders sm !! "point"
  end.

End shader_histories.

Section customization_steps.
Import Shader.
Context `{Python}.

(** The two steps of [_customize_shader_with_material], each on the
    fragment shader the step before left. *)
Definition color_step (material_properties : pydict) (modified_fs : string)
  : string :=
  if bool_decide (is_Some (dict_get "color" material_properties)) then
    if negb (str_contains "uniform vec4 materialColor;" modified_fs) then
      "#version 450
uniform vec4 materialColor;
" +:+ str_replace "fragColor =" "fragColor = baseColor * "
        (str_replace "void main() {" "void main() {
    vec4 baseColor = materialColor;" modified_fs)
    else modified_fs
  else modified_fs.

Definition opacity_step (material_properties : pydict) (modified_fs : string)
  : string :=
  if bool_decide (is_Some (dict_get "opacity" material_properties)) then
    if negb (str_contains "uniform float opacity;" modified_fs) then
      "#version 450
uniform float opacity;
" +:+ str_replace "fragColor ="
        ("fragColor = vec4("
           +:+ from_option py_str "1.0, 1.0, 1.0" (dict_get "color" material_properties)
           +:+ ", opacity) * ")
        modified_fs
    else modified_fs
  else modified_fs.

(** A character occurs in a string. *)
Fixpoint has_char (c : Ascii.ascii) (s : string) : bool :=
  match s with
  | EmptyString => false
  | String c' s' => bool_decide (c = c') || has_char c s'
  end.

End customization_steps.

(** ** Inputs for the examples *)

Section examples.
Import Scene Shader Render.

(** A scene with a single node, hidden. *)
Definition hidden_scene : Snapshot :=
  {| snap_nodes :=
       {[ "node1" := {| snap_type := "geometry";
                        snap_geometry_type := Some "line";
                        snap_data := Own [];
                        snap_material_properties := Own [("color", VStr "blue")];
                        snap_transform := eye4;
                        snap_visible := false |} ]};
     snap_camera := 0; snap_lighting := 1 |}.

(** A renderer as [Renderer()] makes it. *)
Definition renderer0 : Renderer (H := Exact.exact) :=
  Renderer_init {[ 0 := []; 1 := [] ]} ∅ "auto" true.

(** The scene of an empty scene manager. *)
Definition empty_scene : Snapshot := get_scene SceneManager_init.

End examples.

(** The builtins of a program in which object 0 is an instance of

      class R:
          def __repr__(self): return "1), ('b', 2"

    and every other value prints as usual. *)
Module CraftedRepr.

Definition repr (v : pyval) : string :=
  match v with
  | VObject 0 => "1), ('b', 2"
  | _ => Builtins.repr v
  end.

Definition builtins : Python :=
  {| py_hash := Builtins.hash; py_repr := repr; py_str := repr |}.

End CraftedRepr.

(** ** Buffers on their way to the GPU *)

Section buffer_transfers.
Context `{Numpy}.

(** [st'] is [st] after the buffers of [S] have been transferred: the same
    buffer objects with the same data and type; those of [S] have a GPU
    address, the others have the address they had, if any. *)
Definition transferred (S : loc → Prop) (st st' : gmap loc DataBuffer) : Prop :=
  dom st' = dom st
  ∧ ∀ l b, st !! l = Some b →
      ∃ b', st' !! l = Some b'
            ∧ data b' = data b ∧ buffer_type b' = buffer_type b
            ∧ (is_Some (gpu_address b) → is_Some (gpu_address b'))
            ∧ (S l → is_Some (gpu_address b'))
            ∧ (¬ S l → gpu_address b' = gpu_address b).

(** The buffers a dictionary refers to. *)
Definition buffers_of (d : pydict) (l : loc) : Prop := ∃ k, (k, VBuffer l) ∈ d.

End buffer_transfers.

(** ** More of the renderer ([render/renderer.py]) *)

Section render_more.
Import Scene Shader Render.
Context `{Numpy} `{Python}.

(** The body of the loop of [_prepare_dashboard_scene], for one node. *)
Definition prepare_dashboard_node (node_id : string) (node_data : SnapNode)
  : M Renderer FrameNode :=
  let node_type := snap_type node_data in
  let geometry_type := snap_geometry_type node_data in
  let material_props := snap_material_properties node_data in
  r ← get;
  shader_program ←
    on_shader_manager
      (get_shader_for_widget node_type geometry_type (items r material_props));
  processed_data ← process_node_data (items r (snap_data node_data));
  mret {| f_id := node_id;
          f_type := node_type;
          f_geometry_type := geometry_type;
          f_data := processed_data;
          f_material_properties := material_props;
          f_transform := snap_transform node_data;
          f_visible := snap_visible node_data;
          f_shader := shader_program |}.

(** The loop of [_prepare_dashboard_scene]. *)
Definition prepare_dashboard_nodes (nodes : gmap string SnapNode)
  : M Renderer (gmap string FrameNode) :=
  map_fold (λ node_id node_data (rest : M Renderer (gmap string FrameNode)),
              processed_nodes ← rest;
              processed_node ← prepare_dashboard_node node_id node_data;
              mret (<[node_id := processed_node]> processed_nodes))
    (mret ∅) nodes.

(** [Renderer._prepare_dashboard_scene] *)
Definition prepare_dashboard_scene (dashboard_scene : Snapshot)
  : M Renderer PreparedScene :=
  processed_nodes ← prepare_dashboard_nodes (snap_nodes dashboard_scene);
  r ← get;
  mret {| p_nodes := processed_nodes;
          p_camera := snap_camera dashboard_scene;
          p_lighting := snap_lighting dashboard_scene;
          p_viewport_size := viewport_size r |}.

(** [Renderer.render_dashboard] *)
Definition render_dashboard (dashboard_scene : Snapshot) : M Renderer unit :=
  r ← get;
  (if initialized r then mret tt else initialize);;
  prepared_scene ← prepare_dashboard_scene dashboard_scene;
  on_backend (backend_render prepared_scene).

(** The buffers the data dictionaries of a snapshot refer to, the
    dictionaries being read in the store [ds]. *)
Definition scene_buffers (ds : gmap loc pydict) (nodes : gmap string SnapNode)
    (l : loc) : Prop :=
  ∃ i e d, nodes !! i = Some e ∧ deref ds (snap_data e) = Some d ∧ buffers_of d l.

(** The renderer invariant: the shader manager is in order, and the
    renderer is marked initialized only once its backend is. *)
Definition renderer_ok (r : Renderer) : Prop :=
  sm_ok (shader_manager r)
  ∧ (initialized r = true → is_initialized (backend r) = true).

End render_more.

(** ** The application layer ([application/plotter.py], [application/visualizer.py])

    An application object owns a scene manager, a data pipeline and a
    renderer. The dictionaries it passes around live in the store of the
    scene manager and the buffers in the store of the pipeline: the renderer
    is run on these two stores, and the buffers it transfers are written
    back. *)

Module Plotter.
Section with_builtins.
Import Scene Shader Render.
Context `{Numpy} `{Python}.

(** [Plotter]; of [DataPipeline] the state is its [zero_copy_pipeline]. *)
Record Plotter := {
  backend : string;
  scene_manager : SceneManager;
  data_pipeline : ZeroCopyDataPipeline;
  renderer : Renderer;
}.

(** [Plotter.__init__] *)
Definition Plotter_init (backend : string) : Plotter :=
  {| backend := backend;
     scene_manager := SceneManager_init;
     data_pipeline := ZeroCopyDataPipeline_init;
     renderer := Renderer_init (Scene.dicts SceneManager_init) ∅ backend true |}.

(** A method of a component, run inside the plotter. *)
Definition on_data_pipeline {A} (m : M ZeroCopyDataPipeline A) : M Plotter A := λ p,
  let '(a, z) := m (data_pipeline p) in
  (a, {| backend := backend p; scene_manager := scene_manager p;
         data_pipeline := z; renderer := renderer p |}).

Definition on_scene_manager {A} (m : M SceneManager A) : M Plotter A := λ p,
  let '(a, s) := m (scene_manager p) in
  (a, {| backend := backend p; scene_manager := s;
         data_pipeline := data_pipeline p; renderer := renderer p |}).

Definition on_renderer {A} (m : M Renderer A) : M Plotter A := λ p,
  let r := renderer p in
  let '(a, r') :=
    m {| Render.dicts := Scene.dicts (scene_manager p);
         buffer_store := store (data_pipeline p);
         backend_name := backend_name r; interactive := interactive r;
         shader_manager := shader_manager r; Render.backend := Render.backend r;
         initialized := initialized r; viewport_size := viewport_size r |} in
  (a, {| backend := backend p; scene_manager := scene_manager p;
         data_pipeline :=
           {| store := buffer_store r';
              buffers := buffers (data_pipeline p);
              streaming_buffers := streaming_buffers (data_pipeline p) |};
         renderer := r' |}).

(** The body shared by [plot], [scatter], [bar] and [histogram]: they
    differ in the entry point of the pipeline and in the [add_*] method.
    The dictionary the entry point returns is the one handed to the scene
    manager, in the call [add_*(processed_data, **kwargs)]: with a key
    ["data"] among the keyword arguments that call raises [TypeError]
    (two values for the parameter [data]) before the body of [add_*] runs.
    [kwargs] is what the plotting method bound, so it holds none of the
    method's own parameter names; for [histogram], whose first parameter is
    [data], it never holds ["data"]. *)
Definition plot_with (process : M ZeroCopyDataPipeline pydict)
    (add : loc → pydict → M SceneManager string) (kwargs : pydict)
  : M Plotter unit :=
  processed_data ← on_data_pipeline process;
  if bool_decide (is_Some (dict_get "data" kwargs)) then
    raise (TypeError "got multiple values for argument 'data'")
  else
    d ← on_scene_manager (new_dict processed_data);
    on_scene_manager (add d kwargs);;
    p ← get;
    on_renderer (render (get_scene (scene_manager p))).

(** [Plotter.plot] *)
Definition plot (x y : list num) (kwargs : pydict) : M Plotter unit :=
  plot_with (process_line_data x y) add_line kwargs.

(** [Plotter.scatter] *)
Definition scatter (x y : list num) (c : option color_arg) (s : option size_arg)
    (kwargs : pydict) : M Plotter unit :=
  plot_with (process_scatter_data x y c s) add_scatter kwargs.

(** [Plotter.bar] *)
Definition bar (x height : list num) (kwargs : pydict) : M Plotter unit :=
  plot_with (process_bar_data x height) add_bar kwargs.

(** [Plotter.histogram] *)
Definition histogram (values : list num) (bins : N) (kwargs : pydict)
  : M Plotter unit :=
  plot_with (process_histogram_data values bins) add_histogram kwargs.

(** [Plotter.show] *)
Definition show : M Plotter unit := on_renderer display.

(** The plotter invariant: its scene manager is in a state its methods can
    reach, and its renderer is in order. *)
Definition plotter_ok (p : Plotter) : Prop :=
  reachable (scene_manager p) ∧ renderer_ok (renderer p).

(** What a plotting method has done to the plotter [p] by the time the
    draw call is reached, the pipeline having returned [payload] and left
    the registry [z]: in the plotter [p'] the node is in the scene, under
    the id made of the geometry type [g] and the number of ids registered
    before, visible, with the payload as its data; the renderer is
    initialized; and the buffers of the payload have been transferred. *)
Definition plotted (g : string) (payload : pydict) (z : ZeroCopyDataPipeline)
    (p p' : Plotter) : Prop :=
  plotter_ok p'
  ∧ initialized (renderer p') = true
  ∧ buffers (data_pipeline p') = buffers z
  ∧ (∃ e d,
       snap_nodes (get_scene (scene_manager p'))
         !! (g +:+ "_" +:+ pretty (size (nodes (scene_manager p)))) = Some e
       ∧ snap_geometry_type e = Some g ∧ snap_visible e = true
       ∧ snap_data e = Shared d
       ∧ Scene.dicts (scene_manager p') !! d = Some payload)
  ∧ ∀ k l, dict_get k payload = Some (VBuffer l) →
      ∃ b, store (data_pipeline p') !! l = Some b ∧ is_Some (gpu_address b).

(** The outcome [r] of a plotting method on the plotter [p], by the outcome
    of its pipeline entry point: if the entry point raises, so does the
    method, and the plotter is as before. If it returns and the keyword
    arguments hold the key ["data"], the method raises [TypeError]: the
    pipeline is as the entry point left it, the scene manager and the
    renderer are as before. If it returns and there is no such key, the
    method raises [KeyError] from the draw call, after all of the above. *)
Definition plot_outcome (g : string)
    (processed : result pydict * ZeroCopyDataPipeline) (kwargs : pydict)
    (p : Plotter) (r : result unit * Plotter) : Prop :=
  match processed with
  | (Ok payload, z) =>
      if bool_decide (is_Some (dict_get "data" kwargs)) then
        (∃ msg, r.1 = Raise (TypeError msg))
        ∧ r.2 = {| backend := backend p; scene_manager := scene_manager p;
                   data_pipeline := z; renderer := renderer p |}
      else
        r.1 = Raise (KeyError "primitive_type") ∧ plotted g payload z p r.2
  | (Raise e, _) => r = (Raise e, p)
  end.

End with_builtins.
End Plotter.

Module Visualizer.
Section with_builtins.
Import Scene Shader Render.
Context `{Numpy} `{Python}.

(** [Visualizer] *)
Record Visualizer := {
  backend : string;
  interactive : bool;
  scene_manager : SceneManager;
  data_pipeline : ZeroCopyDataPipeline;
  renderer : Renderer;
}.

(** [Visualizer.__init__] *)
Definition Visualizer_init (backend : string) (interactive : bool) : Visualizer :=
  {| backend := backend; interactive := interactive;
     scene_manager := SceneManager_init;
     data_pipeline := ZeroCopyDataPipeline_init;
     renderer := Renderer_init (Scene.dicts SceneManager_init) ∅ backend interactive |}.

Definition on_scene_manager {A} (m : M SceneManager A) : M Visualizer A := λ v,
  let '(a, s) := m (scene_manager v) in
  (a, {| backend := backend v; interactive := interactive v; scene_manager := s;
         data_pipeline := data_pipeline v; renderer := renderer v |}).

Definition on_renderer {A} (m : M Renderer A) : M Visualizer A := λ v,
  let r := renderer v in
  let '(a, r') :=
    m {| Render.dicts := Scene.dicts (scene_manager v);
         buffer_store := store (data_pipeline v);
         backend_name := backend_name r; Render.interactive := Render.interactive r;
         shader_manager := shader_manager r; Render.backend := Render.backend r;
         initialized := initialized r; viewport_size := viewport_size r |} in
  (a, {| backend := backend v; interactive := interactive v;
         scene_manager := scene_manager v;
         data_pipeline :=
           {| store := buffer_store r';
              buffers := buffers (data_pipeline v);
              streaming_buffers := streaming_buffers (data_pipeline v) |};
         renderer := r' |}).

(** [Visualizer.create_dashboard]; [widgets] are the configuration
    dictionaries, by reference. *)
Definition create_dashboard (widgets : list loc) (layout : string)
  : M Visualizer unit :=
  on_scene_manager (Scene.create_dashboard widgets layout);;
  v ← get;
  on_renderer (render_dashboard (get_dashboard (scene_manager v))).

(** The visualizer invariant, as for a plotter. *)
Definition visualizer_ok (v : Visualizer) : Prop :=
  reachable (scene_manager v) ∧ renderer_ok (renderer v).

End with_builtins.
End Visualizer.

(** ** Configuration ([utils/config.py]) *)

Module Config.

(** A settings value, as JSON has them: [None], a boolean, an integer, a
    string, a list, or a dictionary. A dictionary is an object: the value is
    a reference to it, so that one dictionary can be the value of several
    keys, as happens when a dictionary obtained from [get] is handed to
    [set]. (A list is an object too, but this module never changes one.) *)
Inductive setting :=
| SNone
| SBool (b : bool)
| SInt (z : Z)
| SStr (s : string)
| SList (l : list setting)
| SDict (l : loc).

(** A dictionary object, with string keys: its items in insertion order. *)
Definition dict := list (string * setting).

(** [d.get(key)] on the items of a dictionary *)
Fixpoint lookup_key (key : string) (d : dict) : option setting :=
  match d with
  | [] => None
  | (k, v) :: d' => if decide (key = k) then Some v else lookup_key key d'
  end.

(** [d[key] = v]: an existing key keeps its place, a new one goes last. *)
Fixpoint store_key (key : string) (v : setting) (d : dict) : dict :=
  match d with
  | [] => [(key, v)]
  | (k, v') :: d' =>
      if decide (key = k) then (k, v) :: d' else (k, v') :: store_key key v d'
  end.

(** [key_path.split('.')]: the pieces between the dots; never empty. *)
Fixpoint split_dots (key_path : string) : list string :=
  match key_path with
  | EmptyString => [EmptyString]
  | String c rest =>
      if decide (c = Ascii.ascii_of_nat 46) then EmptyString :: split_dots rest
      else
        match split_dots rest with
        | piece :: pieces => String c piece :: pieces
        | [] => [String c EmptyString]
        end
  end.

(** [isinstance(value, dict)]: a reference to a dictionary object *)
Definition is_dict (h : gmap loc dict) (value : setting) : bool :=
  match value with
  | SDict l => bool_decide (is_Some (h !! l))
  | _ => false
  end.

(** A new dictionary object *)
Definition alloc (d : dict) (h : gmap loc dict) : loc * gmap loc dict :=
  let l := fresh (dom h) in (l, <[l := d]> h).

(** [Config._default_settings]: six new dictionaries; the result is the
    outer one. *)
Definition default_settings (h : gmap loc dict) : loc * gmap loc dict :=
  let '(rendering, h) :=
    alloc [("backend", SStr "auto");
           ("antialiasing", SBool true);
           ("vsync", SBool true);
           ("multisampling", SInt 4);
           ("max_fps", SInt 60)] h in
  let '(performance, h) :=
    alloc [("use_gpu_acceleration", SBool true);
           ("lod_enabled", SBool true);
           ("streaming_buffer_size", SInt 1024);
           ("max_concurrent_operations", SInt 8)] h in
  let '(visualization, h) :=
    alloc [("default_color_scheme", SStr "viridis");
           ("show_axes", SBool true);
           ("show_grid", SBool true);
           ("theme", SStr "dark")] h in
  let '(data_processing, h) :=
    alloc [("chunk_size", SInt 10000);
           ("use_zero_copy", SBool true);
           ("compression_enabled", SBool true)] h in
  let '(logging, h) :=
    alloc [("level", SStr "INFO");
           ("performance_logging", SBool true)] h in
  alloc [("rendering", SDict rendering);
         ("performance", SDict performance);
         ("visualization", SDict visualization);
         ("data_processing", SDict data_processing);
         ("logging", SDict logging)] h.

(** [Config], as far as [get], [set] and [reset_to_defaults] go: the
    [settings] attribute refers to a dictionary, and [dicts] holds the
    dictionary objects. *)
Record Config := {
  config_file : option string;
  settings : loc;
  dicts : gmap loc dict;
}.

(** [Config.__init__] without a file to load *)
Definition Config_init : Config :=
  let '(settings, h) := default_settings ∅ in
  {| config_file := None; settings := settings; dicts := h |}.

(** The loop of [get]: the value reached, or [default] as soon as a key is
    missing or the value at hand is not a dictionary. *)
Fixpoint get_loop (keys : list string) (value default : setting)
    (h : gmap loc dict) : setting :=
  match keys with
  | [] => value
  | key :: keys' =>
      match value with
      | SDict l =>
          match h !! l ≫= lookup_key key with
          | Some v => get_loop keys' v default h
          | None => default
          end
      | _ => default
      end
  end.

(** [Config.get]; a dictionary is returned as the object it is. *)
Definition get (key_path : string) (default : setting) (c : Config) : setting :=
  get_loop (split_dots key_path) (SDict (settings c)) default (dicts c).

(** The loop of [set] and its last assignment, from the dictionary
    [config_ref] on: a missing dictionary is made and stored on the way,
    and the value is stored as it is, a dictionary by reference. When
    [config_ref] is not a dictionary (a string, a number, a list or [None]
    is tested with [in] or indexed by a string key) Python raises
    [TypeError]. An empty list of keys, which [split] never returns, would
    raise [IndexError] at [keys[-1]]. *)
Fixpoint set_loop (keys : list string) (value config_ref : setting)
    (h : gmap loc dict) : result unit * gmap loc dict :=
  match keys with
  | [] => (Raise IndexError, h)
  | key :: keys' =>
      match config_ref with
      | SDict l =>
          match h !! l with
          | Some d =>
              match keys' with
              | [] => (Ok tt, <[l := store_key key value d]> h)
              | _ :: _ =>
                  match lookup_key key d with
                  | Some sub => set_loop keys' value sub h
                  | None =>
                      let '(new, h) := alloc [] h in
                      set_loop keys' value (SDict new)
                        (<[l := store_key key (SDict new) d]> h)
                  end
              end
          | None => (Raise (TypeError "not a dictionary"), h)
          end
      | _ => (Raise (TypeError "not a dictionary"), h)
      end
  end.

(** The dictionaries after the loop of [set] has made a dictionary for the
    key [key], missing in the dictionary [l] with the items [d]. *)
Definition with_new (h : gmap loc dict) (l : loc) (key : string) (d : dict)
  : gmap loc dict :=
  let new := fresh (dom h) in
  <[l := store_key key (SDict new) d]> (<[new := []]> h).

(** [Config.set] *)
Definition set (key_path : string) (value : setting) : M Config unit := λ c,
  let '(r, h) :=
    set_loop (split_dots key_path) value (SDict (settings c)) (dicts c) in
  (r, {| config_file := config_file c; settings := settings c; dicts := h |}).

(** [Config.reset_to_defaults] *)
Definition reset_to_defaults : M Config unit := λ c,
  let '(settings, h) := default_settings (dicts c) in
  (Ok tt, {| config_file := config_file c; settings := settings; dicts := h |}).

(** The value a key path leads to from [value], when every key on the way
    is there: [None] where [get] returns its default. *)
Fixpoint walk (h : gmap loc dict) (value : setting) (keys : list string)
  : option setting :=
  match keys with
  | [] => Some value
  | key :: keys' =>
      match value with
      | SDict l =>
          match h !! l ≫= lookup_key key with
          | Some v => walk h v keys'
          | None => None
          end
      | _ => None
      end
  end.

(** The value under a key of a dictionary object. *)
Definition cell (h : gmap loc dict) (l : loc) (key : string) : option setting :=
  h !! l ≫= lookup_key key.

(** A dictionary that is the value of a key exists. *)
Definition closed (h : gmap loc dict) : Prop :=
  ∀ l k x, cell h l k = Some (SDict x) → is_Some (h !! x).

(** From the dictionary [l] no dictionary is reached by two different key
    paths. *)
Definition tree_from (h : gmap loc dict) (l : loc) : Prop :=
  ∀ a b x, walk h (SDict l) a = Some (SDict x) →
           walk h (SDict l) b = Some (SDict x) → a = b.

(** A configuration whose dictionaries are not shared: the settings refer
    to a dictionary; a dictionary that is the value of a key exists, and is
    the value of no other key of any dictionary; and the settings
    dictionary itself is the value of no key. *)
Definition unshared (c : Config) : Prop :=
  is_Some (dicts c !! settings c)
  ∧ closed (dicts c)
  ∧ (∀ l k, cell (dicts c) l k ≠ Some (SDict (settings c)))
  ∧ (∀ l1 k1 l2 k2 x,
       cell (dicts c) l1 k1 = Some (SDict x) →
       cell (dicts c) l2 k2 = Some (SDict x) → l1 = l2 ∧ k1 = k2).

End Config.

(** ** Layouts ([engine/layout_manager.py]) *)

Module Layout.

(** Python's floats and the operations the layout code uses on them. An
    integer operand is converted first: the conversion raises
    [OverflowError] for an integer that does not fit ([fits]) and gives
    [of_int] otherwise. What fits is decided by the magnitude, and every
    integer below [2^63] in magnitude fits. [1.0] and [100.0] are
    [of_int 1] and [of_int 100].

    The conversion of an integer to its decimal string raises [ValueError]
    in Python 3.11 and later for an integer of more digits than
    [sys.int_max_str_digits] (4300 unless set otherwise, and never fewer
    than 640): [printable] tells the integers that are converted. In
    earlier versions every integer is. An integer that fits a float has
    309 digits at most. *)
Class Floats := {
  float : Type;
  fits : Z → bool;
  printable : Z → bool;
  of_int : Z → float;
  fl_add : float → float → float;
  fl_sub : float → float → float;
  fl_mul : float → float → float;
  (** [x / y] for [y] other than zero *)
  fl_div : float → float → float;
  fits_magnitude a b : (Z.abs a ≤ Z.abs b)%Z → fits b = true → fits a = true;
  fits_small a : (Z.abs a < 2 ^ 63)%Z → fits a = true;
  fits_printable a : fits a = true → printable a = true;
}.

(** The exceptions of this module. *)
Inductive raised :=
| ZeroDivisionError
| OverflowError
| ValueError (msg : string)
| KeyError (key : string).

Inductive outcome (A : Type) :=
| Returns (a : A)
| Raises (e : raised).
Arguments Returns {A} a.
Arguments Raises {A} e.

(** A [dict] with string keys, in insertion order: [d.get(k)] and
    [d[k] = v] (an existing key keeps its place, a new one goes last). *)
Fixpoint item_get {A} (k : string) (d : list (string * A)) : option A :=
  match d with
  | [] => None
  | (k', v) :: d' => if decide (k = k') then Some v else item_get k d'
  end.

Fixpoint item_set {A} (k : string) (v : A) (d : list (string * A))
  : list (string * A) :=
  match d with
  | [] => [(k, v)]
  | (k', v') :: d' =>
      if decide (k = k') then (k, v) :: d' else (k', v') :: item_set k v d'
  end.

Section layout_manager.
Context `{Floats}.

(** The dictionary of one element of a grid layout. *)
Record element_info := {
  position : float * float;
  size : float * float;
  row : Z;
  col : Z;
}.

(** The dictionary of a grid layout. *)
Record layout_info := {
  type : string;
  rows : Z;
  cols : Z;
  padding : float;
  elements : list (string * element_info);
}.

(** [LayoutManager], holding grid layouts. *)
Record LayoutManager := {
  layouts : gmap string layout_info;
  current_layout : option string;
}.

(** [LayoutManager.__init__] *)
Definition LayoutManager_init : LayoutManager :=
  {| layouts := ∅; current_layout := None |}.

(** The body of the loop of [create_grid_layout] after the capacity test:
    the dictionary of the element with index [idx]. *)
Definition grid_cell (cols : Z) (cell_width cell_height padding : float) (idx : Z)
  : element_info :=
  let row := (idx `div` cols)%Z in
  let col := (idx `mod` cols)%Z in
  let x := fl_mul (of_int col) cell_width in
  let y := fl_mul (of_int row) cell_height in
  let width := cell_width in
  let height := cell_height in
  let pad_x := fl_div padding (of_int 100) in
  let pad_y := fl_div padding (of_int 100) in
  {| position := (fl_add x (fl_div pad_x (of_int 2)),
                  fl_add y (fl_div pad_y (of_int 2)));
     size := (fl_sub width pad_x, fl_sub height pad_y);
     row := row;
     col := col |}.

(** [for idx, element_id in enumerate(element_ids)], from index [idx] on,
    with its [break]; [col * cell_width] and [row * cell_height] convert
    [col] and [row]. *)
Fixpoint grid_loop (rows cols : Z) (cell_width cell_height padding : float)
    (idx : Z) (element_ids : list string)
    (elements : list (string * element_info))
  : outcome (list (string * element_info)) :=
  match element_ids with
  | [] => Returns elements
  | element_id :: rest =>
      if decide (rows ≤ idx `div` cols)%Z then Returns elements
      else if negb (fits (idx `mod` cols)) then Raises OverflowError
      else if negb (fits (idx `div` cols)) then Raises OverflowError
      else
        grid_loop rows cols cell_width cell_height padding (idx + 1) rest
          (item_set element_id
             (grid_cell cols cell_width cell_height padding idx) elements)
  end.

(** [LayoutManager.create_grid_layout]: the layout id is made first, and
    the conversion of [rows] and then of [cols] to a string can raise
    [ValueError]; [1.0 / cols] and then [1.0 / rows] raise [OverflowError]
    for a divisor that does not fit a float and [ZeroDivisionError] for a
    zero divisor; whatever is raised, here or in the loop, is raised before
    anything is stored. *)
Definition create_grid_layout (rows cols : Z) (element_ids : list string)
    (padding : float) (lm : LayoutManager)
  : outcome layout_info * LayoutManager :=
  let layout_id :=
    "grid_" +:+ pretty rows +:+ "x" +:+ pretty cols +:+ "_"
      +:+ pretty (base.size (layouts lm)) in
  if negb (printable rows) || negb (printable cols) then
    (Raises (ValueError "Exceeds the limit for integer string conversion"), lm)
  else if negb (fits cols) then (Raises OverflowError, lm)
  else if decide (cols = 0)%Z then (Raises ZeroDivisionError, lm)
  else
    let cell_width := fl_div (of_int 1) (of_int cols) in
    if negb (fits rows) then (Raises OverflowError, lm)
    else if decide (rows = 0)%Z then (Raises ZeroDivisionError, lm)
    else
      let cell_height := fl_div (of_int 1) (of_int rows) in
      match
        grid_loop rows cols cell_width cell_height padding 0 element_ids []
      with
      | Raises e => (Raises e, lm)
      | Returns elements =>
          let layout_info :=
            {| type := "grid"; rows := rows; cols := cols; padding := padding;
               elements := elements |} in
          (Returns layout_info,
           {| layouts := <[layout_id := layout_info]> (layouts lm);
              current_layout := Some layout_id |})
      end.

(** [LayoutManager.apply_layout] *)
Definition apply_layout (layout_id : string) (lm : LayoutManager)
  : outcome layout_info * LayoutManager :=
  match layouts lm !! layout_id with
  | None =>
      (Raises (ValueError ("Layout " +:+ layout_id +:+ " does not exist")), lm)
  | Some layout =>
      (Returns layout,
       {| layouts := layouts lm; current_layout := Some layout_id |})
  end.

(** What [get_element_position] and [get_element_size] share: the element's
    dictionary in the current layout, if any. An element's dictionary is
    never empty, so [if element_info] tests that it was found. *)
Definition current_element (element_id : string) (lm : LayoutManager)
  : outcome (option element_info) :=
  match current_layout lm with
  | None => Returns None
  | Some cur =>
      match layouts lm !! cur with
      | None => Raises (KeyError cur)
      | Some layout => Returns (item_get element_id (elements layout))
      end
  end.

(** [LayoutManager.get_element_position] *)
Definition get_element_position (element_id : string) (lm : LayoutManager)
  : outcome (option (float * float)) :=
  match current_element element_id lm with
  | Returns element_info => Returns (position <$> element_info)
  | Raises e => Raises e
  end.

(** [LayoutManager.get_element_size] *)
Definition get_element_size (element_id : string) (lm : LayoutManager)
  : outcome (option (float * float)) :=
  match current_element element_id lm with
  | Returns element_info => Returns (size <$> element_info)
  | Raises e => Raises e
  end.

(** Every layout id ends in an underscore and the number of layouts there
    were when it was made, and the current layout is a stored one. *)
Definition ids_ok (lm : LayoutManager) : Prop :=
  (∀ id, is_Some (layouts lm !! id) →
     ∃ pre (n : nat), id = pre +:+ "_" +:+ pretty n
                      ∧ (n < base.size (layouts lm))%nat)
  ∧ (∀ cur, current_layout lm = Some cur → is_Some (layouts lm !! cur)).

End layout_manager.

(** Exact rational arithmetic in place of floats, for the integers below
    [2^1024] in magnitude, with strings for the integers of at most 4300
    digits. *)
Module ExactFloats.

#[global, refine] Instance rationals : Floats := {|
  float := Q;
  fits z := bool_decide (Z.abs z < 2 ^ 1024)%Z;
  printable z := bool_decide (Z.abs z < 10 ^ 4300)%Z;
  of_int := inject_Z;
  fl_add x y := Qred (x + y);
  fl_sub x y := Qred (x - y);
  fl_mul x y := Qred (x * y);
  fl_div x y := Qred (x / y);
|}.
Proof.
  - intros a b Hab Hb. apply bool_decide_eq_true in Hb.
    apply bool_decide_eq_true. lia.
  - intros a Ha. apply bool_decide_eq_true.
    assert (2 ^ 63 < 2 ^ 1024)%Z by (apply Z.pow_lt_mono_r; lia). lia.
  - intros a Ha. apply bool_decide_eq_true in Ha. apply bool_decide_eq_true.
    assert (2 ^ 1024 < 10 ^ 4300)%Z.
    { apply (Z.lt_trans _ (10 ^ 1024)).
      - apply Z.pow_lt_mono_l; lia.
      - apply Z.pow_lt_mono_r; lia. }
    lia.
Defined.

End ExactFloats.

End Layout.
(** ** Properties of the level-of-detail routines *)

Section arange_facts.

Lemma arange_length n s :
  length (arange 0 n s) = N.to_nat ((n + s - 1) / s).
Proof. unfold arange. rewrite length_fmap, length_seq. f_equal. f_equal. lia. Qed.

Lemma arange_lookup n s k :
  k < length (arange 0 n s) →
  arange 0 n s !! k = Some (N.of_nat k * s)%N.
Proof.
  intros Hk. rewrite arange_length in Hk. unfold arange.
  rewrite list_lookup_fmap, lookup_seq_lt by (rewrite N.sub_0_r; lia).
  simpl. f_equal.
Qed.

(** [k * s < n] exactly when [k] is below the number of strides. *)
Lemma stride_count n s k :
  (1 ≤ s)%N → (k * s < n ↔ k < (n + s - 1) / s)%N.
Proof.
  intros Hs.
  pose proof (N.div_mod (n + s - 1) s ltac:(lia)) as Hdm.
  pose proof (N.mod_lt (n + s - 1) s ltac:(lia)) as Hr.
  set (q := ((n + s - 1) / s)%N) in *.
  set (r := ((n + s - 1) mod s)%N) in *.
  clearbody q r. split; intros Hk.
  - destruct (decide (k < q)%N) as [|Hge]; [done|].
    assert (q * s ≤ k * s)%N by (apply N.mul_le_mono_r; lia). lia.
  - assert ((k + 1) * s ≤ q * s)%N by (apply N.mul_le_mono_r; lia). lia.
Qed.

Lemma arange_elem n s x :
  (1 ≤ s)%N → x ∈ arange 0 n s → (x < n)%N.
Proof.
  intros Hs [k Hk]%list_elem_of_lookup.
  pose proof (lookup_lt_Some _ _ _ Hk) as Hlt.
  rewrite arange_lookup in Hk by done. inversion Hk; subst.
  rewrite arange_length in Hlt. apply stride_count; [done|lia].
Qed.

End arange_facts.

Section take_rows_facts.
Context {A : Type}.
Implicit Types (a : list A) (idx : list N).

Lemma take_rows_ok a idx :
  Forall (λ i, (i < len a)%N) idx →
  ∃ r, take_rows a idx = Ok r ∧ length r = length idx ∧
       ∀ j i, idx !! j = Some i → r !! j = a !! N.to_nat i.
Proof.
  intros Hall. unfold take_rows.
  destruct (mapM (λ i, a !! N.to_nat i) idx) as [r|] eqn:Hm.
  - exists r. apply mapM_Some in Hm. split; [done|].
    split; [symmetry; by eapply Forall2_length|].
    intros j i Hj.
    destruct (Forall2_lookup_l _ _ _ _ _ Hm Hj) as (v & Hv & Hav). congruence.
  - exfalso. assert (is_Some (mapM (λ i, a !! N.to_nat i) idx)) as [? ?]; [|congruence].
    apply mapM_is_Some. eapply Forall_impl; [exact Hall|].
    intros i Hi. simpl. apply lookup_lt_is_Some. unfold len in Hi. lia.
Qed.

(** Indexing with all of [0 .. len a - 1] is the identity. *)
Lemma take_rows_all a : take_rows a (arange 0 (len a) 1) = Ok a.
Proof.
  destruct (take_rows_ok a (arange 0 (len a) 1)) as (r & Hr & Hlen & Hlook).
  { apply Forall_forall. intros x Hx. by apply arange_elem in Hx. }
  rewrite Hr. f_equal. apply list_eq. intros j.
  rewrite arange_length in Hlen.
  replace (N.to_nat ((len a + 1 - 1) / 1)) with (length a) in Hlen
    by (rewrite N.div_1_r; unfold len; lia).
  destruct (decide (j < length a)) as [Hj|Hj].
  - rewrite (Hlook j (N.of_nat j)).
    + by rewrite Nat2N.id.
    + rewrite arange_lookup.
      * f_equal. lia.
      * rewrite arange_length, N.div_1_r. unfold len. lia.
  - rewrite !lookup_ge_None_2; [done|lia..].
Qed.

End take_rows_facts.

Lemma arange_u32_seq n :
  (n ≤ 2 ^ 32)%N → arange_u32 n = N.of_nat <$> seq 0 (N.to_nat n).
Proof.
  intros Hn. unfold arange_u32, arange. rewrite <- list_fmap_compose.
  replace ((n - 0 + 1 - 1) / 1)%N with n by (rewrite N.div_1_r; lia).
  apply list_fmap_ext. intros i k Hk%lookup_seq. simpl. unfold uint32.
  rewrite N.mod_small; lia.
Qed.


Section sampled_indices_facts.
Import AdaptiveLODSystem.

(** The number of strides is bounded through the target. *)
Lemma stride_bounds (t n : N) :
  (1 ≤ t)%N → (2 < n)%N →
  let s := N.max 1 (n / t) in
  let c := ((n + s - 1) / s)%N in
  (1 ≤ s ∧ 1 ≤ c ∧ (c - 1) * s < n ∧ c ≤ n
   ∧ (s = 1 → c = n ∧ c ≤ 2 * t ∧ (n mod t = 0 → c ≤ t + 1))
   ∧ (2 ≤ s → c + 1 ≤ 2 * t ∧ (n mod t = 0 → c ≤ t)
             ∧ ((c - 1) * s ≠ n - 1 → c + 1 ≤ n)))%N.
Proof.
  intros Ht Hn s c.
  assert (Hs : (1 ≤ s)%N) by (unfold s; lia).
  pose proof (N.div_mod n t ltac:(lia)) as Hk.
  pose proof (N.mod_lt n t ltac:(lia)) as Hkr.
  pose proof (N.div_mod (n + s - 1) s ltac:(lia)) as Hc.
  pose proof (N.mod_lt (n + s - 1) s ltac:(lia)) as Hcr.
  assert (Hsk : s = 1%N ∧ (n / t ≤ 1)%N ∨ (2 ≤ s ∧ s = n / t)%N) by (unfold s; lia).
  fold c in Hc.
  set (r' := ((n + s - 1) mod s)%N) in *.
  set (k := (n / t)%N) in *. set (r := (n mod t)%N) in *.
  clearbody c r' k r s.
  assert (Hc1 : (1 ≤ c)%N) by nia.
  assert (Hcs : ((c - 1) * s < n)%N) by nia.
  split; [done|]. split; [done|]. split; [done|].
  split; [nia|]. split.
  - intros ->. destruct Hsk as [[_ Hk1]|[? ?]]; [|lia].
    split; [lia|]. split; [nia|]. intros ->. nia.
  - intros Hs2. destruct Hsk as [[? _]|[_ ->]]; [lia|].
    split; [|split].
    + destruct (decide (c + 1 ≤ 2 * t)%N) as [|Hgt]; [done|exfalso].
      assert (2 * t * k ≤ c * k)%N by (apply N.mul_le_mono_r; lia). nia.
    + intros ->. destruct (decide (c ≤ t)%N) as [|Hgt]; [done|exfalso].
      assert ((t + 1) * k ≤ c * k)%N by (apply N.mul_le_mono_r; lia). nia.
    + intros Hne. destruct (decide (c + 1 ≤ n)%N) as [|Hgt]; [done|exfalso].
      assert ((n - 1) * k ≤ (c - 1) * k)%N by (apply N.mul_le_mono_r; lia). nia.
Qed.


(** What the index set of [simplify_line] looks like, for a target of at
    least one and more than two vertices. *)
Lemma sampled_indices_for_spec (t n : N) :
  (1 ≤ t)%N → (2 < n)%N →
  let s := N.max 1 (n / t) in
  let sel := sampled_indices_for t n in
  Forall (λ i, (i < n)%N) sel
  ∧ (∀ j, (N.of_nat j * s < n)%N → sel !! j = Some (N.of_nat j * s)%N)
  ∧ (∀ j i, sel !! j = Some i →
       i = (N.of_nat j * s)%N ∨ (i = (n - 1)%N ∧ S j = length sel))
  ∧ last sel = Some (n - 1)%N
  ∧ (2 ≤ length sel)%nat
  ∧ (len sel ≤ 2 * t)%N
  ∧ (len sel ≤ n)%N
  ∧ (n mod t = 0 → len sel ≤ t + 1)%N.
Proof.
  intros Ht Hn s sel.
  destruct (stride_bounds t n Ht Hn) as (Hs & Hc1 & Hcs & Hcn & Hs1 & Hs2).
  fold s in Hs, Hc1, Hcs, Hcn, Hs1, Hs2.
  pose proof (arange_length n s) as Hlen.
  pose proof (stride_count n s) as Hcount.
  set (c := ((n + s - 1) / s)%N) in *.
  assert (Hlast : last (arange 0 n s) = Some ((c - 1) * s)%N).
  { rewrite last_lookup, Hlen, arange_lookup by (rewrite Hlen; lia).
    f_equal. lia. }
  assert (Hpre : ∀ j, (N.of_nat j * s < n)%N →
                      arange 0 n s !! j = Some (N.of_nat j * s)%N).
  { intros j Hj. apply arange_lookup. apply Hcount in Hj; lia. }
  assert (Hback : ∀ j i, arange 0 n s !! j = Some i → i = (N.of_nat j * s)%N).
  { intros j i Hj. pose proof (lookup_lt_Some _ _ _ Hj).
    rewrite arange_lookup in Hj by done. congruence. }
  assert (Hin : Forall (λ i, (i < n)%N) (arange 0 n s)).
  { apply Forall_forall. intros x Hx. by apply (arange_elem n s). }
  assert (Hss : s = 1%N ∨ (2 ≤ s)%N) by lia.
  subst sel. unfold sampled_indices_for. fold s. cbv zeta.
  rewrite Hlast. case_decide as Hd.
  - (* the last stride already lands on the last vertex *)
    assert (Hcl : ((c - 1) * s = n - 1)%N) by congruence.
    unfold len. rewrite Hlen.
    split; [done|]. split; [done|]. split; [by left; eauto|].
    split; [by rewrite Hlast, Hcl|].
    split; [nia|].
    destruct Hss as [E|E]; [specialize (Hs1 E)|specialize (Hs2 E)]; lia.
  - assert (Hcl : ((c - 1) * s ≠ n - 1)%N) by congruence.
    destruct Hss as [E|E]; [specialize (Hs1 E); nia|specialize (Hs2 E)].
    unfold len. rewrite length_app, Hlen. simpl.
    split; [apply Forall_app; split; [done|]; apply Forall_singleton; lia|].
    split.
    { intros j Hj. rewrite lookup_app_l by (apply Hcount in Hj; lia). auto. }
    split.
    { intros j i Hj. apply lookup_app_Some in Hj as [Hj|[Hge Hj]]; [left; eauto|].
      right. apply list_lookup_singleton_Some in Hj as [? ?]. split; [done|lia]. }
    split; [by rewrite last_snoc|].
    split; [lia|]. lia.
Qed.

(** The index set is strictly increasing, so the last index occurs once, and
    its length is the number of strides below [n], plus one when the last
    index is not a multiple of the stride. *)
Lemma sampled_indices_for_exact (t n : N) :
  (1 ≤ t)%N → (2 < n)%N →
  let s := N.max 1 (n / t) in
  let sel := sampled_indices_for t n in
  (∀ j k i i', j < k → sel !! j = Some i → sel !! k = Some i' → (i < i')%N)
  ∧ len sel = ((n - 1) / s + (if decide ((n - 1) mod s = 0)%N then 1 else 2))%N.
Proof.
  intros Ht Hn s sel.
  destruct (stride_bounds t n Ht Hn) as (Hs & Hc1 & Hcs & _).
  fold s in Hs, Hc1, Hcs.
  pose proof (arange_length n s) as Hlen.
  assert (Hc : ((n + s - 1) / s = (n - 1) / s + 1)%N).
  { replace (n + s - 1)%N with (n - 1 + 1 * s)%N by lia.
    rewrite N.div_add by lia. done. }
  rewrite Hc in Hlen, Hcs, Hc1.
  pose proof (N.div_mod (n - 1) s ltac:(lia)) as Hdm.
  pose proof (N.mod_lt (n - 1) s ltac:(lia)) as Hmod.
  set (q := ((n - 1) / s)%N) in *. set (r := ((n - 1) mod s)%N) in *.
  assert (Hlast : last (arange 0 n s) = Some (q * s)%N).
  { rewrite last_lookup, Hlen, arange_lookup by (rewrite Hlen; lia).
    f_equal. lia. }
  assert (Hback : ∀ j i, arange 0 n s !! j = Some i →
                         i = (N.of_nat j * s)%N ∧ (N.of_nat j ≤ q)%N).
  { intros j i Hj. pose proof (lookup_lt_Some _ _ _ Hj) as Hlt.
    rewrite arange_lookup in Hj by done. split; [congruence|lia]. }
  assert (Hinc : ∀ j k i i', j < k → arange 0 n s !! j = Some i →
                             arange 0 n s !! k = Some i' → (i < i')%N).
  { intros j k i i' Hjk [-> _]%Hback [-> _]%Hback.
    apply N.mul_lt_mono_pos_r; lia. }
  subst sel. unfold sampled_indices_for. fold s. cbv zeta.
  rewrite Hlast. case_decide as Hd.
  - assert (q * s = n - 1)%N by congruence.
    split; [exact Hinc|].
    unfold len. rewrite Hlen. rewrite decide_True by lia. lia.
  - assert (q * s ≠ n - 1)%N by congruence.
    assert (r ≠ 0)%N by lia. split.
    + intros j k i i' Hjk Hj Hk.
      pose proof (lookup_lt_Some _ _ _ Hk) as Hklt.
      rewrite length_app, Hlen in Hklt. cbn [length] in Hklt.
      rewrite lookup_app_l in Hj by lia.
      apply lookup_app_Some in Hk as [Hk|[Hge Hk]];
        [exact (Hinc j k i i' Hjk Hj Hk)|].
      apply list_lookup_singleton_Some in Hk as [_ <-].
      apply Hback in Hj as [-> Hjq]. nia.
    + unfold len. rewrite length_app, Hlen. cbn [length].
      rewrite decide_False by done. lia.
Qed.
End sampled_indices_facts.

Section simplify_line_facts.
Import AdaptiveLODSystem.
Context {A : Type}.
Implicit Types (vertices : list A) (indices : list N).

(** [simplify_line] for any target of at least one. *)
Lemma simplify_line_for_spec (t : N) vertices indices :
  (1 ≤ t)%N → (2 < len vertices)%N →
  let n := len vertices in
  let stride := N.max 1 (n / t) in
  ∃ sel simplified,
    simplify_line_for t vertices indices "radial_distance"
      = Ok (simplified, arange_u32 (len simplified))
    ∧ length simplified = length sel
    ∧ (∀ j i, sel !! j = Some i →
         (i < n)%N ∧ simplified !! j = vertices !! N.to_nat i)
    ∧ (∀ j, (N.of_nat j * stride < n)%N → sel !! j = Some (N.of_nat j * stride)%N)
    ∧ (∀ j i, sel !! j = Some i →
         i = (N.of_nat j * stride)%N ∨ (i = (n - 1)%N ∧ S j = length sel))
    ∧ last sel = Some (n - 1)%N
    ∧ head simplified = head vertices
    ∧ last simplified = last vertices
    ∧ (2 ≤ len simplified)%N
    ∧ (len simplified ≤ 2 * t)%N
    ∧ (len simplified ≤ n)%N
    ∧ (n mod t = 0 → len simplified ≤ t + 1)%N
    ∧ (∀ j k i i', j < k → sel !! j = Some i → sel !! k = Some i' → (i < i')%N)
    ∧ len simplified
      = ((n - 1) / stride
         + (if decide ((n - 1) mod stride = 0)%N then 1 else 2))%N.
Proof.
  intros Ht Hn n stride.
  destruct (sampled_indices_for_spec t n Ht Hn)
    as (Hall & Hfwd & Hback & Hlast & H2 & H2t & Hle & Hdiv).
  destruct (sampled_indices_for_exact t n Ht Hn) as (Hinc & Hexact).
  fold stride in Hfwd, Hback, Hexact.
  set (sel := sampled_indices_for t n) in *.
  destruct (take_rows_ok vertices sel Hall) as (r & Hr & Hlen & Hlook).
  exists sel, r. unfold simplify_line_for.
  rewrite decide_True by done. rewrite decide_False by (fold n; lia).
  fold n sel. rewrite Hr.
  assert (Hlenr : len r = len sel) by (unfold len; congruence).
  rewrite !Hlenr.
  split; [done|]. split; [done|]. split.
  { intros j i Hj. split; [|by apply Hlook].
    eapply Forall_lookup_1 in Hall; [exact Hall|exact Hj]. }
  split; [done|]. split; [done|]. split; [done|]. split.
  { rewrite !head_lookup. rewrite (Hlook 0 0%N); [done|].
    by rewrite (Hfwd 0) by lia. }
  split.
  { rewrite last_lookup in Hlast. rewrite !last_lookup, Hlen.
    rewrite (Hlook _ _ Hlast). f_equal. unfold n, len. lia. }
  split; [unfold len; lia|]. split; [done|]. split; [done|]. split; [done|].
  split; [exact Hinc|].
  exact Hexact.
Qed.

End simplify_line_facts.

(** C3, in the form that holds of the code. For every vertex array of length [n > 2],
    [simplify_line] (target count 10000) returns normally; it keeps the rows
    at indices [0, stride, 2*stride, ...] with [stride = max(1, n // 10000)],
    followed by the last index [n - 1] when the strides did not reach it,
    and only then: the selected indices increase strictly, so no index is
    selected twice, and their number [m] is the number of multiples of the
    stride below [n], plus one exactly when [n - 1] is not such a multiple.
    The index buffer it returns is [0 .. m-1]; the first and the last
    original vertex are kept; and the output length [m] satisfies
    [2 <= m <= 2 * 10000] and [m <= n], with [m <= 10000 + 1] whenever
    10000 divides [n] (as for [n = 50000]). *)
Theorem simplify_line_endpoints_and_length {A} (vertices : list A) (indices : list N) :
  (2 < len vertices)%N →
  let n := len vertices in
  let stride := N.max 1 (n / 10000) in
  ∃ sel simplified,
    AdaptiveLODSystem.simplify_line vertices indices "radial_distance"
      = Ok (simplified, N.of_nat <$> seq 0 (length simplified))
    ∧ length simplified = length sel
    ∧ (∀ j i, sel !! j = Some i →
         (i < n)%N ∧ simplified !! j = vertices !! N.to_nat i)
    ∧ (∀ j, (N.of_nat j * stride < n)%N → sel !! j = Some (N.of_nat j * stride)%N)
    ∧ (∀ j i, sel !! j = Some i →
         i = (N.of_nat j * stride)%N ∨ (i = (n - 1)%N ∧ S j = length sel))
    ∧ last sel = Some (n - 1)%N
    ∧ head simplified = head vertices
    ∧ last simplified = last vertices
    ∧ (2 ≤ len simplified)%N
    ∧ (len simplified ≤ 2 * 10000)%N
    ∧ (len simplified ≤ n)%N
    ∧ (n mod 10000 = 0 → len simplified ≤ 10000 + 1)%N
    ∧ (∀ j k i i', j < k → sel !! j = Some i → sel !! k = Some i' → (i < i')%N)
    ∧ len simplified
      = ((n - 1) / stride
         + (if decide ((n - 1) mod stride = 0)%N then 1 else 2))%N.
Proof.
  intros Hn n stride.
  destruct (simplify_line_for_spec 10000 vertices indices ltac:(lia) Hn)
    as (sel & r & Hrun & Hrest).
  exists sel, r. split; [|exact Hrest].
  unfold AdaptiveLODSystem.simplify_line. rewrite Hrun.
  rewrite arange_u32_seq; [|].
  - unfold len. by rewrite Nat2N.id.
  - destruct Hrest as (_ & _ & _ & _ & _ & _ & _ & _ & Hle & _). lia.
Qed.

Lemma simplify_line_endpoints_and_length_witness :
  ∃ sel simplified,
    AdaptiveLODSystem.simplify_line [10; 20; 30; 40]%Z [] "radial_distance"
      = Ok (simplified, N.of_nat <$> seq 0 (length simplified))
    ∧ length simplified = length sel
    ∧ last sel = Some 3%N
    ∧ head simplified = Some 10%Z
    ∧ last simplified = Some 40%Z.
Proof.
  destruct (simplify_line_endpoints_and_length [10; 20; 30; 40]%Z [])
    as (sel & r & H1 & H2 & _ & _ & _ & H3 & H4 & H5 & _).
  { vm_compute. reflexivity. }
  exists sel, r. repeat split; assumption.
Defined.

(** Below twice the target the stride is 1 and nothing is dropped. *)
Lemma simplify_line_stride_one {A} (vertices : list A) (indices : list N) :
  (2 < len vertices < 20000)%N →
  AdaptiveLODSystem.simplify_line vertices indices "radial_distance"
    = Ok (vertices, arange_u32 (len vertices)).
Proof.
  intros Hn. unfold AdaptiveLODSystem.simplify_line, AdaptiveLODSystem.simplify_line_for.
  rewrite decide_True by done. rewrite decide_False by lia.
  unfold AdaptiveLODSystem.sampled_indices_for.
  assert (Hs : N.max 1 (len vertices / 10000) = 1%N).
  { assert (len vertices / 10000 < 2)%N by (apply N.Div0.div_lt_upper_bound; lia). lia. }
  rewrite Hs. cbv zeta. rewrite decide_True.
  - by rewrite take_rows_all.
  - rewrite last_lookup, arange_length, arange_lookup
      by (rewrite arange_length, N.div_1_r; lia).
    f_equal. rewrite N.div_1_r. lia.
Qed.

(** With 19999 vertices the stride is 1 and every vertex is kept: the output
    is longer than [target_count + 1]. *)
Lemma simplify_line_exceeds_target_plus_one :
  let vertices := replicate (N.to_nat 19999) [0; 0; 0]%Z in
  len vertices = 19999%N
  ∧ ∃ simplified idx,
      AdaptiveLODSystem.simplify_line vertices (arange_u32 19999) "radial_distance"
        = Ok (simplified, idx)
      ∧ len simplified = 19999%N
      ∧ ¬ (len simplified ≤ 10000 + 1)%N.
Proof.
  intros vertices.
  assert (Hlen : len vertices = 19999%N).
  { unfold vertices, len. by rewrite length_replicate, N2Nat.id. }
  split; [done|]. eexists _, _. split.
  - apply simplify_line_stride_one. rewrite Hlen. lia.
  - rewrite Hlen. split; [done|lia].
Qed.

(** The instance the specification names: of 50000 vertices, 10001 are
    kept, from index 0 to index 49999. *)
Example sampled_indices_50000 :
  let sel := AdaptiveLODSystem.sampled_indices_for 10000 50000 in
  len sel = 10001%N ∧ head sel = Some 0%N ∧ last sel = Some 49999%N.
Proof. vm_compute. auto. Qed.

(** ** Scatter subsampling *)

Section subsample_facts.
Context {A B C : Type}.

(** One index set serves the three arrays: output point [i] is input point
    [i * stride] in each of them. *)
Lemma subsample_for_spec (t n : N)
    (vertices : list A) (sizes : list B) (colors : list C) :
  (1 ≤ t)%N → len vertices = n → len sizes = n → len colors = n →
  let stride := N.max 1 (n / t) in
  let m := ((n + stride - 1) / stride)%N in
  ∃ vertices' sizes' colors',
    subsample_for t n vertices sizes colors = Ok (vertices', sizes', colors')
    ∧ len vertices' = m ∧ len sizes' = m ∧ len colors' = m
    ∧ ∀ i, (N.of_nat i < m)%N →
        (N.of_nat i * stride < n)%N
        ∧ vertices' !! i = vertices !! N.to_nat (N.of_nat i * stride)
        ∧ sizes' !! i = sizes !! N.to_nat (N.of_nat i * stride)
        ∧ colors' !! i = colors !! N.to_nat (N.of_nat i * stride).
Proof.
  intros Ht Hv Hs Hc stride m.
  assert (Hst : (1 ≤ stride)%N) by (unfold stride; lia).
  pose proof (arange_length n stride) as Hlen. fold m in Hlen.
  assert (Hmask : ∀ {X} (a : list X), len a = n →
            Forall (λ i, (i < len a)%N) (arange 0 n stride)).
  { intros X a Ha. rewrite Ha. apply Forall_forall. intros x Hx.
    by apply (arange_elem n stride). }
  assert (Hm : (m ≤ n)%N).
  { destruct (decide (m ≤ n)%N) as [|Hgt]; [done|exfalso].
    assert (Hlt : (n < m)%N) by lia.
    apply (stride_count n stride n Hst) in Hlt. nia. }
  (* indexing any array of length [n] with the mask, guarded or not *)
  assert (Hsel : ∀ {X} (a : list X), len a = n →
    ∃ a', (if decide (len (arange 0 n stride) < len a)%N
           then take_rows a (arange 0 n stride) else Ok a) = Ok a'
          ∧ take_rows a (arange 0 n stride) = Ok a').
  { intros X a Ha.
    destruct (take_rows_ok a _ (Hmask _ a Ha)) as (a' & Ha' & Hl & Hlook).
    case_decide as Hd; [by exists a'|].
    exists a. split; [done|]. rewrite Ha' . f_equal.
    unfold len in Hd. rewrite Hlen in Hd.
    assert (Hmn : m = n) by (unfold len in Ha; lia).
    apply list_eq. intros j.
    destruct (decide (j < length a)) as [Hj|Hj].
    - assert (Hjm : (N.of_nat j < m)%N) by (unfold len in Ha; lia).
      rewrite (Hlook j (N.of_nat j * stride)%N)
        by (apply arange_lookup; lia).
      f_equal.
      destruct (decide (stride = 1%N)) as [E|Hne]; [rewrite E; lia|].
      destruct (decide (j = 0)) as [->|Hj0]; [lia|exfalso].
      assert (Hlast : ((n - 1) * stride < n)%N)
        by (apply (stride_count n stride); lia).
      nia.
    - unfold len in Ha. rewrite !lookup_ge_None_2; [done|lia..]. }
  destruct (take_rows_ok vertices _ (Hmask _ vertices Hv)) as (v' & Hv' & Hvl & Hvlook).
  destruct (Hsel _ sizes Hs) as (s' & Hs' & Hs'').
  destruct (Hsel _ colors Hc) as (c' & Hc' & Hc'').
  destruct (take_rows_ok sizes _ (Hmask _ sizes Hs)) as (s2 & Hs2 & Hsl & Hslook).
  destruct (take_rows_ok colors _ (Hmask _ colors Hc)) as (c2 & Hc2 & Hcl & Hclook).
  assert (s2 = s') by congruence. assert (c2 = c') by congruence. subst s2 c2.
  exists v', s', c'. unfold subsample_for. fold stride.
  cbv zeta. rewrite Hv', Hs', Hc'.
  split; [done|]. unfold len. rewrite Hvl, Hsl, Hcl, Hlen, !N2Nat.id.
  split; [done|]. split; [done|]. split; [done|].
  intros i Hi.
  assert (Hi' : arange 0 n stride !! i = Some (N.of_nat i * stride)%N)
    by (apply arange_lookup; lia).
  split; [by apply (stride_count n stride)|]. auto.
Qed.

End subsample_facts.

(** ** The buffer registry *)

Section registry_facts.
Context `{Numpy}.
Implicit Types (z : ZeroCopyDataPipeline) (a : ndarray).

(** [create_buffer] allocates a new buffer object and binds the name to it,
    replacing whatever the name was bound to. *)
Lemma create_buffer_spec name a btype z :
  let l := fresh (dom (store z)) in
  create_buffer name a btype z
  = (Ok l, {| store := <[l := {| data := a; buffer_type := btype;
                                  gpu_address := None |}]> (store z);
              buffers := <[name := l]> (buffers z);
              streaming_buffers := streaming_buffers z |})
  ∧ store z !! l = None.
Proof.
  split; [done|]. apply not_elem_of_dom, is_fresh.
Qed.

End registry_facts.

Section scatter_facts.
Context `{Numpy}.

Lemma scatter_vertices_length (x y : list num) :
  len y = len x → len (scatter_vertices x y) = len x.
Proof.
  unfold scatter_vertices, astype_f32, column_stack_xy0, len.
  rewrite length_fmap, length_zip_with. lia.
Qed.

Lemma scatter_vertices_lookup (x y : list num) k :
  scatter_vertices x y !! k
  = (xk ← x !! k; yk ← y !! k; Some [f32 xk; f32 yk; f32 (lit 0 0)]).
Proof.
  unfold scatter_vertices, astype_f32, column_stack_xy0.
  rewrite list_lookup_fmap, lookup_zip_with.
  destruct (x !! k); simpl; [|done]. by destruct (y !! k).
Qed.

Lemma scatter_sizes_length n s :
  ¬ s_mismatch s n → len (scatter_sizes n s) = n.
Proof.
  unfold len. destruct s as [[v|v]|]; simpl; intros Hs;
    rewrite ?length_replicate, ?length_fmap, ?N2Nat.id; try done.
  unfold len in Hs. by destruct (decide (N.of_nat (length v) = n)).
Qed.

Lemma scatter_colors_length n c :
  ¬ c_mismatch c n → len (scatter_colors n c) = n.
Proof.
  unfold len. destruct c as [[v|cols rows]|]; simpl; intros Hc.
  - rewrite length_fmap. unfold len in Hc.
    by destruct (decide (N.of_nat (length v) = n)).
  - unfold len in Hc. unfold astype_f32. case_decide; rewrite length_fmap;
      by destruct (decide (N.of_nat (length rows) = n)).
  - by rewrite length_replicate, N2Nat.id.
Qed.

(** The arrays handed to [create_buffer] above the sampling threshold. *)
Lemma scatter_arrays_subsampled (x y : list num) c s :
  len y = len x → ¬ c_mismatch c (len x) → ¬ s_mismatch s (len x) →
  (50000 < len x)%N →
  scatter_arrays x y c s
  = subsample_for 50000 (len x) (scatter_vertices x y)
      (scatter_sizes (len x) s) (scatter_colors (len x) c).
Proof.
  intros Hy Hc Hs Hn. unfold scatter_arrays.
  rewrite decide_False by (intros ?; congruence).
  rewrite !bool_decide_eq_false_2 by done.
  by rewrite decide_True by done.
Qed.

End scatter_facts.

Section scatter_claim.
Context `{Numpy}.

(** C7. Above the sampling threshold (more than 50000 points),
    [process_scatter_data] subsamples with the single index set
    [{0, stride, 2*stride, ...}], [stride = max(1, n // 50000)]: the vertex,
    size and colour buffers it registers all have the same length, and entry
    [i] of each is entry [i * stride] of the corresponding per-point input
    array, so output point [i] is input point [i * stride] in all three. *)
Theorem scatter_subsampling_one_index_set
    (x y : list num) (c : option color_arg) (s : option size_arg)
    (z : ZeroCopyDataPipeline) :
  len y = len x → ¬ c_mismatch c (len x) → ¬ s_mismatch s (len x) →
  (50000 < len x)%N →
  let n := len x in
  let stride := N.max 1 (n / 50000) in
  let m := ((n + stride - 1) / stride)%N in
  ∃ payload z' vb sb cb vertices' sizes' colors',
    process_scatter_data x y c s z = (Ok payload, z')
    ∧ dict_get "vertices" payload = Some (VBuffer vb)
    ∧ dict_get "sizes" payload = Some (VBuffer sb)
    ∧ dict_get "colors" payload = Some (VBuffer cb)
    ∧ dict_get "count" payload = Some (VInt (Z.of_N m))
    ∧ data <$> store z' !! vb = Some (Arr2 vertices')
    ∧ data <$> store z' !! sb = Some (Arr1 sizes')
    ∧ data <$> store z' !! cb = Some (Arr2 colors')
    ∧ len vertices' = m ∧ len sizes' = m ∧ len colors' = m
    ∧ ∀ i, (N.of_nat i < m)%N →
        let k := (N.of_nat i * stride)%N in
        (k < n)%N
        ∧ vertices' !! i = scatter_vertices x y !! N.to_nat k
        ∧ sizes' !! i = scatter_sizes n s !! N.to_nat k
        ∧ colors' !! i = scatter_colors n c !! N.to_nat k.
Proof.
  intros Hy Hc Hs Hn n stride m.
  destruct (subsample_for_spec 50000 n (scatter_vertices x y)
              (scatter_sizes n s) (scatter_colors n c))
    as (v' & s' & c' & Hrun & Hlv & Hls & Hlc & Hpt).
  { lia. } { by apply scatter_vertices_length. }
  { by apply scatter_sizes_length. } { by apply scatter_colors_length. }
  unfold process_scatter_data.
  rewrite scatter_arrays_subsampled by done. fold n. rewrite Hrun.
  set (b1 := {| data := Arr2 v'; buffer_type := "vertex"; gpu_address := None |}).
  set (b2 := {| data := Arr1 s'; buffer_type := "attribute"; gpu_address := None |}).
  set (b3 := {| data := Arr2 c'; buffer_type := "attribute"; gpu_address := None |}).
  set (l1 := fresh (dom (store z))).
  set (st1 := <[l1 := b1]> (store z)).
  set (l2 := fresh (dom st1)).
  set (st2 := <[l2 := b2]> st1).
  set (l3 := fresh (dom st2)).
  assert (H1 : store z !! l1 = None) by apply not_elem_of_dom, is_fresh.
  assert (H2 : st1 !! l2 = None) by apply not_elem_of_dom, is_fresh.
  assert (H3 : st2 !! l3 = None) by apply not_elem_of_dom, is_fresh.
  assert (l1 ≠ l2).
  { intros E. rewrite <- E in H2. unfold st1 in H2.
    by rewrite lookup_insert_eq in H2. }
  assert (l2 ≠ l3).
  { intros E. rewrite <- E in H3. unfold st2 in H3.
    by rewrite lookup_insert_eq in H3. }
  assert (l1 ≠ l3).
  { intros E. rewrite <- E in H3. unfold st2, st1 in H3.
    by rewrite lookup_insert_ne, lookup_insert_eq in H3. }
  eexists _, _, l1, l2, l3, v', s', c'.
  split; [reflexivity|]. simpl.
  fold l1 b1 st1 l2 b2 st2 l3 b3.
  rewrite Hlv.
  repeat (split; [done|]).
  split.
  { unfold st2, st1. by rewrite lookup_insert_ne, lookup_insert_ne, lookup_insert_eq. }
  split. { unfold st2. by rewrite lookup_insert_ne, lookup_insert_eq. }
  split. { by rewrite lookup_insert_eq. }
  repeat (split; [done|]). exact Hpt.
Qed.

End scatter_claim.

(** 100000 points with default sizes and colours: 50000 are kept. *)
Lemma scatter_subsampling_one_index_set_witness :
  let x := replicate (N.to_nat 100000) (1%Q : @num Exact.exact) in
  ∃ payload z',
    process_scatter_data x x None None ZeroCopyDataPipeline_init = (Ok payload, z')
    ∧ dict_get "count" payload = Some (VInt 50000).
Proof.
  intros x.
  destruct (scatter_subsampling_one_index_set x x None None ZeroCopyDataPipeline_init)
    as (payload & z' & vb & sb & cb & v' & s' & c' & Hrun & _ & _ & _ & Hcount & _).
  - reflexivity.
  - simpl. tauto.
  - simpl. tauto.
  - vm_compute. reflexivity.
  - exists payload, z'. split; [exact Hrun|]. rewrite Hcount.
    vm_compute. reflexivity.
Defined.

(** ** Buffer names *)

Section naming.
Context `{Numpy}.
Implicit Types (z : ZeroCopyDataPipeline) (names : list string).

Lemma rebinds_create name a btype z :
  rebinds [name] z (create_buffer name a btype z).2.
Proof.
  destruct (create_buffer_spec name a btype z) as [-> Hfresh]. simpl.
  set (l := fresh (dom (store z))) in *.
  split; [|split; [|split]]; simpl.
  - intros l' b Hl'. rewrite lookup_insert_ne; [done|congruence].
  - intros name' ->%list_elem_of_singleton. exists l.
    by rewrite !lookup_insert_eq.
  - intros name' Hn. rewrite lookup_insert_ne; [done|].
    intros ->. apply Hn, list_elem_of_singleton. done.
  - done.
Qed.

Lemma rebinds_trans names1 names2 z z1 z2 :
  rebinds names1 z z1 → rebinds names2 z1 z2 →
  rebinds (names1 ++ names2) z z2.
Proof.
  intros (Ho1 & Hn1 & Hk1 & Hs1) (Ho2 & Hn2 & Hk2 & Hs2).
  split; [|split; [|split]].
  - auto.
  - intros name Hin.
    destruct (decide (name ∈ names2)) as [Hin2|Hnin2].
    + destruct (Hn2 name Hin2) as (l & Hb & Hnone & Hsome).
      exists l. split; [done|]. split; [|done].
      destruct (store z !! l) as [b|] eqn:E; [|done].
      apply Ho1 in E. congruence.
    + apply elem_of_app in Hin as [Hin1|?]; [|done].
      destruct (Hn1 name Hin1) as (l & Hb & Hnone & [b Hsome]).
      exists l. rewrite Hk2 by done. eauto.
  - intros name Hnin. rewrite Hk2, Hk1; [done|..];
      intros ?; apply Hnin, elem_of_app; auto.
  - congruence.
Qed.

(** Two successive rebindings of the same names: each name ends up bound to
    an object of the second round, and the object the first round bound it
    to is still in the store, unchanged, but no longer registered there. *)
Lemma rebinds_twice names z0 z1 z2 name :
  rebinds names z0 z1 → rebinds names z1 z2 → name ∈ names →
  ∃ l1 l2, buffers z1 !! name = Some l1 ∧ buffers z2 !! name = Some l2
           ∧ l1 ≠ l2 ∧ is_Some (store z1 !! l1)
           ∧ store z2 !! l1 = store z1 !! l1.
Proof.
  intros (_ & Hn1 & _) (Ho2 & Hn2 & _) Hin.
  destruct (Hn1 name Hin) as (l1 & Hb1 & _ & [b1 Hs1]).
  destruct (Hn2 name Hin) as (l2 & Hb2 & Hnone & _).
  exists l1, l2. repeat split; eauto; [congruence|].
  rewrite Hs1. auto.
Qed.


Ltac run_entry_point :=
  unfold mbind, M_bind, mret, M_ret, raise; simpl.

Ltac try_names names :=
  lazymatch names with
  | ?n :: ?rest =>
      first [ exists n; split;
              [ set_solver
              | rewrite ?lookup_insert_ne by done; apply lookup_insert_eq ]
            | try_names rest ]
  end.

Ltac payload_buffers :=
  let k := fresh "k" in let l := fresh "l" in let Hk := fresh "Hk" in
  intros k l Hk; simpl in Hk;
  repeat (case_decide; simplify_eq);
  lazymatch goal with
  | |- ∃ name, name ∈ ?names ∧ _ => try_names names
  end.

Ltac try_keys name keys :=
  lazymatch keys with
  | ?k :: ?rest =>
      first [ exists k; eexists; split;
              [ reflexivity
              | rewrite ?lookup_insert_ne by done; apply lookup_insert_eq ]
            | try_keys name rest ]
  end.

Ltac returned_buffers :=
  let name := fresh "name" in let Hin := fresh "Hin" in
  intros name Hin;
  repeat (apply elem_of_cons in Hin as [->|Hin]);
  [try_keys name ["vertices"; "indices"; "sizes"; "colors"]..
  |by apply elem_of_nil in Hin].

Lemma process_line_data_outcome x y z :
  entry_point_outcome ["line_vertices"; "line_indices"] z (process_line_data x y z).
Proof.
  unfold process_line_data.
  case_decide; [done|]. case_decide; [done|].
  destruct (if decide _ then _ else _) as [[vertices indices]|e]; [|done].
  run_entry_point. split.
  - exact (rebinds_trans _ _ _ _ _
             (rebinds_create "line_vertices" _ "vertex" z)
             (rebinds_create "line_indices" _ "index" _)).
  - split; [payload_buffers|returned_buffers].
Qed.

Lemma process_scatter_data_outcome x y c s z :
  entry_point_outcome ["scatter_vertices"; "scatter_sizes"; "scatter_colors"]
    z (process_scatter_data x y c s z).
Proof.
  unfold process_scatter_data.
  destruct (scatter_arrays x y c s) as [[[vertices sizes] colors]|e]; [|done].
  run_entry_point. split.
  - exact (rebinds_trans _ _ _ _ _
             (rebinds_create "scatter_vertices" _ "vertex" z)
             (rebinds_trans _ _ _ _ _
                (rebinds_create "scatter_sizes" _ "attribute" _)
                (rebinds_create "scatter_colors" _ "attribute" _))).
  - split; [payload_buffers|returned_buffers].
Qed.

Lemma process_bar_data_outcome x height z :
  entry_point_outcome ["bar_vertices"; "bar_indices"] z (process_bar_data x height z).
Proof.
  unfold process_bar_data.
  case_decide; [done|].
  destruct (bar_loop (zip x height) 0) as [vertices indices].
  run_entry_point. split.
  - exact (rebinds_trans _ _ _ _ _
             (rebinds_create "bar_vertices" _ "vertex" z)
             (rebinds_create "bar_indices" _ "index" _)).
  - split; [payload_buffers|returned_buffers].
Qed.

Lemma process_histogram_data_outcome values bins z :
  entry_point_outcome ["bar_vertices"; "bar_indices"] z
    (process_histogram_data values bins z).
Proof.
  unfold process_histogram_data.
  destruct (np_histogram values bins) as [[hist bin_edges]|]; [|done].
  apply process_bar_data_outcome.
Qed.

End naming.

(** C1, in the form that holds of the code. Every buffer an entry point registers is registered
    under a fixed literal name that depends on the plot kind only
    ([line_vertices], [line_indices]; [scatter_vertices], [scatter_sizes],
    [scatter_colors]; [bar_vertices], [bar_indices], which the histogram
    entry point uses too). A successful call allocates new buffer objects,
    rebinds those names to them and returns them in its payload; a call that
    raises leaves the registry as it was. So of two successive successful
    calls of one kind, the second takes over the registry names, while the
    buffer objects of the first stay in the store unchanged and are distinct
    from those of the second. *)
Theorem buffers_registered_under_fixed_names `{Numpy} :
  (∀ x y z,
     entry_point_outcome ["line_vertices"; "line_indices"] z
       (process_line_data x y z))
  ∧ (∀ x y c s z,
       entry_point_outcome ["scatter_vertices"; "scatter_sizes"; "scatter_colors"] z
         (process_scatter_data x y c s z))
  ∧ (∀ x height z,
       entry_point_outcome ["bar_vertices"; "bar_indices"] z
         (process_bar_data x height z))
  ∧ (∀ values bins z,
       entry_point_outcome ["bar_vertices"; "bar_indices"] z
         (process_histogram_data values bins z))
  ∧ (∀ names z0 z1 z2 name,
       rebinds names z0 z1 → rebinds names z1 z2 → name ∈ names →
       ∃ l1 l2, buffers z1 !! name = Some l1 ∧ buffers z2 !! name = Some l2
                ∧ l1 ≠ l2 ∧ is_Some (store z1 !! l1)
                ∧ store z2 !! l1 = store z1 !! l1).
Proof.
  split; [exact process_line_data_outcome|].
  split; [exact process_scatter_data_outcome|].
  split; [exact process_bar_data_outcome|].
  split; [exact process_histogram_data_outcome|].
  intros names z0 z1 z2 name. apply rebinds_twice.
Qed.

(** A location that is not among the values of the registry is bound to no
    name. *)
Lemma registry_image (m : gmap string loc) (l : loc) kvs :
  map_to_list m = kvs → l ∉ kvs.*2 → ¬ ∃ name, m !! name = Some l.
Proof.
  intros <- Hl [name Hname]. apply Hl.
  apply list_elem_of_fmap. exists (name, l). split; [done|].
  by apply elem_of_map_to_list.
Qed.

(** Two line plots in a row: the second call takes the registry entries of
    the first, whose buffers (objects 0 and 1) are registered under no name
    any more. The names carry no node id. *)
Lemma second_line_call_takes_over_registry :
  let r1 := process_line_data (H := Exact.exact) [0; 1]%Q [0; 1]%Q
              ZeroCopyDataPipeline_init in
  let r2 := process_line_data (H := Exact.exact) [5; 6; 7]%Q [5; 6; 7]%Q r1.2 in
  r1.1 = Ok [("vertices", VBuffer 0); ("indices", VBuffer 1);
             ("primitive_type", VStr "line_strip"); ("count", VInt 2)]
  ∧ map_to_list (buffers r1.2) = [("line_indices", 1); ("line_vertices", 0)]
  ∧ r2.1 = Ok [("vertices", VBuffer 2); ("indices", VBuffer 3);
               ("primitive_type", VStr "line_strip"); ("count", VInt 3)]
  ∧ map_to_list (buffers r2.2) = [("line_indices", 3); ("line_vertices", 2)]
  ∧ ¬ ∃ name, buffers r2.2 !! name = Some 0.
Proof.
  intros r1 r2.
  assert (E : map_to_list (buffers r2.2)
              = [("line_indices", 3); ("line_vertices", 2)])
    by (vm_compute; reflexivity).
  split; [vm_compute; reflexivity|].
  split; [vm_compute; reflexivity|].
  split; [vm_compute; reflexivity|].
  split; [exact E|].
  apply (registry_image _ _ _ E). vm_compute.
  intros Hin. repeat (apply elem_of_cons in Hin as [Hin|Hin]; [discriminate Hin|]).
  by apply elem_of_nil in Hin.
Qed.

(** ** The scene graph: well-formed states *)

Section scene_invariant.
Import Scene.
Implicit Types (s : SceneManager) (os : gmap loc SceneNode) (n : SceneNode).

Lemma list_remove_subseteq x (l : list loc) c :
  c ∈ list_remove x l → c ∈ l.
Proof.
  induction l as [|y l IH]; simpl; [done|].
  case_decide; set_solver.
Qed.

Lemma list_remove_NoDup x (l : list loc) :
  NoDup l → NoDup (list_remove x l) ∧ x ∉ list_remove x l.
Proof.
  induction 1 as [|y l Hy Hnd [IH1 IH2]]; simpl.
  - split; [constructor|set_solver].
  - case_decide as E.
    + subst. split; done.
    + split.
      * constructor; [|done]. intros Hin. by apply list_remove_subseteq in Hin.
      * set_solver.
Qed.

Lemma add_child_lookup os p c q :
  c ≠ p →
  add_child p c os !! q =
    if decide (q = p) then (λ n, set_children (children n ++ [c]) n) <$> os !! q
    else if decide (q = c) then set_parent (Some p) <$> os !! q
    else os !! q.
Proof.
  intros Hcp. unfold add_child. rewrite lookup_alter.
  destruct (decide (q = p)) as [->|Hqp].
  - rewrite decide_True by done. by rewrite lookup_alter_ne.
  - rewrite decide_False by done. rewrite lookup_alter.
    destruct (decide (q = c)) as [->|Hqc].
    + by rewrite decide_True.
    + by rewrite decide_False.
Qed.

Lemma remove_child_lookup os p c np q :
  os !! p = Some np → c ∈ children np → c ≠ p →
  remove_child p c os !! q =
    if decide (q = p)
    then (λ n, set_children (list_remove c (children n)) n) <$> os !! q
    else if decide (q = c) then set_parent None <$> os !! q
    else os !! q.
Proof.
  intros Hp Hin Hcp. unfold remove_child. rewrite Hp, decide_True by done.
  rewrite lookup_alter.
  destruct (decide (q = p)) as [->|Hqp].
  - rewrite decide_True by done. by rewrite lookup_alter_ne.
  - rewrite decide_False by done. rewrite lookup_alter.
    destruct (decide (q = c)) as [->|Hqc].
    + by rewrite decide_True.
    + by rewrite decide_False.
Qed.

Lemma children_ok_insert os l n :
  children_ok os → os !! l = None → children n = [] →
  children_ok (<[l := n]> os).
Proof.
  intros Hok Hl Hch p n' Hp.
  apply lookup_insert_Some in Hp as [[-> ->]|[Hne Hp]].
  - rewrite Hch. split; [constructor|]. intros c Hc. by apply elem_of_nil in Hc.
  - destruct (Hok _ _ Hp) as [Hnd Hall]. split; [done|].
    intros c Hc. destruct (Hall c Hc) as (Hcp & nc & Hnc & Hpar).
    split; [done|]. exists nc. split; [|done].
    rewrite lookup_insert_ne; [done|congruence].
Qed.

Lemma children_ok_add_child os p c np nc :
  children_ok os → os !! p = Some np → os !! c = Some nc → c ≠ p →
  (∀ q n, os !! q = Some n → c ∉ children n) →
  children_ok (add_child p c os).
Proof.
  intros Hok Hp Hc Hcp Hnew q n Hq.
  rewrite add_child_lookup in Hq by done.
  assert (Hchild : ∀ q0 n0 x, os !! q0 = Some n0 → x ∈ children n0 →
            x ≠ q0 ∧ ∃ nx, add_child p c os !! x = Some nx ∧ parent nx = Some q0).
  { intros q0 n0 x Hq0 Hx. destruct (Hok _ _ Hq0) as [_ Hall].
    destruct (Hall x Hx) as (Hxq & nx & Hnx & Hpar). split; [done|].
    assert (x ≠ c) by (intros ->; exact (Hnew _ _ Hq0 Hx)).
    rewrite add_child_lookup by done. rewrite Hnx.
    destruct (decide (x = p)); [|rewrite decide_False by done]; simpl; eauto. }
  case_decide as Eqp; [subst q|case_decide as Eqc; [subst q|]].
  - rewrite Hp in Hq. simpl in Hq. simplify_eq. simpl.
    destruct (Hok _ _ Hp) as [Hnd Hall]. split.
    + apply NoDup_app. split; [done|]. split; [|apply NoDup_singleton].
      intros x Hx ->%list_elem_of_singleton. exact (Hnew _ _ Hp Hx).
    + intros x [Hx| ->%list_elem_of_singleton]%elem_of_app; [by eapply Hchild|].
      split; [done|]. rewrite add_child_lookup by done.
      rewrite decide_False, decide_True, Hc by done. simpl. eauto.
  - rewrite Hc in Hq. simpl in Hq. simplify_eq. simpl.
    destruct (Hok _ _ Hc) as [Hnd Hall]. split; [done|]. intros x Hx. by eapply Hchild.
  - destruct (Hok _ _ Hq) as [Hnd Hall]. split; [done|]. intros x Hx. by eapply Hchild.
Qed.

Lemma children_ok_remove_child os p c :
  children_ok os → children_ok (remove_child p c os).
Proof.
  intros Hok.
  destruct (os !! p) as [np|] eqn:Hp; [|by unfold remove_child; rewrite Hp].
  destruct (decide (c ∈ children np)) as [Hin|Hnin];
    [|by unfold remove_child; rewrite Hp, decide_False].
  destruct (Hok _ _ Hp) as [Hndp Hallp].
  destruct (Hallp c Hin) as (Hcp & nc & Hc & Hparc).
  intros q n Hq. rewrite (remove_child_lookup os p c np) in Hq by done.
  assert (Hchild : ∀ q0 n0 x, os !! q0 = Some n0 → x ∈ children n0 → x ≠ c →
            x ≠ q0 ∧ ∃ nx, remove_child p c os !! x = Some nx ∧ parent nx = Some q0).
  { intros q0 n0 x Hq0 Hx Hxc. destruct (Hok _ _ Hq0) as [_ Hall].
    destruct (Hall x Hx) as (Hxq & nx & Hnx & Hpar). split; [done|].
    rewrite (remove_child_lookup os p c np) by done. rewrite Hnx.
    destruct (decide (x = p)); [|rewrite decide_False by done]; simpl; eauto. }
  assert (Hother : ∀ q0 n0, os !! q0 = Some n0 → q0 ≠ p → c ∉ children n0).
  { intros q0 n0 Hq0 Hne Hcin. destruct (Hok _ _ Hq0) as [_ Hall].
    destruct (Hall c Hcin) as (_ & nc' & Hc' & Hpar'). congruence. }
  case_decide as Eqp; [subst q|case_decide as Eqc; [subst q|]].
  - rewrite Hp in Hq. simpl in Hq. simplify_eq. simpl.
    destruct (list_remove_NoDup c (children np) Hndp) as [Hnd' Hc'].
    split; [done|]. intros x Hx. eapply Hchild; [done| |].
    + by apply list_remove_subseteq in Hx.
    + by intros ->.
  - rewrite Hc in Hq. simpl in Hq. simplify_eq. simpl.
    destruct (Hok _ _ Hc) as [Hnd Hall]. split; [done|]. intros x Hx.
    eapply Hchild; [done..|]. intros ->. destruct (Hall c Hx) as [? _]. done.
  - destruct (Hok _ _ Hq) as [Hnd Hall]. split; [done|]. intros x Hx.
    eapply Hchild; [done..|]. intros ->. by eapply Hother.
Qed.

(** After [remove_child], the child is in no child list. *)
Lemma remove_child_detached os p c nc q n :
  children_ok os → os !! c = Some nc → parent nc = Some p →
  remove_child p c os !! q = Some n → c ∉ children n.
Proof.
  intros Hok Hc Hpar Hq.
  assert (Hother : ∀ q0 n0, os !! q0 = Some n0 → q0 ≠ p → c ∉ children n0).
  { intros q0 n0 Hq0 Hne Hcin. destruct (Hok _ _ Hq0) as [_ Hall].
    destruct (Hall c Hcin) as (_ & nc' & Hc' & Hpar'). congruence. }
  destruct (os !! p) as [np|] eqn:Hp.
  - destruct (decide (c ∈ children np)) as [Hin|Hnin].
    + destruct (Hok _ _ Hp) as [Hndp Hallp].
      destruct (Hallp c Hin) as (Hcp & _).
      rewrite (remove_child_lookup os p c np) in Hq by done.
      case_decide as Eqp; [subst q|case_decide as Eqc; [subst q|]].
      * rewrite Hp in Hq. simpl in Hq. simplify_eq. simpl.
        by apply list_remove_NoDup.
      * rewrite Hc in Hq. simpl in Hq. simplify_eq. simpl. by eapply Hother.
      * by eapply Hother.
    + unfold remove_child in Hq. rewrite Hp, decide_False in Hq by done.
      destruct (decide (q = p)) as [->|?]; [congruence|by eapply Hother].
  - unfold remove_child in Hq. rewrite Hp in Hq.
    destruct (decide (q = p)) as [->|?]; [congruence|by eapply Hother].
Qed.

Lemma same_but_links_refl n : same_but_links n n.
Proof. by repeat split. Qed.

Lemma links_only_refl os : links_only os os.
Proof. intros q. destruct (os !! q); auto using same_but_links_refl. Qed.

Lemma links_only_trans os1 os2 os3 :
  links_only os1 os2 → links_only os2 os3 → links_only os1 os3.
Proof.
  intros H12 H23 q. specialize (H12 q). specialize (H23 q).
  destruct (os3 !! q), (os2 !! q), (os1 !! q); try done.
  unfold same_but_links in *. intuition congruence.
Qed.

Lemma links_only_alter os (f : SceneNode → SceneNode) p :
  (∀ n, same_but_links n (f n)) → links_only os (alter f p os).
Proof.
  intros Hf q. rewrite lookup_alter. case_decide as E.
  - subst. destruct (os !! q); simpl; auto.
  - destruct (os !! q); auto using same_but_links_refl.
Qed.

Lemma links_only_add_child os p c : links_only os (add_child p c os).
Proof.
  unfold add_child. eapply links_only_trans;
    apply links_only_alter; intros n; by repeat split.
Qed.

Lemma links_only_remove_child os p c : links_only os (remove_child p c os).
Proof.
  unfold remove_child. destruct (os !! p) as [np|]; [|apply links_only_refl].
  case_decide; [|apply links_only_refl].
  eapply links_only_trans; apply links_only_alter; intros n; by repeat split.
Qed.

Lemma links_only_is_Some os os' q :
  links_only os os' → (is_Some (os' !! q) ↔ is_Some (os !! q)).
Proof. intros H. specialize (H q). destruct (os' !! q), (os !! q); naive_solver. Qed.

Lemma links_only_lookup os os' q n :
  links_only os os' → os !! q = Some n →
  ∃ n', os' !! q = Some n' ∧ same_but_links n n'.
Proof.
  intros H Hq. specialize (H q). rewrite Hq in H.
  destruct (os' !! q); naive_solver.
Qed.

End scene_invariant.

Section scene_wf.
Import Scene.
Implicit Types (s : SceneManager) (os : gmap loc SceneNode) (n : SceneNode).

Lemma wf_init : wf SceneManager_init.
Proof.
  split; [done|]. split; [by eexists|]. split.
  - intros i l Hi. simpl in Hi.
    apply lookup_singleton_Some in Hi as [<- <-]. by eexists.
  - intros p n Hp. simpl in Hp.
    apply lookup_singleton_Some in Hp as [<- <-]. simpl.
    split; [constructor|]. intros c Hc. by apply elem_of_nil in Hc.
Qed.

(** Allocating one more object under the root. *)
Lemma wf_attach s l node node_id :
  wf s → objects s !! l = None → children node = [] → node_id ≠ "root" →
  wf {| objects := add_child (root_node s) l (<[l := node]> (objects s));
        dicts := dicts s; root_node := root_node s;
        nodes := <[node_id := l]> (nodes s);
        camera_settings := camera_settings s;
        lighting_settings := lighting_settings s |}.
Proof.
  intros (Hroot & (r & Hr & Hdata) & Hreg & Hok) Hfresh Hch Hid.
  assert (Hlr : l ≠ root_node s) by (intros ->; congruence).
  pose proof (links_only_add_child (<[l := node]> (objects s)) (root_node s) l) as Hlinks.
  split; [|split; [|split]]; simpl.
  - by rewrite lookup_insert_ne.
  - destruct (links_only_lookup _ _ (root_node s) r Hlinks) as (r' & Hr' & Hsame).
    { by rewrite lookup_insert_ne. }
    exists r'. split; [done|]. destruct Hsame as (_ & _ & _ & _ & _ & -> & _). done.
  - intros i l' Hi. apply (links_only_is_Some _ _ _ Hlinks).
    rewrite lookup_insert_is_Some.
    apply lookup_insert_Some in Hi as [[_ <-]|[_ Hi]]; [auto|].
    destruct (decide (l = l')); [auto|]. right. split; [done|]. eauto.
  - eapply (children_ok_add_child _ _ _ r node).
    + by apply children_ok_insert.
    + by rewrite lookup_insert_ne.
    + by rewrite lookup_insert_eq.
    + done.
    + intros q n [[<- <-]|[Hne Hq]]%lookup_insert_Some.
      * rewrite Hch. intros Hin. by apply elem_of_nil in Hin.
      * intros Hin. destruct (Hok _ _ Hq) as [_ Hall].
        destruct (Hall _ Hin) as (_ & nc & ? & _). congruence.
Qed.

Lemma geometry_id_not_root prefix x :
  prefix ∈ ["line"; "scatter"; "bar"; "histogram"] →
  prefix +:+ "_" +:+ x ≠ "root".
Proof.
  intros Hp. repeat (apply elem_of_cons in Hp as [->|Hp]; [simpl; discriminate|]).
  by apply elem_of_nil in Hp.
Qed.

Lemma wf_add_geometry_node prefix gt data kwargs s :
  prefix ∈ ["line"; "scatter"; "bar"; "histogram"] →
  wf s → wf (add_geometry_node prefix gt data kwargs s).2.
Proof.
  intros Hp Hwf. unfold add_geometry_node. simpl.
  set (l := fresh (dom (objects s))).
  set (mp := fresh (dom (dicts s))).
  set (i := prefix +:+ "_" +:+ pretty (size (nodes s))).
  pose proof (wf_attach s l (GeometryNode_init i gt data mp) i Hwf) as H.
  destruct H as (H1 & H2 & H3 & H4).
  - apply not_elem_of_dom, is_fresh.
  - done.
  - apply geometry_id_not_root. set_solver.
  - by split.
Qed.

Lemma wf_remove_node node_id s : wf s → wf (remove_node node_id s).2.
Proof.
  intros Hwf. unfold remove_node.
  destruct (nodes s !! node_id) as [l|] eqn:Hl; [|done].
  case_decide as Hid; [|done]. simpl.
  destruct Hwf as (Hroot & (r & Hr & Hdata) & Hreg & Hok).
  set (os := match objects s !! l ≫= parent with
             | Some p => remove_child p l (objects s)
             | None => objects s
             end).
  assert (Hlinks : links_only (objects s) os).
  { unfold os. destruct (_ ≫= _); [apply links_only_remove_child|apply links_only_refl]. }
  split; [|split; [|split]]; simpl.
  - by rewrite lookup_delete_ne.
  - destruct (links_only_lookup _ _ _ _ Hlinks Hr) as (r' & Hr' & Hsame).
    exists r'. split; [done|]. destruct Hsame as (_ & _ & _ & _ & _ & -> & _). done.
  - intros i l' Hi. apply (links_only_is_Some _ _ _ Hlinks).
    apply lookup_delete_Some in Hi as [_ Hi]. eauto.
  - unfold os. destruct (_ ≫= _); [by apply children_ok_remove_child|done].
Qed.

Lemma wf_update_node node_id new_data s : wf s → wf (update_node node_id new_data s).2.
Proof.
  intros Hwf. unfold update_node.
  destruct (nodes s !! node_id); [|done]. by destruct (_ ≫= _).
Qed.


(** The widget objects [create_dashboard] allocates. *)
Lemma widgets_lookup (f : nat * (loc * loc) → SceneNode)
    (l : list (nat * (loc * loc))) os q n :
  foldr (λ iwc os, <[iwc.2.1 := f iwc]> os) os l !! q = Some n →
  (∃ iwc, iwc ∈ l ∧ q = iwc.2.1 ∧ n = f iwc) ∨ ((q ∉ (l.*2).*1) ∧ os !! q = Some n).
Proof.
  induction l as [|iwc l IH]; simpl.
  - intros Hq. right. split; [|done]. intros Hin. by apply elem_of_nil in Hin.
  - intros [[<- <-]|[Hne Hq]]%lookup_insert_Some.
    + left. exists iwc. split; [by left|done].
    + destruct (IH Hq) as [(x & Hx & ? & ?)|[Hnin ?]].
      * left. exists x. split; [by right|done].
      * right. split; [|done]. intros Hin. apply elem_of_cons in Hin as [?|?]; done.
Qed.

Lemma widgets_is_Some (f : nat * (loc * loc) → SceneNode)
    (l : list (nat * (loc * loc))) os q :
  q ∈ (l.*2).*1 ∨ is_Some (os !! q) →
  is_Some (foldr (λ iwc os, <[iwc.2.1 := f iwc]> os) os l !! q).
Proof.
  induction l as [|iwc l IH]; simpl.
  - intros [Hq|Hq]; [by apply elem_of_nil in Hq|done].
  - intros H. rewrite lookup_insert_is_Some.
    destruct (decide (iwc.2.1 = q)); [by left|]. right. split; [done|].
    apply IH. destruct H as [Hin|?]; [|auto].
    apply elem_of_cons in Hin as [?|?]; [congruence|auto].
Qed.

Lemma wf_create_dashboard widgets layout s :
  wf s → wf (create_dashboard widgets layout s).2.
Proof.
  intros Hwf. unfold create_dashboard. simpl.
  set (i := "dashboard_" +:+ pretty (size (nodes s))).
  set (d := fresh (dom (objects s))).
  set (ws := fresh_list (length widgets) ({[d]} ∪ dom (objects s))).
  set (f := λ iwc : nat * (loc * loc),
         set_parent (Some d)
           (set_properties iwc.2.2
              (SceneNode_init ("widget_" +:+ i +:+ "_" +:+ pretty iwc.1) "widget"))).
  set (dn := set_children ws (SceneNode_init i "dashboard")).
  set (l := zip (seq 0 (length widgets)) (zip ws widgets)).
  set (os := foldr (λ iwc os, <[iwc.2.1 := f iwc]> os) (<[d := dn]> (objects s)) l).
  change (wf {| objects := add_child (root_node s) d os; dicts := dicts s;
                root_node := root_node s; nodes := <[i := d]> (nodes s);
                camera_settings := camera_settings s;
                lighting_settings := lighting_settings s |}).
  assert (Hd : objects s !! d = None) by apply not_elem_of_dom, is_fresh.
  assert (Hws : (l.*2).*1 = ws).
  { unfold l, ws. rewrite snd_zip by (rewrite length_seq, length_zip, length_fresh_list; lia).
    apply fst_zip. by rewrite length_fresh_list. }
  assert (Hwfresh : ∀ w, w ∈ ws → w ≠ d ∧ objects s !! w = None).
  { intros w Hw%fresh_list_is_fresh. split; [set_solver|].
    apply not_elem_of_dom. set_solver. }
  destruct Hwf as (Hroot & (r & Hr & Hdata) & Hreg & Hok).
  assert (Hold : ∀ q n, objects s !! q = Some n → os !! q = Some n).
  { intros q n Hq. unfold os.
    destruct (widgets_is_Some f l (<[d := dn]> (objects s)) q) as [n' Hn'].
    { right. rewrite lookup_insert_ne; [eauto|congruence]. }
    apply widgets_lookup in Hn' as Hcase. rewrite Hn'.
    destruct Hcase as [(x & Hx & Hqx & _)|[_ Hb]].
    - assert (q ∈ ws).
      { rewrite <- Hws. apply list_elem_of_fmap. exists x.2. split; [done|].
        apply list_elem_of_fmap. by exists x. }
      destruct (Hwfresh q) as [_ ?]; [done|congruence].
    - rewrite lookup_insert_ne in Hb by congruence. congruence. }
  assert (Hosd : os !! d = Some dn).
  { unfold os.
    destruct (widgets_is_Some f l (<[d := dn]> (objects s)) d) as [n' Hn'].
    { right. rewrite lookup_insert_eq. eauto. }
    apply widgets_lookup in Hn' as Hcase. rewrite Hn'.
    destruct Hcase as [(x & Hx & Hqx & _)|[_ Hb]].
    - assert (d ∈ ws).
      { rewrite <- Hws. apply list_elem_of_fmap. exists x.2. split; [done|].
        apply list_elem_of_fmap. by exists x. }
      destruct (Hwfresh d) as [? _]; done.
    - by rewrite lookup_insert_eq in Hb. }
  assert (Hwin : ∀ w, w ∈ ws → ∃ x, os !! w = Some (f x)).
  { intros w Hw. destruct (widgets_is_Some f l (<[d := dn]> (objects s)) w) as [n' Hn'].
    { left. by rewrite Hws. }
    apply widgets_lookup in Hn' as Hcase. fold os in Hn'.
    destruct Hcase as [(x & Hx & Hqx & ->)|[Hnin _]]; [eauto|].
    rewrite Hws in Hnin. done. }
  assert (Hosok : children_ok os).
  { intros q n Hq. apply widgets_lookup in Hq as Hcase.
    destruct Hcase as [(x & Hx & Hqx & ->)|[Hnin Hb]].
    - simpl. split; [constructor|]. intros c Hc. by apply elem_of_nil in Hc.
    - apply lookup_insert_Some in Hb as [[<- <-]|[Hne Hb]].
      + simpl. split; [apply NoDup_fresh_list|].
        intros c Hc. destruct (Hwfresh c Hc) as [Hcd _]. split; [done|].
        destruct (Hwin c Hc) as [x Hx]. exists (f x). by split.
      + destruct (Hok _ _ Hb) as [Hnd Hall]. split; [done|].
        intros c Hc. destruct (Hall c Hc) as (Hcq & nc & Hnc & Hpar).
        split; [done|]. exists nc. split; [by apply Hold|done]. }
  assert (Hdnew : ∀ q n, os !! q = Some n → d ∉ children n).
  { intros q n Hq Hin. apply widgets_lookup in Hq as Hcase.
    destruct Hcase as [(x & Hx & Hqx & ->)|[Hnin Hb]].
    - simpl in Hin. by apply elem_of_nil in Hin.
    - apply lookup_insert_Some in Hb as [[<- <-]|[Hne Hb]].
      + simpl in Hin. destruct (Hwfresh d Hin) as [? _]. done.
      + destruct (Hok _ _ Hb) as [_ Hall].
        destruct (Hall _ Hin) as (_ & nc & ? & _). congruence. }
  pose proof (links_only_add_child os (root_node s) d) as Hlinks.
  clearbody os.
  split; [|split; [|split]]; simpl.
  - rewrite lookup_insert_ne; [done|]. unfold i. simpl. discriminate.
  - destruct (links_only_lookup _ _ _ _ Hlinks (Hold _ _ Hr)) as (r' & Hr' & Hsame).
    exists r'. split; [exact Hr'|]. destruct Hsame as (_ & _ & _ & _ & _ & -> & _). done.
  - intros j l' Hj. apply (links_only_is_Some _ _ _ Hlinks).
    apply lookup_insert_Some in Hj as [[_ <-]|[_ Hj]]; [eauto|].
    destruct (Hreg _ _ Hj) as [n Hn]. eauto.
  - eapply (children_ok_add_child _ _ _ r dn); eauto.
    intros ->. congruence.
Qed.

Lemma wf_exec c s : wf s → wf (exec c s).
Proof.
  intros Hwf. destruct c; simpl.
  - done.
  - apply wf_add_geometry_node; [set_solver|done].
  - apply wf_add_geometry_node; [set_solver|done].
  - apply wf_add_geometry_node; [set_solver|done].
  - apply wf_add_geometry_node; [set_solver|done].
  - by apply wf_update_node.
  - by apply wf_remove_node.
  - by apply (wf_create_dashboard widgets layout).
Qed.

Lemma wf_run cs s : wf s → wf (run cs s).
Proof.
  revert s. induction cs as [|c cs IH]; intros s Hwf; [done|].
  simpl. apply IH. by apply wf_exec.
Qed.

(** Every state a scene manager can be in is well formed. *)
Lemma reachable_wf s : reachable s → wf s.
Proof. intros [cs ->]. apply wf_run, wf_init. Qed.

End scene_wf.

(** ** The scene graph: removal, snapshots, ids *)

Section scene_claims.
Import Scene.
Implicit Types (s : SceneManager) (os : gmap loc SceneNode) (n : SceneNode).

Lemma get_scene_lookup s i :
  snap_nodes (get_scene s) !! i =
    if decide (i = "root") then None
    else l ← nodes s !! i; node_entry <$> objects s !! l.
Proof.
  unfold get_scene. simpl. rewrite lookup_omap. case_decide as E.
  - subst. by rewrite lookup_delete_eq.
  - by rewrite lookup_delete_ne.
Qed.

Lemma remove_node_root s : remove_node "root" s = (Ok false, s).
Proof.
  unfold remove_node. destruct (nodes s !! "root"); [|done].
  by rewrite decide_False by (intros H; by apply H).
Qed.

Lemma remove_node_dicts node_id s : dicts (remove_node node_id s).2 = dicts s.
Proof.
  unfold remove_node. destruct (nodes s !! node_id); [|done].
  by case_decide.
Qed.

Lemma run_remove_dicts ids s : dicts (run (RemoveNode <$> ids) s) = dicts s.
Proof.
  revert s. induction ids as [|i ids IH]; intros s; [done|].
  simpl. by rewrite IH, remove_node_dicts.
Qed.

(** C4, in the form that holds of the code. In every state a scene manager can be in, [remove_node]
    on a known id other than ["root"] returns true, deletes the id from the
    id-to-node map, leaves the node object in no child list, and a snapshot
    taken afterwards has no entry for the id; [remove_node] on ["root"]
    returns false and changes nothing (no error is raised). *)
Theorem remove_node_detaches s :
  reachable s →
  (∀ i l, i ≠ "root" → nodes s !! i = Some l →
     ∃ s', remove_node i s = (Ok true, s')
           ∧ nodes s' !! i = None
           ∧ (∀ q n, objects s' !! q = Some n → l ∉ children n)
           ∧ snap_nodes (get_scene s') !! i = None)
  ∧ remove_node "root" s = (Ok false, s).
Proof.
  intros Hreach. split; [|apply remove_node_root].
  intros i l Hi Hl.
  destruct (reachable_wf s Hreach) as (_ & _ & Hreg & Hok).
  unfold remove_node. rewrite Hl. rewrite decide_True by done.
  eexists. split; [reflexivity|].
  split; [apply lookup_delete_eq|]. split.
  - simpl. destruct (Hreg _ _ Hl) as [nl Hnl]. rewrite Hnl. simpl.
    destruct (parent nl) as [p|] eqn:Hp.
    + intros q n Hq. by eapply remove_child_detached.
    + intros q n Hq Hin. destruct (Hok _ _ Hq) as [_ Hall].
      destruct (Hall _ Hin) as (_ & nc & ? & ?). congruence.
  - rewrite get_scene_lookup. case_decide; [done|]. simpl.
    by rewrite lookup_delete_eq.
Qed.

Lemma remove_node_detaches_witness :
  let s := run [NewDict []; AddLine 2 []] SceneManager_init in
  ∃ s', remove_node "line_1" s = (Ok true, s')
        ∧ nodes s' !! "line_1" = None
        ∧ remove_node "root" s = (Ok false, s).
Proof.
  intros s.
  destruct (remove_node_detaches s) as [Hrem Hroot].
  { by exists [NewDict []; AddLine 2 []]. }
  destruct (Hrem "line_1" 1) as (s' & Hrun & Hgone & _).
  { discriminate. }
  { vm_compute. reflexivity. }
  exists s'. repeat split; assumption.
Defined.

(** Removing the root raises nothing: the call returns false. *)
Lemma remove_root_returns_false :
  remove_node "root" SceneManager_init = (Ok false, SceneManager_init)
  ∧ is_ok (remove_node "root" SceneManager_init).1 = true.
Proof. split; reflexivity. Qed.


(** C2, in the form that holds of the code. A snapshot is a new mapping with one entry for every
    registered node except the root; an entry holds the node's type,
    geometry type, transform and visibility by value, and refers to the
    node's own payload and material dictionaries (they are shared, not
    copied). Hence any sequence of [remove_node] calls leaves the contents of
    a snapshot taken before unchanged, and the snapshot still reports a node
    removed after it was taken; but after [update_node] on a snapshotted
    geometry node the snapshot reports the merged payload for it. *)
Theorem snapshot_shares_dictionaries s :
  reachable s →
  let snap := get_scene s in
  (∀ i, snap_nodes snap !! i =
          if decide (i = "root") then None
          else l ← nodes s !! i; node_entry <$> objects s !! l)
  ∧ (∀ i l, i ≠ "root" → nodes s !! i = Some l →
       ∃ n, objects s !! l = Some n
            ∧ snap_nodes snap !! i = Some (node_entry n))
  ∧ (∀ ids,
       snapshot_contents (dicts (run (RemoveNode <$> ids) s)) snap
       = snapshot_contents (dicts s) snap)
  ∧ (∀ i l n d old new_data,
       i ≠ "root" → nodes s !! i = Some l → objects s !! l = Some n →
       data n = Some d → dicts s !! d = Some old →
       ∃ s', update_node i new_data s = (Ok true, s')
             ∧ (c_data <$> (snapshot_contents (dicts s) snap).1.1 !! i)
               = Some (Some old)
             ∧ (c_data <$> (snapshot_contents (dicts s') snap).1.1 !! i)
               = Some (Some (dict_update old new_data))).
Proof.
  intros Hreach snap.
  destruct (reachable_wf s Hreach) as (_ & _ & Hreg & _).
  pose proof (get_scene_lookup s) as Hsnap. fold snap in Hsnap. clearbody snap.
  split; [exact Hsnap|]. split; [|split].
  - intros i l Hi Hl. destruct (Hreg _ _ Hl) as [n Hn]. exists n.
    split; [done|]. rewrite Hsnap, decide_False by done.
    by rewrite Hl; simpl; rewrite Hn.
  - intros ids. by rewrite run_remove_dicts.
  - intros i l n d old new_data Hi Hl Hn Hd Hold.
    assert (Hentry : snap_nodes snap !! i = Some (node_entry n)).
    { rewrite Hsnap, decide_False by done. by rewrite Hl; simpl; rewrite Hn. }
    unfold update_node. rewrite Hl, Hn. simpl. rewrite Hd.
    eexists. split; [reflexivity|].
    unfold snapshot_contents. simpl.
    rewrite !lookup_fmap, Hentry. simpl. rewrite Hd. simpl.
    by rewrite lookup_alter_eq, Hold.
Qed.

Lemma snapshot_shares_dictionaries_witness :
  let s := run [NewDict [("count", VInt 4)]; AddLine 2 []] SceneManager_init in
  let snap := get_scene s in
  snapshot_contents (dicts (run [RemoveNode "line_1"] s)) snap
  = snapshot_contents (dicts s) snap.
Proof.
  intros s snap.
  destruct (snapshot_shares_dictionaries s) as (_ & _ & Hrem & _).
  { by exists [NewDict [("count", VInt 4)]; AddLine 2 []]. }
  exact (Hrem ["line_1"]).
Defined.

(** A snapshot taken before [update_node] reports the updated payload: its
    contents did change. *)
Lemma update_node_changes_snapshot :
  let s := run [NewDict [("count", VInt 4)]; AddLine 2 []] SceneManager_init in
  let snap := get_scene s in
  let s' := exec (UpdateNode "line_1" [("count", VInt 5)]) s in
  (c_data <$> (snapshot_contents (dicts s) snap).1.1 !! "line_1")
    = Some (Some [("count", VInt 4)])
  ∧ (c_data <$> (snapshot_contents (dicts s') snap).1.1 !! "line_1")
    = Some (Some [("count", VInt 5)])
  ∧ snapshot_contents (dicts s') snap ≠ snapshot_contents (dicts s) snap.
Proof.
  intros s snap s'.
  assert (H1 : (c_data <$> (snapshot_contents (dicts s) snap).1.1 !! "line_1")
               = Some (Some [("count", VInt 4)])) by (vm_compute; reflexivity).
  assert (H2 : (c_data <$> (snapshot_contents (dicts s') snap).1.1 !! "line_1")
               = Some (Some [("count", VInt 5)])) by (vm_compute; reflexivity).
  split; [exact H1|]. split; [exact H2|].
  intros E. rewrite E in H2. rewrite H1 in H2. discriminate H2.
Qed.

(** C10. In every state a scene manager can be in, [update_node] called
    with the id ["root"] raises [AttributeError], whatever the data: the
    root is registered, but it is a plain [SceneNode] with no [data]. For
    an unknown id the call returns false, for the id of a geometry node
    true. *)
Theorem update_node_root_raises s new_data :
  reachable s →
  update_node "root" new_data s
    = (Raise (AttributeError "'SceneNode' object has no attribute 'data'"), s)
  ∧ (∀ i, nodes s !! i = None → update_node i new_data s = (Ok false, s))
  ∧ (∀ i l n d, nodes s !! i = Some l → objects s !! l = Some n →
       data n = Some d →
       ∃ s', update_node i new_data s = (Ok true, s')).
Proof.
  intros Hreach.
  destruct (reachable_wf s Hreach) as (Hroot & (r & Hr & Hdata) & _ & _).
  unfold update_node. split; [|split].
  - rewrite Hroot, Hr. simpl. by rewrite Hdata.
  - by intros i ->.
  - intros i l n d -> -> Hd. simpl. rewrite Hd. by eexists.
Qed.

Lemma update_node_root_raises_witness :
  update_node "root" [("test", VStr "updated")] SceneManager_init
  = (Raise (AttributeError "'SceneNode' object has no attribute 'data'"),
     SceneManager_init).
Proof.
  apply (update_node_root_raises SceneManager_init [("test", VStr "updated")]).
  by exists [].
Defined.

(** C9 fails on the code: ids are built from the current number of
    registered nodes, so after a removal the next [add_line] returns an id
    that was returned before, and which here still names a live node. The
    new node takes the id over in the map, while both objects stay children
    of the root. *)
Theorem add_line_reuses_id_after_remove :
  let history := [NewDict []; AddLine 2 []; AddLine 2 [];
                  RemoveNode "line_1"; AddLine 2 []] in
  let s := run history SceneManager_init in
  returned_ids history SceneManager_init = ["line_1"; "line_2"; "line_2"]
  ∧ ¬ NoDup (returned_ids history SceneManager_init)
  ∧ map_to_list (nodes s) = [("root", 0); ("line_2", 3)]
  ∧ (children <$> objects s !! 0) = Some [2; 3]
  ∧ (node_id <$> objects s !! 2) = Some "line_2"
  ∧ (node_id <$> objects s !! 3) = Some "line_2".
Proof.
  intros history s.
  assert (E : returned_ids history SceneManager_init = ["line_1"; "line_2"; "line_2"])
    by (vm_compute; reflexivity).
  split; [exact E|]. split.
  - rewrite E. intros Hnd. apply NoDup_cons in Hnd as [_ Hnd].
    apply NoDup_cons in Hnd as [Hnin _]. apply Hnin. by left.
  - repeat split; vm_compute; reflexivity.
Qed.

End scene_claims.

(** ** The shader cache *)

Section shader_cache_facts.
Import Shader.
Context `{Python}.
Implicit Types (p q : pydict) (sm : ShaderManager).

#[local] Instance key_le_trans : Transitive (λ a b : string * pyval, String.le a.1 b.1).
Proof. intros a b c. apply transitivity. Qed.

#[local] Instance key_le_total : Total (λ a b : string * pyval, String.le a.1 b.1).
Proof. intros a b. apply total, _. Qed.

Lemma sm_ok_init : sm_ok ShaderManager_init.
Proof. split; [by eexists|]. intros k l Hk. done. Qed.

(** A call of [get_shader_for_geometry] returns an existing program. *)
Lemma get_shader_for_geometry_ok g props sm :
  sm_ok sm →
  ∃ l sm', get_shader_for_geometry g props sm = (Ok l, sm')
           ∧ sm_ok sm'
           ∧ is_Some (programs sm' !! l)
           ∧ shader_cache sm' !! cache_key g props = Some l
           ∧ (∀ l' (sp : ShaderProgram),
                programs sm !! l' = Some sp → programs sm' !! l' = Some sp).
Proof.
  intros [[pt Hpt] Hcache]. unfold get_shader_for_geometry.
  destruct (shader_cache sm !! cache_key g props) as [l|] eqn:Hk.
  - exists l, sm. repeat split; eauto.
  - set (tpl := match g ≫= (default_shaders sm !!.) with
                | Some shaders => Some shaders
                | None => default_shaders sm !! "point"
                end).
    assert (is_Some tpl) as [[vs fs] ->].
    { unfold tpl. destruct (g ≫= _); [eauto|rewrite Hpt; eauto]. }
    destruct (customize_shader_with_material vs fs props) as [vs' fs'].
    set (l := fresh (dom (programs sm))).
    assert (Hl : programs sm !! l = None) by apply not_elem_of_dom, is_fresh.
    eexists l, _. split; [reflexivity|]. simpl.
    split; [split; [eauto|]|split; [|split]].
    + intros k l' Hk'. simpl in *.
      apply lookup_insert_Some in Hk' as [[_ <-]|[_ Hk']].
      * rewrite lookup_insert_eq. eauto.
      * apply lookup_insert_is_Some. destruct (decide (l = l')); eauto.
    + rewrite lookup_insert_eq. eauto.
    + by rewrite lookup_insert_eq.
    + intros l' sp Hl'. rewrite lookup_insert_ne; [done|congruence].
Qed.

(** Whatever the shader manager holds, [get_shader_for_geometry] returns or
    raises [KeyError]. *)
Lemma get_shader_for_geometry_outcome g props sm :
  match (get_shader_for_geometry g props sm).1 with
  | Ok _ => True
  | Raise e => is_KeyError e
  end.
Proof.
  unfold get_shader_for_geometry.
  destruct (shader_cache sm !! _); [done|].
  destruct (match g ≫= _ with Some _ => _ | None => _ end) as [[vs fs]|]; [|done].
  by destruct (customize_shader_with_material vs fs props).
Qed.

(** In a dictionary, a key has one value. *)
Lemma dict_keys_functional p k v1 v2 :
  NoDup (dict_keys p) → (k, v1) ∈ p → (k, v2) ∈ p → v1 = v2.
Proof.
  unfold dict_keys. induction p as [|[k' v'] p IH]; simpl; intros Hnd H1 H2.
  { by apply elem_of_nil in H1. }
  apply NoDup_cons in Hnd as [Hk' Hnd].
  apply elem_of_cons in H1 as [H1|H1]; apply elem_of_cons in H2 as [H2|H2];
    simplify_eq; try done.
  - exfalso. apply Hk'. apply list_elem_of_fmap. by exists (k', v2).
  - exfalso. apply Hk'. apply list_elem_of_fmap. by exists (k', v1).
  - by apply IH.
Qed.

(** The canonical form does not depend on the order of the entries. *)
Lemma sorted_items_perm p q :
  NoDup (dict_keys p) → q ≡ₚ p → sorted_items q = sorted_items p.
Proof.
  intros Hnd Hperm. unfold sorted_items.
  apply (Sorted_unique_strong (λ a b : string * pyval, String.le a.1 b.1)).
  - intros [k1 v1] [k2 v2] H1 H2 Hle Hge. simpl in *.
    rewrite merge_sort_Permutation in H1, H2. rewrite Hperm in H1.
    assert (k1 = k2) as -> by (by apply (anti_symm String.le)).
    f_equal. by eapply dict_keys_functional.
  - apply Sorted_merge_sort, _.
  - apply Sorted_merge_sort, _.
  - by rewrite !merge_sort_Permutation.
Qed.

(** Different key sets have different canonical forms. *)
Lemma sorted_items_keys p q :
  sorted_items q = sorted_items p → dict_keys q ≡ₚ dict_keys p.
Proof.
  unfold sorted_items, dict_keys. intros E.
  rewrite <- (merge_sort_Permutation (λ a b : string * pyval, String.le a.1 b.1) q).
  rewrite <- (merge_sort_Permutation (λ a b : string * pyval, String.le a.1 b.1) p).
  by rewrite E.
Qed.

(** The cache key is as fine as the hash of the canonical form. *)
Lemma cache_key_eq_iff g p q :
  cache_key g q = cache_key g p
  ↔ py_hash (str_items (sorted_items q)) = py_hash (str_items (sorted_items p)).
Proof.
  unfold cache_key. split; [|by intros ->].
  intros E. apply (inj (String.app _)) in E. apply (inj (String.app _)) in E.
  by apply (inj pretty) in E.
Qed.

(** A second call with the same cache key returns the cached object. *)
Lemma get_shader_for_geometry_again g p q sm :
  sm_ok sm → cache_key g q = cache_key g p →
  ∃ l sm1, get_shader_for_geometry g p sm = (Ok l, sm1)
           ∧ get_shader_for_geometry g q sm1 = (Ok l, sm1)
           ∧ is_Some (programs sm1 !! l).
Proof.
  intros Hok Hkey.
  destruct (get_shader_for_geometry_ok g p sm Hok)
    as (l & sm1 & Hrun & _ & Hl & Hcache & _).
  exists l, sm1. split; [done|]. split; [|done].
  unfold get_shader_for_geometry. by rewrite Hkey, Hcache.
Qed.

End shader_cache_facts.

Section shader_cache_claim.
Import Shader.
Context `{Python}.
Implicit Types (p q : pydict) (sm : ShaderManager).

(** C8, in the form that holds of the code. Two calls of the shader resolver with the same geometry
    kind and the same material properties, in any key order, return the
    identical shader program object: the second call finds the first one's
    cache entry, because the cache key is built from the properties sorted
    by name. Changing any property key changes that canonical form; the
    cache key itself is the geometry kind followed by the hash of the
    canonical form, so it changes exactly when the hash does. *)
Theorem shader_cache_key_canonical g p q sm :
  sm_ok sm → NoDup (dict_keys p) → q ≡ₚ p →
  (∃ l sm1, get_shader_for_geometry g p sm = (Ok l, sm1)
            ∧ get_shader_for_geometry g q sm1 = (Ok l, sm1)
            ∧ is_Some (programs sm1 !! l))
  ∧ sorted_items q = sorted_items p
  ∧ cache_key g q = cache_key g p
  ∧ (∀ q', ¬ dict_keys q' ≡ₚ dict_keys p → sorted_items q' ≠ sorted_items p)
  ∧ (∀ q', cache_key g q' = cache_key g p
           ↔ py_hash (str_items (sorted_items q'))
             = py_hash (str_items (sorted_items p))).
Proof.
  intros Hok Hnd Hperm.
  assert (Hs : sorted_items q = sorted_items p) by by apply sorted_items_perm.
  assert (Hk : cache_key g q = cache_key g p) by (unfold cache_key; by rewrite Hs).
  split; [by apply get_shader_for_geometry_again|].
  split; [done|]. split; [done|]. split.
  - intros q' Hne E. by apply Hne, sorted_items_keys.
  - intros q'. apply cache_key_eq_iff.
Qed.

End shader_cache_claim.

Section shader_cache_examples.
Import Shader.

Lemma shader_cache_key_canonical_witness :
  let p := [("color", VList [VInt 1; VInt 0; VInt 0; VInt 1]); ("opacity", VInt 1)] in
  let q := [("opacity", VInt 1); ("color", VList [VInt 1; VInt 0; VInt 0; VInt 1])] in
  ∃ l sm1,
    get_shader_for_geometry (Some "scatter") p ShaderManager_init = (Ok l, sm1)
    ∧ get_shader_for_geometry (Some "scatter") q sm1 = (Ok l, sm1).
Proof.
  intros p q.
  destruct (shader_cache_key_canonical (Some "scatter") p q ShaderManager_init)
    as [(l & sm1 & H1 & H2 & _) _].
  - apply sm_ok_init.
  - unfold dict_keys. simpl. repeat constructor; set_solver.
  - apply Permutation_swap.
  - by exists l, sm1.
Defined.

(** Two property dictionaries with different keys and one cache key. The
    key is made from the string of the sorted items, and that string is
    made of the values' [repr]: for [{"a": 1, "b": 2}] and for [{"a": r}],
    where [repr(r)] is ["1), ('b', 2"], it is ["[('a', 1), ('b', 2)]"] both
    times. So whatever the hash function, the resolver called with the
    second dictionary returns the program it cached for the first. *)
Lemma crafted_repr_shares_cache_key :
  let p := [("a", VInt 1); ("b", VInt 2)] in
  let q := [("a", VObject 0)] in
  let py := CraftedRepr.builtins in
  ¬ dict_keys q ≡ₚ dict_keys p
  ∧ @str_items py (sorted_items p) = "[('a', 1), ('b', 2)]"
  ∧ @str_items py (sorted_items q) = "[('a', 1), ('b', 2)]"
  ∧ @cache_key py (Some "line") q = @cache_key py (Some "line") p
  ∧ ∃ l sm1,
      @get_shader_for_geometry py (Some "line") p ShaderManager_init = (Ok l, sm1)
      ∧ @get_shader_for_geometry py (Some "line") q sm1 = (Ok l, sm1)
      ∧ is_Some (programs sm1 !! l).
Proof.
  intros p q py.
  assert (Hp : @str_items py (sorted_items p) = "[('a', 1), ('b', 2)]")
    by (vm_compute; reflexivity).
  assert (Hq : @str_items py (sorted_items q) = "[('a', 1), ('b', 2)]")
    by (vm_compute; reflexivity).
  assert (Hk : @cache_key py (Some "line") q = @cache_key py (Some "line") p).
  { unfold cache_key. by rewrite Hp, Hq. }
  split.
  { intros Hperm. apply Permutation_length in Hperm. discriminate Hperm. }
  split; [exact Hp|]. split; [exact Hq|]. split; [exact Hk|].
  exact (@get_shader_for_geometry_again py (Some "line") p q ShaderManager_init
           sm_ok_init Hk).
Qed.

End shader_cache_examples.

(** ** Render preparation *)

Section render_facts.
Import Scene Shader Render.
Context `{Numpy} `{Python}.
Implicit Types (r : Renderer) (sm : ShaderManager).

Lemma prepare_node_ok node_id e r :
  sm_ok (shader_manager r) →
  ∃ f r', prepare_node node_id e r = (Ok f, r')
          ∧ sm_ok (shader_manager r') ∧ same_setup r r'
          ∧ (∀ l p, programs (shader_manager r) !! l = Some p →
                    programs (shader_manager r') !! l = Some p)
          ∧ f_id f = node_id ∧ f_type f = snap_type e
          ∧ f_geometry_type f = snap_geometry_type e
          ∧ f_material_properties f = snap_material_properties e
          ∧ f_transform f = snap_transform e
          ∧ f_visible f = snap_visible e
          ∧ is_Some (programs (shader_manager r') !! f_shader f).
Proof.
  intros Hok.
  destruct (get_shader_for_geometry_ok (snap_geometry_type e)
              (items r (snap_material_properties e)) _ Hok)
    as (l & sm' & Hrun & Hok' & Hl & _ & Hgrow).
  unfold prepare_node, mbind, M_bind, mret, M_ret, get, on_shader_manager,
    process_node_data. rewrite Hrun. simpl.
  eexists _, _. split; [reflexivity|]. simpl.
  split; [exact Hok'|]. split; [by repeat split|]. split; [exact Hgrow|].
  repeat (split; [reflexivity|]). exact Hl.
Qed.

Lemma prepare_nodes_ok (nodes : gmap string SnapNode) r :
  sm_ok (shader_manager r) →
  ∃ fs r', prepare_nodes nodes r = (Ok fs, r')
           ∧ sm_ok (shader_manager r') ∧ same_setup r r'
           ∧ (∀ l p, programs (shader_manager r) !! l = Some p →
                     programs (shader_manager r') !! l = Some p)
           ∧ dom fs = dom nodes
           ∧ ∀ i e, nodes !! i = Some e →
               ∃ f, fs !! i = Some f
                    ∧ f_id f = i ∧ f_type f = snap_type e
                    ∧ f_geometry_type f = snap_geometry_type e
                    ∧ f_material_properties f = snap_material_properties e
                    ∧ f_transform f = snap_transform e
                    ∧ f_visible f = snap_visible e
                    ∧ is_Some (programs (shader_manager r') !! f_shader f).
Proof.
  unfold prepare_nodes. revert r.
  apply (map_fold_weak_ind (λ (acc : M Renderer (gmap string FrameNode)) nodes,
    ∀ r, sm_ok (shader_manager r) →
    ∃ fs r', acc r = (Ok fs, r')
      ∧ sm_ok (shader_manager r') ∧ same_setup r r'
      ∧ (∀ l p, programs (shader_manager r) !! l = Some p →
                programs (shader_manager r') !! l = Some p)
      ∧ dom fs = dom nodes
      ∧ ∀ i e, nodes !! i = Some e →
          ∃ f, fs !! i = Some f
               ∧ f_id f = i ∧ f_type f = snap_type e
               ∧ f_geometry_type f = snap_geometry_type e
               ∧ f_material_properties f = snap_material_properties e
               ∧ f_transform f = snap_transform e
               ∧ f_visible f = snap_visible e
               ∧ is_Some (programs (shader_manager r') !! f_shader f))).
  - intros r Hok. exists ∅, r. split; [done|]. split; [done|].
    split; [by repeat split|]. split; [done|]. split; [by rewrite !dom_empty_L|].
    intros i e Hi. by rewrite lookup_empty in Hi.
  - intros i e m acc Hi IH r Hok.
    destruct (IH r Hok) as (fs & r1 & Hacc & Hok1 & Hsame1 & Hgrow1 & Hdom & Hall).
    destruct (prepare_node_ok i e r1 Hok1)
      as (f & r2 & Hnode & Hok2 & Hsame2 & Hgrow2 & Hf).
    exists (<[i := f]> fs), r2.
    split. { unfold mbind, M_bind. rewrite Hacc, Hnode. done. }
    split; [done|]. split.
    { destruct Hsame1 as (? & ? & ? & ?), Hsame2 as (? & ? & ? & ?).
      repeat split; congruence. }
    split; [auto|]. split; [by rewrite !dom_insert_L, Hdom|].
    intros j e' [[<- <-]|[Hne Hj]]%lookup_insert_Some.
    + exists f. by rewrite lookup_insert_eq.
    + destruct (Hall j e' Hj) as (f' & Hf' & ? & ? & ? & ? & ? & ? & [p Hp]).
      exists f'. rewrite lookup_insert_ne by done. repeat split; eauto.
Qed.

(** Invisible nodes are passed over by the draw loop of a backend. *)
Lemma render_nodes_invisible (nodes : list (string * FrameNode)) (b : Backend) :
  Forall (λ kv, f_visible kv.2 = false) nodes →
  render_nodes nodes b = (Ok tt, b).
Proof.
  induction 1 as [|[i f] nodes Hf _ IH]; [done|].
  simpl in *. by rewrite Hf.
Qed.


Lemma prepare_node_outcome node_id e r :
  same_setup r (prepare_node node_id e r).2
  ∧ match (prepare_node node_id e r).1 with
    | Ok _ => True
    | Raise e => is_KeyError e
    end.
Proof.
  pose proof (get_shader_for_geometry_outcome (snap_geometry_type e)
                (items r (snap_material_properties e)) (shader_manager r)) as Hout.
  unfold prepare_node, mbind, M_bind, mret, M_ret, get, on_shader_manager,
    process_node_data.
  destruct (get_shader_for_geometry _ _ _) as [[l|ex] sm']; simpl in *;
    (split; [by repeat split|done]).
Qed.

Lemma prepare_nodes_outcome (nodes : gmap string SnapNode) r :
  same_setup r (prepare_nodes nodes r).2
  ∧ match (prepare_nodes nodes r).1 with
    | Ok _ => True
    | Raise e => is_KeyError e
    end.
Proof.
  unfold prepare_nodes. revert r.
  apply (map_fold_weak_ind (λ (acc : M Renderer (gmap string FrameNode)) nodes,
    ∀ r, same_setup r (acc r).2
         ∧ match (acc r).1 with Ok _ => True | Raise e => is_KeyError e end)).
  - intros r. split; [by repeat split|done].
  - intros i e m acc Hi IH r. destruct (IH r) as [Hsame Hout].
    unfold mbind, M_bind. destruct (acc r) as [[fs|ex] r1]; simpl in *; [|done].
    destruct (prepare_node_outcome i e r1) as [Hsame' Hout'].
    destruct (prepare_node i e r1) as [[f|ex] r2]; simpl in *.
    + split; [|done]. destruct Hsame as (? & ? & ? & ?), Hsame' as (? & ? & ? & ?).
      repeat split; congruence.
    + split; [|done]. destruct Hsame as (? & ? & ? & ?), Hsame' as (? & ? & ? & ?).
      repeat split; congruence.
Qed.

Lemma render_nodes_outcome (nodes : list (string * FrameNode)) (b : Backend) :
  is_initialized (render_nodes nodes b).2 = is_initialized b
  ∧ match (render_nodes nodes b).1 with
    | Ok _ => True
    | Raise e => is_KeyError e
    end.
Proof.
  revert b. induction nodes as [|[i f] nodes IH]; intros b; [done|].
  simpl. destruct (f_visible f); [|apply IH]. simpl. split; [|done].
  unfold get_pipeline_for_geometry.
  destruct (kind b); simpl; by destruct (pipeline_cache b !! _).
Qed.

End render_facts.

Section render_claims.
Import Scene Shader Render.
Context `{Numpy} `{Python}.
Implicit Types (r : Renderer) (sm : ShaderManager).

(** C5, in the form that holds of the code. Render preparation filters nothing: for every scene,
    with a shader manager that has its fallback template, [_prepare_scene]
    returns a frame whose node collection has exactly the ids of the scene;
    every node, visible or not, appears there with a resolved shader and its
    [visible] flag copied unchanged. The flag is read later, by the draw loop
    of a backend, which passes over the nodes whose flag is false. *)
Theorem prepare_scene_keeps_every_node (scene : Snapshot) r :
  sm_ok (shader_manager r) →
  ∃ prepared r',
    prepare_scene scene r = (Ok prepared, r')
    ∧ dom (p_nodes prepared) = dom (snap_nodes scene)
    ∧ (∀ i e, snap_nodes scene !! i = Some e →
         ∃ f, p_nodes prepared !! i = Some f
              ∧ f_id f = i
              ∧ f_visible f = snap_visible e
              ∧ is_Some (programs (shader_manager r') !! f_shader f))
    ∧ (∀ b, is_initialized b = true →
         (∀ i f, p_nodes prepared !! i = Some f → f_visible f = false) →
         backend_render prepared b = (Ok tt, b)).
Proof.
  intros Hok.
  destruct (prepare_nodes_ok (snap_nodes scene) r Hok)
    as (fs & r' & Hrun & _ & _ & _ & Hdom & Hall).
  unfold prepare_scene, mbind, M_bind, mret, M_ret, get. rewrite Hrun.
  eexists _, _. split; [reflexivity|]. simpl.
  split; [done|]. split.
  - intros i e Hi. destruct (Hall i e Hi) as (f & Hf & ? & _ & _ & _ & _ & ? & ?).
    exists f. by repeat split.
  - intros b Hb Hinv. unfold backend_render. rewrite Hb. simpl.
    apply render_nodes_invisible, Forall_forall.
    intros [i f] Hin%elem_of_map_to_list. simpl. by eapply Hinv.
Qed.

End render_claims.

Section render_examples.
Import Scene Shader Render.

Lemma prepare_scene_keeps_every_node_witness :
  ∃ prepared r' f,
    prepare_scene hidden_scene renderer0 = (Ok prepared, r')
    ∧ p_nodes prepared !! "node1" = Some f
    ∧ f_visible f = false.
Proof.
  destruct (prepare_scene_keeps_every_node hidden_scene renderer0)
    as (prepared & r' & Hrun & _ & Hall & _).
  { apply sm_ok_init. }
  destruct (Hall "node1" _ (lookup_singleton_eq _ _)) as (f & Hf & _ & Hvis & _).
  exists prepared, r', f. by repeat split.
Defined.

(** The hidden node is in the frame [_prepare_scene] produces, flagged. *)
Lemma hidden_node_is_in_the_frame :
  let prepared := returned (prepare_scene hidden_scene renderer0).1 in
  (dom <$> (p_nodes <$> prepared)) = Some {[ "node1" ]}
  ∧ (prepared ≫= λ p, f_visible <$> p_nodes p !! "node1") = Some false.
Proof.
  intros prepared.
  assert (E : (prepared ≫= λ p, f_visible <$> p_nodes p !! "node1") = Some false)
    by (vm_compute; reflexivity).
  split; [|exact E].
  destruct (prepare_nodes_ok (snap_nodes hidden_scene) renderer0 sm_ok_init)
    as (fs & r' & Hrun & _ & _ & _ & Hdom & _).
  unfold prepared, prepare_scene, mbind, M_bind, mret, M_ret, get.
  rewrite Hrun. simpl. rewrite Hdom. unfold hidden_scene. simpl.
  by rewrite dom_singleton_L.
Qed.

End render_examples.

Section initialization_claims.
Import Scene Shader Render.
Context `{Numpy} `{Python}.
Implicit Types (r : Renderer) (b : Backend).

(** C6, in the form that holds of the code. [Renderer.render] never fails for want of
    initialization: on a renderer that is not initialized it first
    initializes the backend and itself, and then proceeds exactly as on an
    initialized one, so it raises no [RuntimeError]. The not-initialized
    error is raised by the [render] of a backend called directly before
    [initialize], and by [DisplayBackend.display]; [Renderer.display] checks
    nothing. *)
Theorem render_initializes_on_demand :
  (∀ scene r,
     render scene r = render scene (initialize r).2
     ∧ initialized (render scene r).2 = true
     ∧ (initialized r = false →
        is_initialized (backend (render scene r).2) = true
        ∧ match (render scene r).1 with
          | Ok _ => True
          | Raise e => ¬ is_RuntimeError e
          end))
  ∧ (∀ prepared b,
       is_initialized b = false →
       ∃ msg, backend_render prepared b = (Raise (RuntimeError msg), b))
  ∧ (∀ r, display r = (Ok tt, r))
  ∧ (∀ d, d_is_initialized d = false →
       DisplayBackend_display d
       = (Raise (RuntimeError "Display backend not initialized"), d)).
Proof.
  split; [|split; [|split]].
  - intros scene r.
    assert (Hgen : ∀ r0, initialized r0 = true →
              initialized (render scene r0).2 = true
              ∧ (is_initialized (backend r0) = true →
                 is_initialized (backend (render scene r0).2) = true
                 ∧ match (render scene r0).1 with
                   | Ok _ => True
                   | Raise e => ¬ is_RuntimeError e
                   end)).
    { intros r0 Hinit.
      unfold render, mbind, M_bind, mret, M_ret, get. rewrite Hinit.
      unfold prepare_scene, mbind, M_bind, mret, M_ret, get.
      destruct (prepare_nodes_outcome (snap_nodes scene) r0)
        as [(Hd & Hb & Hi & Hv) Hout].
      destruct (prepare_nodes (snap_nodes scene) r0) as [[fs|ex] r1]; simpl in *.
      - unfold on_backend, backend_render.
        destruct (is_initialized (backend r1)) eqn:Hbi.
        + pose proof (render_nodes_outcome (map_to_list fs) (backend r1)) as [Hk Ho].
          destruct (render_nodes _ _) as [[u|ex] b']; simpl in *.
          * split; [congruence|]. intros _. split; [congruence|done].
          * split; [congruence|]. intros _. split; [congruence|].
            destruct ex; simpl in *; tauto.
        + simpl. split; [congruence|]. intros Hb0. congruence.
      - split; [congruence|]. intros Hb0. split; [congruence|]. destruct ex; simpl in *; tauto. }
    assert (Hstep : render scene r = render scene (initialize r).2).
    { unfold initialize. destruct (initialized r) eqn:Hinit; [done|].
      unfold render at 1. unfold mbind, M_bind, get. rewrite Hinit.
      unfold initialize. rewrite Hinit. simpl.
      unfold render, mbind, M_bind, mret, M_ret, get. done. }
    split; [exact Hstep|].
    assert (Hinit' : initialized (initialize r).2 = true).
    { unfold initialize. by destruct (initialized r) eqn:E. }
    rewrite Hstep. destruct (Hgen _ Hinit') as [H1 H2].
    split; [exact H1|]. intros Hr. apply H2.
    unfold initialize. by rewrite Hr.
  - intros prepared b Hb. unfold backend_render. rewrite Hb. by eexists.
  - intros r. unfold display, on_backend, backend_display, mret, M_ret. simpl.
    by destruct r.
  - intros d Hd. unfold DisplayBackend_display. by rewrite Hd.
Qed.

End initialization_claims.

Section initialization_examples.
Import Scene Shader Render.

(** On a renderer that was never initialized, [render] returns normally
    and leaves renderer and backend initialized; [display] returns too. *)
Lemma render_before_initialize_succeeds :
  initialized renderer0 = false
  ∧ is_initialized (backend renderer0) = false
  ∧ (render empty_scene renderer0).1 = Ok tt
  ∧ initialized (render empty_scene renderer0).2 = true
  ∧ is_initialized (backend (render empty_scene renderer0).2) = true
  ∧ (display renderer0).1 = Ok tt.
Proof. repeat split; vm_compute; reflexivity. Qed.

End initialization_examples.

(** ** The entry points of the data pipeline, end to end *)

Section registry_more_facts.
Context `{Numpy}.
Implicit Types (z : ZeroCopyDataPipeline) (st : gmap loc DataBuffer).

Lemma transfer_to_gpu_lookup l st l' :
  transfer_to_gpu l st !! l' =
    if decide (l' = l)
    then (λ b, {| data := data b; buffer_type := buffer_type b;
                  gpu_address := Some l |}) <$> st !! l'
    else st !! l'.
Proof.
  unfold transfer_to_gpu. case_decide as E.
  - subst. by rewrite lookup_alter_eq.
  - by rewrite lookup_alter_ne.
Qed.

Lemma transfer_fold_lookup (kvs : list (string * loc)) st l b :
  st !! l = Some b →
  ∃ b', foldl (λ st kv, transfer_to_gpu kv.2 st) st kvs !! l = Some b'
        ∧ data b' = data b ∧ buffer_type b' = buffer_type b
        ∧ (l ∈ kvs.*2 → is_Some (gpu_address b'))
        ∧ (l ∉ kvs.*2 → gpu_address b' = gpu_address b)
        ∧ (is_Some (gpu_address b) → is_Some (gpu_address b')).
Proof.
  revert st b. induction kvs as [|[name l0] kvs IH]; intros st b Hl; simpl.
  - exists b. repeat split; try done. by intros ?%elem_of_nil.
  - destruct (decide (l = l0)) as [->|Hne].
    + destruct (IH (transfer_to_gpu l0 st)
                  {| data := data b; buffer_type := buffer_type b;
                     gpu_address := Some l0 |})
        as (b' & Hb' & Hd & Ht & _ & _ & Hkeep).
      { rewrite transfer_to_gpu_lookup, decide_True by done. by rewrite Hl. }
      exists b'. repeat split; try done.
      * intros _. by apply Hkeep.
      * intros []. left.
      * intros _. by apply Hkeep.
    + destruct (IH (transfer_to_gpu l0 st) b)
        as (b' & Hb' & Hd & Ht & Hin & Hnin & Hkeep).
      { by rewrite transfer_to_gpu_lookup, decide_False by done. }
      exists b'. repeat split; try done.
      * intros [?|?]%elem_of_cons; [done|by apply Hin].
      * intros Hn. apply Hnin. intros ?. apply Hn. by right.
Qed.

Lemma transfer_fold_dom (kvs : list (string * loc)) st :
  dom (foldl (λ st kv, transfer_to_gpu kv.2 st) st kvs) = dom st.
Proof.
  revert st. induction kvs as [|[name l0] kvs IH]; intros st; simpl; [done|].
  rewrite IH. unfold transfer_to_gpu. apply dom_alter_L.
Qed.

(** X1. [transfer_all_to_gpu] returns normally and leaves the registry, the
    set of buffer objects, and every buffer's data and type as they were.
    It sets the GPU address of exactly the buffers that are registered under
    some name: a buffer object that no name refers to any more keeps the
    address it had. *)
Theorem transfer_all_to_gpu_registered_only z :
  ∃ z', transfer_all_to_gpu z = (Ok tt, z')
    ∧ buffers z' = buffers z
    ∧ dom (store z') = dom (store z)
    ∧ ∀ l b, store z !! l = Some b →
        ∃ b', store z' !! l = Some b'
              ∧ data b' = data b ∧ buffer_type b' = buffer_type b
              ∧ ((∃ name, buffers z !! name = Some l) → is_Some (gpu_address b'))
              ∧ ((∀ name, buffers z !! name ≠ Some l) →
                 gpu_address b' = gpu_address b).
Proof.
  eexists. split; [reflexivity|]. simpl. split; [done|].
  split; [apply transfer_fold_dom|].
  intros l b Hl.
  destruct (transfer_fold_lookup (map_to_list (buffers z)) _ _ _ Hl)
    as (b' & Hb' & Hd & Ht & Hin & Hnin & _).
  exists b'. repeat split; try done.
  - intros [name Hname]. apply Hin.
    apply list_elem_of_fmap. exists (name, l). split; [done|].
    by apply elem_of_map_to_list.
  - intros Hno. apply Hnin.
    intros ([name l'] & -> & Hin')%list_elem_of_fmap.
    apply elem_of_map_to_list in Hin'. by apply (Hno name).
Qed.

End registry_more_facts.

(** Running the calls of a method one after the other. *)
Ltac run_calls :=
  unfold mbind, M_bind, mret, M_ret, raise, get, put, modify; simpl.

Section entry_point_facts.
Context `{Numpy}.
Implicit Types (z : ZeroCopyDataPipeline) (x y : list num).

(** Two buffers created in a row, then a payload built from them. *)
Lemma create_two {A} name1 a1 t1 name2 a2 t2 (k : loc → loc → A) z :
  ∃ l1 l2 z',
    (l1 ← create_buffer name1 a1 t1; l2 ← create_buffer name2 a2 t2;
     mret (k l1 l2)) z = (Ok (k l1 l2), z')
    ∧ l1 ≠ l2
    ∧ store z !! l1 = None ∧ store z !! l2 = None
    ∧ store z' !! l1
      = Some {| data := a1; buffer_type := t1; gpu_address := None |}
    ∧ store z' !! l2
      = Some {| data := a2; buffer_type := t2; gpu_address := None |}
    ∧ (∀ l b, store z !! l = Some b → store z' !! l = Some b)
    ∧ buffers z' = <[name2 := l2]> (<[name1 := l1]> (buffers z)).
Proof.
  set (l1 := fresh (dom (store z))).
  set (st1 := <[l1 := {| data := a1; buffer_type := t1; gpu_address := None |}]>
                (store z)).
  set (l2 := fresh (dom st1)).
  assert (H1 : store z !! l1 = None) by apply not_elem_of_dom, is_fresh.
  assert (H2 : st1 !! l2 = None) by apply not_elem_of_dom, is_fresh.
  assert (Hne : l1 ≠ l2).
  { intros E. rewrite <- E in H2. subst st1. by rewrite lookup_insert_eq in H2. }
  exists l1, l2. eexists. split; [reflexivity|]. simpl. fold l1 st1 l2.
  assert (H2' : store z !! l2 = None).
  { subst st1. by rewrite lookup_insert_ne in H2. }
  split; [done|]. split; [done|]. split; [done|].
  split. { rewrite lookup_insert_ne by done. subst st1. apply lookup_insert_eq. }
  split. { apply lookup_insert_eq. }
  split; [|done].
  intros l b Hl. rewrite lookup_insert_ne by (intros ->; congruence).
  subst st1. rewrite lookup_insert_ne by (intros ->; congruence). done.
Qed.

Lemma column_stack_xy0_length x y :
  len x = len y → len (column_stack_xy0 x y) = len x.
Proof.
  unfold len, column_stack_xy0. intros Hl. apply Nat2N.inj in Hl.
  f_equal. rewrite length_zip_with. lia.
Qed.

Lemma astype_f32_length (rows : list (list num)) :
  length (astype_f32 rows) = length rows.
Proof. unfold astype_f32. by rewrite length_fmap. Qed.

Lemma line_rows_lookup x y k :
  astype_f32 (column_stack_xy0 x y) !! k
  = (xk ← x !! k; yk ← y !! k; Some [f32 xk; f32 yk; f32 (lit 0 0)]).
Proof. apply scatter_vertices_lookup. Qed.

(** X2. [process_line_data] returns exactly when [x] and [y] have the same
    length, at least two; otherwise it raises [ValueError] and leaves the
    pipeline alone. When it returns, the payload's vertex buffer holds rows
    [[x_i, y_i, 0]] of the input, converted to [float32]; the index buffer
    is [0, ..., m-1] for the [m] rows kept; ["count"] is [m]; and up to
    10000 points nothing is dropped. *)
Theorem process_line_data_returns x y z :
  (len x = len y → (2 ≤ len x)%N →
   ∃ vb ib rows z',
     process_line_data x y z
     = (Ok [("vertices", VBuffer vb); ("indices", VBuffer ib);
            ("primitive_type", VStr "line_strip");
            ("count", VInt (Z.of_N (len rows)))], z')
     ∧ vb ≠ ib
     ∧ store z' !! vb = Some {| data := Arr2 rows; buffer_type := "vertex";
                                gpu_address := None |}
     ∧ store z' !! ib
       = Some {| data := ArrI (N.of_nat <$> seq 0 (length rows));
                 buffer_type := "index"; gpu_address := None |}
     ∧ (len rows ≤ len x)%N
     ∧ (∀ j row, rows !! j = Some row →
          ∃ i xi yi, x !! i = Some xi ∧ y !! i = Some yi
                     ∧ row = [f32 xi; f32 yi; f32 (lit 0 0)])
     ∧ ((len x ≤ 10000)%N →
        len rows = len x
        ∧ ∀ k, rows !! k
               = (xk ← x !! k; yk ← y !! k; Some [f32 xk; f32 yk; f32 (lit 0 0)])))
  ∧ (len x ≠ len y ∨ (len x < 2)%N →
     ∃ msg, process_line_data x y z = (Raise (ValueError msg), z)).
Proof.
  split.
  - intros Hxy Hn. unfold process_line_data.
    rewrite decide_False by (intros ?; congruence).
    pose proof (column_stack_xy0_length x y Hxy) as Hlen. rewrite Hlen.
    rewrite decide_False by lia.
    destruct (decide (10000 < len x)%N) as [Hbig|Hsmall].
    + destruct (simplify_line_for_spec 10000 (column_stack_xy0 x y)
                  (arange_u32 (len x)))
        as (sel & simplified & Hrun & Hls & Hsel & _ & _ & _ & _ & _ & _ & Hle2 & Hlen' & _).
      { lia. } { lia. }
      unfold AdaptiveLODSystem.simplify_line. rewrite Hrun.
      assert (Hlr : len (astype_f32 simplified) = len simplified).
      { unfold len. by rewrite astype_f32_length. }
      assert (Hidx : arange_u32 (len simplified)
                     = N.of_nat <$> seq 0 (length (astype_f32 simplified))).
      { rewrite astype_f32_length.
        replace (length simplified) with (N.to_nat (len simplified))
          by (unfold len; lia).
        apply arange_u32_seq. lia. }
      destruct (create_two "line_vertices" (Arr2 (astype_f32 simplified)) "vertex"
                  "line_indices" (ArrI (arange_u32 (len simplified))) "index"
                  (λ vb ib, [("vertices", VBuffer vb); ("indices", VBuffer ib);
                             ("primitive_type", VStr "line_strip");
                             ("count", VInt (Z.of_N (len (arange_u32 (len simplified)))))])
                  z)
        as (l1 & l2 & z' & Hcr & Hne & _ & _ & Hs1 & Hs2 & _ & _).
      exists l1, l2, (astype_f32 simplified), z'.
      split; [|split; [done|split; [done|split; [|split; [|split]]]]].
      * rewrite Hcr. do 6 f_equal.
        rewrite Hidx. unfold len. by rewrite length_fmap, length_seq.
      * by rewrite <- Hidx.
      * rewrite Hlr. rewrite Hlen in Hlen'. lia.
      * intros j row Hj. unfold astype_f32 in Hj.
        rewrite list_lookup_fmap in Hj.
        destruct (simplified !! j) as [r0|] eqn:Ej; [|done].
        simpl in Hj. injection Hj as <-.
        assert (is_Some (sel !! j)) as [i Hi].
        { apply lookup_lt_is_Some. rewrite <- Hls. by eapply lookup_lt_Some. }
        destruct (Hsel j i Hi) as [_ Hsame].
        rewrite Ej in Hsame. symmetry in Hsame.
        pose proof (line_rows_lookup x y (N.to_nat i)) as Hrow.
        unfold astype_f32 in Hrow. rewrite list_lookup_fmap, Hsame in Hrow.
        simpl in Hrow.
        destruct (x !! N.to_nat i) as [xi|] eqn:Ex; [|done].
        destruct (y !! N.to_nat i) as [yi|] eqn:Ey; [|done].
        simpl in Hrow. exists (N.to_nat i), xi, yi. by injection Hrow.
      * lia.
    + set (rows := astype_f32 (column_stack_xy0 x y)).
      assert (Hlr : len rows = len x).
      { unfold len in *. subst rows. by rewrite astype_f32_length. }
      assert (Hidx : arange_u32 (len x) = N.of_nat <$> seq 0 (length rows)).
      { replace (length rows) with (N.to_nat (len x))
          by (rewrite <- Hlr; unfold len; lia).
        apply arange_u32_seq. lia. }
      destruct (create_two "line_vertices" (Arr2 rows) "vertex"
                  "line_indices" (ArrI (arange_u32 (len x))) "index"
                  (λ vb ib, [("vertices", VBuffer vb); ("indices", VBuffer ib);
                             ("primitive_type", VStr "line_strip");
                             ("count", VInt (Z.of_N (len (arange_u32 (len x)))))])
                  z)
        as (l1 & l2 & z' & Hcr & Hne & _ & _ & Hs1 & Hs2 & _ & _).
      exists l1, l2, rows, z'.
      split; [|split; [done|split; [done|split; [|split; [|split]]]]].
      * rewrite Hcr. do 6 f_equal.
        rewrite Hidx. unfold len. by rewrite length_fmap, length_seq.
      * by rewrite <- Hidx.
      * lia.
      * intros j row Hj. subst rows. rewrite line_rows_lookup in Hj.
        destruct (x !! j) as [xi|] eqn:Ex; [|done].
        destruct (y !! j) as [yi|] eqn:Ey; [|done].
        simpl in Hj. exists j, xi, yi. by injection Hj.
      * intros _. split; [done|]. apply line_rows_lookup.
  - intros Hbad. unfold process_line_data.
    case_decide as E1; [by eexists|].
    rewrite (column_stack_xy0_length x y E1).
    rewrite decide_True by (destruct Hbad; [done|lia]).
    by eexists.
Qed.

End entry_point_facts.

Section bar_facts.
Context `{Numpy}.
Implicit Types (z : ZeroCopyDataPipeline) (x height : list num).

Lemma bar_loop_spec (bars : list (num * num)) (c : N) :
  length (bar_loop bars c).1 = 4 * length bars
  ∧ length (bar_loop bars c).2 = 6 * length bars
  ∧ Forall (λ i, (c ≤ i < c + 4 * N.of_nat (length bars))%N) (bar_loop bars c).2
  ∧ ∀ k cx h, bars !! k = Some (cx, h) →
      take 4 (drop (4 * k) (bar_loop bars c).1) = bar_quad cx h
      ∧ take 6 (drop (6 * k) (bar_loop bars c).2)
        = bar_triangles (c + 4 * N.of_nat k).
Proof.
  revert c. induction bars as [|[cx0 h0] bars IH]; intros c.
  - cbn [bar_loop fst snd length]. repeat split; try done; constructor.
  - destruct (IH (c + 4)%N) as (Hv & Hi & Hall & Hk).
    cbn [bar_loop]. destruct (bar_loop bars (c + 4)) as [vs ixs].
    cbn [fst snd] in *.
    assert (Hq4 : length (bar_quad cx0 h0) = 4) by reflexivity.
    assert (Ht6 : length (bar_triangles c) = 6) by reflexivity.
    rewrite !length_app, Hq4, Ht6, length_cons.
    split; [lia|]. split; [lia|]. split.
    + apply Forall_app. split.
      * unfold bar_triangles. repeat (constructor; [lia|]). constructor.
      * eapply Forall_impl; [exact Hall|]. cbn beta. intros i ?. lia.
    + intros [|k] cx h Hb.
      * cbn [lookup list_lookup] in Hb. injection Hb as -> ->.
        replace (4 * 0) with 0 by lia. replace (6 * 0) with 0 by lia.
        rewrite !drop_0. split.
        { by apply take_app_length'. }
        { rewrite take_app_length' by done. f_equal. lia. }
      * cbn [lookup list_lookup] in Hb. destruct (Hk k cx h Hb) as [Hq Ht].
        replace (4 * S k) with (4 + 4 * k) by lia.
        replace (6 * S k) with (6 + 6 * k) by lia.
        rewrite !drop_app_add' by done.
        split; [exact Hq|]. rewrite Ht. f_equal. lia.
Qed.

Lemma uint32_le (i : N) : (uint32 i ≤ i)%N.
Proof. unfold uint32. apply N.Div0.mod_le. Qed.

(** X3. [process_bar_data] returns exactly when [x] and [height] have the same
    length [n]; otherwise it raises [ValueError] and leaves the pipeline
    alone. When it returns there are four vertex rows and six indices per
    bar, ["count"] is [6 n], bar [k] owns the rows [4k .. 4k+3] (its quad
    around [x_k], of height [height_k]) and the indices [6k .. 6k+5] (its
    two triangles), and every index refers to an existing row. No bars give
    empty buffers, not an error. *)
Theorem process_bar_data_returns x height z :
  (len x = len height →
   ∃ vb ib rows idx z',
     process_bar_data x height z
     = (Ok [("vertices", VBuffer vb); ("indices", VBuffer ib);
            ("primitive_type", VStr "triangles");
            ("count", VInt (6 * Z.of_N (len x)))], z')
     ∧ vb ≠ ib
     ∧ store z' !! vb = Some {| data := Arr2 rows; buffer_type := "vertex";
                                gpu_address := None |}
     ∧ store z' !! ib = Some {| data := ArrI idx; buffer_type := "index";
                                gpu_address := None |}
     ∧ length rows = 4 * length x
     ∧ length idx = 6 * length x
     ∧ Forall (λ i, (i < len rows)%N) idx
     ∧ ∀ k cx h, x !! k = Some cx → height !! k = Some h →
         take 4 (drop (4 * k) rows) = astype_f32 (bar_quad cx h)
         ∧ take 6 (drop (6 * k) idx)
           = uint32 <$> bar_triangles (4 * N.of_nat k))
  ∧ (len x ≠ len height →
     ∃ msg, process_bar_data x height z = (Raise (ValueError msg), z)).
Proof.
  split.
  - intros Hlen. unfold process_bar_data.
    rewrite decide_False by (intros ?; congruence).
    assert (Hz : length (zip x height) = length x).
    { unfold len in Hlen. apply Nat2N.inj in Hlen. rewrite length_zip. lia. }
    destruct (bar_loop_spec (zip x height) 0) as (Hv & Hi & Hall & Hk).
    destruct (bar_loop (zip x height) 0) as [vs ixs] eqn:E. cbn [fst snd] in *.
    rewrite Hz in *.
    destruct (create_two "bar_vertices" (Arr2 (astype_f32 vs)) "vertex"
                "bar_indices" (ArrI (uint32 <$> ixs)) "index"
                (λ vb ib, [("vertices", VBuffer vb); ("indices", VBuffer ib);
                           ("primitive_type", VStr "triangles");
                           ("count", VInt (Z.of_N (len (uint32 <$> ixs))))])
                z)
      as (l1 & l2 & z' & Hcr & Hne & _ & _ & Hs1 & Hs2 & _ & _).
    exists l1, l2, (astype_f32 vs), (uint32 <$> ixs), z'.
    split; [|split; [done|split; [done|split; [done|split; [|split; [|split]]]]]].
    + assert (Hc : Z.of_N (len (uint32 <$> ixs)) = (6 * Z.of_N (len x))%Z)
        by (unfold len; rewrite length_fmap, Hi; lia).
      by rewrite Hcr, Hc.
    + by rewrite astype_f32_length.
    + by rewrite length_fmap.
    + apply Forall_fmap. eapply Forall_impl; [exact Hall|]. simpl.
      intros i Hi'. unfold len. rewrite astype_f32_length, Hv.
      pose proof (uint32_le i). lia.
    + intros k cx h Hx Hh.
      destruct (Hk k cx h) as [Hq Ht].
      { rewrite lookup_zip_with, Hx. simpl. by rewrite Hh. }
      split.
      * unfold astype_f32 at 1. rewrite <- fmap_drop, <- fmap_take, Hq. done.
      * rewrite <- fmap_drop, <- fmap_take, Ht. do 2 f_equal.
  - intros Hbad. unfold process_bar_data.
    rewrite decide_True by done. by eexists.
Qed.




End bar_facts.


Section scatter_entry_point.
Context `{Numpy}.
Implicit Types (z : ZeroCopyDataPipeline) (x y : list num).

(** Three buffers created in a row, then a payload built from them. *)
Lemma create_three {A} name1 a1 t1 name2 a2 t2 name3 a3 t3
    (k : loc → loc → loc → A) z :
  ∃ l1 l2 l3 z',
    (l1 ← create_buffer name1 a1 t1; l2 ← create_buffer name2 a2 t2;
     l3 ← create_buffer name3 a3 t3; mret (k l1 l2 l3)) z
    = (Ok (k l1 l2 l3), z')
    ∧ l1 ≠ l2 ∧ l1 ≠ l3 ∧ l2 ≠ l3
    ∧ store z' !! l1
      = Some {| data := a1; buffer_type := t1; gpu_address := None |}
    ∧ store z' !! l2
      = Some {| data := a2; buffer_type := t2; gpu_address := None |}
    ∧ store z' !! l3
      = Some {| data := a3; buffer_type := t3; gpu_address := None |}.
Proof.
  set (l1 := fresh (dom (store z))).
  set (st1 := <[l1 := {| data := a1; buffer_type := t1; gpu_address := None |}]>
                (store z)).
  set (l2 := fresh (dom st1)).
  set (st2 := <[l2 := {| data := a2; buffer_type := t2; gpu_address := None |}]>
                st1).
  set (l3 := fresh (dom st2)).
  assert (H2 : st1 !! l2 = None) by apply not_elem_of_dom, is_fresh.
  assert (H3 : st2 !! l3 = None) by apply not_elem_of_dom, is_fresh.
  assert (Hne12 : l1 ≠ l2).
  { intros E. rewrite <- E in H2. subst st1. by rewrite lookup_insert_eq in H2. }
  assert (Hne23 : l2 ≠ l3).
  { intros E. rewrite <- E in H3. subst st2. by rewrite lookup_insert_eq in H3. }
  assert (Hne13 : l1 ≠ l3).
  { intros E. rewrite <- E in H3. subst st2 st1.
    by rewrite lookup_insert_ne, lookup_insert_eq in H3. }
  exists l1, l2, l3. eexists. split; [reflexivity|]. simpl. fold l1 st1 l2 st2 l3.
  split; [done|]. split; [done|]. split; [done|].
  clearbody l1 l2 l3. subst st2 st1.
  split. { rewrite !lookup_insert_ne by done. apply lookup_insert_eq. }
  split. { rewrite lookup_insert_ne by done. apply lookup_insert_eq. }
  apply lookup_insert_eq.
Qed.

Lemma sampling_leaves_fewer (n : N) :
  (50000 < n)%N →
  let stride := N.max 1 (n / 50000) in
  let m := ((n + stride - 1) / stride)%N in
  (m ≤ n ∧ m < 2 * 50000)%N.
Proof.
  intros Hn stride m.
  destruct (stride_bounds 50000 n) as (Hs & _ & _ & Hcn & H1 & H2); [lia..|].
  fold stride m in Hs, Hcn, H1, H2. split; [done|].
  destruct (decide (stride = 1%N)) as [E|E].
  - destruct (H1 E) as (-> & _).
    assert (n / 50000 ≤ 1)%N as Hq by (subst stride; lia).
    pose proof (N.Div0.div_mod n 50000) as Hdm.
    pose proof (N.mod_upper_bound n 50000). nia.
  - destruct H2 as (? & _); lia.
Qed.

(** X5. [process_scatter_data] returns exactly when [y], the colour array (if
    given) and the size array (if given as an array) all have the length
    [n] of [x]; otherwise it raises [ValueError] and leaves the pipeline
    alone. When it returns, the three buffers have the same number [m] of
    rows, which is what ["count"] says; up to 50000 points they are the
    arrays built from the input, and beyond that [m] is at most [n] and
    below 100000. *)
Theorem process_scatter_data_returns x y c s z :
  let n := len x in
  (len y = n → ¬ c_mismatch c n → ¬ s_mismatch s n →
   ∃ vb sb cb vertices sizes colors z',
     process_scatter_data x y c s z
     = (Ok [("vertices", VBuffer vb); ("sizes", VBuffer sb);
            ("colors", VBuffer cb); ("primitive_type", VStr "points");
            ("count", VInt (Z.of_N (len vertices)))], z')
     ∧ vb ≠ sb ∧ vb ≠ cb ∧ sb ≠ cb
     ∧ store z' !! vb = Some {| data := Arr2 vertices; buffer_type := "vertex";
                                gpu_address := None |}
     ∧ store z' !! sb = Some {| data := Arr1 sizes; buffer_type := "attribute";
                                gpu_address := None |}
     ∧ store z' !! cb = Some {| data := Arr2 colors; buffer_type := "attribute";
                                gpu_address := None |}
     ∧ len sizes = len vertices ∧ len colors = len vertices
     ∧ (len vertices ≤ n)%N ∧ (len vertices < 100000)%N
     ∧ ((n ≤ 50000)%N →
        vertices = scatter_vertices x y ∧ sizes = scatter_sizes n s
        ∧ colors = scatter_colors n c ∧ len vertices = n))
  ∧ (len y ≠ n ∨ c_mismatch c n ∨ s_mismatch s n →
     ∃ msg, process_scatter_data x y c s z = (Raise (ValueError msg), z)).
Proof.
  intros n. split.
  - intros Hy Hc Hs.
    pose proof (scatter_vertices_length x y Hy) as Hlv.
    pose proof (scatter_sizes_length n s Hs) as Hls.
    pose proof (scatter_colors_length n c Hc) as Hlc.
    assert (∃ vertices sizes colors,
              scatter_arrays x y c s = Ok (vertices, sizes, colors)
              ∧ len sizes = len vertices ∧ len colors = len vertices
              ∧ (len vertices ≤ n)%N ∧ (len vertices < 100000)%N
              ∧ ((n ≤ 50000)%N →
                 vertices = scatter_vertices x y ∧ sizes = scatter_sizes n s
                 ∧ colors = scatter_colors n c ∧ len vertices = n))
      as (vertices & sizes & colors & Harr & Hsz & Hcl & Hle & Hlt & Hsmall).
    { destruct (decide (50000 < n)%N) as [Hbig|Hsm].
      - rewrite scatter_arrays_subsampled by done.
        destruct (subsample_for_spec 50000 n (scatter_vertices x y)
                    (scatter_sizes n s) (scatter_colors n c))
          as (v' & s' & c' & Hrun & Hv' & Hs' & Hc' & _); [lia|done..|].
        destruct (sampling_leaves_fewer n Hbig) as [Hmn Hm2].
        exists v', s', c'. fold n. rewrite Hrun, Hv', Hs', Hc'.
        repeat split; try done; lia.
      - exists (scatter_vertices x y), (scatter_sizes n s), (scatter_colors n c).
        unfold scatter_arrays. fold n.
        rewrite decide_False by (intros ?; congruence).
        rewrite bool_decide_eq_false_2 by done.
        rewrite bool_decide_eq_false_2 by done.
        rewrite decide_False by done.
        fold n in Hlv. rewrite Hls, Hlc, Hlv.
        repeat split; try done; lia. }
    unfold process_scatter_data. rewrite Harr.
    destruct (create_three "scatter_vertices" (Arr2 vertices) "vertex"
                "scatter_sizes" (Arr1 sizes) "attribute"
                "scatter_colors" (Arr2 colors) "attribute"
                (λ vb sb cb, [("vertices", VBuffer vb); ("sizes", VBuffer sb);
                              ("colors", VBuffer cb);
                              ("primitive_type", VStr "points");
                              ("count", VInt (Z.of_N (len vertices)))])
                z)
      as (l1 & l2 & l3 & z' & Hcr & ? & ? & ? & ? & ? & ?).
    exists l1, l2, l3, vertices, sizes, colors, z'.
    split; [exact Hcr|]. do 10 (split; [done|]). exact Hsmall.
  - intros Hbad. unfold process_scatter_data, scatter_arrays. fold n.
    case_decide as E1; [by eexists|].
    case_bool_decide as E2; [by eexists|].
    case_bool_decide as E3; [by eexists|].
    exfalso. destruct Hbad as [?|[?|?]]; done.
Qed.

End scatter_entry_point.

Section update_facts.
Context `{Numpy}.
Implicit Types (z : ZeroCopyDataPipeline).

(** X6. [update_buffer] raises [KeyError] for a name that is not registered and
    [ValueError] for data of another element type, and then changes
    nothing. Otherwise it replaces the data of the buffer object the name
    refers to, in place: the name still refers to the same object, whose
    type and GPU address are as before the call (new data is not
    transferred), and no other buffer changes. *)
Theorem update_buffer_in_place name new_data z :
  (buffers z !! name = None →
   update_buffer name new_data z = (Raise (KeyError name), z))
  ∧ (∀ l b, buffers z !! name = Some l → store z !! l = Some b →
       arr_dtype new_data ≠ arr_dtype (data b) →
       ∃ msg, update_buffer name new_data z = (Raise (ValueError msg), z))
  ∧ (∀ l b, buffers z !! name = Some l → store z !! l = Some b →
       arr_dtype new_data = arr_dtype (data b) →
       ∃ z', update_buffer name new_data z = (Ok tt, z')
             ∧ buffers z' = buffers z
             ∧ store z' !! l
               = Some {| data := new_data; buffer_type := buffer_type b;
                         gpu_address := gpu_address b |}
             ∧ ∀ l', l' ≠ l → store z' !! l' = store z !! l').
Proof.
  unfold update_buffer. split; [|split].
  - by intros ->.
  - intros l b -> -> Hne. unfold update_data.
    rewrite decide_False by done. by eexists.
  - intros l b -> -> Heq. unfold update_data.
    rewrite decide_True by done. eexists. split; [reflexivity|]. simpl.
    split; [done|]. split; [apply lookup_insert_eq|].
    intros l' Hl'. by rewrite lookup_insert_ne.
Qed.

End update_facts.

Section displaced_facts.
Context `{Numpy}.
Implicit Types (z : ZeroCopyDataPipeline).

Lemma displaces_by_names names (first second : M ZeroCopyDataPipeline pydict) :
  (∀ z, entry_point_outcome names z (first z)) →
  (∀ z, entry_point_outcome names z (second z)) →
  displaces first second.
Proof.
  intros Hf Hs z p1 z1 p2 z2 Hok H1 H2 k l Hk.
  specialize (Hf z). rewrite H1 in Hf. destruct Hf as (Hr1 & Hp1 & _).
  specialize (Hs z1). rewrite H2 in Hs. destruct Hs as [Hr2 _].
  destruct (Hp1 k l Hk) as (name & Hin & Hname).
  destruct Hr1 as (Ho1 & Hn1 & Hk1 & _).
  destruct (Hn1 name Hin) as (l0 & Hb & Hnone & Hsome).
  assert (l0 = l) as -> by congruence.
  destruct Hr2 as (Ho2 & Hn2 & Hk2 & _).
  assert (Hno : ∀ name', buffers z2 !! name' ≠ Some l).
  { intros name' Hb2. destruct (decide (name' ∈ names)) as [Hin'|Hnin'].
    - destruct (Hn2 name' Hin') as (l2 & Hb2' & Hnone2 & _).
      assert (l2 = l) as -> by congruence.
      rewrite Hnone2 in Hsome. by destruct Hsome.
    - rewrite Hk2, Hk1 in Hb2 by done.
      destruct (Hok name' l Hb2) as [b Hb']. congruence. }
  split; [done|]. split; [done|].
  destruct Hsome as [b Hb1]. pose proof (Ho2 l b Hb1) as Hz2.
  destruct (transfer_fold_lookup (map_to_list (buffers z2)) _ _ _ Hz2)
    as (b' & Hb' & Hd & Ht & _ & Hnin & _).
  unfold transfer_all_to_gpu. cbn [snd store]. rewrite Hb', Hb1. f_equal.
  destruct b, b'; cbn [data buffer_type gpu_address] in *.
  rewrite Hd, Ht, Hnin; [done|].
  intros ([name' l'] & -> & Hin')%list_elem_of_fmap.
  apply elem_of_map_to_list in Hin'. by apply (Hno name').
Qed.

(** X8. Of two successive calls of the same plot kind, the second displaces the
    buffers of the first: no name of the registry refers to them any more,
    so [transfer_all_to_gpu] passes them by and they stay as the first call
    made them. Bar charts and histograms use the same names, so they
    displace each other as well. *)
Theorem same_kind_displaces_buffers :
  (∀ x y x' y', displaces (process_line_data x y) (process_line_data x' y'))
  ∧ (∀ x y c s x' y' c' s',
       displaces (process_scatter_data x y c s) (process_scatter_data x' y' c' s'))
  ∧ (∀ x h x' h', displaces (process_bar_data x h) (process_bar_data x' h'))
  ∧ (∀ v b v' b',
       displaces (process_histogram_data v b) (process_histogram_data v' b'))
  ∧ (∀ x h v b, displaces (process_bar_data x h) (process_histogram_data v b))
  ∧ (∀ x h v b, displaces (process_histogram_data v b) (process_bar_data x h)).
Proof.
  split; [|split; [|split; [|split; [|split]]]]; intros.
  - apply (displaces_by_names ["line_vertices"; "line_indices"]);
      intros; apply process_line_data_outcome.
  - apply (displaces_by_names
             ["scatter_vertices"; "scatter_sizes"; "scatter_colors"]);
      intros; apply process_scatter_data_outcome.
  - apply (displaces_by_names ["bar_vertices"; "bar_indices"]);
      intros; apply process_bar_data_outcome.
  - apply (displaces_by_names ["bar_vertices"; "bar_indices"]);
      intros; apply process_histogram_data_outcome.
  - apply (displaces_by_names ["bar_vertices"; "bar_indices"]); intros.
    + apply process_bar_data_outcome.
    + apply process_histogram_data_outcome.
  - apply (displaces_by_names ["bar_vertices"; "bar_indices"]); intros.
    + apply process_histogram_data_outcome.
    + apply process_bar_data_outcome.
Qed.

End displaced_facts.

(** ** The registry of the scene manager *)

Section scene_registry_facts.
Import Scene.
Implicit Types (s : SceneManager) (os : gmap loc SceneNode) (n : SceneNode).

Lemma list_remove_other x (l : list loc) c :
  c ∈ l → c ≠ x → c ∈ list_remove x l.
Proof.
  induction l as [|y l IH]; simpl; [done|].
  intros [->|Hin]%elem_of_cons Hne.
  - rewrite decide_False by done. left.
  - case_decide; [done|]. right. by apply IH.
Qed.

Lemma list_remove_app_fresh x (l : list loc) :
  x ∉ l → list_remove x (l ++ [x]) = l.
Proof.
  induction l as [|y l IH]; simpl; intros Hx.
  - by rewrite decide_True.
  - rewrite decide_False by set_solver. f_equal. apply IH. set_solver.
Qed.

Lemma registered_ok_links s i n n' :
  same_but_links n n' → parent n' = parent n →
  registered_ok s i n → registered_ok s i n'.
Proof.
  intros (Hid & Hty & Hvis & Htr & Hgt & Hd & Hmp & _) Hpar.
  unfold registered_ok. rewrite Hid, Hty, Hvis, Htr, Hgt, Hd, Hmp, Hpar. done.
Qed.

Lemma registry_wf_init : registry_wf SceneManager_init.
Proof.
  intros i l Hi.
  change (({[ "root" := 0 ]} : gmap string loc) !! i = Some l) in Hi.
  apply lookup_singleton_Some in Hi as [<- <-].
  exists (SceneNode_init "root" "root").
  split; [apply (lookup_singleton_eq (M := gmap loc))|]. split; [|done].
  unfold registered_ok. simpl. split; [done|]. split; [done|]. split; [done|].
  by left.
Qed.

(** Attaching a new object [l], registered under a new or an old id. *)
Lemma registry_wf_attach s l node i (os : gmap loc SceneNode) :
  wf s → registry_wf s →
  (∀ q n, objects s !! q = Some n → os !! q = Some n) →
  os !! l = Some node → objects s !! l = None →
  registered_ok s i (set_parent (Some (root_node s)) node) → i ≠ "root" →
  registry_wf {| objects := add_child (root_node s) l os;
                 dicts := dicts s; root_node := root_node s;
                 nodes := <[i := l]> (nodes s);
                 camera_settings := camera_settings s;
                 lighting_settings := lighting_settings s |}.
Proof.
  intros (Hroot & (r & Hr & Hdata) & Hreg & Hok) Hinv Hold Hl Hfresh Hnode Hi.
  assert (Hlr : l ≠ root_node s) by (intros ->; congruence).
  assert (Hr' : add_child (root_node s) l os !! root_node s
                = Some (set_children (children r ++ [l]) r)).
  { rewrite add_child_lookup, decide_True by done. by rewrite (Hold _ _ Hr). }
  intros j l' Hj. cbn [nodes objects root_node] in *.
  apply lookup_insert_Some in Hj as [[<- <-]|[Hne Hj]].
  - exists (set_parent (Some (root_node s)) node). split.
    { rewrite add_child_lookup, decide_False, decide_True by done.
      by rewrite Hl. }
    split; [done|]. intros _. eexists. split; [exact Hr'|].
    cbn. set_solver.
  - destruct (Hinv j l' Hj) as (n & Hn & Hokn & Hchild).
    assert (l' ≠ l) by (intros ->; congruence).
    destruct (decide (l' = root_node s)) as [->|Hl'r].
    + assert (n = r) as -> by congruence.
      eexists. split; [exact Hr'|]. split.
      { eapply registered_ok_links; [| |exact Hokn]; [|done].
        repeat split. }
      intros Hjr. eexists. split; [exact Hr'|].
      destruct (Hchild Hjr) as (r0 & Hr0 & Hin).
      assert (r0 = r) as -> by congruence. cbn. set_solver.
    + exists n. split.
      { rewrite add_child_lookup, !decide_False by done. by apply Hold. }
      split; [done|]. intros Hjr. eexists. split; [exact Hr'|].
      destruct (Hchild Hjr) as (r0 & Hr0 & Hin).
      assert (r0 = r) as -> by congruence. cbn. set_solver.
Qed.

Lemma registry_wf_add_geometry_node g data kwargs s :
  g ∈ geometry_kinds → wf s → registry_wf s →
  registry_wf (add_geometry_node g g data kwargs s).2.
Proof.
  intros Hg Hwf Hinv. unfold add_geometry_node. cbn [snd].
  set (l := fresh (dom (objects s))).
  set (mp := fresh (dom (dicts s))).
  set (i := g +:+ "_" +:+ pretty (size (nodes s))).
  assert (Hfresh : objects s !! l = None) by apply not_elem_of_dom, is_fresh.
  assert (Hi : i ≠ "root") by (apply geometry_id_not_root; exact Hg).
  pose proof (registry_wf_attach s l (GeometryNode_init i g data mp) i
                (<[l := GeometryNode_init i g data mp]> (objects s)) Hwf Hinv)
    as Hatt.
  intros j l' Hj.
  destruct (Hatt) with (i := j) (l := l') as (n & Hn & Hokn & Hch).
  - intros q n Hq. rewrite lookup_insert_ne; [done|congruence].
  - apply lookup_insert_eq.
  - done.
  - unfold registered_ok. cbn. split; [done|]. split; [done|]. split; [done|].
    right. split; [done|]. split; [done|]. left.
    split; [done|]. split; [by exists g|]. split; by eexists.
  - done.
  - exact Hj.
  - exists n. split; [exact Hn|]. split; [exact Hokn|exact Hch].
Qed.

Lemma registry_wf_root_distinct s i l :
  wf s → registry_wf s → nodes s !! i = Some l → i ≠ "root" →
  l ≠ root_node s.
Proof.
  intros (Hroot & _) Hinv Hi Hne ->.
  destruct (Hinv _ _ Hi) as (n & Hn & (Hid & _) & _).
  destruct (Hinv _ _ Hroot) as (n' & Hn' & (Hid' & _) & _).
  congruence.
Qed.

Lemma registry_wf_injective s i j l :
  registry_wf s → nodes s !! i = Some l → nodes s !! j = Some l → i = j.
Proof.
  intros Hinv Hi Hj.
  destruct (Hinv _ _ Hi) as (n & Hn & (Hid & _) & _).
  destruct (Hinv _ _ Hj) as (n' & Hn' & (Hid' & _) & _).
  congruence.
Qed.

(** What a successful [remove_node] does, in a well-formed state. *)
Lemma remove_node_registered s i l :
  wf s → registry_wf s → nodes s !! i = Some l → i ≠ "root" →
  ∃ r, objects s !! root_node s = Some r ∧ l ∈ children r ∧ l ≠ root_node s
       ∧ remove_node i s
         = (Ok true,
            with_nodes (delete i)
              (with_objects (λ _, remove_child (root_node s) l (objects s)) s)).
Proof.
  intros Hwf Hinv Hi Hne.
  pose proof (registry_wf_root_distinct s i l Hwf Hinv Hi Hne) as Hlr.
  destruct (Hinv _ _ Hi) as (n & Hn & (_ & _ & _ & Hkind) & Hch).
  destruct (Hch Hne) as (r & Hr & Hin).
  exists r. split; [done|]. split; [done|]. split; [done|].
  unfold remove_node. rewrite Hi, decide_True by done.
  rewrite Hn. cbn [mbind option_bind].
  destruct Hkind as [(? & _)|(_ & -> & _)]; [done|]. done.
Qed.

Lemma registry_wf_remove_node node_id s :
  wf s → registry_wf s → registry_wf (remove_node node_id s).2.
Proof.
  intros Hwf Hinv.
  destruct (nodes s !! node_id) as [l|] eqn:Hl;
    [|unfold remove_node; by rewrite Hl].
  destruct (decide (node_id = "root")) as [->|Hne].
  { by rewrite remove_node_root. }
  destruct (remove_node_registered s node_id l Hwf Hinv Hl Hne)
    as (r & Hr & Hin & Hlr & ->).
  cbn [snd]. intros j l' Hj. cbn [nodes objects root_node with_nodes with_objects] in *.
  apply lookup_delete_Some in Hj as [Hjne Hj].
  destruct (Hinv _ _ Hj) as (n & Hn & Hokn & Hch).
  assert (Hl'l : l' ≠ l).
  { intros ->. apply Hjne. symmetry.
    by apply (registry_wf_injective s j node_id l). }
  assert (Hr' : remove_child (root_node s) l (objects s) !! root_node s
                = Some (set_children (list_remove l (children r)) r)).
  { rewrite (remove_child_lookup _ _ _ r), decide_True by done. by rewrite Hr. }
  destruct (decide (l' = root_node s)) as [->|Hl'r].
  - assert (n = r) as -> by congruence.
    eexists. split; [exact Hr'|]. split.
    { eapply registered_ok_links; [| |exact Hokn]; [|done]. repeat split. }
    intros Hjr. eexists. split; [exact Hr'|].
    destruct (Hch Hjr) as (r0 & Hr0 & Hin0).
    assert (r0 = r) as -> by congruence. cbn. by apply list_remove_other.
  - exists n. split.
    { rewrite (remove_child_lookup _ _ _ r), !decide_False by done. done. }
    split; [done|]. intros Hjr. eexists. split; [exact Hr'|].
    destruct (Hch Hjr) as (r0 & Hr0 & Hin0).
    assert (r0 = r) as -> by congruence. cbn. by apply list_remove_other.
Qed.

Lemma registry_wf_update_node node_id new_data s :
  registry_wf s → registry_wf (update_node node_id new_data s).2.
Proof.
  intros Hinv. unfold update_node.
  destruct (nodes s !! node_id); [|done]. by destruct (_ ≫= _).
Qed.

End scene_registry_facts.

Section dashboard_facts.
Import Scene.
Implicit Types (s : SceneManager) (os : gmap loc SceneNode) (n : SceneNode).

Lemma widgets_lookup_at (f : nat * (loc * loc) → SceneNode)
    (l : list (nat * (loc * loc))) os x :
  NoDup (l.*2).*1 → x ∈ l →
  foldr (λ iwc os, <[iwc.2.1 := f iwc]> os) os l !! x.2.1 = Some (f x).
Proof.
  induction l as [|y l IH]; cbn [foldr fmap list_fmap]; intros Hnd Hx.
  - by apply elem_of_nil in Hx.
  - apply NoDup_cons in Hnd as [Hy Hnd].
    apply elem_of_cons in Hx as [->|Hx]; [apply lookup_insert_eq|].
    rewrite lookup_insert_ne; [by apply IH|].
    intros E. apply Hy. rewrite E.
    apply list_elem_of_fmap. exists x.2. split; [done|].
    apply list_elem_of_fmap. by exists x.
Qed.

(** The objects [create_dashboard] makes: the state it leaves is the old
    one with the dashboard object [d] and one widget object per
    configuration added, [d] attached to the root and registered. *)
Lemma create_dashboard_objects widgets layout s :
  let i := "dashboard_" +:+ pretty (size (nodes s)) in
  let d := fresh (dom (objects s)) in
  let ws := fresh_list (length widgets) ({[d]} ∪ dom (objects s)) in
  ∃ os,
    create_dashboard widgets layout s
    = (Ok i, {| objects := add_child (root_node s) d os;
                dicts := dicts s; root_node := root_node s;
                nodes := <[i := d]> (nodes s);
                camera_settings := camera_settings s;
                lighting_settings := lighting_settings s |})
    ∧ objects s !! d = None
    ∧ NoDup ws ∧ length ws = length widgets
    ∧ (∀ w, w ∈ ws → w ≠ d ∧ objects s !! w = None)
    ∧ (∀ q n, objects s !! q = Some n → os !! q = Some n)
    ∧ os !! d = Some (set_children ws (SceneNode_init i "dashboard"))
    ∧ (∀ k w config, ws !! k = Some w → widgets !! k = Some config →
         os !! w = Some (widget_node i d k config)).
Proof.
  intros i d ws.
  set (f := λ iwc : nat * (loc * loc), widget_node i d iwc.1 iwc.2.2).
  set (dn := set_children ws (SceneNode_init i "dashboard")).
  set (l := zip (seq 0 (length widgets)) (zip ws widgets)).
  exists (foldr (λ iwc os, <[iwc.2.1 := f iwc]> os) (<[d := dn]> (objects s)) l).
  set (os := foldr _ _ l).
  assert (Hd : objects s !! d = None) by apply not_elem_of_dom, is_fresh.
  assert (Hlen : length ws = length widgets) by apply length_fresh_list.
  assert (Hws : (l.*2).*1 = ws).
  { unfold l. rewrite snd_zip by (rewrite length_seq, length_zip, Hlen; lia).
    apply fst_zip. by rewrite Hlen. }
  assert (Hwfresh : ∀ w, w ∈ ws → w ≠ d ∧ objects s !! w = None).
  { intros w Hw%fresh_list_is_fresh. split; [set_solver|].
    apply not_elem_of_dom. set_solver. }
  assert (Hnd : NoDup ws) by apply NoDup_fresh_list.
  split; [reflexivity|]. split; [done|]. split; [done|]. split; [done|].
  split; [done|]. split; [|split].
  - intros q n Hq. unfold os.
    destruct (widgets_is_Some f l (<[d := dn]> (objects s)) q) as [n' Hn'].
    { right. rewrite lookup_insert_ne; [eauto|congruence]. }
    apply widgets_lookup in Hn' as Hcase. rewrite Hn'.
    destruct Hcase as [(x & Hx & Hqx & _)|[_ Hb]].
    + assert (q ∈ ws).
      { rewrite <- Hws. apply list_elem_of_fmap. exists x.2. split; [done|].
        apply list_elem_of_fmap. by exists x. }
      destruct (Hwfresh q) as [_ ?]; [done|congruence].
    + rewrite lookup_insert_ne in Hb by congruence. congruence.
  - unfold os.
    destruct (widgets_is_Some f l (<[d := dn]> (objects s)) d) as [n' Hn'].
    { right. rewrite lookup_insert_eq. eauto. }
    apply widgets_lookup in Hn' as Hcase. rewrite Hn'.
    destruct Hcase as [(x & Hx & Hqx & _)|[_ Hb]].
    + assert (d ∈ ws).
      { rewrite <- Hws. apply list_elem_of_fmap. exists x.2. split; [done|].
        apply list_elem_of_fmap. by exists x. }
      destruct (Hwfresh d) as [? _]; done.
    + by rewrite lookup_insert_eq in Hb.
  - intros k w config Hw Hc.
    assert (Hx : (k, (w, config)) ∈ l).
    { apply list_elem_of_lookup. exists k. unfold l.
      rewrite lookup_zip_with, lookup_seq_lt by (apply lookup_lt_Some in Hc; lia).
      cbn. rewrite lookup_zip_with, Hw. cbn. by rewrite Hc. }
    pose proof (widgets_lookup_at f l (<[d := dn]> (objects s)) _
                  ltac:(by rewrite Hws) Hx) as Hat.
    exact Hat.
Qed.

Lemma registry_wf_create_dashboard widgets layout s :
  wf s → registry_wf s → registry_wf (create_dashboard widgets layout s).2.
Proof.
  intros Hwf Hinv.
  destruct (create_dashboard_objects widgets layout s)
    as (os & -> & Hd & _ & _ & _ & Hold & Hosd & _).
  cbn [snd].
  apply (registry_wf_attach s _ _ _ os Hwf Hinv Hold Hosd Hd).
  - unfold registered_ok. cbn. split; [done|]. split; [done|]. split; [done|].
    right. split; [discriminate|]. split; [done|]. by right.
  - discriminate.
Qed.

Lemma registry_wf_exec c s : wf s → registry_wf s → registry_wf (exec c s).
Proof.
  intros Hwf Hinv. destruct c; cbn [exec].
  - done.
  - apply registry_wf_add_geometry_node; [set_solver|done..].
  - apply registry_wf_add_geometry_node; [set_solver|done..].
  - apply registry_wf_add_geometry_node; [set_solver|done..].
  - apply registry_wf_add_geometry_node; [set_solver|done..].
  - by apply registry_wf_update_node.
  - by apply registry_wf_remove_node.
  - by apply registry_wf_create_dashboard.
Qed.

Lemma registry_wf_run cs s : wf s → registry_wf s → registry_wf (run cs s).
Proof.
  revert s. induction cs as [|c cs IH]; intros s Hwf Hinv; [done|].
  cbn [run foldl]. apply IH; [by apply wf_exec|by apply registry_wf_exec].
Qed.

Lemma reachable_registry_wf s : reachable s → registry_wf s.
Proof.
  intros [cs ->]. apply registry_wf_run; [apply wf_init|apply registry_wf_init].
Qed.

End dashboard_facts.

Section scene_more_claims.
Import Scene.
Implicit Types (s : SceneManager) (os : gmap loc SceneNode) (n : SceneNode).

Lemma add_methods_spec g add :
  (g, add) ∈ add_methods →
  g ∈ geometry_kinds ∧ add = add_geometry_node g g.
Proof.
  unfold add_methods, geometry_kinds. intros Hin.
  repeat (apply elem_of_cons in Hin as [[= -> ->]|Hin]; [split; [set_solver|done]|]).
  by apply elem_of_nil in Hin.
Qed.

Lemma node_entry_links n n' : same_but_links n n' → node_entry n' = node_entry n.
Proof.
  intros (_ & Hty & Hvis & Htr & Hgt & Hd & Hmp & _).
  unfold node_entry. by rewrite Hty, Hvis, Htr, Hgt, Hd, Hmp.
Qed.

(** The snapshot after attaching a new object [l] under the id [i]. *)
Lemma get_scene_attach s l node i (os : gmap loc SceneNode) ds :
  wf s →
  (∀ q n, objects s !! q = Some n → os !! q = Some n) →
  os !! l = Some node → objects s !! l = None → i ≠ "root" →
  let s' := {| objects := add_child (root_node s) l os;
               dicts := ds; root_node := root_node s;
               nodes := <[i := l]> (nodes s);
               camera_settings := camera_settings s;
               lighting_settings := lighting_settings s |} in
  snap_nodes (get_scene s') !! i = Some (node_entry node)
  ∧ ∀ j, j ≠ i → snap_nodes (get_scene s') !! j = snap_nodes (get_scene s) !! j.
Proof.
  intros (Hroot & (r & Hr & Hdata) & Hreg & Hok) Hold Hl Hfresh Hi s'.
  pose proof (links_only_add_child os (root_node s) l) as Hlinks.
  split.
  - rewrite get_scene_lookup, decide_False by done. subst s'. cbn [nodes objects].
    rewrite lookup_insert_eq. cbn.
    destruct (links_only_lookup _ _ _ _ Hlinks Hl) as (n' & -> & Hsame).
    cbn. f_equal. by apply node_entry_links.
  - intros j Hj. rewrite !get_scene_lookup. case_decide; [done|].
    subst s'. cbn [nodes objects]. rewrite lookup_insert_ne by done.
    destruct (nodes s !! j) as [l'|] eqn:Hl'; [|done]. cbn.
    destruct (Hreg _ _ Hl') as [n Hn]. rewrite Hn.
    destruct (links_only_lookup _ _ _ _ Hlinks (Hold _ _ Hn)) as (n' & -> & Hsame).
    cbn. f_equal. by apply node_entry_links.
Qed.

(** X9. In every state a scene manager can be in, the object registered under
    an id carries that id, so two ids never name the same object; and every
    registered node other than the root is a child of the root, with the
    root as its parent: the graph the manager builds is flat. *)
Theorem registered_nodes_hang_below_root s :
  reachable s →
  (∀ i l, nodes s !! i = Some l →
     ∃ n, objects s !! l = Some n ∧ node_id n = i)
  ∧ (∀ i j l, nodes s !! i = Some l → nodes s !! j = Some l → i = j)
  ∧ (∀ i l, nodes s !! i = Some l → i ≠ "root" →
       l ≠ root_node s
       ∧ ∃ n r, objects s !! l = Some n ∧ parent n = Some (root_node s)
                ∧ objects s !! root_node s = Some r ∧ l ∈ children r).
Proof.
  intros Hs. pose proof (reachable_wf s Hs) as Hwf.
  pose proof (reachable_registry_wf s Hs) as Hinv.
  split; [|split].
  - intros i l Hi. destruct (Hinv _ _ Hi) as (n & Hn & (Hid & _) & _). eauto.
  - intros i j l. apply registry_wf_injective, Hinv.
  - intros i l Hi Hne. split; [by eapply registry_wf_root_distinct|].
    destruct (Hinv _ _ Hi) as (n & Hn & (_ & _ & _ & Hkind) & Hch).
    destruct (Hch Hne) as (r & Hr & Hin).
    exists n, r. split; [done|]. split; [|done].
    destruct Hkind as [(? & _)|(_ & ? & _)]; done.
Qed.

Lemma registered_nodes_hang_below_root_witness :
  let s := run [NewDict []; AddLine 2 []; AddBar 2 []] SceneManager_init in
  ∃ n, objects s !! 2 = Some n ∧ node_id n = "bar_2".
Proof.
  intros s.
  destruct (registered_nodes_hang_below_root s) as (Hid & _).
  { by exists [NewDict []; AddLine 2 []; AddBar 2 []]. }
  apply (Hid "bar_2" 2). vm_compute. reflexivity.
Defined.

(** X10. In every state a scene manager can be in, the snapshot lists the
    registered ids other than the root: an entry under an id is the entry
    of the node object registered under that id, visible and with the
    identity transform. It is a geometry entry, of one of the four geometry
    types and referring to the two dictionaries that are the node's own
    [data] and [material_properties], or a dashboard entry, of a node that
    has neither attribute, without geometry type and with two empty
    dictionaries of its own. The widgets of a dashboard are not listed. *)
Theorem snapshot_lists_plots_and_dashboards s :
  reachable s →
  ∀ i e, snap_nodes (get_scene s) !! i = Some e →
    i ≠ "root"
    ∧ ∃ l n,
        nodes s !! i = Some l ∧ objects s !! l = Some n ∧ node_id n = i
        ∧ snap_visible e = true ∧ snap_transform e = eye4
        ∧ snap_type e = node_type n ∧ snap_type e ≠ "widget"
        ∧ ((snap_type e = "geometry"
            ∧ (∃ g, snap_geometry_type e = Some g ∧ g ∈ geometry_kinds)
            ∧ ∃ d mp, data n = Some d ∧ material_properties n = Some mp
                      ∧ snap_data e = Shared d
                      ∧ snap_material_properties e = Shared mp)
           ∨ (snap_type e = "dashboard" ∧ snap_geometry_type e = None
              ∧ data n = None ∧ material_properties n = None
              ∧ snap_data e = Own [] ∧ snap_material_properties e = Own [])).
Proof.
  intros Hs i e He.
  pose proof (reachable_registry_wf s Hs) as Hinv.
  rewrite get_scene_lookup in He. case_decide as Hi; [done|].
  destruct (nodes s !! i) as [l|] eqn:Hl; [|done]. cbn in He.
  destruct (Hinv _ _ Hl) as (n & Hn & (Hid & Hvis & Htr & Hkind) & _).
  rewrite Hn in He. cbn in He. injection He as <-.
  split; [done|]. exists l, n. split; [done|]. split; [done|]. split; [done|].
  cbn. split; [done|]. split; [done|]. split; [done|].
  destruct Hkind as [(? & _)|(_ & _ & [(Hty & Hg & [d Hd] & [mp Hmp])
                                      |(Hty & Hg & Hd & Hmp)])]; [done|..].
  - rewrite Hty, Hd, Hmp. split; [done|]. left.
    split; [done|]. split; [done|]. by exists d, mp.
  - rewrite Hty, Hd, Hmp. split; [done|]. right. done.
Qed.

Lemma snapshot_lists_plots_and_dashboards_witness :
  let s := run [NewDict []; CreateDashboard [2; 2] "grid"] SceneManager_init in
  ∃ e, snap_nodes (get_scene s) !! "dashboard_1" = Some e
       ∧ snap_type e ≠ "widget" ∧ snap_visible e = true.
Proof.
  intros s.
  assert (∃ e, snap_nodes (get_scene s) !! "dashboard_1" = Some e) as [e He].
  { eexists. vm_compute. reflexivity. }
  destruct (snapshot_lists_plots_and_dashboards s) with (i := "dashboard_1") (e := e)
    as (_ & l & n & _ & _ & _ & Hvis & _ & _ & Hty & _).
  { by exists [NewDict []; CreateDashboard [2; 2] "grid"]. }
  { exact He. }
  exists e. split; [exact He|]. split; [exact Hty|exact Hvis].
Defined.

(** X11. What an [add_*] call puts into the scene: it returns the id made of the
    geometry type and the number of registered ids, and the next snapshot
    has an entry under that id, a visible geometry node of that type with
    the identity transform, which refers to the very dictionary that was
    passed in as data and to a new dictionary holding the keyword
    arguments. The entries under other ids are as before. *)
Theorem add_then_get_scene g add data kwargs s :
  reachable s → (g, add) ∈ add_methods →
  ∃ mp s',
    let i := g +:+ "_" +:+ pretty (size (nodes s)) in
    add data kwargs s = (Ok i, s')
    ∧ snap_nodes (get_scene s') !! i
      = Some {| snap_type := "geometry"; snap_geometry_type := Some g;
                snap_data := Shared data;
                snap_material_properties := Shared mp;
                snap_transform := eye4; snap_visible := true |}
    ∧ dicts s !! mp = None
    ∧ dicts s' !! mp = Some (dict_update [] kwargs)
    ∧ (∀ d, d ≠ mp → dicts s' !! d = dicts s !! d)
    ∧ ∀ j, j ≠ i → snap_nodes (get_scene s') !! j = snap_nodes (get_scene s) !! j.
Proof.
  intros Hs [Hg ->]%add_methods_spec.
  pose proof (reachable_wf s Hs) as Hwf.
  set (l := fresh (dom (objects s))).
  set (mp := fresh (dom (dicts s))).
  set (i := g +:+ "_" +:+ pretty (size (nodes s))).
  assert (Hfresh : objects s !! l = None) by apply not_elem_of_dom, is_fresh.
  assert (Hi : i ≠ "root") by (apply geometry_id_not_root; exact Hg).
  destruct (get_scene_attach s l (GeometryNode_init i g data mp) i
              (<[l := GeometryNode_init i g data mp]> (objects s))
              (<[mp := dict_update [] kwargs]> (dicts s)) Hwf)
    as [Hnew Hrest].
  { intros q n Hq. rewrite lookup_insert_ne; [done|congruence]. }
  { apply lookup_insert_eq. }
  { done. }
  { done. }
  exists mp. eexists. cbn zeta. split; [reflexivity|].
  split; [exact Hnew|]. split; [apply not_elem_of_dom, is_fresh|].
  split; [apply lookup_insert_eq|]. split; [|exact Hrest].
  intros d Hd. cbn. by rewrite lookup_insert_ne.
Qed.

Lemma add_then_get_scene_witness :
  ∃ mp s',
    add_scatter 5 [("color", VStr "red")] SceneManager_init = (Ok "scatter_1", s')
    ∧ snap_nodes (get_scene s') !! "scatter_1"
      = Some {| snap_type := "geometry"; snap_geometry_type := Some "scatter";
                snap_data := Shared 5;
                snap_material_properties := Shared mp;
                snap_transform := eye4; snap_visible := true |}
    ∧ dicts s' !! mp = Some [("color", VStr "red")].
Proof.
  destruct (add_then_get_scene "scatter" add_scatter 5 [("color", VStr "red")]
              SceneManager_init)
    as (mp & s' & Hrun & Hsnap & _ & Hmp & _).
  { by exists []. }
  { unfold add_methods. set_solver. }
  exists mp, s'. split; [exact Hrun|]. split; [exact Hsnap|exact Hmp].
Defined.

End scene_more_claims.

Section scene_compositions.
Import Scene.
Implicit Types (s : SceneManager) (os : gmap loc SceneNode) (n : SceneNode).

Lemma snapshot_eq (a b : Snapshot) :
  snap_nodes a = snap_nodes b → snap_camera a = snap_camera b →
  snap_lighting a = snap_lighting b → a = b.
Proof. destruct a, b. cbn. by intros -> -> ->. Qed.

(** X12. Removing the node an [add_*] call has just added undoes the call, when
    the id it returned was not registered before: the registry and the
    snapshot are as before the two calls, and so is every object there was
    (the root has its old children again). What stays behind is the removed
    node object, detached, and its dictionary of keyword arguments. *)
Theorem remove_undoes_add g add data kwargs s :
  reachable s → (g, add) ∈ add_methods →
  nodes s !! (g +:+ "_" +:+ pretty (size (nodes s))) = None →
  ∃ i s1 s2,
    add data kwargs s = (Ok i, s1)
    ∧ remove_node i s1 = (Ok true, s2)
    ∧ nodes s2 = nodes s
    ∧ (∀ q n, objects s !! q = Some n → objects s2 !! q = Some n)
    ∧ get_scene s2 = get_scene s.
Proof.
  intros Hs [Hg ->]%add_methods_spec Hnew.
  pose proof (reachable_wf s Hs) as Hwf.
  pose proof (reachable_registry_wf s Hs) as Hinv.
  set (i := g +:+ "_" +:+ pretty (size (nodes s))) in *.
  set (l := fresh (dom (objects s))).
  set (s1 := (add_geometry_node g g data kwargs s).2).
  assert (Hadd : add_geometry_node g g data kwargs s = (Ok i, s1)) by done.
  assert (Hfresh : objects s !! l = None) by apply not_elem_of_dom, is_fresh.
  assert (Hi : i ≠ "root") by (apply geometry_id_not_root; exact Hg).
  assert (Hwf1 : wf s1) by (apply wf_add_geometry_node; [exact Hg|done]).
  assert (Hinv1 : registry_wf s1) by by apply registry_wf_add_geometry_node.
  assert (Hl1 : nodes s1 !! i = Some l) by apply lookup_insert_eq.
  destruct (remove_node_registered s1 i l Hwf1 Hinv1 Hl1 Hi)
    as (r1 & Hr1 & Hin1 & Hlr & Hrem).
  destruct Hwf as (Hroot & (r & Hr & Hdata) & Hreg & Hok).
  assert (Hl_not_child : l ∉ children r).
  { intros Hin. destruct (Hok _ _ Hr) as [_ Hall].
    destruct (Hall _ Hin) as (_ & nc & ? & _). congruence. }
  assert (Hos1 : objects s1
                 = add_child (root_node s) l
                     (<[l := GeometryNode_init i g data (fresh (dom (dicts s)))]>
                        (objects s))) by done.
  change (root_node s1) with (root_node s) in *.
  assert (Hr1' : r1 = set_children (children r ++ [l]) r).
  { rewrite Hos1, add_child_lookup, decide_True in Hr1 by done.
    rewrite lookup_insert_ne, Hr in Hr1 by done. cbn in Hr1. congruence. }
  assert (Hobj : ∀ q n, objects s !! q = Some n →
            remove_child (root_node s) l (objects s1) !! q = Some n).
  { intros q n Hq. assert (q ≠ l) by congruence.
    rewrite (remove_child_lookup _ _ _ r1) by done.
    rewrite Hos1, add_child_lookup by done.
    destruct (decide (q = root_node s)) as [->|Hq'].
    - rewrite lookup_insert_ne, Hr by done. cbn. subst r1. cbn.
      rewrite list_remove_app_fresh by done.
      assert (n = r) as -> by congruence. by destruct r.
    - rewrite !decide_False by done. by rewrite lookup_insert_ne. }
  assert (Hnodes : delete i (nodes s1) = nodes s).
  { change (nodes s1) with (<[i := l]> (nodes s)).
    rewrite delete_insert_eq. by apply delete_id. }
  exists i, s1. eexists. split; [exact Hadd|]. split; [exact Hrem|].
  cbn [nodes objects with_nodes with_objects root_node] in *.
  split; [exact Hnodes|]. split; [exact Hobj|].
  apply snapshot_eq; [|done..].
  apply map_eq. intros j. rewrite !get_scene_lookup. case_decide; [done|].
  cbn [nodes objects with_nodes with_objects]. rewrite Hnodes.
  destruct (nodes s !! j) as [l'|] eqn:Hl'; [|done]. cbn [mbind option_bind].
  destruct (Hreg _ _ Hl') as [n Hn]. by rewrite (Hobj _ _ Hn), Hn.
Qed.

Lemma remove_undoes_add_witness :
  let s := run [NewDict []; AddLine 2 []] SceneManager_init in
  ∃ s1 s2,
    add_bar 2 [] s = (Ok "bar_2", s1)
    ∧ remove_node "bar_2" s1 = (Ok true, s2)
    ∧ get_scene s2 = get_scene s.
Proof.
  intros s.
  destruct (remove_undoes_add "bar" add_bar 2 [] s)
    as (i & s1 & s2 & Hadd & Hrem & _ & _ & Hsnap).
  { by exists [NewDict []; AddLine 2 []]. }
  { unfold add_methods. set_solver. }
  { vm_compute. reflexivity. }
  assert (i = "bar_2") as ->.
  { assert (Ok i = Ok "bar_2") as [= ->]; [|done].
    change (Ok i) with (Ok i, s1).1. rewrite <- Hadd. vm_compute. reflexivity. }
  exists s1, s2. split; [exact Hadd|]. split; [exact Hrem|exact Hsnap].
Defined.

(** X13. [create_dashboard] registers one id, ["dashboard_<n>"] for [n]
    registered ids, for a new dashboard node below the root. The node has
    one child per widget configuration, in order: a widget node named after
    the dashboard and its position, holding that configuration. The widgets
    are registered under no id, so the snapshot gains the dashboard entry
    and nothing else. The [layout] argument has no effect. *)
Theorem create_dashboard_structure widgets layout s :
  reachable s →
  ∃ d ws dn s',
    let i := "dashboard_" +:+ pretty (size (nodes s)) in
    create_dashboard widgets layout s = (Ok i, s')
    ∧ nodes s' = <[i := d]> (nodes s)
    ∧ objects s' !! d = Some dn
    ∧ node_id dn = i ∧ node_type dn = "dashboard"
    ∧ parent dn = Some (root_node s) ∧ children dn = ws
    ∧ length ws = length widgets ∧ NoDup ws
    ∧ (∀ k w config, ws !! k = Some w → widgets !! k = Some config →
         objects s' !! w = Some (widget_node i d k config)
         ∧ objects s !! w = None
         ∧ ∀ j, nodes s' !! j ≠ Some w)
    ∧ snap_nodes (get_dashboard s') !! i
      = Some {| snap_type := "dashboard"; snap_geometry_type := None;
                snap_data := Own []; snap_material_properties := Own [];
                snap_transform := eye4; snap_visible := true |}
    ∧ (∀ j, j ≠ i →
         snap_nodes (get_dashboard s') !! j = snap_nodes (get_scene s) !! j)
    ∧ ∀ layout', create_dashboard widgets layout' s
                 = create_dashboard widgets layout s.
Proof.
  intros Hs. pose proof (reachable_wf s Hs) as Hwf.
  destruct (create_dashboard_objects widgets layout s)
    as (os & Hrun & Hd & Hnd & Hlen & Hwfresh & Hold & Hosd & Hwid).
  set (i := "dashboard_" +:+ pretty (size (nodes s))) in *.
  set (d := fresh (dom (objects s))) in *.
  set (ws := fresh_list (length widgets) ({[d]} ∪ dom (objects s))) in *.
  assert (Hi : i ≠ "root") by discriminate.
  destruct (get_scene_attach s d _ i os (dicts s) Hwf Hold Hosd Hd Hi)
    as [Hnew Hrest].
  destruct Hwf as (Hroot & (r & Hr & Hdata) & Hreg & Hok).
  assert (Hdr : d ≠ root_node s) by (intros E; rewrite E in Hd; congruence).
  exists d, ws, (set_parent (Some (root_node s))
                   (set_children ws (SceneNode_init i "dashboard"))).
  eexists. cbn zeta. split; [exact Hrun|]. cbn [nodes objects].
  split; [done|]. split.
  { rewrite add_child_lookup, decide_False, decide_True by done.
    by rewrite Hosd. }
  do 4 (split; [done|]). split; [done|]. split; [done|]. split.
  { intros k w config Hw Hc.
    destruct (Hwfresh w) as [Hwd Hwnone]; [by eapply list_elem_of_lookup_2|].
    assert (Hwr : w ≠ root_node s) by (intros E; rewrite E in Hwnone; congruence).
    split.
    - rewrite add_child_lookup, !decide_False by done. by eapply Hwid.
    - split; [done|]. intros j Hj.
      apply lookup_insert_Some in Hj as [[_ ?]|[_ Hj]]; [done|].
      destruct (Hreg _ _ Hj) as [n Hn]. congruence. }
  split; [exact Hnew|]. split; [exact Hrest|]. done.
Qed.

Lemma create_dashboard_structure_witness :
  let s := run [NewDict [("type", VStr "chart")]] SceneManager_init in
  ∃ d ws dn s',
    create_dashboard [2; 2; 2] "grid" s = (Ok "dashboard_1", s')
    ∧ objects s' !! d = Some dn
    ∧ children dn = ws ∧ length ws = 3.
Proof.
  intros s.
  destruct (create_dashboard_structure [2; 2; 2] "grid" s)
    as (d & ws & dn & s' & Hrun & _ & Hdn & _ & _ & _ & Hch & Hlen & _).
  { by exists [NewDict [("type", VStr "chart")]]. }
  exists d, ws, dn, s'. split; [exact Hrun|]. split; [exact Hdn|].
  split; [exact Hch|exact Hlen].
Defined.

End scene_compositions.

(** ** Resolving shaders over time *)

Section shader_more_facts.
Import Shader.
Context `{Python}.
Implicit Types (p q : pydict) (sm : ShaderManager).

Lemma customize_keeps_vertex_shader vs fs p :
  (customize_shader_with_material vs fs p).1 = vs.
Proof. done. Qed.

(** A cache miss: a new program object is built from the template and
    cached under the key. *)
Lemma get_shader_for_geometry_miss g p sm vs fs :
  shader_cache sm !! cache_key g p = None →
  template_for g sm = Some (vs, fs) →
  let l := fresh (dom (programs sm)) in
  get_shader_for_geometry g p sm
  = (Ok l,
     {| programs :=
          <[l := {| vertex_shader := vs;
                    fragment_shader := (customize_shader_with_material vs fs p).2;
                    geometry_shader := None; compiled_handles := ∅ |}]>
            (programs sm);
        shader_cache := <[cache_key g p := l]> (shader_cache sm);
        default_shaders := default_shaders sm |})
  ∧ programs sm !! l = None.
Proof.
  intros Hmiss Htpl l. split; [|apply not_elem_of_dom, is_fresh].
  unfold get_shader_for_geometry. rewrite Hmiss.
  unfold template_for in Htpl. rewrite Htpl.
  pose proof (customize_keeps_vertex_shader vs fs p) as Hv.
  destruct (customize_shader_with_material vs fs p) as [vs' fs'].
  cbn in Hv. by subst vs'.
Qed.

(** A cache hit: the cached object, and nothing changes. *)
Lemma get_shader_for_geometry_hit g p sm l :
  shader_cache sm !! cache_key g p = Some l →
  get_shader_for_geometry g p sm = (Ok l, sm).
Proof. intros Hhit. unfold get_shader_for_geometry. by rewrite Hhit. Qed.

(** No call evicts or replaces what is cached, or changes a program. *)
Lemma get_shader_for_geometry_mono g p sm :
  (∀ k l, shader_cache sm !! k = Some l →
          shader_cache (get_shader_for_geometry g p sm).2 !! k = Some l)
  ∧ (∀ l (sp : ShaderProgram), programs sm !! l = Some sp →
          programs (get_shader_for_geometry g p sm).2 !! l = Some sp).
Proof.
  unfold get_shader_for_geometry.
  destruct (shader_cache sm !! cache_key g p) as [l0|] eqn:Hk; [done|].
  destruct (match g ≫= _ with Some _ => _ | None => _ end) as [[vs fs]|]; [|done].
  destruct (customize_shader_with_material vs fs p) as [vs' fs']. cbn.
  split.
  - intros k l Hkl. rewrite lookup_insert_ne; [done|congruence].
  - intros l sp Hl. rewrite lookup_insert_ne; [done|].
    intros <-. pose proof (is_fresh (dom (programs sm))) as Hf.
    apply Hf, elem_of_dom. eauto.
Qed.

Lemma register_custom_shader_templates name vs fs gts sm g :
  default_shaders (register_custom_shader name vs fs gts sm).2 !! g
  = if decide (g ∈ gts) then Some (vs, fs) else default_shaders sm !! g.
Proof.
  unfold register_custom_shader. cbn [snd default_shaders].
  generalize (default_shaders sm). intros ds.
  induction gts as [|g0 gts IH] using rev_ind; [done|].
  rewrite foldl_app. cbn [foldl].
  destruct (decide (g = g0)) as [->|Hne].
  - rewrite lookup_insert_eq, decide_True by set_solver. done.
  - rewrite lookup_insert_ne, IH by done.
    destruct (decide (g ∈ gts)); [by rewrite decide_True by set_solver|].
    by rewrite decide_False by set_solver.
Qed.

Lemma shader_exec_mono c sm :
  sm_ok sm →
  sm_ok (shader_exec c sm)
  ∧ (∀ k l, shader_cache sm !! k = Some l →
            shader_cache (shader_exec c sm) !! k = Some l)
  ∧ (∀ l (sp : ShaderProgram), programs sm !! l = Some sp →
            programs (shader_exec c sm) !! l = Some sp).
Proof.
  intros Hok. destruct c as [g p|w g p|name vs fs gts]; cbn [shader_exec].
  - destruct (get_shader_for_geometry_ok g p sm Hok) as (l & sm' & Hrun & Hok' & _).
    split; [by rewrite Hrun|]. apply get_shader_for_geometry_mono.
  - unfold get_shader_for_widget.
    destruct (get_shader_for_geometry_ok g p sm Hok) as (l & sm' & Hrun & Hok' & _).
    split; [by rewrite Hrun|]. apply get_shader_for_geometry_mono.
  - split; [|done]. destruct Hok as [Hpt Hcache]. split; [|exact Hcache].
    rewrite register_custom_shader_templates. by case_decide.
Qed.

Lemma shader_run_mono cs sm :
  sm_ok sm →
  sm_ok (shader_run cs sm)
  ∧ (∀ k l, shader_cache sm !! k = Some l →
            shader_cache (shader_run cs sm) !! k = Some l)
  ∧ (∀ l (sp : ShaderProgram), programs sm !! l = Some sp →
            programs (shader_run cs sm) !! l = Some sp).
Proof.
  revert sm. induction cs as [|c cs IH]; intros sm Hok; [done|].
  cbn [shader_run foldl].
  destruct (shader_exec_mono c sm Hok) as (Hok1 & Hc1 & Hp1).
  destruct (IH _ Hok1) as (Hok2 & Hc2 & Hp2).
  split; [done|]. split; eauto.
Qed.

(** X14. Once a geometry type and material have been resolved, they resolve to
    the same program object, with the same sources, for the rest of the
    shader manager's life: nothing that is resolved or registered in
    between evicts or rebuilds it. In particular a custom shader registered
    later for that geometry type is not used for it. *)
Theorem resolved_shader_is_kept g p sm l sm1 cs :
  sm_ok sm →
  get_shader_for_geometry g p sm = (Ok l, sm1) →
  let sm2 := shader_run cs sm1 in
  get_shader_for_geometry g p sm2 = (Ok l, sm2)
  ∧ (∀ w, get_shader_for_widget w g p sm2 = (Ok l, sm2))
  ∧ is_Some (programs sm1 !! l)
  ∧ programs sm2 !! l = programs sm1 !! l.
Proof.
  intros Hok Hrun sm2.
  destruct (get_shader_for_geometry_ok g p sm Hok)
    as (l' & sm1' & Hrun' & Hok1 & [sp Hsp] & Hkey & _).
  rewrite Hrun in Hrun'. injection Hrun' as <- <-.
  destruct (shader_run_mono cs sm1 Hok1) as (_ & Hc & Hp).
  assert (Hhit : get_shader_for_geometry g p sm2 = (Ok l, sm2)).
  { apply get_shader_for_geometry_hit, Hc, Hkey. }
  split; [exact Hhit|]. split; [intros w; exact Hhit|].
  split; [by exists sp|]. rewrite Hsp. by apply Hp.
Qed.

(** X15. A geometry type without a template of its own is given the ["point"]
    template: on a cache miss the new program has the vertex shader of
    ["point"] and its fragment shader, customised for the material. This is
    the case of [None], the geometry type of a dashboard, and of any type
    no shader was registered for. *)
Theorem untemplated_geometry_gets_point_shader g p sm vs fs :
  (g ≫= (default_shaders sm !!.)) = None →
  default_shaders sm !! "point" = Some (vs, fs) →
  shader_cache sm !! cache_key g p = None →
  ∃ l sm',
    get_shader_for_geometry g p sm = (Ok l, sm')
    ∧ programs sm !! l = None
    ∧ programs sm' !! l
      = Some {| vertex_shader := vs;
                fragment_shader := (customize_shader_with_material vs fs p).2;
                geometry_shader := None; compiled_handles := ∅ |}
    ∧ shader_cache sm' !! cache_key g p = Some l
    ∧ default_shaders sm' = default_shaders sm.
Proof.
  intros Hnone Hpt Hmiss.
  destruct (get_shader_for_geometry_miss g p sm vs fs Hmiss) as [Hrun Hfresh].
  { unfold template_for. by rewrite Hnone. }
  do 2 eexists. split; [exact Hrun|]. split; [exact Hfresh|].
  cbn. by rewrite !lookup_insert_eq.
Qed.

(** X16. [register_custom_shader] replaces the templates of the geometry types
    it is given and nothing else; the [name] is not recorded. The new
    template is used the next time one of these types is resolved with a
    material that is not cached; for a material that is cached the program
    built from the old template is still returned. *)
Theorem custom_shader_is_used_on_a_miss_only name vs fs gts g p sm :
  g ∈ gts →
  let sm1 := (register_custom_shader name vs fs gts sm).2 in
  (register_custom_shader name vs fs gts sm).1 = Ok tt
  ∧ programs sm1 = programs sm ∧ shader_cache sm1 = shader_cache sm
  ∧ default_shaders sm1 !! g = Some (vs, fs)
  ∧ (∀ g', g' ∉ gts → default_shaders sm1 !! g' = default_shaders sm !! g')
  ∧ (∀ name', register_custom_shader name' vs fs gts sm
              = register_custom_shader name vs fs gts sm)
  ∧ (∀ l, shader_cache sm !! cache_key (Some g) p = Some l →
          get_shader_for_geometry (Some g) p sm1 = (Ok l, sm1))
  ∧ (shader_cache sm !! cache_key (Some g) p = None →
     ∃ l sm2,
       get_shader_for_geometry (Some g) p sm1 = (Ok l, sm2)
       ∧ programs sm !! l = None
       ∧ programs sm2 !! l
         = Some {| vertex_shader := vs;
                   fragment_shader := (customize_shader_with_material vs fs p).2;
                   geometry_shader := None; compiled_handles := ∅ |}).
Proof.
  intros Hg sm1.
  assert (Htpl : default_shaders sm1 !! g = Some (vs, fs)).
  { unfold sm1. by rewrite register_custom_shader_templates, decide_True. }
  split; [done|]. split; [done|]. split; [done|]. split; [exact Htpl|].
  split. { intros g' Hg'. unfold sm1.
           by rewrite register_custom_shader_templates, decide_False. }
  split; [done|]. split.
  - intros l Hhit. by apply get_shader_for_geometry_hit.
  - intros Hmiss.
    destruct (get_shader_for_geometry_miss (Some g) p sm1 vs fs Hmiss) as [Hrun Hfresh].
    { unfold template_for. cbn [mbind option_bind]. by rewrite Htpl. }
    do 2 eexists. split; [exact Hrun|]. split; [exact Hfresh|].
    cbn. by rewrite lookup_insert_eq.
Qed.

End shader_more_facts.

Section shader_more_examples.
Import Shader.

Lemma resolved_shader_is_kept_witness :
  let p := [("color", VStr "red")] in
  let sm1 := (get_shader_for_geometry (H := Builtins.builtins) (Some "line") p
                ShaderManager_init).2 in
  let sm2 := shader_run [RegisterCustomShader "mine" "vs" "fs" ["line"];
                         GetShaderForGeometry (Some "line") []] sm1 in
  get_shader_for_geometry (Some "line") p sm2 = (Ok 0, sm2).
Proof.
  intros p sm1 sm2.
  destruct (@resolved_shader_is_kept Builtins.builtins (Some "line") p
              ShaderManager_init 0 sm1
              [RegisterCustomShader "mine" "vs" "fs" ["line"];
               GetShaderForGeometry (Some "line") []])
    as (Hagain & _).
  { apply sm_ok_init. }
  { vm_compute. reflexivity. }
  exact Hagain.
Defined.

(** The shader manager has no template for histograms, the fourth geometry
    type of the scene manager. *)
Lemma untemplated_geometry_gets_point_shader_witness :
  ∃ l sm',
    get_shader_for_geometry (H := Builtins.builtins) (Some "histogram") []
      ShaderManager_init = (Ok l, sm')
    ∧ (vertex_shader <$> programs sm' !! l) = Some get_default_point_vertex_shader.
Proof.
  destruct (@untemplated_geometry_gets_point_shader Builtins.builtins
              (Some "histogram") [] ShaderManager_init
              get_default_point_vertex_shader get_default_point_fragment_shader)
    as (l & sm' & Hrun & _ & Hprog & _).
  { vm_compute. reflexivity. }
  { vm_compute. reflexivity. }
  { reflexivity. }
  exists l, sm'. split; [exact Hrun|]. by rewrite Hprog.
Defined.

Lemma custom_shader_is_used_on_a_miss_only_witness :
  let sm1 := (register_custom_shader "mine" "vs" "fs"
                ["line"; "bar"] ShaderManager_init).2 in
  default_shaders sm1 !! "bar" = Some ("vs", "fs").
Proof.
  intros sm1.
  destruct (@custom_shader_is_used_on_a_miss_only Builtins.builtins
              "mine" "vs" "fs" ["line"; "bar"] "bar" [] ShaderManager_init)
    as (_ & _ & _ & Htpl & _).
  { set_solver. }
  exact Htpl.
Defined.

End shader_more_examples.

(** ** Customising a fragment shader *)

Section string_facts.

Lemma append_assoc (a b c : string) : (a +:+ b) +:+ c = a +:+ (b +:+ c).
Proof.
  induction a as [|x a IH]; [done|].
  change (String x ((a +:+ b) +:+ c) = String x (a +:+ (b +:+ c))).
  by rewrite IH.
Qed.

Lemma prefix_append (a post : string) : String.prefix a (a +:+ post) = true.
Proof.
  induction a as [|x a IH]; [by destruct post|].
  change (String x a +:+ post) with (String x (a +:+ post)).
  cbn [String.prefix]. destruct (Ascii.ascii_dec x x) as [_|?]; [exact IH|done].
Qed.

Lemma prefix_split (a s : string) :
  String.prefix a s = true → ∃ post, s = a +:+ post.
Proof.
  revert s. induction a as [|x a IH]; intros s.
  - intros _. by exists s.
  - destruct s as [|y s]; [intros ?; discriminate|].
    cbn [String.prefix].
    destruct (Ascii.ascii_dec x y) as [->|]; [|intros ?; discriminate].
    intros [post ->]%IH. by exists post.
Qed.

Lemma str_contains_cons (m : string) c (s : string) :
  str_contains m (String c s) = String.prefix m (String c s) || str_contains m s.
Proof. reflexivity. Qed.

Lemma str_contains_prefix (m s : string) :
  String.prefix m s = true → str_contains m s = true.
Proof.
  intros Hp. destruct s.
  - change (String.prefix m "" || false = true). by rewrite Hp.
  - by rewrite str_contains_cons, Hp.
Qed.

Lemma str_contains_append_r (m pre x : string) :
  str_contains m x = true → str_contains m (pre +:+ x) = true.
Proof.
  intros Hx. induction pre as [|c pre IH]; [done|].
  change (String c pre +:+ x) with (String c (pre +:+ x)).
  rewrite str_contains_cons, IH. apply orb_true_r.
Qed.

Lemma str_contains_here (m post : string) : str_contains m (m +:+ post) = true.
Proof. apply str_contains_prefix, prefix_append. Qed.

Lemma str_contains_split (m s : string) :
  str_contains m s = true → ∃ pre post, s = pre +:+ m +:+ post.
Proof.
  induction s as [|c s IH].
  - intros Hc. assert (String.prefix m "" = true) as [post E]%prefix_split.
    { change (String.prefix m "" || false = true) in Hc.
      by rewrite orb_false_r in Hc. }
    by exists "", post.
  - rewrite str_contains_cons. intros [Hp|Hs]%orb_true_iff.
    + apply prefix_split in Hp as [post E]. by exists "", post.
    + destruct (IH Hs) as (pre & post & ->). by exists (String c pre), post.
Qed.

(** A match of [old] that starts in [x] ends in [x], when what follows [x]
    begins with a character [old] does not have. *)
Lemma prefix_stays_before (c : Ascii.ascii) (old x rest : string) :
  has_char c old = false →
  String.prefix old (x +:+ String c rest) = true →
  (String.length old ≤ String.length x)%nat.
Proof.
  revert x. induction old as [|a old IH]; intros x Hno Hp; [cbn; lia|].
  cbn [has_char] in Hno. apply orb_false_iff in Hno as [Hca Hno].
  apply bool_decide_eq_false in Hca.
  destruct x as [|b x].
  - change ("" +:+ String c rest) with (String c rest) in Hp.
    cbn [String.prefix] in Hp.
    destruct (Ascii.ascii_dec a c) as [Hac|Hac]; [by destruct Hca|discriminate].
  - change (String b x +:+ String c rest) with (String b (x +:+ String c rest)) in Hp.
    cbn [String.prefix] in Hp.
    destruct (Ascii.ascii_dec a b); [|discriminate].
    cbn [String.length]. apply le_n_S. by apply IH.
Qed.

(** [replace] keeps an occurrence of [m] that no occurrence of [old] can
    touch. *)
Lemma str_replace_keeps (old new : string) (c : Ascii.ascii) (m' : string) :
  has_char c old = false →
  (∀ post, str_replace_from 0 old new (String c m' +:+ post)
           = String c m' +:+ str_replace_from 0 old new post) →
  ∀ s, str_contains (String c m') s = true →
       str_contains (String c m') (str_replace old new s) = true.
Proof.
  intros Hno Hm s (pre & post & ->)%str_contains_split.
  unfold str_replace.
  assert (∀ k, (k ≤ String.length pre)%nat →
            ∃ out, str_replace_from k old new (pre +:+ String c m' +:+ post)
                   = out +:+ String c m' +:+ str_replace_from 0 old new post)
    as Hgen.
  { induction pre as [|c0 pre IH]; intros k Hk.
    - cbn in Hk. assert (k = 0) as -> by lia. exists "". apply Hm.
    - change (String c0 pre +:+ String c m' +:+ post)
        with (String c0 (pre +:+ String c m' +:+ post)).
      cbn [str_replace_from]. destruct k as [|k].
      + destruct (String.prefix old _) eqn:Hp.
        * pose proof (prefix_stays_before c old (String c0 pre) (m' +:+ post) Hno)
            as Hlen.
          specialize (Hlen Hp).
          destruct (IH (String.length old - 1)) as [out Hout].
          { cbn in Hlen. lia. }
          exists (new +:+ out). rewrite Hout. by rewrite append_assoc.
        * destruct (IH 0) as [out Hout]; [lia|].
          exists (String c0 out). by rewrite Hout.
      + destruct (IH k) as [out Hout]; [cbn in Hk; lia|].
        exists out. exact Hout. }
  destruct (Hgen 0) as [out ->]; [lia|].
  apply str_contains_append_r, str_contains_here.
Qed.

End string_facts.

Section customization_facts.
Import Shader.
Context `{Python}.
Implicit Types (p : pydict).

Lemma customize_steps vs fs p :
  customize_shader_with_material vs fs p
  = (vs, opacity_step p (color_step p fs)).
Proof. reflexivity. Qed.

Lemma color_step_declares p fs :
  is_Some (dict_get "color" p) →
  str_contains "uniform vec4 materialColor;" (color_step p fs) = true.
Proof.
  intros Hc. unfold color_step. rewrite bool_decide_eq_true_2 by done.
  destruct (str_contains _ fs) eqn:E; cbn [negb]; [done|].
  vm_compute. reflexivity.
Qed.

Lemma opacity_step_declares p fs :
  is_Some (dict_get "opacity" p) →
  str_contains "uniform float opacity;" (opacity_step p fs) = true.
Proof.
  intros Hc. unfold opacity_step. rewrite bool_decide_eq_true_2 by done.
  destruct (str_contains _ fs) eqn:E; cbn [negb]; [done|].
  vm_compute. reflexivity.
Qed.

Lemma opacity_step_keeps_color p fs :
  str_contains "uniform vec4 materialColor;" fs = true →
  str_contains "uniform vec4 materialColor;" (opacity_step p fs) = true.
Proof.
  intros Hfs. unfold opacity_step. case_bool_decide; [|done].
  destruct (str_contains "uniform float opacity;" fs); cbn [negb]; [done|].
  apply str_contains_append_r.
  apply (str_replace_keeps "fragColor =" _ (Ascii.ascii_of_nat 117)
           "niform vec4 materialColor;");
    [reflexivity| |exact Hfs].
  intros post. reflexivity.
Qed.

(** X17. [_customize_shader_with_material] never touches the vertex shader, and
    without the keys ["color"] and ["opacity"] in the material it returns
    the fragment shader as it is. With the key ["color"] the fragment shader
    it returns declares the uniform [materialColor], with the key
    ["opacity"] the uniform [opacity]. Customising its result again for the
    same material changes nothing: the declarations are not stacked. *)
Theorem customize_shader_is_idempotent vs fs p :
  let result := customize_shader_with_material vs fs p in
  result.1 = vs
  ∧ (dict_get "color" p = None → dict_get "opacity" p = None → result.2 = fs)
  ∧ (is_Some (dict_get "color" p) →
     str_contains "uniform vec4 materialColor;" result.2 = true)
  ∧ (is_Some (dict_get "opacity" p) →
     str_contains "uniform float opacity;" result.2 = true)
  ∧ customize_shader_with_material result.1 result.2 p = result.
Proof.
  intros result. unfold result. rewrite !customize_steps. cbn [fst snd].
  set (fs1 := color_step p fs). set (fs2 := opacity_step p fs1).
  assert (Hc : is_Some (dict_get "color" p) →
               str_contains "uniform vec4 materialColor;" fs2 = true).
  { intros Hc. apply opacity_step_keeps_color. by apply color_step_declares. }
  assert (Ho : is_Some (dict_get "opacity" p) →
               str_contains "uniform float opacity;" fs2 = true).
  { intros Ho. by apply opacity_step_declares. }
  split; [done|]. split; [|split; [done|split; [done|]]].
  - intros Hnc Hno. unfold fs2, fs1, opacity_step, color_step.
    rewrite Hnc, Hno.
    rewrite !bool_decide_eq_false_2 by (intros [? ?]; done). done.
  - f_equal.
    assert (color_step p fs2 = fs2) as ->.
    { unfold color_step. case_bool_decide as E; [|done]. by rewrite (Hc E). }
    unfold opacity_step at 1. case_bool_decide as E; [|done]. by rewrite (Ho E).
Qed.

End customization_facts.

(** ** Rendering, end to end *)

Section render_more_facts.
Import Scene Shader Render.
Context `{Numpy} `{Python}.
Implicit Types (r : Renderer) (b : Backend) (st : gmap loc DataBuffer).

Lemma get_pipeline_for_geometry_flags node b :
  kind (get_pipeline_for_geometry node b) = kind b
  ∧ is_initialized (get_pipeline_for_geometry node b) = is_initialized b.
Proof.
  unfold get_pipeline_for_geometry.
  destruct (kind b) eqn:E; cbn; destruct (pipeline_cache b !! _); cbn; auto.
Qed.

(** The draw loop stops at the first visible node: [_draw] looks up
    ["primitive_type"] in the prepared node, which has no such key. *)
Lemma render_nodes_visible (nodes : list (string * FrameNode)) b :
  Exists (λ kv, f_visible kv.2 = true) nodes →
  ∃ b', render_nodes nodes b = (Raise (KeyError "primitive_type"), b')
        ∧ is_initialized b' = is_initialized b.
Proof.
  induction nodes as [|[i f] nodes IH]; intros Hex.
  - by apply Exists_nil in Hex.
  - cbn [render_nodes]. destruct (f_visible f) eqn:Hv.
    + eexists. split; [reflexivity|]. apply get_pipeline_for_geometry_flags.
    + apply Exists_cons in Hex as [Hv'|Hex]; [cbn in Hv'; congruence|].
      by apply IH.
Qed.

Lemma renderer_ok_initialize r :
  renderer_ok r →
  renderer_ok (initialize r).2
  ∧ initialized (initialize r).2 = true
  ∧ is_initialized (backend (initialize r).2) = true
  ∧ dicts (initialize r).2 = dicts r
  ∧ buffer_store (initialize r).2 = buffer_store r
  ∧ shader_manager (initialize r).2 = shader_manager r.
Proof.
  intros [Hsm Hinit]. unfold initialize.
  destruct (initialized r) eqn:E; cbn [snd].
  - split; [split; [done|intros _; by apply Hinit]|].
    split; [done|]. split; [by apply Hinit|]. done.
  - split; [split; [done|done]|]. done.
Qed.

(** How [render] runs: initialization on demand, then the preparation,
    then the backend. *)
Lemma render_steps scene r :
  renderer_ok r →
  ∃ fs r1,
    prepare_nodes (snap_nodes scene) (initialize r).2 = (Ok fs, r1)
    ∧ sm_ok (shader_manager r1)
    ∧ same_setup (initialize r).2 r1
    ∧ dom fs = dom (snap_nodes scene)
    ∧ (∀ i e, snap_nodes scene !! i = Some e →
         ∃ f, fs !! i = Some f ∧ f_visible f = snap_visible e)
    ∧ render scene r
      = (let '(a, b) := render_nodes (map_to_list fs) (backend r1) in
         (a, with_backend (λ _, b) r1)).
Proof.
  intros Hok.
  destruct (renderer_ok_initialize r Hok) as ([Hsm0 _] & Hinit & Hbinit & _).
  destruct (prepare_nodes_ok (snap_nodes scene) (initialize r).2 Hsm0)
    as (fs & r1 & Hprep & Hsm1 & Hsame & _ & Hdom & Hall).
  exists fs, r1. split; [exact Hprep|]. split; [exact Hsm1|].
  split; [exact Hsame|]. split; [exact Hdom|]. split.
  { intros i e Hi. destruct (Hall i e Hi) as (f & Hf & _ & _ & _ & _ & _ & Hv & _).
    by exists f. }
  assert (Hb1 : is_initialized (backend r1) = true).
  { destruct Hsame as (_ & -> & _). exact Hbinit. }
  assert (Hstep : render scene r = render scene (initialize r).2).
  { unfold initialize. destruct (initialized r) eqn:Hi; [done|].
    unfold render at 1. unfold mbind, M_bind, get. rewrite Hi.
    unfold initialize. rewrite Hi. cbn.
    unfold render, mbind, M_bind, mret, M_ret, get. done. }
  rewrite Hstep.
  unfold render, mbind, M_bind, mret, M_ret, get. rewrite Hinit.
  unfold prepare_scene, mbind, M_bind, mret, M_ret, get. rewrite Hprep.
  unfold on_backend, backend_render. cbn [p_nodes]. rewrite Hb1. done.
Qed.

Lemma renderer_ok_with_backend r b :
  sm_ok (shader_manager r) → is_initialized b = true →
  renderer_ok (with_backend (λ _, b) r).
Proof. intros Hsm Hb. split; [exact Hsm|]. intros _. exact Hb. Qed.

(** [render] on a scene with a visible node. *)
Lemma render_visible scene r :
  renderer_ok r →
  (∃ i e, snap_nodes scene !! i = Some e ∧ snap_visible e = true) →
  ∃ r', render scene r = (Raise (KeyError "primitive_type"), r')
        ∧ renderer_ok r' ∧ initialized r' = true ∧ dicts r' = dicts r.
Proof.
  intros Hok (i & e & Hi & Hv).
  destruct (renderer_ok_initialize r Hok) as (_ & Hinit & Hbinit & Hd & _).
  destruct (render_steps scene r Hok)
    as (fs & r1 & _ & Hsm1 & Hsame & _ & Hall & ->).
  destruct (Hall i e Hi) as (f & Hf & Hfv).
  destruct (render_nodes_visible (map_to_list fs) (backend r1))
    as (b' & -> & Hb').
  { apply Exists_exists. exists (i, f). split; [by apply elem_of_map_to_list|].
    cbn. congruence. }
  destruct Hsame as (Hd1 & Hb1 & Hi1 & _).
  eexists. split; [reflexivity|]. split.
  { apply renderer_ok_with_backend; [done|]. rewrite Hb', Hb1. exact Hbinit. }
  cbn. split; [congruence|congruence].
Qed.

End render_more_facts.

Section buffer_transfer_facts.
Context `{Numpy}.
Implicit Types (st : gmap loc DataBuffer) (d : pydict) (S : loc → Prop).

Lemma transferred_refl S st : (∀ l, ¬ S l) → transferred S st st.
Proof.
  intros HS. split; [done|]. intros l b Hl. exists b.
  repeat split; try done. intros ?. by destruct (HS l).
Qed.

Lemma transferred_trans S1 S2 st st1 st2 :
  transferred S1 st st1 → transferred S2 st1 st2 →
  transferred (λ l, S1 l ∨ S2 l) st st2.
Proof.
  intros [Hd1 H1] [Hd2 H2]. split; [congruence|]. intros l b Hl.
  destruct (H1 l b Hl) as (b1 & Hb1 & Hda1 & Ht1 & Hk1 & Hs1 & Hn1).
  destruct (H2 l b1 Hb1) as (b2 & Hb2 & Hda2 & Ht2 & Hk2 & Hs2 & Hn2).
  exists b2. split; [done|]. split; [congruence|]. split; [congruence|].
  split; [auto|]. split.
  - intros [?|?]; auto.
  - intros Hno. rewrite Hn2, Hn1; tauto.
Qed.

Lemma transferred_iff S S' st st' :
  (∀ l, S l ↔ S' l) → transferred S st st' → transferred S' st st'.
Proof.
  intros Hiff [Hd Ht]. split; [done|]. intros l b Hl.
  destruct (Ht l b Hl) as (b' & ? & ? & ? & ? & Hs & Hn).
  exists b'. repeat split; try done.
  - intros ?. by apply Hs, Hiff.
  - intros Hno. apply Hn. intros ?. by apply Hno, Hiff.
Qed.

Lemma transferred_one l0 st :
  transferred (λ l, l = l0) st (transfer_to_gpu l0 st).
Proof.
  split; [apply dom_alter_L|]. intros l b Hl.
  rewrite transfer_to_gpu_lookup. case_decide as E.
  - subst. rewrite Hl. eexists. split; [reflexivity|]. cbn.
    repeat split; try done; by eexists.
  - exists b. repeat split; done.
Qed.

(** The loop of [_process_node_data] over the values. *)
Lemma transferred_values d st :
  transferred (buffers_of d) st
    (foldl (λ bs kv, match kv.2 with
                     | VBuffer l => transfer_to_gpu l bs
                     | _ => bs
                     end) st d).
Proof.
  revert st. induction d as [|[k v] d IH] using rev_ind; intros st.
  - apply transferred_refl. intros l [k Hk]. by apply elem_of_nil in Hk.
  - rewrite foldl_app. cbn [foldl snd].
    eapply transferred_iff; [|eapply transferred_trans; [apply IH|]].
    2: { instantiate (1 := λ l, v = VBuffer l).
         destruct v; try (apply transferred_refl; intros ?; discriminate).
         eapply transferred_iff; [|apply transferred_one].
         intros l0. split; [by intros ->|by intros [= ->]]. }
    intros l. unfold buffers_of. split.
    + intros [[k' Hk']| ->]; [exists k'|exists k]; set_solver.
    + intros [k' [Hk'|Hk']%elem_of_app]; [left; by exists k'|right].
      apply list_elem_of_singleton in Hk'. congruence.
Qed.

(** Copying a dictionary item by item gives the dictionary. *)
Lemma dict_copy d : NoDup (dict_keys d) → dict_update [] d = d.
Proof.
  intros Hnd. unfold dict_update.
  assert (∀ acc, (∀ k, k ∈ dict_keys acc → k ∉ dict_keys d) →
            foldl (λ acc kv, dict_set kv.1 kv.2 acc) acc d = (acc ++ d)%list)
    as Hgen.
  { clear -Hnd. induction d as [|[k v] d IH]; intros acc Hdisj.
    - by rewrite app_nil_r.
    - cbn [foldl fst snd]. apply NoDup_cons in Hnd as [Hk Hnd].
      assert (Hset : dict_set k v acc = (acc ++ [(k, v)])%list).
      { assert (k ∉ dict_keys acc) as Hacc.
        { intros Hin. apply (Hdisj k Hin). left. }
        clear -Hacc. induction acc as [|[k' v'] acc IH]; [done|].
        cbn. rewrite decide_False by set_solver.
        f_equal. apply IH. set_solver. }
      rewrite Hset, IH; [by rewrite <- app_assoc|done|].
      intros k' Hk'. unfold dict_keys in Hk'.
      rewrite fmap_app in Hk'. apply elem_of_app in Hk' as [Hk'|Hk'].
      + intros Hin. apply (Hdisj k' Hk'). by right.
      + apply list_elem_of_singleton in Hk'. cbn in Hk'. by subst. }
  apply (Hgen []). intros k Hk. by apply elem_of_nil in Hk.
Qed.

End buffer_transfer_facts.

Section render_buffer_facts.
Import Shader Render.
Context `{Numpy} `{Python}.
Implicit Types (r : Renderer).

(** X18. [_process_node_data] returns a new dictionary with the items of the
    one it is given, and transfers every buffer among the values, leaving
    the data of all buffers alone; a buffer the dictionary does not refer
    to keeps the GPU address it had. Nothing else of the renderer changes. *)
Theorem process_node_data_copies_and_transfers (node_data : pydict) r :
  NoDup (dict_keys node_data) →
  ∃ r', process_node_data node_data r = (Ok node_data, r')
        ∧ transferred (buffers_of node_data) (buffer_store r) (buffer_store r')
        ∧ dicts r' = dicts r ∧ shader_manager r' = shader_manager r
        ∧ backend r' = backend r ∧ initialized r' = initialized r.
Proof.
  intros Hnd. unfold process_node_data. eexists. split.
  - f_equal. f_equal. by apply dict_copy.
  - cbn. split; [apply transferred_values|done].
Qed.

End render_buffer_facts.

Section render_buffer_examples.
Import Shader Render.

Lemma process_node_data_copies_and_transfers_witness :
  let d := [("vertices", VBuffer 0); ("count", VInt 2)] in
  ∃ r', process_node_data d renderer0 = (Ok d, r').
Proof.
  intros d.
  destruct (process_node_data_copies_and_transfers d renderer0) as (r' & Hrun & _).
  { unfold dict_keys. cbn. repeat constructor; set_solver. }
  by exists r'.
Defined.

End render_buffer_examples.

Section prepare_buffer_facts.
Import Scene Shader Render.
Context `{Numpy} `{Python}.
Implicit Types (r : Renderer).

Lemma buffers_of_items r (ref : dictref) l :
  buffers_of (items r ref) l
  ↔ ∃ d, deref (dicts r) ref = Some d ∧ buffers_of d l.
Proof.
  unfold items. destruct (deref (dicts r) ref) as [d|]; cbn.
  - split; [by exists d|]. by intros (d' & [= ->] & ?).
  - split; [|by intros (d' & ? & ?)].
    intros [k Hk]. by apply elem_of_nil in Hk.
Qed.

Lemma scene_buffers_insert ds (m : gmap string SnapNode) i e l :
  m !! i = None →
  scene_buffers ds (<[i := e]> m) l
  ↔ scene_buffers ds m l ∨ ∃ d, deref ds (snap_data e) = Some d ∧ buffers_of d l.
Proof.
  intros Hi. unfold scene_buffers. split.
  - intros (j & e' & d & [[<- <-]|[Hne Hj]]%lookup_insert_Some & Hd & Hl).
    + right. by exists d.
    + left. by exists j, e', d.
  - intros [(j & e' & d & Hj & Hd & Hl)|(d & Hd & Hl)].
    + exists j, e', d. split; [|done].
      rewrite lookup_insert_ne; [done|congruence].
    + exists i, e, d. by rewrite lookup_insert_eq.
Qed.

Lemma prepare_node_buffers i e r :
  sm_ok (shader_manager r) →
  ∃ f r', prepare_node i e r = (Ok f, r')
          ∧ sm_ok (shader_manager r') ∧ dicts r' = dicts r
          ∧ transferred (buffers_of (items r (snap_data e)))
              (buffer_store r) (buffer_store r').
Proof.
  intros Hok.
  destruct (get_shader_for_geometry_ok (snap_geometry_type e)
              (items r (snap_material_properties e)) _ Hok)
    as (l & sm' & Hrun & Hok' & _).
  unfold prepare_node, mbind, M_bind, mret, M_ret, get, on_shader_manager,
    process_node_data. rewrite Hrun. cbn.
  eexists _, _. split; [reflexivity|]. cbn.
  split; [exact Hok'|]. split; [done|]. apply transferred_values.
Qed.

Lemma prepare_nodes_buffers (nodes : gmap string SnapNode) r :
  sm_ok (shader_manager r) →
  ∃ fs r', prepare_nodes nodes r = (Ok fs, r')
           ∧ sm_ok (shader_manager r') ∧ dicts r' = dicts r
           ∧ viewport_size r' = viewport_size r
           ∧ transferred (scene_buffers (dicts r) nodes)
               (buffer_store r) (buffer_store r').
Proof.
  revert r. unfold prepare_nodes.
  apply (map_fold_weak_ind (λ (acc : M Renderer (gmap string FrameNode)) nodes,
    ∀ r, sm_ok (shader_manager r) →
    ∃ fs r', acc r = (Ok fs, r')
      ∧ sm_ok (shader_manager r') ∧ dicts r' = dicts r
      ∧ viewport_size r' = viewport_size r
      ∧ transferred (scene_buffers (dicts r) nodes)
          (buffer_store r) (buffer_store r'))).
  - intros r Hok. exists ∅, r. split; [done|]. split; [done|].
    split; [done|]. split; [done|]. apply transferred_refl.
    intros l (i & e & d & Hi & _). by rewrite lookup_empty in Hi.
  - intros i e m acc Hi IH r Hok.
    destruct (IH r Hok) as (fs1 & r1 & Hacc & Hok1 & Hd1 & Hv1 & Ht1).
    destruct (prepare_node_buffers i e r1 Hok1) as (f & r2 & Hnode & Hok2 & Hd2 & Ht2).
    exists (<[i := f]> fs1), r2.
    split. { unfold mbind, M_bind. rewrite Hacc, Hnode. done. }
    split; [done|]. split; [congruence|]. split.
    { destruct (prepare_node_outcome i e r1) as [(_ & _ & _ & Hv) _].
      rewrite Hnode in Hv. cbn in Hv. congruence. }
    eapply transferred_iff; [|exact (transferred_trans _ _ _ _ _ Ht1 Ht2)].
    intros l. cbn beta. rewrite scene_buffers_insert by done.
    rewrite buffers_of_items, Hd1. done.
Qed.

(** X19. Preparing a scene transfers every buffer the data dictionary of one of
    its nodes refers to, visible or not, and changes the data of no buffer;
    the buffers the scene does not refer to keep the GPU address they had.
    The dictionaries are only read. *)
Theorem prepare_scene_transfers_buffers (scene : Snapshot) r :
  sm_ok (shader_manager r) →
  ∃ prepared r',
    prepare_scene scene r = (Ok prepared, r')
    ∧ dicts r' = dicts r
    ∧ transferred (scene_buffers (dicts r) (snap_nodes scene))
        (buffer_store r) (buffer_store r').
Proof.
  intros Hok.
  destruct (prepare_nodes_buffers (snap_nodes scene) r Hok)
    as (fs & r' & Hrun & _ & Hd & _ & Ht).
  unfold prepare_scene, mbind, M_bind, mret, M_ret, get. rewrite Hrun.
  eexists _, r'. split; [reflexivity|]. by split.
Qed.

(** X20. [render] initializes the renderer and its backend if need be, prepares
    every node of the scene, and hands the frame to the backend. The
    backend's draw call reads ["primitive_type"] off the prepared node, which
    has no such key: so [render] raises [KeyError] as soon as the scene has
    a visible node, and returns only when it has none. [render_dashboard]
    does the same. *)
Theorem render_raises_on_a_visible_node (scene : Snapshot) r :
  renderer_ok r →
  render_dashboard scene r = render scene r
  ∧ renderer_ok (render scene r).2
  ∧ initialized (render scene r).2 = true
  ∧ dicts (render scene r).2 = dicts r
  ∧ ((∃ i e, snap_nodes scene !! i = Some e ∧ snap_visible e = true) →
     (render scene r).1 = Raise (KeyError "primitive_type"))
  ∧ ((∀ i e, snap_nodes scene !! i = Some e → snap_visible e = false) →
     (render scene r).1 = Ok tt).
Proof.
  intros Hok. split; [reflexivity|].
  destruct (renderer_ok_initialize r Hok) as (_ & Hinit & Hbinit & Hd & _).
  destruct (render_steps scene r Hok)
    as (fs & r1 & _ & Hsm1 & Hsame & Hdom & Hall & Hrun).
  destruct Hsame as (Hd1 & Hb1 & Hi1 & _).
  pose proof (render_nodes_outcome (map_to_list fs) (backend r1)) as [Hflag _].
  split; [|split; [|split; [|split]]].
  - rewrite Hrun. destruct (render_nodes _ _) as [a b'] eqn:E. cbn [snd] in *.
    apply renderer_ok_with_backend; [done|]. rewrite Hflag, Hb1. exact Hbinit.
  - rewrite Hrun. destruct (render_nodes _ _) as [a b']. cbn. congruence.
  - rewrite Hrun. destruct (render_nodes _ _) as [a b']. cbn. congruence.
  - intros Hvis. destruct (render_visible scene r Hok Hvis) as (r' & -> & _). done.
  - intros Hhidden. rewrite Hrun.
    rewrite render_nodes_invisible; [done|].
    apply Forall_forall. intros [i f] Hin%elem_of_map_to_list. cbn.
    assert (is_Some (snap_nodes scene !! i)) as [e He].
    { apply elem_of_dom. rewrite <- Hdom. apply elem_of_dom. eauto. }
    destruct (Hall i e He) as (f' & Hf' & Hv').
    assert (f' = f) as -> by congruence. rewrite Hv'. eauto.
Qed.

(** X30. [Renderer(backend=name)] makes a WebGPU backend for the name
    ["webgpu"] and a Vulkan backend for every other name, ["auto"] and the
    names of backends that do not exist included. The new renderer and its
    backend are not initialized, and nothing is cached. *)
Theorem renderer_backend_choice ds bs name inter :
  let r := Renderer_init ds bs name inter in
  kind (backend r) = (if decide (name = "webgpu") then WebGPU else Vulkan)
  ∧ initialized r = false ∧ is_initialized (backend r) = false
  ∧ pipeline_cache (backend r) = ∅
  ∧ shader_manager r = ShaderManager_init
  ∧ backend_name r = name ∧ interactive r = inter
  ∧ renderer_ok r.
Proof.
  intros r. split.
  - unfold r, Renderer_init. cbn [backend kind Backend_init].
    destruct (decide (name = "webgpu")) as [->|Hw]; [done|].
    rewrite (bool_decide_eq_false_2 (name = "webgpu")) by done.
    by destruct (bool_decide (name = "vulkan")), (bool_decide (name = "auto")).
  - repeat (split; [reflexivity|]). split; [apply sm_ok_init|done].
Qed.

(** X21. [_get_pipeline_for_geometry] fills the pipeline cache once per key and
    never changes an entry: a second call for the same node changes
    nothing. The Vulkan backend keys the cache by geometry type alone, so
    two nodes of one geometry type share a pipeline whatever their
    shaders; the WebGPU backend keys it by geometry type and shader. *)
Theorem pipeline_cache_is_filled_once node b :
  let b1 := get_pipeline_for_geometry node b in
  get_pipeline_for_geometry node b1 = b1
  ∧ kind b1 = kind b ∧ is_initialized b1 = is_initialized b
  ∧ (∀ k v, pipeline_cache b !! k = Some v → pipeline_cache b1 !! k = Some v)
  ∧ (kind b = Vulkan →
     is_Some (pipeline_cache b1 !! f_geometry_type node)
     ∧ ∀ node', f_geometry_type node' = f_geometry_type node →
                get_pipeline_for_geometry node' b1 = b1)
  ∧ (kind b = WebGPU →
     is_Some (pipeline_cache b1
                !! Some (fmt_geometry_type (f_geometry_type node) +:+ "_"
                           +:+ pretty (f_shader node)))
     ∧ ∀ node', f_geometry_type node' = f_geometry_type node →
                f_shader node' = f_shader node →
                get_pipeline_for_geometry node' b1 = b1).
Proof.
  intros b1. unfold b1, get_pipeline_for_geometry.
  destruct (kind b) eqn:Hk; cbn beta iota zeta.
  - destruct (pipeline_cache b !! f_geometry_type node) as [v|] eqn:Hc.
    + rewrite Hk. cbn beta iota zeta. rewrite Hc.
      split; [done|]. split; [done|]. split; [done|]. split; [done|].
      split; [|done]. intros _. split; [by eexists|].
      intros node' ->. by rewrite Hc.
    + cbn [kind pipeline_cache is_initialized]. rewrite lookup_insert_eq.
      split; [done|]. split; [done|]. split; [done|]. split.
      { intros k v Hkv. rewrite lookup_insert_ne; [done|congruence]. }
      split; [|done]. intros _. split; [by eexists|].
      intros node' ->. by rewrite lookup_insert_eq.
  - set (key := Some (fmt_geometry_type (f_geometry_type node) +:+ "_"
                        +:+ pretty (f_shader node))).
    destruct (pipeline_cache b !! key) as [v|] eqn:Hc.
    + rewrite Hk. cbn beta iota zeta. fold key. rewrite Hc.
      split; [done|]. split; [done|]. split; [done|]. split; [done|].
      split; [done|]. intros _. split; [by eexists|].
      intros node' -> ->. fold key. by rewrite Hc.
    + cbn [kind pipeline_cache is_initialized]. fold key.
      rewrite lookup_insert_eq.
      split; [done|]. split; [done|]. split; [done|]. split.
      { intros k v Hkv. rewrite lookup_insert_ne; [done|congruence]. }
      split; [done|]. intros _. split; [by eexists|].
      intros node' -> ->. fold key. by rewrite lookup_insert_eq.
Qed.

End prepare_buffer_facts.

Section render_more_examples.
Import Scene Shader Render.

Lemma prepare_scene_transfers_buffers_witness :
  ∃ prepared r', prepare_scene hidden_scene renderer0 = (Ok prepared, r')
                 ∧ dicts r' = dicts renderer0.
Proof.
  destruct (prepare_scene_transfers_buffers hidden_scene renderer0)
    as (prepared & r' & Hrun & Hd & _).
  { apply sm_ok_init. }
  exists prepared, r'. split; [exact Hrun|exact Hd].
Defined.

Lemma render_raises_on_a_visible_node_witness :
  (render hidden_scene renderer0).1 = Ok tt
  ∧ initialized (render hidden_scene renderer0).2 = true.
Proof.
  destruct (render_raises_on_a_visible_node hidden_scene renderer0)
    as (_ & _ & Hinit & _ & _ & Hhidden).
  { split; [apply sm_ok_init|]. intros Hi. exact (False_ind _ (Bool.diff_false_true Hi)). }
  split; [|exact Hinit]. apply Hhidden.
  intros i e Hi. unfold hidden_scene in Hi. cbn [snap_nodes] in Hi.
  apply lookup_singleton_Some in Hi as [_ <-]. reflexivity.
Defined.

End render_more_examples.

(** ** The application layer *)

Section monad_facts.
Context {S A B : Type}.

Lemma bind_ok (m : M S A) (k : A → M S B) s a s' :
  m s = (Ok a, s') → (m ≫= k) s = k a s'.
Proof. intros E. unfold mbind, M_bind. by rewrite E. Qed.

Lemma bind_raise (m : M S A) (k : A → M S B) s e s' :
  m s = (Raise e, s') → (m ≫= k) s = (Raise e, s').
Proof. intros E. unfold mbind, M_bind. by rewrite E. Qed.

End monad_facts.

Section application_facts.
Import Scene Shader Render.
Context `{Numpy} `{Python}.
Implicit Types (r : Renderer) (s : SceneManager).

Lemma reachable_exec c s : reachable s → reachable (exec c s).
Proof.
  intros [cs ->]. exists (cs ++ [c])%list. unfold run. by rewrite foldl_app.
Qed.

Lemma dict_get_elem k v (d : pydict) : dict_get k d = Some v → (k, v) ∈ d.
Proof.
  induction d as [|[k' v'] d IH]; cbn; [done|].
  case_decide as E; [intros [= ->]; subst; left|]. intros ?. right. auto.
Qed.

(** [render] transfers the buffers of the scene, whether it returns or
    raises. *)
Lemma render_transfers (scene : Snapshot) r :
  renderer_ok r →
  transferred (scene_buffers (dicts r) (snap_nodes scene))
    (buffer_store r) (buffer_store (render scene r).2).
Proof.
  intros Hok.
  destruct (renderer_ok_initialize r Hok) as ([Hsm0 _] & _ & _ & Hd & Hbs & _).
  destruct (render_steps scene r Hok) as (fs & r1 & Hprep & _ & _ & _ & _ & ->).
  destruct (prepare_nodes_buffers (snap_nodes scene) (initialize r).2 Hsm0)
    as (fs' & r1' & Hprep' & _ & _ & _ & Ht).
  assert (r1' = r1) as -> by congruence.
  rewrite Hd, Hbs in Ht.
  by destruct (render_nodes _ _) as [a b].
Qed.

(** The snapshot after an [add_*] call has the new node, visible. *)
Lemma add_geometry_node_snapshot g data kwargs s :
  reachable s → g ∈ geometry_kinds →
  let i := g +:+ "_" +:+ pretty (size (nodes s)) in
  let s' := (add_geometry_node g g data kwargs s).2 in
  (add_geometry_node g g data kwargs s).1 = Ok i
  ∧ reachable s'
  ∧ (∀ d, is_Some (Scene.dicts s !! d) → Scene.dicts s' !! d = Scene.dicts s !! d)
  ∧ ∃ e, snap_nodes (get_scene s') !! i = Some e
         ∧ snap_geometry_type e = Some g ∧ snap_visible e = true
         ∧ snap_data e = Shared data.
Proof.
  intros Hs Hg i s'. pose proof (reachable_wf s Hs) as Hwf.
  set (l := fresh (dom (objects s))).
  set (mp := fresh (dom (Scene.dicts s))).
  assert (Hfresh : objects s !! l = None) by apply not_elem_of_dom, is_fresh.
  assert (Hi : i ≠ "root") by (apply geometry_id_not_root; exact Hg).
  destruct (get_scene_attach s l (GeometryNode_init i g data mp) i
              (<[l := GeometryNode_init i g data mp]> (objects s))
              (<[mp := dict_update [] kwargs]> (Scene.dicts s)) Hwf)
    as [Hnew _].
  { intros q n Hq. rewrite lookup_insert_ne; [done|congruence]. }
  { apply lookup_insert_eq. }
  { done. }
  { done. }
  split; [done|]. split.
  { destruct Hs as [cs ->].
    unfold geometry_kinds in Hg.
    repeat (apply elem_of_cons in Hg as [->|Hg]);
      [exists (cs ++ [AddLine data kwargs])%list
      |exists (cs ++ [AddScatter data kwargs])%list
      |exists (cs ++ [AddBar data kwargs])%list
      |exists (cs ++ [AddHistogram data kwargs])%list
      |by apply elem_of_nil in Hg];
      unfold run; by rewrite foldl_app. }
  split.
  { intros d [x Hd]. unfold s', add_geometry_node. cbn [snd Scene.dicts].
    rewrite lookup_insert_ne; [done|]. intros <-.
    pose proof (is_fresh (dom (Scene.dicts s))) as Hf.
    apply Hf, elem_of_dom. eauto. }
  eexists. split; [exact Hnew|]. done.
Qed.

End application_facts.

Section plotter_facts.
Import Scene Shader Render Plotter.
Context `{Numpy} `{Python}.

Lemma plot_with_outcome names process g add kwargs p :
  plotter_ok p → (g, add) ∈ add_methods →
  (∀ z, entry_point_outcome names z (process z)) →
  plot_outcome g (process (data_pipeline p)) kwargs p
    (plot_with process add kwargs p).
Proof.
  intros [Hreach Hrok] [Hg ->]%add_methods_spec Hout.
  specialize (Hout (data_pipeline p)). unfold plot_outcome, plot_with.
  destruct (process (data_pipeline p)) as [[payload|e] z] eqn:Hproc.
  2: { cbn in Hout. subst z.
       rewrite (bind_raise _ _ p e p); [done|].
       unfold on_data_pipeline. rewrite Hproc. by destruct p. }
  destruct Hout as (Hreb & Hpay & _).
  set (p1 := {| backend := backend p; scene_manager := scene_manager p;
                data_pipeline := z; renderer := renderer p |}).
  rewrite (bind_ok _ _ p payload p1)
    by (unfold on_data_pipeline; by rewrite Hproc).
  case_bool_decide as Hdata'; [split; [by eexists|done]|].
  set (s := scene_manager p) in *.
  set (d := fresh (dom (Scene.dicts s))).
  set (s1 := with_dicts <[d := payload]> s).
  set (p2 := {| backend := backend p; scene_manager := s1;
                data_pipeline := z; renderer := renderer p |}).
  rewrite (bind_ok _ _ p1 d p2) by reflexivity.
  assert (Hreach1 : reachable s1) by apply (reachable_exec (NewDict payload) s Hreach).
  destruct (add_geometry_node_snapshot g d kwargs s1 Hreach1 Hg)
    as (Hid & Hreach2 & Hdicts & e & He & Hgt & Hvis & Hdata).
  set (i := g +:+ "_" +:+ pretty (size (nodes s))) in *.
  change (size (nodes s1)) with (size (nodes s)) in *. fold i in He, Hid.
  set (s2 := (add_geometry_node g g d kwargs s1).2) in *.
  set (p3 := {| backend := backend p; scene_manager := s2;
                data_pipeline := z; renderer := renderer p |}).
  rewrite (bind_ok _ _ p2 i p3).
  2: { unfold on_scene_manager. cbn [scene_manager p2].
       destruct (add_geometry_node g g d kwargs s1) as [a s2'] eqn:E.
       cbn in Hid. subst a. done. }
  rewrite (bind_ok _ _ p3 p3 p3) by reflexivity.
  unfold on_renderer. cbn [scene_manager data_pipeline renderer p3 backend].
  set (rin := {| Render.dicts := Scene.dicts s2; buffer_store := store z;
                 backend_name := backend_name (renderer p);
                 interactive := interactive (renderer p);
                 shader_manager := shader_manager (renderer p);
                 Render.backend := Render.backend (renderer p);
                 initialized := initialized (renderer p);
                 viewport_size := viewport_size (renderer p) |}).
  assert (Hrin : renderer_ok rin) by exact Hrok.
  destruct (render_visible (get_scene s2) rin Hrin) as (r' & Hrun & Hrok' & Hinit & Hd').
  { exists i, e. by split. }
  pose proof (render_transfers (get_scene s2) rin Hrin) as [_ Htr].
  rewrite Hrun in Htr |- *. cbn [fst snd] in *.
  split; [done|]. split; [by split|]. split; [done|]. split; [done|].
  assert (Hds2 : Scene.dicts s2 !! d = Some payload).
  { rewrite Hdicts; [apply lookup_insert_eq|].
    exists payload. apply lookup_insert_eq. }
  split.
  { exists e, d. by repeat split. }
  intros k l Hk.
  destruct (Hpay k l Hk) as (name & Hin & Hname).
  destruct Hreb as (_ & Hn & _).
  destruct (Hn name Hin) as (l0 & Hb0 & _ & [b Hb]).
  assert (l0 = l) as -> by congruence.
  destruct (Htr l b Hb) as (b' & Hb' & _ & _ & _ & Hset & _).
  exists b'. split; [exact Hb'|]. apply Hset.
  exists i, e, payload. split; [exact He|]. split.
  { rewrite Hdata. cbn. exact Hds2. }
  exists k. by apply dict_get_elem.
Qed.

(** X22. No plotting method of a plotter returns normally. If the pipeline
    rejects the data (also when [np.histogram] does) the method raises the
    pipeline's exception and the plotter is as before. Otherwise the
    buffers are registered. With a key ["data"] among the keyword
    arguments, which [plot], [scatter] and [bar] accept, the call of
    [add_*] then raises [TypeError], and the scene and the renderer are
    untouched. Without it the node is added to the scene with the payload
    as its data, the renderer is initialized and the buffers of the payload
    are transferred; and then the draw call raises [KeyError], since the
    prepared node has no ["primitive_type"]. *)
Theorem plotting_raises_at_the_draw_call p kwargs :
  plotter_ok p →
  (∀ x y,
     plot_outcome "line" (process_line_data x y (data_pipeline p)) kwargs p
       (plot x y kwargs p))
  ∧ (∀ x y c s,
       plot_outcome "scatter" (process_scatter_data x y c s (data_pipeline p))
         kwargs p (scatter x y c s kwargs p))
  ∧ (∀ x height,
       plot_outcome "bar" (process_bar_data x height (data_pipeline p)) kwargs p
         (bar x height kwargs p))
  ∧ (∀ values bins,
       dict_get "data" kwargs = None →
       plot_outcome "histogram"
         (process_histogram_data values bins (data_pipeline p)) kwargs p
         (histogram values bins kwargs p))
  ∧ (∀ x y, is_ok (plot x y kwargs p).1 = false)
  ∧ (∀ x y c s, is_ok (scatter x y c s kwargs p).1 = false)
  ∧ (∀ x height, is_ok (bar x height kwargs p).1 = false)
  ∧ (∀ values bins, is_ok (histogram values bins kwargs p).1 = false)
  ∧ (show p).1 = Ok tt.
Proof.
  intros Hok.
  assert (Hnever : ∀ g processed r,
            plot_outcome g processed kwargs p r → is_ok r.1 = false).
  { intros g [[payload|e] z] r Hr; unfold plot_outcome in Hr.
    - case_bool_decide; [destruct Hr as [[msg ->] _]|destruct Hr as [-> _]];
        reflexivity.
    - by rewrite Hr. }
  assert (Hline : ∀ x y,
            plot_outcome "line" (process_line_data x y (data_pipeline p)) kwargs p
              (plot x y kwargs p)).
  { intros x y.
    apply (plot_with_outcome ["line_vertices"; "line_indices"]); [done| |].
    - unfold add_methods. set_solver.
    - intros z. apply process_line_data_outcome. }
  assert (Hscatter : ∀ x y c s,
            plot_outcome "scatter"
              (process_scatter_data x y c s (data_pipeline p)) kwargs p
              (scatter x y c s kwargs p)).
  { intros x y c s.
    apply (plot_with_outcome ["scatter_vertices"; "scatter_sizes"; "scatter_colors"]);
      [done| |].
    - unfold add_methods. set_solver.
    - intros z. apply process_scatter_data_outcome. }
  assert (Hbar : ∀ x height,
            plot_outcome "bar" (process_bar_data x height (data_pipeline p))
              kwargs p (bar x height kwargs p)).
  { intros x height.
    apply (plot_with_outcome ["bar_vertices"; "bar_indices"]); [done| |].
    - unfold add_methods. set_solver.
    - intros z. apply process_bar_data_outcome. }
  assert (Hhist : ∀ values bins,
            plot_outcome "histogram"
              (process_histogram_data values bins (data_pipeline p)) kwargs p
              (histogram values bins kwargs p)).
  { intros values bins.
    apply (plot_with_outcome ["bar_vertices"; "bar_indices"]); [done| |].
    - unfold add_methods. set_solver.
    - intros z. apply process_histogram_data_outcome. }
  split; [exact Hline|]. split; [exact Hscatter|]. split; [exact Hbar|].
  split; [intros values bins _; apply Hhist|].
  split; [intros x y; exact (Hnever _ _ _ (Hline x y))|].
  split; [intros x y c s; exact (Hnever _ _ _ (Hscatter x y c s))|].
  split; [intros x height; exact (Hnever _ _ _ (Hbar x height))|].
  split; [intros values bins; exact (Hnever _ _ _ (Hhist values bins))|].
  reflexivity.
Qed.

End plotter_facts.

Section plotter_examples.
Import Scene Shader Render Plotter.

Lemma plotting_raises_at_the_draw_call_witness :
  is_ok (plot (H := Exact.exact) (H0 := Builtins.builtins)
           [0; 1]%Q [0; 1]%Q [] (Plotter_init "auto")).1 = false.
Proof.
  destruct (plotting_raises_at_the_draw_call
              (H := Exact.exact) (H0 := Builtins.builtins)
              (Plotter_init "auto") [])
    as (_ & _ & _ & _ & Hnever & _).
  { split; [by exists []|]. split; [apply sm_ok_init|discriminate]. }
  apply Hnever.
Defined.

End plotter_examples.

Section visualizer_facts.
Import Scene Shader Render Visualizer.
Context `{Numpy} `{Python}.

(** X23. [Visualizer.create_dashboard] does not return normally either: it
    registers the dashboard node, which is visible, initializes the
    renderer, and then the draw call of [render_dashboard] raises
    [KeyError]. *)
Theorem create_dashboard_raises_at_the_draw_call widgets layout v :
  visualizer_ok v →
  ∃ v' e,
    create_dashboard widgets layout v
    = (Raise (KeyError "primitive_type"), v')
    ∧ visualizer_ok v'
    ∧ initialized (renderer v') = true
    ∧ scene_manager v' = (Scene.create_dashboard widgets layout (scene_manager v)).2
    ∧ snap_nodes (get_dashboard (scene_manager v'))
        !! ("dashboard_" +:+ pretty (size (nodes (scene_manager v)))) = Some e
    ∧ snap_type e = "dashboard" ∧ snap_visible e = true.
Proof.
  intros [Hreach Hrok]. pose proof (reachable_wf _ Hreach) as Hwf.
  set (s := scene_manager v) in *.
  set (i := "dashboard_" +:+ pretty (size (nodes s))).
  destruct (create_dashboard_objects widgets layout s)
    as (os & Hrun & Hd & _ & _ & _ & Hold & Hosd & _).
  fold i in Hrun, Hosd.
  destruct (get_scene_attach s _ _ i os (Scene.dicts s) Hwf Hold Hosd Hd)
    as [Hnew _]; [discriminate|].
  set (s1 := (Scene.create_dashboard widgets layout s).2).
  assert (Hs1 : Scene.create_dashboard widgets layout s = (Ok i, s1)).
  { unfold s1. by rewrite Hrun. }
  assert (Hsnap : snap_nodes (get_scene s1) !! i
                  = Some (node_entry (set_children
                            (fresh_list (length widgets)
                               ({[fresh (dom (objects s))]} ∪ dom (objects s)))
                            (SceneNode_init i "dashboard")))).
  { unfold s1. rewrite Hrun. exact Hnew. }
  assert (Hreach1 : reachable s1)
    by apply (reachable_exec (CreateDashboard widgets layout) s Hreach).
  set (v1 := {| backend := backend v; interactive := interactive v;
                scene_manager := s1; data_pipeline := data_pipeline v;
                renderer := renderer v |}).
  unfold create_dashboard.
  rewrite (bind_ok _ _ v i v1).
  2: { unfold on_scene_manager. fold s. by rewrite Hs1. }
  rewrite (bind_ok _ _ v1 v1 v1) by reflexivity.
  unfold on_renderer. cbn [scene_manager data_pipeline renderer v1 backend interactive].
  set (rin := {| Render.dicts := Scene.dicts s1;
                 buffer_store := store (data_pipeline v);
                 backend_name := backend_name (renderer v);
                 Render.interactive := Render.interactive (renderer v);
                 shader_manager := shader_manager (renderer v);
                 Render.backend := Render.backend (renderer v);
                 initialized := initialized (renderer v);
                 viewport_size := viewport_size (renderer v) |}).
  assert (Hrin : renderer_ok rin) by exact Hrok.
  change (render_dashboard (get_dashboard s1) rin) with (render (get_scene s1) rin).
  destruct (render_visible (get_scene s1) rin Hrin) as (r' & -> & Hrok' & Hinit & _).
  { eexists i, _. split; [exact Hsnap|done]. }
  eexists _, _. split; [reflexivity|]. cbn [scene_manager renderer].
  split; [by split|]. split; [done|]. split; [done|].
  split; [exact Hsnap|]. done.
Qed.

End visualizer_facts.

Section visualizer_examples.
Import Scene Shader Render Visualizer.

Lemma create_dashboard_raises_at_the_draw_call_witness :
  ∃ v', create_dashboard (H := Exact.exact) (H0 := Builtins.builtins)
          [0; 1] "grid" (Visualizer_init "auto" true)
        = (Raise (KeyError "primitive_type"), v').
Proof.
  destruct (create_dashboard_raises_at_the_draw_call
              (H := Exact.exact) (H0 := Builtins.builtins)
              [0; 1] "grid" (Visualizer_init "auto" true))
    as (v' & e & Hrun & _).
  { split; [by exists []|]. split; [apply sm_ok_init|discriminate]. }
  by exists v'.
Defined.

End visualizer_examples.

(** ** Configuration: reading back what was set *)

Section config_facts.
Import Config.
Implicit Types (d : dict) (c : Config) (h : gmap loc dict) (v : setting).

Lemma lookup_store_key_eq k v d : lookup_key k (store_key k v d) = Some v.
Proof.
  induction d as [|[k' v'] d IH]; cbn [store_key lookup_key].
  - by rewrite decide_True.
  - destruct (decide (k = k')) as [->|Hne]; cbn [lookup_key].
    + by rewrite decide_True.
    + by rewrite decide_False.
Qed.

Lemma lookup_store_key_ne k k' v d :
  k' ≠ k → lookup_key k' (store_key k v d) = lookup_key k' d.
Proof.
  intros Hne. induction d as [|[k0 v0] d IH]; cbn [store_key lookup_key].
  - by rewrite decide_False.
  - destruct (decide (k = k0)) as [->|Hk]; cbn [lookup_key].
    + by rewrite !decide_False.
    + by rewrite IH.
Qed.

Lemma store_key_twice k v w d :
  store_key k w (store_key k v d) = store_key k w d.
Proof.
  induction d as [|[k0 v0] d IH]; cbn [store_key].
  - by rewrite decide_True.
  - destruct (decide (k = k0)) as [->|Hk]; cbn [store_key].
    + by rewrite decide_True.
    + by rewrite decide_False, IH.
Qed.

Lemma split_dots_nonempty s : split_dots s ≠ [].
Proof.
  destruct s as [|a s]; cbn [split_dots]; [done|].
  destruct (decide _); [done|]. by destruct (split_dots s).
Qed.

(** [get] returns what the key path leads to, or its default. *)
Lemma get_loop_walk keys v dflt h :
  get_loop keys v dflt h = default dflt (walk h v keys).
Proof.
  revert v. induction keys as [|k keys IH]; intros v; [done|].
  cbn [get_loop walk]. destruct v; try done.
  destruct (h !! l ≫= lookup_key k) as [v'|]; [apply IH|done].
Qed.

End config_facts.

Section config_heap_facts.
Import Config.
Implicit Types (d : dict) (c : Config) (h : gmap loc dict) (v : setting).

(** *** The steps of [set] *)

Lemma set_loop_last k v l d h :
  h !! l = Some d →
  set_loop [k] v (SDict l) h = (Ok tt, <[l := store_key k v d]> h).
Proof. intros Hl. cbn [set_loop]. by rewrite Hl. Qed.

Lemma set_loop_found k k2 ks v l d sub h :
  h !! l = Some d → lookup_key k d = Some sub →
  set_loop (k :: k2 :: ks) v (SDict l) h = set_loop (k2 :: ks) v sub h.
Proof. intros Hl Hk. cbn [set_loop]. by rewrite Hl, Hk. Qed.

Lemma set_loop_new k k2 ks v l d h :
  h !! l = Some d → lookup_key k d = None →
  set_loop (k :: k2 :: ks) v (SDict l) h
  = set_loop (k2 :: ks) v (SDict (fresh (dom h))) (with_new h l k d).
Proof. intros Hl Hk. cbn [set_loop]. by rewrite Hl, Hk. Qed.

Lemma set_loop_ok_inv k ks v ref h h' :
  set_loop (k :: ks) v ref h = (Ok tt, h') →
  ∃ l d, ref = SDict l ∧ h !! l = Some d ∧
    match ks with
    | [] => h' = <[l := store_key k v d]> h
    | _ :: _ =>
        match lookup_key k d with
        | Some sub => set_loop ks v sub h = (Ok tt, h')
        | None =>
            set_loop ks v (SDict (fresh (dom h))) (with_new h l k d) = (Ok tt, h')
        end
    end.
Proof.
  intros Hs. destruct ref as [| | | | |l]; try discriminate Hs.
  destruct (h !! l) as [d|] eqn:Hl; [|cbn [set_loop] in Hs; by rewrite Hl in Hs].
  exists l, d. split; [done|]. split; [done|].
  destruct ks as [|k2 ks].
  - rewrite (set_loop_last _ _ _ d) in Hs by done. by injection Hs as <-.
  - destruct (lookup_key k d) as [sub|] eqn:Hk.
    + by rewrite (set_loop_found _ _ _ _ _ d sub) in Hs.
    + by rewrite (set_loop_new _ _ _ _ _ d) in Hs.
Qed.

(** What the new dictionary holds, and where. *)
Lemma with_new_lookup h l k d x :
  h !! l = Some d →
  with_new h l k d !! x =
    if decide (x = l) then Some (store_key k (SDict (fresh (dom h))) d)
    else if decide (x = fresh (dom h)) then Some [] else h !! x.
Proof.
  intros Hl. unfold with_new. cbv zeta.
  destruct (decide (x = l)) as [->|Hxl]; [by rewrite lookup_insert_eq|].
  rewrite lookup_insert_ne by done.
  destruct (decide (x = fresh (dom h))) as [->|Hxn]; [by rewrite lookup_insert_eq|].
  by rewrite lookup_insert_ne.
Qed.

Lemma fresh_not_allocated h x : is_Some (h !! x) → x ≠ fresh (dom h).
Proof. intros Hx ->. apply elem_of_dom in Hx. by apply (is_fresh (dom h)). Qed.

Lemma with_new_new h l k d :
  h !! l = Some d → with_new h l k d !! fresh (dom h) = Some [].
Proof.
  intros Hl. rewrite with_new_lookup by done.
  rewrite decide_False by (symmetry; apply fresh_not_allocated; eauto).
  by rewrite decide_True.
Qed.

Lemma with_new_old h l k d x :
  h !! l = Some d → is_Some (h !! x) → x ≠ l → with_new h l k d !! x = h !! x.
Proof.
  intros Hl Hx Hxl. rewrite with_new_lookup by done.
  rewrite decide_False by done.
  by rewrite decide_False by (by apply fresh_not_allocated).
Qed.

Lemma walk_new h l k d a :
  h !! l = Some d →
  walk (with_new h l k d) (SDict (fresh (dom h))) a
  = match a with [] => Some (SDict (fresh (dom h))) | _ :: _ => None end.
Proof.
  intros Hl. destruct a as [|k' a]; [done|].
  cbn [walk]. by rewrite with_new_new by done.
Qed.

(** *** Key paths *)

Lemma walk_cons h l k a :
  walk h (SDict l) (k :: a)
  = match cell h l k with Some v => walk h v a | None => None end.
Proof. reflexivity. Qed.

Lemma walk_snoc h v a k :
  walk h v (a ++ [k])
  = match walk h v a with
    | Some (SDict y) => cell h y k
    | _ => None
    end.
Proof.
  revert v. induction a as [|k' a IH]; intros v.
  - cbn [app walk]. destruct v; try done. unfold cell.
    by destruct (h !! l ≫= lookup_key k).
  - cbn [app walk]. destruct v; try done.
    destruct (h !! l ≫= lookup_key k') as [v'|]; [apply IH|done].
Qed.

(** A walk sees only the dictionaries it reaches. *)
Lemma walk_agree h h' v q :
  (∀ a x, walk h v a = Some (SDict x) → h' !! x = h !! x) →
  walk h' v q = walk h v q.
Proof.
  revert v. induction q as [|k q IH]; intros v Hsame; [done|].
  cbn [walk]. destruct v as [| | | | |l]; try done.
  rewrite (Hsame [] l eq_refl).
  destruct (h !! l ≫= lookup_key k) as [v'|] eqn:Hc; [|done].
  apply IH. intros a x Ha. apply (Hsame (k :: a)).
  cbn [walk]. by rewrite Hc.
Qed.

Lemma walk_allocated h v a x :
  closed h → walk h v a = Some (SDict x) →
  v = SDict x ∨ is_Some (h !! x).
Proof.
  intros Hcl. destruct a as [|k a' _] using rev_ind.
  - intros [= ->]. by left.
  - rewrite walk_snoc. destruct (walk h v a') as [[| | | | |y]|]; try done.
    intros Hc. right. by apply (Hcl y k).
Qed.

End config_heap_facts.

Section config_set_facts.
Import Config.
Implicit Types (d : dict) (c : Config) (h : gmap loc dict) (v : setting).

(** [set] changes dictionaries on its way only: one that exists and is not
    reached from where the loop stands is left as it is. *)
Lemma set_loop_local p v l h h' :
  set_loop p v (SDict l) h = (Ok tt, h') →
  ∀ x, is_Some (h !! x) → (∀ a, walk h (SDict l) a ≠ Some (SDict x)) →
       h' !! x = h !! x.
Proof.
  revert l h. induction p as [|k ks IH]; intros l h Hs x Hx Hfar; [done|].
  apply set_loop_ok_inv in Hs as (l0 & d & [= <-] & Hl & Hs).
  assert (Hxl : x ≠ l) by (intros ->; by apply (Hfar [])).
  destruct ks as [|k2 ks].
  - subst h'. by rewrite lookup_insert_ne.
  - destruct (lookup_key k d) as [sub|] eqn:Hk.
    + pose proof Hs as Hs'.
      apply set_loop_ok_inv in Hs' as (l2 & _ & -> & _).
      apply (IH _ _ Hs x Hx). intros a Ha. apply (Hfar (k :: a)).
      rewrite walk_cons. unfold cell. by rewrite Hl; cbn; rewrite Hk.
    + rewrite (IH _ _ Hs x).
      * by apply with_new_old.
      * rewrite with_new_old by done. done.
      * intros a. rewrite walk_new by done. destruct a; [|done].
        intros [= <-]. by apply (fresh_not_allocated h (fresh (dom h))).
Qed.

(** *** Dictionaries that are not shared *)

Lemma tree_from_child h l d k l2 :
  tree_from h l → h !! l = Some d → lookup_key k d = Some (SDict l2) →
  tree_from h l2 ∧ ∀ a, walk h (SDict l2) a ≠ Some (SDict l).
Proof.
  intros Ht Hl Hk.
  assert (Hstep : ∀ a, walk h (SDict l) (k :: a) = walk h (SDict l2) a).
  { intros a. rewrite walk_cons. unfold cell. by rewrite Hl; cbn; rewrite Hk. }
  split.
  - intros a b x Ha Hb. rewrite <- Hstep in Ha, Hb.
    by injection (Ht _ _ _ Ha Hb).
  - intros a Ha. rewrite <- Hstep in Ha.
    by pose proof (Ht (k :: a) [] l Ha eq_refl).
Qed.

Lemma tree_from_new h l k d :
  h !! l = Some d →
  tree_from (with_new h l k d) (fresh (dom h))
  ∧ ∀ a, walk (with_new h l k d) (SDict (fresh (dom h))) a ≠ Some (SDict l).
Proof.
  intros Hl. split.
  - intros a b x. rewrite !walk_new by done. by destruct a, b.
  - intros a. rewrite walk_new by done. destruct a; [|done].
    intros [= E]. by apply (fresh_not_allocated h l); [eexists|].
Qed.

Lemma closed_with_new h l k d :
  closed h → h !! l = Some d → closed (with_new h l k d).
Proof.
  intros Hcl Hl y ky x. unfold cell. rewrite !with_new_lookup by done.
  assert (Hold : is_Some (h !! x) →
            is_Some (if decide (x = l)
                     then Some (store_key k (SDict (fresh (dom h))) d)
                     else if decide (x = fresh (dom h)) then Some [] else h !! x)).
  { intros Hx. by repeat case_decide. }
  destruct (decide (y = l)) as [->|Hyl]; cbn.
  - destruct (decide (ky = k)) as [->|Hne].
    + rewrite lookup_store_key_eq. intros [= <-].
      rewrite decide_False by (symmetry; apply fresh_not_allocated; eauto).
      by rewrite decide_True.
    + rewrite lookup_store_key_ne by done. intros Hc. apply Hold.
      apply (Hcl l ky). unfold cell. by rewrite Hl.
  - destruct (decide (y = fresh (dom h))) as [->|Hyn]; [done|].
    intros Hc. apply Hold. by apply (Hcl y ky).
Qed.

(** *** Reading back *)

Lemma set_loop_walk p v l h h' :
  set_loop p v (SDict l) h = (Ok tt, h') → tree_from h l →
  walk h' (SDict l) p = Some v.
Proof.
  revert l h. induction p as [|k ks IH]; intros l h Hs Ht; [done|].
  pose proof Hs as Hs0.
  apply set_loop_ok_inv in Hs as (l0 & d & [= <-] & Hl & Hs).
  destruct ks as [|k2 ks].
  - subst h'. rewrite walk_cons. unfold cell. rewrite lookup_insert_eq. cbn.
    by rewrite lookup_store_key_eq.
  - destruct (lookup_key k d) as [sub|] eqn:Hk.
    + pose proof Hs as Hs'.
      apply set_loop_ok_inv in Hs' as (l2 & _ & -> & _).
      destruct (tree_from_child h l d k l2 Ht Hl Hk) as [Ht2 Hfar].
      rewrite walk_cons. unfold cell.
      rewrite (set_loop_local _ _ _ _ _ Hs l) by (eauto || done).
      rewrite Hl. cbn. rewrite Hk. by apply (IH _ _ Hs).
    + destruct (tree_from_new h l k d Hl) as [Ht2 Hfar].
      rewrite walk_cons. unfold cell.
      rewrite (set_loop_local _ _ _ _ _ Hs l).
      * rewrite with_new_lookup, decide_True by done. cbn.
        rewrite lookup_store_key_eq. by apply (IH _ _ Hs).
      * rewrite with_new_lookup, decide_True by done. by eexists.
      * done.
Qed.

(** A later [set] on the same key path leaves no trace of an earlier one. *)
Lemma set_loop_overwrites p v w l h h' :
  set_loop p v (SDict l) h = (Ok tt, h') → tree_from h l →
  set_loop p w (SDict l) h' = set_loop p w (SDict l) h.
Proof.
  revert l h. induction p as [|k ks IH]; intros l h Hs Ht; [done|].
  apply set_loop_ok_inv in Hs as (l0 & d & [= <-] & Hl & Hs).
  destruct ks as [|k2 ks].
  - subst h'.
    rewrite (set_loop_last _ _ _ (store_key k v d)) by apply lookup_insert_eq.
    rewrite (set_loop_last _ _ _ d) by done.
    by rewrite insert_insert_eq, store_key_twice.
  - destruct (lookup_key k d) as [sub|] eqn:Hk.
    + pose proof Hs as Hs'.
      apply set_loop_ok_inv in Hs' as (l2 & _ & -> & _).
      destruct (tree_from_child h l d k l2 Ht Hl Hk) as [Ht2 Hfar].
      assert (Hl' : h' !! l = Some d).
      { rewrite (set_loop_local _ _ _ _ _ Hs l) by (eauto || done). done. }
      rewrite (set_loop_found _ _ _ _ _ d (SDict l2)) by done.
      rewrite (set_loop_found _ _ _ _ _ d (SDict l2)) by done.
      by apply (IH _ _ Hs).
    + destruct (tree_from_new h l k d Hl) as [Ht2 Hfar].
      assert (Hl' : h' !! l = Some (store_key k (SDict (fresh (dom h))) d)).
      { rewrite (set_loop_local _ _ _ _ _ Hs l).
        - by rewrite with_new_lookup, decide_True.
        - rewrite with_new_lookup, decide_True by done. by eexists.
        - done. }
      rewrite (set_loop_found _ _ _ _ _ _ (SDict (fresh (dom h))) _ Hl')
        by apply lookup_store_key_eq.
      rewrite (set_loop_new _ _ _ _ _ d) by done.
      by apply (IH _ _ Hs).
Qed.

(** *** Other key paths *)

Lemma set_loop_frame p v l h h' q :
  set_loop p v (SDict l) h = (Ok tt, h') → closed h → tree_from h l →
  ¬ p `prefix_of` q → ¬ q `prefix_of` p →
  walk h' (SDict l) q = walk h (SDict l) q.
Proof.
  revert l h q. induction p as [|k ks IH]; intros l h q Hs Hcl Ht Hpq Hqp; [done|].
  apply set_loop_ok_inv in Hs as (l0 & d & [= <-] & Hl & Hs).
  destruct q as [|kq q]; [destruct Hqp; apply prefix_nil|].
  assert (Hside : ∀ v', lookup_key kq d = Some v' → kq ≠ k →
            (∀ x, is_Some (h !! x) → x ≠ l →
                  (∀ b, lookup_key k d ≫= (λ s, walk h s b) ≠ Some (SDict x)) →
                  h' !! x = h !! x) →
            walk h' v' q = walk h v' q).
  { intros v' Hv' Hne Hsame. apply walk_agree. intros a x Ha.
    assert (Hpath : walk h (SDict l) (kq :: a) = Some (SDict x)).
    { rewrite walk_cons. unfold cell. by rewrite Hl; cbn; rewrite Hv'. }
    apply Hsame.
    - destruct (walk_allocated h v' a x Hcl Ha) as [->|Hx]; [|done].
      apply (Hcl l kq). unfold cell. by rewrite Hl.
    - intros ->. by pose proof (Ht (kq :: a) [] l Hpath eq_refl).
    - intros b Hb. destruct (lookup_key k d) as [s|] eqn:Hk; [|done]. cbn in Hb.
      assert (walk h (SDict l) (k :: b) = Some (SDict x)) as Hpath'.
      { rewrite walk_cons. unfold cell. by rewrite Hl; cbn; rewrite Hk. }
      pose proof (Ht _ _ _ Hpath Hpath') as [= E _]. done. }
  destruct ks as [|k2 ks].
  - (* the last key *)
    assert (Hne : kq ≠ k).
    { intros ->. destruct Hpq. apply prefix_cons, prefix_nil. }
    rewrite !walk_cons. unfold cell. subst h'. rewrite lookup_insert_eq, Hl. cbn.
    rewrite lookup_store_key_ne by done.
    destruct (lookup_key kq d) as [v'|] eqn:Hv'; [|done].
    apply (Hside v' eq_refl Hne). intros x Hx Hxl _. by rewrite lookup_insert_ne.
  - destruct (lookup_key k d) as [sub|] eqn:Hk.
    + (* the key is there *)
      pose proof Hs as Hs'.
      apply set_loop_ok_inv in Hs' as (l2 & _ & -> & _).
      destruct (tree_from_child h l d k l2 Ht Hl Hk) as [Ht2 Hfar].
      assert (Hl' : h' !! l = Some d).
      { rewrite (set_loop_local _ _ _ _ _ Hs l) by (eauto || done). done. }
      rewrite !walk_cons. unfold cell. rewrite Hl', Hl. cbn.
      destruct (decide (kq = k)) as [->|Hne].
      * rewrite Hk. apply (IH _ _ _ Hs Hcl Ht2).
        -- intros Hp. apply Hpq. by apply prefix_cons.
        -- intros Hp. apply Hqp. by apply prefix_cons.
      * destruct (lookup_key kq d) as [v'|] eqn:Hv'; [|done].
        apply (Hside v' eq_refl Hne). intros x Hx Hxl Hnot.
        apply (set_loop_local _ _ _ _ _ Hs x Hx). intros b Hb.
        by apply (Hnot b).
    + (* the key is missing: a dictionary is made *)
      destruct (tree_from_new h l k d Hl) as [Ht2 Hfar].
      assert (Hl' : h' !! l = Some (store_key k (SDict (fresh (dom h))) d)).
      { rewrite (set_loop_local _ _ _ _ _ Hs l).
        - by rewrite with_new_lookup, decide_True.
        - rewrite with_new_lookup, decide_True by done. by eexists.
        - done. }
      rewrite !walk_cons. unfold cell. rewrite Hl', Hl. cbn.
      destruct (decide (kq = k)) as [->|Hne].
      * rewrite lookup_store_key_eq, Hk.
        rewrite (IH _ _ _ Hs (closed_with_new h l k d Hcl Hl) Ht2).
        -- rewrite walk_new by done. destruct q; [|done].
           destruct Hqp. apply prefix_cons, prefix_nil.
        -- intros Hp. apply Hpq. by apply prefix_cons.
        -- intros Hp. apply Hqp. by apply prefix_cons.
      * rewrite lookup_store_key_ne by done.
        destruct (lookup_key kq d) as [v'|] eqn:Hv'; [|done].
        apply (Hside v' eq_refl Hne). intros x Hx Hxl _.
        rewrite (set_loop_local _ _ _ _ _ Hs x).
        -- by apply with_new_old.
        -- by rewrite with_new_old.
        -- intros b. rewrite walk_new by done. destruct b; [|done].
           intros [= <-]. by apply (fresh_not_allocated h (fresh (dom h))).
Qed.

End config_set_facts.

Section config_raise_facts.
Import Config.
Implicit Types (d : dict) (c : Config) (h : gmap loc dict) (v : setting).

(** From a dictionary just made, [set] goes through. *)
Lemma set_loop_new_ok p v new h :
  p ≠ [] → h !! new = Some [] → (set_loop p v (SDict new) h).1 = Ok tt.
Proof.
  revert new h. induction p as [|k ks IH]; intros new h Hp Hnew; [done|].
  destruct ks as [|k2 ks].
  - by rewrite (set_loop_last _ _ _ []).
  - rewrite (set_loop_new _ _ _ _ _ []) by done.
    apply IH; [done|]. by apply with_new_new.
Qed.

(** When [set] raises, it raises [TypeError] and has changed nothing. *)
Lemma set_loop_raise p v ref h e h' :
  set_loop p v ref h = (Raise e, h') →
  h' = h ∧ (p ≠ [] → ∃ msg, e = TypeError msg).
Proof.
  revert ref h. induction p as [|k ks IH]; intros ref h Hs.
  { cbn [set_loop] in Hs. injection Hs as _ <-. done. }
  assert (Hbad : (@Raise unit (TypeError "not a dictionary"), h) = (Raise e, h') →
            h' = h ∧ (k :: ks ≠ [] → ∃ msg, e = TypeError msg)).
  { intros [= <- <-]. split; [done|]. intros _. by eexists. }
  destruct ref as [| | | | |l]; try exact (Hbad Hs).
  destruct (h !! l) as [d|] eqn:Hl;
    [|cbn [set_loop] in Hs; rewrite Hl in Hs; exact (Hbad Hs)].
  destruct ks as [|k2 ks].
  - by rewrite (set_loop_last _ _ _ d) in Hs.
  - destruct (lookup_key k d) as [sub|] eqn:Hk.
    + rewrite (set_loop_found _ _ _ _ _ d sub) in Hs by done.
      destruct (IH _ _ Hs) as [-> He]. split; [done|]. intros _. by apply He.
    + rewrite (set_loop_new _ _ _ _ _ d) in Hs by done.
      pose proof (set_loop_new_ok (k2 :: ks) v (fresh (dom h)) (with_new h l k d)
                    ltac:(done) (with_new_new h l k d Hl)) as Hok.
      by rewrite Hs in Hok.
Qed.

(** [set] raises exactly when a proper beginning of the key path leads to
    a value that is not a dictionary. *)
Lemma set_loop_fails_iff p v ref h :
  p ≠ [] →
  is_ok (set_loop p v ref h).1 = false
  ↔ ∃ pre rest x, p = (pre ++ rest)%list ∧ rest ≠ []
                  ∧ walk h ref pre = Some x ∧ is_dict h x = false.
Proof.
  revert ref. induction p as [|k ks IH]; intros ref Hp; [done|].
  destruct (is_dict h ref) eqn:Hd.
  2:{ split.
      - intros _. exists [], (k :: ks), ref. by repeat split.
      - intros _. destruct ref as [| | | | |l]; try done.
        cbn [is_dict] in Hd. apply bool_decide_eq_false in Hd.
        cbn [set_loop]. destruct (h !! l); [|done]. destruct Hd. by eexists. }
  destruct ref as [| | | | |l]; try done.
  cbn [is_dict] in Hd. apply bool_decide_eq_true in Hd as [d Hl].
  assert (Hhead : ∀ pre rest x,
            k :: ks = (pre ++ rest)%list → rest ≠ [] →
            walk h (SDict l) pre = Some x → is_dict h x = false →
            ∃ pre', pre = k :: pre' ∧ ks = (pre' ++ rest)%list).
  { intros pre rest x Heq Hrest Hw Hx. destruct pre as [|k' pre].
    - injection Hw as <-. cbn [is_dict] in Hx.
      apply bool_decide_eq_false in Hx. destruct Hx. by eexists.
    - injection Heq as <- ->. by eexists. }
  destruct ks as [|k2 ks].
  - rewrite (set_loop_last _ _ _ d) by done. split; [done|].
    intros (pre & rest & x & Heq & Hrest & Hw & Hx).
    destruct (Hhead _ _ _ Heq Hrest Hw Hx) as (pre' & -> & Heq').
    by destruct pre', rest.
  - destruct (lookup_key k d) as [sub|] eqn:Hk.
    + rewrite (set_loop_found _ _ _ _ _ d sub) by done.
      rewrite (IH sub) by done. split.
      * intros (pre & rest & x & Heq & Hrest & Hw & Hx).
        exists (k :: pre), rest, x. split; [by rewrite Heq|]. split; [done|].
        split; [|done]. rewrite walk_cons. unfold cell.
        by rewrite Hl; cbn; rewrite Hk.
      * intros (pre & rest & x & Heq & Hrest & Hw & Hx).
        destruct (Hhead _ _ _ Heq Hrest Hw Hx) as (pre' & -> & Heq').
        exists pre', rest, x. split; [done|]. split; [done|]. split; [|done].
        rewrite walk_cons in Hw. unfold cell in Hw.
        by rewrite Hl in Hw; cbn in Hw; rewrite Hk in Hw.
    + rewrite (set_loop_new _ _ _ _ _ d) by done.
      rewrite (set_loop_new_ok (k2 :: ks) v (fresh (dom h)) (with_new h l k d))
        by (done || by apply with_new_new).
      split; [done|].
      intros (pre & rest & x & Heq & Hrest & Hw & Hx).
      destruct (Hhead _ _ _ Heq Hrest Hw Hx) as (pre' & -> & Heq').
      rewrite walk_cons in Hw. unfold cell in Hw.
      by rewrite Hl in Hw; cbn in Hw; rewrite Hk in Hw.
Qed.

End config_raise_facts.

Section config_unshared_facts.
Import Config.
Implicit Types (d : dict) (c : Config) (h : gmap loc dict) (v : setting).

(** Unshared dictionaries are reached by one key path each. *)
Lemma unshared_tree c : unshared c → tree_from (dicts c) (settings c).
Proof.
  intros (_ & _ & Hroot & Huniq) a.
  induction a as [|ka a IH] using rev_ind; intros b x Ha Hb.
  - injection Ha as <-. destruct b as [|kb b _] using rev_ind; [done|].
    rewrite walk_snoc in Hb.
    destruct (walk (dicts c) (SDict (settings c)) b) as [[| | | | |y]|]; try done.
    by destruct (Hroot y kb).
  - rewrite walk_snoc in Ha.
    destruct (walk (dicts c) (SDict (settings c)) a) as [[| | | | |ya]|] eqn:Hwa;
      try done.
    destruct b as [|kb b _] using rev_ind.
    { injection Hb as <-. by destruct (Hroot ya ka). }
    rewrite walk_snoc in Hb.
    destruct (walk (dicts c) (SDict (settings c)) b) as [[| | | | |yb]|] eqn:Hwb;
      try done.
    destruct (Huniq _ _ _ _ _ Ha Hb) as [<- <-].
    by rewrite (IH b ya eq_refl Hwb).
Qed.

Lemma cell_with_new h l k d y ky x :
  h !! l = Some d → cell (with_new h l k d) y ky = Some (SDict x) →
  cell h y ky = Some (SDict x) ∨ (y = l ∧ ky = k ∧ x = fresh (dom h)).
Proof.
  intros Hl. unfold cell. rewrite with_new_lookup by done.
  destruct (decide (y = l)) as [->|Hyl]; cbn.
  - destruct (decide (ky = k)) as [->|Hne].
    + rewrite lookup_store_key_eq. intros [= <-]. by right.
    + rewrite lookup_store_key_ne by done. rewrite Hl. by left.
  - destruct (decide (y = fresh (dom h))); [done|]. by left.
Qed.

Lemma with_new_allocated h l k d x :
  h !! l = Some d →
  is_Some (with_new h l k d !! x) ↔ is_Some (h !! x) ∨ x = fresh (dom h).
Proof.
  intros Hl. rewrite with_new_lookup by done.
  destruct (decide (x = l)) as [->|?].
  { split; [intros _; left|]; by eexists. }
  destruct (decide (x = fresh (dom h))) as [->|?].
  { split; [by right|by eexists]. }
  split; [by left|]. by intros [?|?].
Qed.

(** What [set] with a value that is not a dictionary does to the
    references among the dictionaries: those there were stay; a new one
    refers to a new dictionary, which nothing else refers to. *)
Lemma set_loop_cells p v l h h' :
  set_loop p v (SDict l) h = (Ok tt, h') → (∀ x, v ≠ SDict x) → closed h →
  (∀ x, is_Some (h !! x) → is_Some (h' !! x))
  ∧ (∀ y ky x, cell h' y ky = Some (SDict x) →
       is_Some (h' !! x)
       ∧ (cell h y ky = Some (SDict x) ∨ ¬ is_Some (h !! x)))
  ∧ (∀ x, ¬ is_Some (h !! x) →
       ∀ y1 k1 y2 k2, cell h' y1 k1 = Some (SDict x) →
                      cell h' y2 k2 = Some (SDict x) → y1 = y2 ∧ k1 = k2).
Proof.
  intros Hs Hv. revert l h Hs.
  induction p as [|k ks IH]; intros l h Hs Hcl; [done|].
  apply set_loop_ok_inv in Hs as (l0 & d & [= <-] & Hl & Hs).
  destruct ks as [|kn ks].
  - subst h'.
    assert (Hgrow : ∀ x, is_Some (h !! x) → is_Some (<[l := store_key k v d]> h !! x)).
    { intros x Hx. apply lookup_insert_is_Some. destruct (decide (l = x)); auto. }
    assert (Hold : ∀ y ky x,
              cell (<[l := store_key k v d]> h) y ky = Some (SDict x) →
              cell h y ky = Some (SDict x)).
    { intros y ky x. unfold cell.
      destruct (decide (y = l)) as [->|Hyl].
      - rewrite lookup_insert_eq, Hl. cbn.
        destruct (decide (ky = k)) as [->|Hne].
        + rewrite lookup_store_key_eq. intros [= E]. by destruct (Hv x).
        + by rewrite lookup_store_key_ne.
      - by rewrite lookup_insert_ne. }
    split; [exact Hgrow|]. split.
    + intros y ky x Hc%Hold. split; [|by left]. apply Hgrow. by apply (Hcl y ky).
    + intros x Hx y1 k1 y2 k2 Hc%Hold _. destruct Hx. by apply (Hcl y1 k1).
  - destruct (lookup_key k d) as [sub|] eqn:Hk.
    + pose proof Hs as Hs'.
      apply set_loop_ok_inv in Hs' as (l2 & _ & -> & _).
      by apply (IH l2 h).
    + destruct (IH _ _ Hs (closed_with_new h l k d Hcl Hl)) as (Hgrow & Hcells & Huniq).
      split; [|split].
      * intros x Hx. apply Hgrow. apply with_new_allocated; auto.
      * intros y ky x Hc. destruct (Hcells y ky x Hc) as [Hx [Hw|Hw]].
        -- split; [done|].
           destruct (cell_with_new _ _ _ _ _ _ _ Hl Hw) as [?|(_ & _ & ->)]; [by left|].
           right. intros Hf. by apply (fresh_not_allocated h (fresh (dom h))).
        -- split; [done|]. right. intros Hx'. apply Hw.
           apply with_new_allocated; auto.
      * intros x Hx y1 k1 y2 k2 H1 H2.
        destruct (decide (x = fresh (dom h))) as [->|Hxn].
        -- assert (Hone : ∀ y ky, cell h' y ky = Some (SDict (fresh (dom h))) →
                                  y = l ∧ ky = k).
           { intros y ky Hc. destruct (Hcells y ky _ Hc) as [_ [Hw|Hw]].
             - destruct (cell_with_new _ _ _ _ _ _ _ Hl Hw) as [Hh|(-> & -> & _)];
                 [|done].
               destruct Hx. by apply (Hcl y ky).
             - destruct Hw. apply with_new_allocated; auto. }
           destruct (Hone _ _ H1) as [-> ->]. by destruct (Hone _ _ H2) as [-> ->].
        -- apply (Huniq x); [|done|done].
           intros [?| ->]%with_new_allocated; done.
Qed.

End config_unshared_facts.

Section config_theorems.
Import Config.
Implicit Types (c : Config).

Lemma set_ok_inv key_path value c c' :
  set key_path value c = (Ok tt, c') →
  set_loop (split_dots key_path) value (SDict (settings c)) (dicts c)
    = (Ok tt, dicts c')
  ∧ config_file c' = config_file c ∧ settings c' = settings c.
Proof.
  unfold set. destruct (set_loop _ _ _ _) as [r h]. by intros [= -> <-].
Qed.

(** A successful [set] of a value that is not a dictionary keeps the
    dictionaries unshared. *)
Lemma unshared_set key_path value c c' :
  unshared c → set key_path value c = (Ok tt, c') → (∀ x, value ≠ SDict x) →
  unshared c'.
Proof.
  intros (Hroot & Hcl & Hnoroot & Huniq) (Hs & _ & Hset)%set_ok_inv Hv.
  destruct (set_loop_cells _ _ _ _ _ Hs Hv Hcl) as (Hgrow & Hcells & Hnew).
  unfold unshared. rewrite Hset. split; [by apply Hgrow|]. split; [|split].
  - intros y ky x Hc. by destruct (Hcells y ky x Hc).
  - intros y ky Hc. destruct (Hcells y ky _ Hc) as [_ [Hold|Hno]].
    + by apply (Hnoroot y ky).
    + done.
  - intros y1 k1 y2 k2 x H1 H2.
    destruct (Hcells _ _ _ H1) as [_ [Ho1|Hno]];
      [|by apply (Hnew x Hno y1 k1 y2 k2)].
    destruct (Hcells _ _ _ H2) as [_ [Ho2|Hno]];
      [|by apply (Hnew x Hno y1 k1 y2 k2)].
    by apply (Huniq _ _ _ _ x).
Qed.

(** X24. In a configuration whose dictionaries are not shared, [set] and
    then [get] on the same key path gives back the value that was set,
    whatever the default; and a later [set] on that key path leaves no
    trace of the earlier one: the outcome is the one the later call would
    have had alone. When the value is not a dictionary, the dictionaries
    are still unshared afterwards. *)
Theorem config_set_then_get key_path value c c' :
  unshared c → set key_path value c = (Ok tt, c') →
  (∀ dflt, get key_path dflt c' = value)
  ∧ (∀ value', set key_path value' c' = set key_path value' c)
  ∧ ((∀ x, value ≠ SDict x) → unshared c').
Proof.
  intros Hun Hset. pose proof (unshared_tree c Hun) as Ht.
  pose proof Hset as (Hs & Hf & Hr)%set_ok_inv.
  split; [|split].
  - intros dflt. unfold get. rewrite get_loop_walk, Hr.
    by rewrite (set_loop_walk _ _ _ _ _ Hs Ht).
  - intros w. unfold set. rewrite Hr, Hf.
    by rewrite (set_loop_overwrites _ _ w _ _ _ Hs Ht).
  - by apply (unshared_set key_path value c).
Qed.

(** X25. In a configuration whose dictionaries are not shared, a
    successful [set] changes what [get] returns only along its own key
    path: for a key path that neither starts with the components of the one
    set nor is the beginning of it, [get] returns what it returned before
    (also when [set] had to make dictionaries on its way). *)
Theorem config_set_keeps_unrelated_settings key_path other value c c' dflt :
  unshared c → set key_path value c = (Ok tt, c') →
  ¬ split_dots key_path `prefix_of` split_dots other →
  ¬ split_dots other `prefix_of` split_dots key_path →
  get other dflt c' = get other dflt c.
Proof.
  intros Hun (Hs & _ & Hr)%set_ok_inv Hpq Hqp.
  pose proof (unshared_tree c Hun) as Ht. destruct Hun as (_ & Hcl & _).
  unfold get. rewrite !get_loop_walk, Hr.
  by rewrite (set_loop_frame _ _ _ _ _ _ Hs Hcl Ht Hpq Hqp).
Qed.

(** X26. [set] raises exactly when some proper beginning of its key path
    leads to a value that is not a dictionary; what it raises then is
    [TypeError], and nothing has been changed. In every other case it
    returns, making the dictionaries that are missing. In particular a key
    path without a dot is always set, in the settings dictionary itself. *)
Theorem config_set_raises_through_a_leaf key_path value c :
  (is_ok (set key_path value c).1 = false ↔
   ∃ pre rest x, split_dots key_path = (pre ++ rest)%list ∧ rest ≠ []
     ∧ walk (dicts c) (SDict (settings c)) pre = Some x
     ∧ is_dict (dicts c) x = false)
  ∧ (∀ e c', set key_path value c = (Raise e, c') →
       (∃ msg, e = TypeError msg) ∧ c' = c)
  ∧ (∀ key d, split_dots key_path = [key] →
       dicts c !! settings c = Some d →
       set key_path value c =
         (Ok tt, {| config_file := config_file c; settings := settings c;
                    dicts := <[settings c := store_key key value d]> (dicts c) |})).
Proof.
  split; [|split].
  - rewrite <- (set_loop_fails_iff _ value) by apply split_dots_nonempty.
    unfold set. by destruct (set_loop _ _ _ _).
  - intros e c'. unfold set.
    destruct (set_loop _ _ _ _) as [r h] eqn:Hs. intros [= -> <-].
    destruct (set_loop_raise _ _ _ _ _ _ Hs) as [-> He].
    split; [apply He, split_dots_nonempty|]. by destruct c.
  - intros key d Hk Hd. unfold set. rewrite Hk.
    by rewrite (set_loop_last _ _ _ d).
Qed.

End config_theorems.

Section config_examples.
Import Config.

Ltac init_dict H n :=
  let r := eval vm_compute in (dicts Config_init !! n) in
  change (dicts Config_init !! n) with r in H.

(** The references among the dictionaries of a new configuration. *)
Lemma Config_init_cells y ky x :
  cell (dicts Config_init) y ky = Some (SDict x) →
  y = 5
  ∧ (ky, x) ∈ [("rendering", 0); ("performance", 1); ("visualization", 2);
               ("data_processing", 3); ("logging", 4)].
Proof.
  unfold cell. intros Hc.
  assert (Hdom : y ∈ dom (dicts Config_init)).
  { apply elem_of_dom. by destruct (dicts Config_init !! y). }
  assert (Hsix : dom (dicts Config_init) = {[0; 1; 2; 3; 4; 5]})
    by (vm_compute; reflexivity).
  rewrite Hsix in Hdom.
  assert (y = 0 ∨ y = 1 ∨ y = 2 ∨ y = 3 ∨ y = 4 ∨ y = 5)
    as [->|[->|[->|[->|[->| ->]]]]] by set_solver.
  - init_dict Hc 0. cbn in Hc. by repeat case_decide.
  - init_dict Hc 1. cbn in Hc. by repeat case_decide.
  - init_dict Hc 2. cbn in Hc. by repeat case_decide.
  - init_dict Hc 3. cbn in Hc. by repeat case_decide.
  - init_dict Hc 4. cbn in Hc. by repeat case_decide.
  - split; [done|]. init_dict Hc 5. cbn in Hc.
    repeat case_decide; simplify_eq; set_solver.
Qed.

(** A new configuration shares no dictionary. *)
Lemma unshared_init : unshared Config_init.
Proof.
  split; [by eexists|]. split; [|split].
  - intros y ky x [_ Hin]%Config_init_cells.
    repeat (apply elem_of_cons in Hin as [[= _ ->]|Hin]; [by eexists|]).
    by apply elem_of_nil in Hin.
  - intros y ky [_ Hin]%Config_init_cells.
    change (settings Config_init) with 5 in Hin.
    repeat (apply elem_of_cons in Hin as [E|Hin]; [by simplify_eq|]).
    by apply elem_of_nil in Hin.
  - intros y1 k1 y2 k2 x [-> H1]%Config_init_cells [-> H2]%Config_init_cells.
    split; [done|].
    repeat (apply elem_of_cons in H1 as [[= -> ->]|H1];
            [repeat (apply elem_of_cons in H2 as [E|H2]; [by simplify_eq|]);
             by apply elem_of_nil in H2|]).
    by apply elem_of_nil in H1.
Qed.

Lemma config_set_then_get_witness :
  ∃ c', set "rendering.backend" (SStr "vulkan") Config_init = (Ok tt, c')
        ∧ (∀ dflt, get "rendering.backend" dflt c' = SStr "vulkan")
        ∧ unshared c'.
Proof.
  eexists. split; [reflexivity|].
  destruct (config_set_then_get "rendering.backend" (SStr "vulkan") Config_init
              _ unshared_init eq_refl) as (Hget & _ & Hun).
  split; [exact Hget|]. apply Hun. intros x. discriminate.
Defined.

Lemma config_set_keeps_unrelated_settings_witness :
  ∃ c', set "display.window.width" (SInt 800) Config_init = (Ok tt, c')
        ∧ get "display.height" SNone c' = get "display.height" SNone Config_init.
Proof.
  eexists. split; [reflexivity|].
  apply (config_set_keeps_unrelated_settings
           "display.window.width" "display.height" (SInt 800) Config_init).
  - exact unshared_init.
  - reflexivity.
  - intros [k Hk]. discriminate Hk.
  - intros [k Hk]. discriminate Hk.
Defined.

(** Why the dictionaries must not be shared. A dictionary that [get]
    returned and [set] stored under a second key is one object under two
    keys: a [set] through either key shows under the other. Stored below
    itself, it makes a key path that passes through one dictionary twice,
    and the value set at its end is not the value [get] finds there. *)
Example config_shared_dictionary :
  let c1 := (set "alias" (get "rendering" SNone Config_init) Config_init).2 in
  let c2 := (set "alias.backend" (SStr "vulkan") c1).2 in
  let c3 := (set "rendering.loop" (get "rendering" SNone Config_init)
               Config_init).2 in
  let c4 := (set "rendering.loop.loop" (SInt 5) c3).2 in
  get "rendering.backend" SNone c1 = SStr "auto"
  ∧ (set "alias.backend" (SStr "vulkan") c1).1 = Ok tt
  ∧ get "rendering.backend" SNone c2 = SStr "vulkan"
  ∧ (set "rendering.loop.loop" (SInt 5) c3).1 = Ok tt
  ∧ get "rendering.loop.loop" SNone c4 = SNone
  ∧ ¬ unshared c1.
Proof.
  intros c1 c2 c3 c4.
  split; [vm_compute; reflexivity|]. split; [vm_compute; reflexivity|].
  split; [vm_compute; reflexivity|]. split; [vm_compute; reflexivity|].
  split; [vm_compute; reflexivity|].
  intros (_ & _ & _ & Huniq).
  assert (H1 : cell (dicts c1) 5 "rendering" = Some (SDict 0))
    by (vm_compute; reflexivity).
  assert (H2 : cell (dicts c1) 5 "alias" = Some (SDict 0))
    by (vm_compute; reflexivity).
  destruct (Huniq _ _ _ _ _ H1 H2) as [_ E]. discriminate E.
Qed.

End config_examples.

(** ** Grid layouts: which element lands in which cell *)

Section layout_items.
Import Layout.
Context {A : Type}.
Implicit Types (d : list (string * A)).

Lemma item_set_fresh k (v : A) d : k ∉ d.*1 → item_set k v d = (d ++ [(k, v)])%list.
Proof.
  induction d as [|[k' v'] d IH]; intros Hk; cbn [item_set]; [done|].
  rewrite fmap_cons in Hk. apply not_elem_of_cons in Hk as [Hne Hk].
  rewrite decide_False by done. by rewrite IH.
Qed.

Lemma item_get_elem k (v : A) d :
  NoDup d.*1 → (k, v) ∈ d → item_get k d = Some v.
Proof.
  induction d as [|[k' v'] d IH]; intros Hnd Hin; [by apply elem_of_nil in Hin|].
  rewrite fmap_cons in Hnd. apply NoDup_cons in Hnd as [Hk' Hnd].
  cbn [item_get]. apply elem_of_cons in Hin as [[= -> ->]|Hin].
  - by rewrite decide_True.
  - rewrite decide_False; [by apply IH|].
    intros ->. apply Hk'. apply list_elem_of_fmap. by exists (k', v).
Qed.

Lemma item_get_None k d : k ∉ d.*1 → item_get k d = None.
Proof.
  induction d as [|[k' v'] d IH]; intros Hk; [done|].
  rewrite fmap_cons in Hk. apply not_elem_of_cons in Hk as [Hne Hk].
  cbn [item_get]. rewrite decide_False by done. by apply IH.
Qed.

Lemma keys_imap (f : nat → A) (l : list string) :
  (imap (λ i id, (id, f i)) l).*1 = l.
Proof.
  revert f. induction l as [|x l IH]; intros f; [done|].
  rewrite imap_cons, fmap_cons. cbn [fst]. f_equal. apply (IH (f ∘ S)).
Qed.

Lemma item_get_imap (f : nat → A) (l : list string) i id :
  NoDup l → l !! i = Some id →
  item_get id (imap (λ i id, (id, f i)) l) = Some (f i).
Proof.
  intros Hnd Hi. apply item_get_elem.
  - by rewrite keys_imap.
  - by apply (elem_of_lookup_imap_2 (λ i id, (id, f i))).
Qed.

End layout_items.

Section layout_facts.
Import Layout.
Context `{Floats}.
Implicit Types (lm : LayoutManager) (ids : list string).
Local Open Scope Z_scope.

(** The quotient of an index is no larger than the index, and the
    remainder is smaller than the divisor. *)
Lemma div_magnitude (i cols : Z) : 0 ≤ i → cols ≠ 0 → Z.abs (i `div` cols) ≤ i.
Proof.
  intros Hi Hc. pose proof (Z.div_mod i cols Hc) as Hdm.
  destruct (decide (0 < cols)) as [Hpos|Hneg].
  - pose proof (Z.mod_pos_bound i cols Hpos). nia.
  - pose proof (Z.mod_neg_bound i cols ltac:(lia)). nia.
Qed.

Lemma mod_magnitude (i cols : Z) : cols ≠ 0 → Z.abs (i `mod` cols) ≤ Z.abs cols.
Proof.
  intros Hc. destruct (decide (0 < cols)) as [Hpos|Hneg].
  - pose proof (Z.mod_pos_bound i cols Hpos). lia.
  - pose proof (Z.mod_neg_bound i cols ltac:(lia)). lia.
Qed.

(** The loop places the first [n] elements and stops, where [n] is the
    number of indices from [k] on that pass the capacity test; their rows
    and columns fit a float. *)
Lemma grid_loop_spec rows cols cw ch pad (n : nat) rest k acc :
  (n ≤ length rest)%nat →
  (∀ i : nat, (i < n)%nat →
     (k + Z.of_nat i) `div` cols < rows
     ∧ fits ((k + Z.of_nat i) `mod` cols) = true
     ∧ fits ((k + Z.of_nat i) `div` cols) = true) →
  ((n < length rest)%nat → rows ≤ (k + Z.of_nat n) `div` cols) →
  NoDup rest → (∀ id, id ∈ rest → id ∉ acc.*1) →
  grid_loop rows cols cw ch pad k rest acc =
    Returns
      (acc ++ imap (λ (i : nat) id, (id, grid_cell cols cw ch pad (k + Z.of_nat i)))
                (take n rest))%list.
Proof.
  revert n k acc.
  induction rest as [|id rest IH]; intros n k acc Hn Hfit Hstop Hnd Hacc.
  { cbn [grid_loop]. rewrite take_nil. cbn. by rewrite app_nil_r. }
  cbn [grid_loop]. apply NoDup_cons in Hnd as [Hid Hnd].
  destruct (decide (rows ≤ k `div` cols)) as [Hbreak|Hgo].
  - destruct n as [|n].
    + cbn. by rewrite app_nil_r.
    + destruct (Hfit 0%nat ltac:(lia)) as [Hlt _]. rewrite Z.add_0_r in Hlt. lia.
  - destruct n as [|n].
    { cbn [length] in Hstop. specialize (Hstop ltac:(lia)).
      rewrite Z.add_0_r in Hstop. lia. }
    destruct (Hfit 0%nat ltac:(lia)) as (_ & Hcol & Hrow).
    rewrite Z.add_0_r in Hcol, Hrow. rewrite Hcol, Hrow. cbn [negb].
    rewrite item_set_fresh by (apply Hacc; left).
    rewrite (IH n (k + 1) _).
    + f_equal. rewrite <- (assoc_L (++)). f_equal. cbn [take app].
      rewrite imap_cons. rewrite Z.add_0_r. f_equal.
      apply imap_ext. intros i x _. cbn. do 2 f_equal. lia.
    + cbn [length] in Hn. lia.
    + intros i Hi. specialize (Hfit (S i) ltac:(lia)).
      by replace (k + 1 + Z.of_nat i) with (k + Z.of_nat (S i)) by lia.
    + intros Hlt. cbn [length] in Hstop. specialize (Hstop ltac:(lia)).
      by replace (k + 1 + Z.of_nat n) with (k + Z.of_nat (S n)) by lia.
    + done.
    + intros id' Hin. rewrite fmap_app. intros [Hx|Hx]%elem_of_app.
      * by apply (Hacc id'); [right|].
      * cbn in Hx. apply list_elem_of_singleton in Hx as ->. done.
Qed.

(** In a grid with positive sides the capacity test passes exactly for the
    indices below [rows * cols]. *)
Lemma grid_elements_positive rows cols cw ch pad ids :
  0 < rows → 0 < cols → fits rows = true → fits cols = true → NoDup ids →
  grid_loop rows cols cw ch pad 0 ids [] =
    Returns
      (imap (λ (i : nat) id, (id, grid_cell cols cw ch pad (Z.of_nat i)))
         (take (Z.to_nat (rows * cols)) ids)).
Proof.
  intros Hr Hc Hfr Hfc Hnd.
  rewrite (grid_loop_spec _ _ _ _ _ (min (Z.to_nat (rows * cols)) (length ids))).
  - cbn [app]. do 2 f_equal.
    destruct (decide (Z.to_nat (rows * cols) ≤ length ids)%nat) as [Hle|Hgt].
    + by rewrite Nat.min_l.
    + rewrite Nat.min_r by lia. by rewrite !take_ge by lia.
  - lia.
  - intros i Hi. rewrite Z.add_0_l.
    assert (Hlt : Z.of_nat i `div` cols < rows).
    { apply Z.div_lt_upper_bound; [done|]. nia. }
    pose proof (Z.div_pos (Z.of_nat i) cols ltac:(lia) Hc).
    pose proof (Z.mod_pos_bound (Z.of_nat i) cols Hc).
    split; [done|]. split.
    + apply (fits_magnitude _ cols); [lia|done].
    + apply (fits_magnitude _ rows); [lia|done].
  - intros Hlt. rewrite Z.add_0_l. apply Z.div_le_lower_bound; [done|]. nia.
  - done.
  - intros id _ Hin. by apply elem_of_nil in Hin.
Qed.

(** With a negative number of columns the capacity test always passes. *)
Lemma grid_elements_negative_cols rows cols cw ch pad ids :
  0 < rows → cols < 0 → fits cols = true →
  fits (Z.of_nat (length ids)) = true → NoDup ids →
  grid_loop rows cols cw ch pad 0 ids [] =
    Returns
      (imap (λ (i : nat) id, (id, grid_cell cols cw ch pad (Z.of_nat i))) ids).
Proof.
  intros Hr Hc Hfc Hfl Hnd.
  rewrite (grid_loop_spec _ _ _ _ _ (length ids)).
  - cbn [app]. by rewrite firstn_all.
  - lia.
  - intros i Hi. rewrite Z.add_0_l.
    pose proof (Z.div_mod (Z.of_nat i) cols ltac:(lia)) as Hdm.
    pose proof (Z.mod_neg_bound (Z.of_nat i) cols Hc) as Hb.
    pose proof (div_magnitude (Z.of_nat i) cols ltac:(lia) ltac:(lia)).
    split; [nia|]. split.
    + apply (fits_magnitude _ cols); [lia|done].
    + apply (fits_magnitude _ (Z.of_nat (length ids))); [lia|done].
  - lia.
  - done.
  - intros id _ Hin. by apply elem_of_nil in Hin.
Qed.

(** The loop raises nothing when the number of elements fits a float, as
    the length of a list does. *)
Lemma grid_loop_returns rows cols cw ch pad rest k acc :
  cols ≠ 0 → 0 ≤ k → fits cols = true →
  fits (k + Z.of_nat (length rest)) = true →
  ∃ elements, grid_loop rows cols cw ch pad k rest acc = Returns elements.
Proof.
  intros Hc. revert k acc.
  induction rest as [|id rest IH]; intros k acc Hk Hfc Hfl; cbn [grid_loop].
  { by eexists. }
  destruct (decide (rows ≤ k `div` cols)); [by eexists|].
  pose proof (div_magnitude k cols Hk Hc).
  pose proof (mod_magnitude k cols Hc).
  rewrite (fits_magnitude (k `mod` cols) cols) by done.
  rewrite (fits_magnitude (k `div` cols) (k + Z.of_nat (length (id :: rest))))
    by (try done; lia).
  cbn [negb]. apply IH; [lia|done|].
  replace (k + 1 + Z.of_nat (length rest))
    with (k + Z.of_nat (length (id :: rest))) by (cbn [length]; lia).
  done.
Qed.

End layout_facts.

Section layout_id_facts.

Lemma has_char_append c (s t : string) :
  has_char c (s +:+ t) = has_char c s || has_char c t.
Proof.
  induction s as [|a s IH]; [done|].
  change (has_char c (String a (s +:+ t))
          = (bool_decide (c = a) || has_char c s) || has_char c t).
  cbn [has_char]. rewrite IH. by rewrite orb_assoc.
Qed.

Lemma has_char_here c (t : string) : has_char c (String c t) = true.
Proof. cbn [has_char]. by rewrite bool_decide_eq_true_2. Qed.

Lemma pretty_N_go_has_char c x s :
  (∀ d, pretty_N_char d ≠ c) →
  has_char c (pretty_N_go x s) = has_char c s.
Proof.
  intros Hc. revert s. induction (N.lt_wf_0 x) as [x _ IH]; intros s.
  assert (x = 0 ∨ 0 < x)%N as [->|Hx] by lia.
  - by rewrite pretty_N_go_0.
  - rewrite pretty_N_go_step by done.
    rewrite IH by (by apply N.div_lt).
    cbn [has_char]. rewrite bool_decide_eq_false_2; [done|].
    intros Heq. by apply (Hc (x `mod` 10)%N).
Qed.

Lemma pretty_nat_no_underscore (n : nat) :
  has_char (Ascii.ascii_of_nat 95) (pretty n) = false.
Proof.
  unfold pretty, pretty_nat, pretty, pretty_N.
  case_decide; [done|].
  rewrite pretty_N_go_has_char; [done|].
  intros d. unfold pretty_N_char. by repeat case_match.
Qed.

(** What follows the last occurrence of a character is determined by the
    string. *)
Lemma suffix_after_char c (pre pre' t t' : string) :
  has_char c t = false → has_char c t' = false →
  pre +:+ String c t = pre' +:+ String c t' → t = t'.
Proof.
  intros Ht Ht'. revert pre'.
  induction pre as [|a pre IH]; intros [|a' pre'] Heq.
  - by injection Heq.
  - change (String c t = String a' (pre' +:+ String c t')) in Heq.
    injection Heq as _ ->.
    by rewrite has_char_append, has_char_here, orb_true_r in Ht.
  - change (String a (pre +:+ String c t) = String c t') in Heq.
    injection Heq as _ <-.
    by rewrite has_char_append, has_char_here, orb_true_r in Ht'.
  - change (String a (pre +:+ String c t) = String a' (pre' +:+ String c t'))
      in Heq.
    injection Heq as _ Heq. by apply (IH pre').
Qed.

Lemma numbered_id_inj (pre pre' : string) (n m : nat) :
  pre +:+ "_" +:+ pretty n = pre' +:+ "_" +:+ pretty m → n = m.
Proof.
  intros Heq. apply (inj pretty).
  apply (suffix_after_char (Ascii.ascii_of_nat 95) pre pre');
    [apply pretty_nat_no_underscore..|exact Heq].
Qed.

End layout_id_facts.

Section layout_theorems.
Import Layout.
Context `{Floats}.
Implicit Types (lm : LayoutManager) (ids : list string).
Local Open Scope Z_scope.

Lemma create_grid_layout_returns rows cols ids padding lm elements :
  rows ≠ 0 → cols ≠ 0 → fits rows = true → fits cols = true →
  grid_loop rows cols (fl_div (of_int 1) (of_int cols))
    (fl_div (of_int 1) (of_int rows)) padding 0 ids [] = Returns elements →
  let layout_id :=
    ("grid_" +:+ pretty rows +:+ "x" +:+ pretty cols) +:+ "_"
      +:+ pretty (base.size (layouts lm)) in
  let info :=
    {| type := "grid"; rows := rows; cols := cols; padding := padding;
       elements := elements |} in
  create_grid_layout rows cols ids padding lm =
    (Returns info,
     {| layouts := <[layout_id := info]> (layouts lm);
        current_layout := Some layout_id |}).
Proof.
  intros Hr Hc Hfr Hfc Hloop. cbv zeta. unfold create_grid_layout.
  rewrite (fits_printable rows Hfr), (fits_printable cols Hfc).
  rewrite Hfr, Hfc. cbn [negb orb]. rewrite !decide_False by done.
  rewrite Hloop. by rewrite !append_assoc.
Qed.

Lemma current_element_stored id cur info lm :
  current_layout lm = Some cur → layouts lm !! cur = Some info →
  get_element_position id lm = Returns (position <$> item_get id (elements info))
  ∧ get_element_size id lm = Returns (size <$> item_get id (elements info)).
Proof.
  intros Hcur Hl. unfold get_element_position, get_element_size, current_element.
  by rewrite Hcur, Hl.
Qed.

Lemma fresh_layout_id pre lm :
  ids_ok lm →
  layouts lm !! (pre +:+ "_" +:+ pretty (base.size (layouts lm))) = None.
Proof.
  intros [Hids _].
  destruct (layouts lm !! _) as [info|] eqn:Hl; [|done].
  destruct (Hids _ (mk_is_Some _ _ Hl)) as (pre' & n & Heq & Hn).
  apply numbered_id_inj in Heq. lia.
Qed.

Lemma ids_ok_insert pre info lm :
  ids_ok lm →
  ids_ok {| layouts :=
              <[pre +:+ "_" +:+ pretty (base.size (layouts lm)) := info]>
                (layouts lm);
            current_layout :=
              Some (pre +:+ "_" +:+ pretty (base.size (layouts lm))) |}.
Proof.
  intros Hok. pose proof (fresh_layout_id pre lm Hok) as Hfresh.
  destruct Hok as [Hids Hcur]. split; cbn.
  - intros id. rewrite map_size_insert_None by done.
    destruct (decide (id = pre +:+ "_" +:+ pretty (base.size (layouts lm))))
      as [->|Hne].
    + intros _. exists pre, (base.size (layouts lm)). split; [done|lia].
    + rewrite lookup_insert_ne by done. intros Hs.
      destruct (Hids id Hs) as (pre' & n & -> & Hn).
      exists pre', n. split; [done|lia].
  - intros cur [= <-]. rewrite lookup_insert_eq. by eexists.
Qed.

Lemma ids_ok_apply_layout id lm : ids_ok lm → ids_ok (apply_layout id lm).2.
Proof.
  intros Hok. unfold apply_layout.
  destruct (layouts lm !! id) as [info|] eqn:Hl; [|done].
  destruct Hok as [Hids Hcur]. split; cbn; [done|].
  intros cur [= <-]. by eexists.
Qed.

End layout_theorems.

Section grid_layout_theorems.
Import Layout.
Context `{Floats}.
Implicit Types (lm : LayoutManager) (ids : list string).
Local Open Scope Z_scope.

(** X27. In a grid with positive sides that fit a float, and distinct
    element ids, [create_grid_layout] returns and fills the cells row by
    row: the element with index [idx] below [rows * cols] gets row
    [idx // cols] and column [idx % cols], both inside the grid, and the
    position and size computed from them; the elements from index
    [rows * cols] on are left out, with no error. The layout is made
    current, so [get_element_position] and [get_element_size] answer from
    it, with [None] for an element that was left out. *)
Theorem grid_layout_fills_row_by_row rows cols ids padding lm :
  0 < rows → 0 < cols → fits rows = true → fits cols = true → NoDup ids →
  let cell_width := fl_div (of_int 1) (of_int cols) in
  let cell_height := fl_div (of_int 1) (of_int rows) in
  let pad := fl_div padding (of_int 100) in
  ∃ info lm',
    create_grid_layout rows cols ids padding lm = (Returns info, lm')
    ∧ length (elements info) = min (length ids) (Z.to_nat (rows * cols))
    ∧ (∀ (idx : nat) id, ids !! idx = Some id →
         if decide (Z.of_nat idx < rows * cols)
         then ∃ e, item_get id (elements info) = Some e
                ∧ row e = Z.of_nat idx `div` cols
                ∧ col e = Z.of_nat idx `mod` cols
                ∧ 0 ≤ row e < rows ∧ 0 ≤ col e < cols
                ∧ position e =
                    (fl_add (fl_mul (of_int (col e)) cell_width)
                       (fl_div pad (of_int 2)),
                     fl_add (fl_mul (of_int (row e)) cell_height)
                       (fl_div pad (of_int 2)))
                ∧ size e = (fl_sub cell_width pad, fl_sub cell_height pad)
         else item_get id (elements info) = None)
    ∧ (∀ id, get_element_position id lm'
             = Returns (position <$> item_get id (elements info)))
    ∧ (∀ id, get_element_size id lm'
             = Returns (size <$> item_get id (elements info))).
Proof.
  intros Hr Hc Hfr Hfc Hnd. cbv zeta.
  eexists _, _. split.
  { apply create_grid_layout_returns; [lia|lia|done|done|].
    by apply grid_elements_positive. }
  split; [|split; [|split]].
  - cbn [elements]. rewrite length_imap, length_take. lia.
  - cbn [elements].
    intros idx id Hidx. case_decide as Hfit.
    + eexists. split.
      { apply (item_get_imap (λ i : nat, grid_cell cols _ _ padding (Z.of_nat i))
                 _ idx).
        - apply (sublist_NoDup _ ids); [done|apply sublist_take].
        - rewrite lookup_take_lt by lia. done. }
      cbn [grid_cell row col position size].
      split; [done|]. split; [done|].
      split.
      { split; [apply Z.div_pos; lia|].
        apply Z.div_lt_upper_bound; [done|]. nia. }
      split; [apply Z.mod_pos_bound; lia|]. done.
    + apply item_get_None. rewrite keys_imap.
      intros (j & Hj & Hlt)%elem_of_take.
      pose proof (NoDup_lookup _ _ _ _ Hnd Hidx Hj). lia.
  - intros id. eapply proj1, current_element_stored; [reflexivity|].
    cbn [layouts]. apply lookup_insert_eq.
  - intros id. eapply proj2, current_element_stored; [reflexivity|].
    cbn [layouts]. apply lookup_insert_eq.
Qed.

(** X28. The degenerate sides of a grid. A side that has too many digits
    for the layout id raises [ValueError]. Otherwise the number of columns
    is looked at first and the number of rows next: a side that does not
    fit a float raises [OverflowError], a side of zero raises
    [ZeroDivisionError]. In all these cases nothing is stored. With sides
    that fit: a negative number of rows (and a number of columns other than
    zero) gives a layout with no element at all; a negative number of
    columns, with a positive number of rows, switches the capacity test
    off, so that distinct elements are all placed, however many there are,
    in rows and columns that are zero or negative. *)
Theorem grid_layout_degenerate_sides rows cols ids padding lm :
  (printable rows = false ∨ printable cols = false →
     ∃ msg,
       create_grid_layout rows cols ids padding lm = (Raises (ValueError msg), lm))
  ∧ (printable rows = true → printable cols = true → fits cols = false →
     create_grid_layout rows cols ids padding lm = (Raises OverflowError, lm))
  ∧ (printable rows = true → cols = 0 →
     create_grid_layout rows cols ids padding lm = (Raises ZeroDivisionError, lm))
  ∧ (fits cols = true → cols ≠ 0 → printable rows = true → fits rows = false →
     create_grid_layout rows cols ids padding lm = (Raises OverflowError, lm))
  ∧ (fits cols = true → cols ≠ 0 → rows = 0 →
     create_grid_layout rows cols ids padding lm = (Raises ZeroDivisionError, lm))
  ∧ (rows < 0 → cols ≠ 0 → fits rows = true → fits cols = true →
     ∃ info lm',
       create_grid_layout rows cols ids padding lm = (Returns info, lm')
       ∧ elements info = [])
  ∧ (0 < rows → cols < 0 → fits rows = true → fits cols = true →
     fits (Z.of_nat (length ids)) = true → NoDup ids →
     ∃ info lm',
       create_grid_layout rows cols ids padding lm = (Returns info, lm')
       ∧ length (elements info) = length ids
       ∧ ∀ (idx : nat) id, ids !! idx = Some id →
           ∃ e, item_get id (elements info) = Some e
                ∧ row e = Z.of_nat idx `div` cols ∧ row e ≤ 0
                ∧ col e = Z.of_nat idx `mod` cols ∧ col e ≤ 0).
Proof.
  assert (Hzero : fits 0 = true) by (apply fits_small; lia).
  pose proof (fits_printable 0 Hzero) as Hpzero.
  split; [|split; [|split; [|split; [|split; [|split]]]]].
  - intros Hp. unfold create_grid_layout. eexists.
    destruct Hp as [-> | ->]; [done|]. by rewrite orb_true_r.
  - intros Hpr Hpc Hfc. unfold create_grid_layout. by rewrite Hpr, Hpc, Hfc.
  - intros Hpr ->. unfold create_grid_layout. rewrite Hpr, Hpzero, Hzero.
    cbn [negb orb]. by rewrite decide_True.
  - intros Hfc Hc Hpr Hfr. unfold create_grid_layout.
    rewrite Hpr, (fits_printable cols Hfc), Hfc, Hfr. cbn [negb orb].
    by rewrite decide_False.
  - intros Hfc Hc ->. unfold create_grid_layout.
    rewrite Hpzero, (fits_printable cols Hfc), Hfc, Hzero. cbn [negb orb].
    rewrite decide_False by done. by rewrite decide_True.
  - intros Hr Hc Hfr Hfc. eexists _, _. split.
    { apply create_grid_layout_returns; [lia|done|done|done|].
      destruct ids as [|id ids]; [reflexivity|].
      cbn [grid_loop]. rewrite Zdiv_0_l. by rewrite decide_True by lia. }
    reflexivity.
  - intros Hr Hc Hfr Hfc Hfl Hnd. eexists _, _. split.
    { apply create_grid_layout_returns; [lia|lia|done|done|].
      by apply grid_elements_negative_cols. }
    cbn [elements]. split; [by rewrite length_imap|].
    intros idx id Hidx. eexists. split.
    { by apply (item_get_imap (λ i : nat, grid_cell cols _ _ padding (Z.of_nat i))
                  _ idx). }
    cbn [grid_cell row col].
    pose proof (Z.div_mod (Z.of_nat idx) cols ltac:(lia)) as Hdm.
    pose proof (Z.mod_neg_bound (Z.of_nat idx) cols Hc) as Hb.
    split; [done|]. split; [nia|]. split; [done|lia].
Qed.

(** X29. Layout ids never collide, and a layout once made stays: on a
    manager whose ids are well formed (as they are from the start and after
    every call), [create_grid_layout] with sides other than zero, when the
    sides and the number of elements fit a float, returns and stores its
    layout under an id that was not in use, keeps every earlier layout
    unchanged and retrievable by [apply_layout], and leaves the ids well
    formed; [apply_layout] does too, and [get_element_position] and
    [get_element_size] never raise. *)
Theorem grid_layouts_are_kept rows cols ids padding lm :
  ids_ok lm → rows ≠ 0 → cols ≠ 0 →
  fits rows = true → fits cols = true → fits (Z.of_nat (length ids)) = true →
  (∃ info lm' layout_id,
     create_grid_layout rows cols ids padding lm = (Returns info, lm')
     ∧ layouts lm !! layout_id = None
     ∧ layouts lm' = <[layout_id := info]> (layouts lm)
     ∧ current_layout lm' = Some layout_id
     ∧ ids_ok lm'
     ∧ apply_layout layout_id lm' = (Returns info, lm')
     ∧ ∀ old layout, layouts lm !! old = Some layout →
         apply_layout old lm' =
           (Returns layout,
            {| layouts := layouts lm'; current_layout := Some old |}))
  ∧ (∀ layout_id, ids_ok (apply_layout layout_id lm).2)
  ∧ (∀ id, (∃ r, get_element_position id lm = Returns r)
           ∧ (∃ r, get_element_size id lm = Returns r)).
Proof.
  intros Hok Hr Hc Hfr Hfc Hfl. split; [|split].
  - destruct (grid_loop_returns rows cols (fl_div (of_int 1) (of_int cols))
                (fl_div (of_int 1) (of_int rows)) padding ids 0 [])
      as [els Hloop]; [done|lia|done|by rewrite Z.add_0_l|].
    pose proof (create_grid_layout_returns rows cols ids padding lm els
                  Hr Hc Hfr Hfc Hloop) as Hrun.
    cbv zeta in Hrun.
    pose proof (fresh_layout_id ("grid_" +:+ pretty rows +:+ "x" +:+ pretty cols)
                  lm Hok) as Hfresh.
    eexists _, _, _. split; [exact Hrun|].
    split; [exact Hfresh|]. split; [done|]. split; [done|].
    split; [by apply ids_ok_insert|].
    split.
    + unfold apply_layout. cbn [layouts]. by rewrite lookup_insert_eq.
    + intros old layout Hold. unfold apply_layout. cbn [layouts].
      rewrite lookup_insert_ne; [by rewrite Hold|].
      intros <-. by rewrite Hfresh in Hold.
  - intros layout_id. by apply ids_ok_apply_layout.
  - intros id. destruct Hok as [_ Hcur].
    unfold get_element_position, get_element_size, current_element.
    destruct (current_layout lm) as [cur|]; [|by split; eexists].
    destruct (Hcur cur eq_refl) as [layout ->]. by split; eexists.
Qed.

End grid_layout_theorems.

Section grid_layout_examples.
Import Layout.

Lemma ids_ok_init `{Floats} : ids_ok LayoutManager_init.
Proof.
  split.
  - intros id [layout Hl]. exact (False_ind _ (lookup_empty_Some _ _ Hl)).
  - intros cur Hcur. discriminate Hcur.
Qed.

Lemma grid_layout_fills_row_by_row_witness :
  ∃ info lm',
    create_grid_layout 2 2 ["a"; "b"; "c"; "d"; "e"] (10 : Q) LayoutManager_init
      = (Returns info, lm')
    ∧ length (elements info) = 4%nat.
Proof.
  destruct (@grid_layout_fills_row_by_row ExactFloats.rationals
              2 2 ["a"; "b"; "c"; "d"; "e"] (10 : Q) LayoutManager_init)
    as (info & lm' & Hrun & Hlen & _).
  - lia.
  - lia.
  - reflexivity.
  - reflexivity.
  - apply (bool_decide_unpack (NoDup ["a"; "b"; "c"; "d"; "e"])). vm_compute. exact I.
  - exists info, lm'. split; [exact Hrun|exact Hlen].
Defined.

Lemma grid_layouts_are_kept_witness :
  ∃ info lm',
    create_grid_layout 2 3 ["a"] (10 : Q) LayoutManager_init = (Returns info, lm')
    ∧ ids_ok lm'.
Proof.
  destruct (@grid_layouts_are_kept ExactFloats.rationals
              2 3 ["a"] (10 : Q) LayoutManager_init)
    as [(info & lm' & layout_id & Hrun & _ & _ & _ & Hok & _) _].
  - apply ids_ok_init.
  - lia.
  - lia.
  - reflexivity.
  - reflexivity.
  - reflexivity.
  - exists info, lm'. split; [exact Hrun|exact Hok].
Defined.

End grid_layout_examples.
